(* ===== verification/_CoqProject ===== *)
-Q . S2P
Prelude.v
Memory.v
Platform.v
Effects.v
Testing.v
Source.v
Request.v
RequestSpec.v
Guids.v
GuidsSpec.v
Frame.v
FrameSpec.v
Response.v
Abi.v
Signatures.v
ResponseSpec.v
RequestTests.v
UnitTests.v
Wire.v
Server.v
RoundTrip.v
Service.v
Pipe.v
ResponseTests.v
Sample.v
SourceExamples.v
RequestExamples.v
ResponseExamples.v
ServiceExamples.v
TestExamples.v
PipeExamples.v
