(* ===== verification/Prelude.v ===== *)
(** * librsi: a verification development

    librsi is the library a registry source (a storage backend) is written with. The source
    registers its hives with the kernel and then serves framed requests on the fd it got:
    it reads a frame, splits off the header, decodes the payload, and sends one frame back.
    The library is four Rust files under [src/src/]; this development models the code in
    them function by function, the C declarations callers are compiled against, and the
    tests.

    ** The program and its model

    - [src/src/source.rs], registration: [Source.v]. [rsi_register] marshals the caller's
      hives into a vector, opens the device and runs one ioctl; [register_step] is what that
      may do, as a relation.
    - [src/src/request.rs], receiving: [Request.v] has the request structs, [rsi_read_request],
      [rsi_parse_request], the shared guard [req_payload_and_out] (a macro in the source) and
      the eighteen decoders. [RequestSpec.v] states and proves what they do.
    - [src/src/response.rs], answering, in three parts: [Guids.v] has the checks on a caller's
      description (lines 37-222), [Frame.v] the frame header, the single write, status
      responses and the growing [FrameWriter] (lines 234-399), and [Response.v] the payload
      blocks and the five payload-bearing responders (lines 401-687). Their specifications
      are [GuidsSpec.v], [FrameSpec.v] and [ResponseSpec.v].
    - [src/abi/rsi-abi.h], what callers are compiled against: its structs, with the named
      fields of the Rust structs, in [Abi.v]; its function prototypes, with the signatures of
      the Rust functions, in [Signatures.v].
    - [src/src/lib.rs], the panic handler and an assembler stub: in [Effects.v].
    - [Wire.v] has readers for the response formats that docs/design-notes.md documents.
      [Server.v] looks at the six responders as one interface and at sequences of calls;
      [RoundTrip.v] at the responders from the other end of the descriptor, with those
      readers. [Service.v] composes the exported functions as [include/rsi/request.h] says
      they are used: one request read, parsed and answered (by a call that is a parameter),
      and one read, parsed and decoded.
    - The unit tests: [Testing.v] has what they are written with (assertions, local
      variables, struct literals), [UnitTests.v] the tests of [source.rs] and those of
      [response.rs] that send nothing, [RequestTests.v] those of [request.rs],
      [ResponseTests.v] those of [response.rs] that read a response back. The helper that
      carries the response, [response_from_pipe], is in [Pipe.v]: a pipe, a thread that
      drains it, and the two threads as a step relation.
    - [SourceExamples.v], [RequestExamples.v], [ResponseExamples.v], [ServiceExamples.v],
      [TestExamples.v] and [PipeExamples.v] run the definitions on concrete inputs and apply
      the theorems there, on the platforms of [Sample.v].

    [Memory.v] is the caller's memory (a finite map from addresses to bytes) with C struct
    layout; [Platform.v] the interfaces of the code that is not in the repository; [Effects.v]
    the state, the monad and the rules of total correctness; this file the shared notions.

    ** How code is modelled

    An exported function is a function of its C arguments in the monad [M] of [Effects.v]: it
    threads the caller's memory, errno, the allocator, the kernel, and a trace of system
    calls and refused allocations. Its outcomes are a value, a Rust [Err], an abort (a panic or
    an allocation that may not fail; the panic handler of src/src/lib.rs, [panic] in
    [Effects.v], turns both into abort(3)) and undefined
    behaviour (a dereference the [# Safety] contract excludes). [wp] demands one of the first
    two, so every theorem about a run also says that it neither aborts nor goes wrong.
    Integers are [Z] with their width in [is_u8] to [is_u64]; a cast to a narrower type is
    [wrap]; [usize] is 64 bits wide. Pointers are addresses; structs are read field by field
    at the offsets [repr(C)] gives them, and written in place through [out] pointers, so that
    overlap between a frame and an [out] struct is visible. GUIDs are lists of 16 bytes.

    ** What is a parameter

    [Platform.v] has one class per foreign component: [Uapi] (constants and kernel structs),
    [Libc] (errno values), [Kernel] (system calls as functions of a kernel state), [Allocator]
    ([Vec] growth and [try_extend]) and [LcsCore] (the request parsers and the status
    vocabulary), each with a class of laws that quote its documentation. What only the tests
    use is added where they are: lcs-core's request writers in [RequestTests.v], its response
    parsers and validators in [ResponseTests.v], of which nothing is assumed, pipe(7) in
    [Pipe.v]. [Sample.v], [TestExamples.v] and [PipeExamples.v] are instances of all of them.

    ** What the theorems show

    - Registration ([Source.v]): every run is one of the four documented ones; the kernel is
      shown exactly the marshalled hives; a failed ioctl closes the fd and keeps its errno.
    - Requests ([RequestSpec.v]): parsing a frame leaves a struct whose payload is the frame
      past its header; each decoder reports each kind of bad input as documented and otherwise
      fills exactly its output struct; a request can be decoded by one decoder only.
    - Descriptions ([GuidsSpec.v]): sorting and comparing vectors decides a statement about
      sets of GUIDs, without an aborting allocation.
    - Replies ([ResponseSpec.v], [FrameSpec.v]): each responder sends the one frame its
      arguments describe, or reports why not and sends nothing.
    - Round trips ([RoundTrip.v]): what each payload-bearing responder writes reads back as
      exactly what its arguments describe; the frame alone determines what was described; and
      every frame passes the checks the kernel is documented to make.
    - The interface ([Server.v]): at most one frame per call, in the order of the calls, each
      an answer to its own request, 0 exactly when the kernel took it whole; and nothing but
      the kernel keeps a valid answer from being sent. For that, every [ENOMEM] in a
      specification comes with its evidence: the allocator refused a request of at most
      256 GiB ([may_refuse]), or the description is larger than any frame.
    - End to end ([Service.v]): a turn answers the very request it read; and for each of the
      eighteen kinds of request, what the kernel delivered reaches the caller's structs, or
      the failure is told by return value and errno.
    - The C boundary ([Abi.v], [Signatures.v]): the structs of the ABI snapshot, laid out by
      the rules of C, are the [repr(C)] structs of the Rust code, and what C reads under a
      member's name is what Rust has in the field of that name; the prototypes are those of
      the exported functions, and a call through one is the modelled function on the values
      the caller passed.
    - The tests ([UnitTests.v], [RequestTests.v]): each passes on every platform that keeps
      the laws, not only where it was run. The six whose outcome is up to lcs-core's response
      parsers ([ResponseTests.v]) hand them the frames that are written out there.
    - Concurrency ([Pipe.v]): where the tests hand a response from one thread to another,
      every schedule ends, and ends with the whole frame delivered; the helper itself
      ([response_from_pipe], which is one of the schedules) returns that frame.

    ** Bounds

    Loops of the library run over counts and lists, so its definitions are structurally
    recursive and total, without fuel. Only the reader of a pipe has fuel, as much as a pipe
    takes in one atomic write ([PIPE_BUF] bytes): each read but the last takes a byte or more,
    and the tests send less ([response_from_pipe_returns]). Vectors respect [isize::MAX]; frame lengths respect the [u32] field.

    ** What is not modelled

    Of src/src/lib.rs the crate attributes and the allocator declaration (the allocator is a
    parameter); the build script, which prints two lines for cargo, and the packaging; the
    public headers, whose declarations a shell script compares with the ABI snapshot. The
    program around the library, which registers, serves until its queue is closed and decides
    what to answer, is not in the repository. In
    [ResponseTests.v] the buffers that the request writers fill are not in memory, where no
    responder would read them. Freeing a vector has no observable effect and is left out. *)

From stdpp Require Export base gmap list sorting.
From Stdlib Require Export ZArith Lia.
From coqutil Require Export Byte.
From coqutil Require Export Word.LittleEndianList.
#[global] Open Scope Z_scope.

Declare Scope rsi_scope.
Delimit Scope rsi_scope with rsi.

(** ** Automation *)

(** [split_and_lia]: conjunctions of linear facts. *)
Ltac split_lia := repeat split; try lia.

(** [cases_match]: case analysis on every [match]/[if] scrutinee left in the goal. *)
Ltac cases_match := repeat (case_match; simplify_eq/=).

Create HintDb rsi.

(** ** Rust integers at their width *)

Definition wrap (w z : Z) : Z := z mod 2 ^ w.

Definition is_u8 (z : Z) : Prop := 0 <= z < 2 ^ 8.
Definition is_u16 (z : Z) : Prop := 0 <= z < 2 ^ 16.
Definition is_u32 (z : Z) : Prop := 0 <= z < 2 ^ 32.
Definition is_u64 (z : Z) : Prop := 0 <= z < 2 ^ 64.

(** [isize::MAX] on the 64-bit targets the library is built for: the byte limit of any
    one allocation. *)
Definition isize_max : Z := 2 ^ 63 - 1.

Lemma wrap_small w z : 0 <= z < 2 ^ w -> wrap w z = z.
Proof. apply Z.mod_small. Qed.

Lemma wrap_range w z : 0 <= w -> 0 <= wrap w z < 2 ^ w.
Proof. intros. apply Z.mod_pos_bound, Z.pow_pos_nonneg; lia. Qed.

#[export] Hint Resolve wrap_small wrap_range : rsi.

(** ** Bytes *)

#[export] Instance byte_eq_dec : EqDecision byte := Byte.byte_eq_dec.
#[export] Instance byte_inhabited : Inhabited byte := populate Byte.x00.

(** The low [n] bytes of an integer, least significant first ([to_le_bytes]), and back. *)
Abbreviation to_le := le_split.
Abbreviation of_le := le_combine.

Create Rewrite HintDb len.
#[export] Hint Rewrite length_le_split @length_app @length_take @length_drop @length_replicate : len.

Lemma of_le_to_le n z : of_le (to_le n z) = wrap (8 * Z.of_nat n) z.
Proof. unfold wrap. rewrite le_combine_split. do 2 f_equal. lia. Qed.

Lemma of_le_range bs n : length bs = n -> 0 <= of_le bs < 2 ^ (8 * Z.of_nat n).
Proof. intros <-. apply le_combine_bound. Qed.

(** ** The result of a fallible Rust function *)

Inductive result (E A : Type) : Type :=
  | Ok (a : A)
  | Err (e : E).
Arguments Ok {E A} a.
Arguments Err {E A} e.

Definition is_ok {E A} (r : result E A) : bool :=
  match r with Ok _ => true | Err _ => false end.

(** ** GUIDs: [[u8; 16]] with Rust's lexicographic order on arrays *)

Abbreviation guid := (list byte).

Definition nil_guid : guid := replicate 16 Byte.x00.

Definition guid_wf (g : guid) : Prop := length g = 16%nat.

Fixpoint bytes_leb (a b : list byte) : bool :=
  match a, b with
  | [], _ => true
  | _ :: _, [] => false
  | x :: a', y :: b' =>
      if byte.unsigned x <? byte.unsigned y then true
      else if byte.unsigned x =? byte.unsigned y then bytes_leb a' b' else false
  end.

Definition guid_le (a b : guid) : Prop := bytes_leb a b = true.

#[export] Instance guid_le_dec : RelDecision guid_le.
Proof. intros a b. apply (decide (bytes_leb a b = true)). Defined.

Lemma bytes_leb_cons x y a b :
  bytes_leb (x :: a) (y :: b) = true <->
  byte.unsigned x < byte.unsigned y \/ (x = y /\ bytes_leb a b = true).
Proof.
  simpl. destruct (Z.ltb_spec (byte.unsigned x) (byte.unsigned y)); [by split; auto|].
  destruct (Z.eqb_spec (byte.unsigned x) (byte.unsigned y)) as [e|ne].
  - apply byte.unsigned_inj in e as ->. split; [by right|]. intros [?|[_ ?]]; [lia|done].
  - split; [done|]. intros [?|[-> _]]; lia.
Qed.

#[export] Instance guid_le_total : Total guid_le.
Proof.
  intros a. unfold guid_le. induction a as [|x a IH]; intros [|y b]; [by left..|by right|].
  rewrite !bytes_leb_cons.
  destruct (Z.lt_trichotomy (byte.unsigned x) (byte.unsigned y)) as [?|[e|?]]; [auto| |auto].
  apply byte.unsigned_inj in e as ->. destruct (IH b); auto.
Qed.

#[export] Instance guid_le_trans : Transitive guid_le.
Proof.
  intros a. unfold guid_le. induction a as [|x a IH]; intros [|y b] [|z c]; try done.
  rewrite !bytes_leb_cons. intros [?|[-> ?]] [?|[-> ?]]; [left; lia|by left|by left|].
  right. eauto.
Qed.

#[export] Instance guid_le_antisymm : AntiSymm (=) guid_le.
Proof.
  intros a. unfold guid_le. induction a as [|x a IH]; intros [|y b]; try done.
  rewrite !bytes_leb_cons. intros [?|[-> ?]] [?|[? ?]]; try lia; try (subst; lia).
  f_equal. eauto.
Qed.

Lemma nil_guid_least g : guid_wf g -> guid_le nil_guid g.
Proof.
  unfold guid_wf, guid_le, nil_guid. generalize 16%nat. intros n.
  revert g. induction n as [|n IH]; intros [|x g] Hl; try done.
  simpl replicate. apply bytes_leb_cons.
  destruct (decide (Byte.x00 = x)) as [<-|ne].
  { right. split; [done|]. apply IH. by injection Hl. }
  left. destruct (Z.eq_dec (byte.unsigned Byte.x00) (byte.unsigned x)) as [e|?].
  - by apply byte.unsigned_inj in e.
  - pose proof (byte.unsigned_range x) as Hr. change (byte.unsigned Byte.x00) with 0 in *. lia.
Qed.
