(* ===== verification/Memory.v ===== *)
(** * The caller's memory and the [repr(C)] layout of the structs in it

    The entry points of [src/src/request.rs] and [src/src/response.rs] take raw pointers.
    This file models what they point into: a byte-addressed partial memory, the
    [repr(C)] layout rule (offsets, size, alignment), and struct values read from and
    written to that memory field by field. *)

From S2P Require Import Prelude.

(** ** Byte-addressed memory *)

(** An address that is not in the map is not valid for the caller. *)
Abbreviation memory := (gmap Z byte).

(** The [n] bytes at [p], [None] if any of them is not valid. *)
Fixpoint load (m : memory) (p : Z) (n : nat) : option (list byte) :=
  match n with
  | O => Some []
  | S n' => b ← m !! p; bs ← load m (p + 1) n'; Some (b :: bs)
  end.

Fixpoint store (m : memory) (p : Z) (bs : list byte) : memory :=
  match bs with
  | [] => m
  | b :: bs' => <[p := b]> (store m (p + 1) bs')
  end.

(** ** C types and the [repr(C)] layout rule *)

Inductive cty : Type := C_u8 | C_u16 | C_u32 | C_u64 | C_ptr | C_guid.

Definition csize (t : cty) : Z :=
  match t with C_u8 => 1 | C_u16 => 2 | C_u32 => 4 | C_u64 => 8 | C_ptr => 8 | C_guid => 16 end.

(** [[u8; 16]] has the alignment of [u8]. *)
Definition calign (t : cty) : Z :=
  match t with C_guid => 1 | _ => csize t end.

Definition align_up (n a : Z) : Z := (n + a - 1) / a * a.

(** Offsets of the fields laid out from offset [n]: each at the next multiple of its
    alignment. *)
Fixpoint offsets_from (n : Z) (tys : list cty) : list Z :=
  match tys with
  | [] => []
  | t :: tys' => let o := align_up n (calign t) in o :: offsets_from (o + csize t) tys'
  end.

Definition offsets (tys : list cty) : list Z := offsets_from 0 tys.

Fixpoint end_from (n : Z) (tys : list cty) : Z :=
  match tys with
  | [] => n
  | t :: tys' => end_from (align_up n (calign t) + csize t) tys'
  end.

Definition struct_align (tys : list cty) : Z := foldr Z.max 1 (calign <$> tys).

(** [size_of]: the end of the last field, padded to the struct's alignment. *)
Definition struct_size (tys : list cty) : Z := align_up (end_from 0 tys) (struct_align tys).

(** ** Values of the C types *)

Inductive cval : Type :=
  | VInt (z : Z)          (* an integer or a pointer *)
  | VGuid (g : guid).     (* a [u8; 16] array *)

Definition as_bytes (v : cval) : list byte :=
  match v with VInt _ => [] | VGuid g => g end.
Definition as_int (v : cval) : Z :=
  match v with VInt z => z | VGuid _ => 0 end.

Definition encode_val (t : cty) (v : cval) : list byte :=
  match t with
  | C_guid => take 16 (as_bytes v ++ nil_guid)
  | _ => to_le (Z.to_nat (csize t)) (as_int v)
  end.

Definition decode_val (t : cty) (bs : list byte) : cval :=
  match t with C_guid => VGuid bs | _ => VInt (of_le bs) end.

(** The value a field of type [t] holds after [v] was assigned to it. *)
Definition norm_val (t : cty) (v : cval) : cval :=
  match t with
  | C_guid => VGuid (take 16 (as_bytes v ++ nil_guid))
  | _ => VInt (wrap (8 * csize t) (as_int v))
  end.

(** [v] is a value of type [t]. *)
Definition cval_wf (t : cty) (v : cval) : Prop :=
  match t, v with
  | C_guid, VGuid g => guid_wf g
  | C_guid, VInt _ => False
  | _, VInt z => 0 <= z < 2 ^ (8 * csize t)
  | _, VGuid _ => False
  end.

(** ** Struct reads and field writes *)

Definition slice_at (bs : list byte) (off : Z) (n : Z) : list byte :=
  take (Z.to_nat n) (drop (Z.to_nat off) bs).

(** The fields of a struct whose bytes are [bs]. *)
Definition decode_struct (tys : list cty) (bs : list byte) : list cval :=
  zip_with (λ o t, decode_val t (slice_at bs o (csize t))) (offsets tys) tys.

Definition read_struct (m : memory) (p : Z) (tys : list cty) : option (list cval) :=
  decode_struct tys <$> load m p (Z.to_nat (struct_size tys)).

(** [p->field_i = v]. *)
Definition write_field (tys : list cty) (p : Z) (i : nat) (v : cval) (m : memory) : memory :=
  match offsets tys !! i, tys !! i with
  | Some o, Some t => store m (p + o) (encode_val t v)
  | _, _ => m
  end.

(** A struct type of the program: its fields and how their values make up the record. *)
Class Repr (A : Type) : Type := {
  repr_layout : list cty;
  repr_of : list cval -> option A
}.
Arguments repr_layout A {_}.

Definition size_of (A : Type) `{Repr A} : Z := struct_size (repr_layout A).
Definition align_of (A : Type) `{Repr A} : Z := struct_align (repr_layout A).

Definition read (A : Type) `{Repr A} (m : memory) (p : Z) : option A :=
  read_struct m p (repr_layout A) ≫= repr_of.

(** The [n] consecutive structs of an array at [p]. *)
Fixpoint read_array (A : Type) `{Repr A} (m : memory) (p : Z) (n : nat) : option (list A) :=
  match n with
  | O => Some []
  | S n' => x ← read A m p; xs ← read_array A m (p + size_of A) n'; Some (x :: xs)
  end.

(** ** Loads and stores *)

Lemma load_Some m p n bs :
  load m p n = Some bs <->
  length bs = n /\ forall i b, bs !! i = Some b -> m !! (p + Z.of_nat i) = Some b.
Proof.
  revert p bs. induction n as [|n IH]; intros p bs; simpl.
  - split.
    + intros [= <-]. split; [done|]. intros i b. by rewrite lookup_nil.
    + by intros [->%nil_length_inv _].
  - rewrite bind_Some. setoid_rewrite bind_Some. setoid_rewrite IH. split.
    + intros (b & Hb & bs' & [<- Hbs'] & [= <-]). split; [done|].
      intros [|i] c; simpl.
      * intros [= <-]. by rewrite Z.add_0_r.
      * intros Hc%Hbs'. rewrite <- Hc. f_equal. lia.
    + intros [Hl Hbs]. destruct bs as [|b bs]; [done|].
      exists b. split; [rewrite <- (Hbs 0%nat b eq_refl); f_equal; lia|].
      exists bs. split_and!; [by injection Hl| |done].
      intros i c Hc. rewrite <- (Hbs (S i) c Hc). f_equal. lia.
Qed.

Lemma load_length m p n bs : load m p n = Some bs -> length bs = n.
Proof. by intros [? _]%load_Some. Qed.

Lemma load_ext m m' p n :
  (forall a, p <= a < p + Z.of_nat n -> m !! a = m' !! a) -> load m p n = load m' p n.
Proof.
  revert p. induction n as [|n IH]; intros p Heq; simpl; [done|].
  rewrite (Heq p) by lia. rewrite (IH (p + 1)); [done|]. intros a Ha. apply Heq. lia.
Qed.

Lemma load_app m p n1 n2 :
  load m p (n1 + n2) =
  (bs1 ← load m p n1; bs2 ← load m (p + Z.of_nat n1) n2; Some (bs1 ++ bs2)).
Proof.
  revert p. induction n1 as [|n1 IH]; intros p; simpl.
  - rewrite Z.add_0_r. by destruct (load m p n2).
  - destruct (m !! p) as [b|]; simpl; [|done]. rewrite IH.
    destruct (load m (p + 1) n1) as [bs1|]; simpl; [|done].
    replace (p + 1 + Z.of_nat n1) with (p + Z.pos (Pos.of_succ_nat n1)) by lia.
    by destruct (load m _ n2).
Qed.

(** A sub-range of a valid range. *)
Lemma load_sub m p n bs off k :
  load m p n = Some bs -> (off + k <= n)%nat ->
  load m (p + Z.of_nat off) k = Some (take k (drop off bs)).
Proof.
  intros [Hl Hbs]%load_Some Hk. apply load_Some. split.
  - rewrite length_take, length_drop. lia.
  - intros i b Hi. apply lookup_take_Some in Hi as [Hi Hik]. rewrite lookup_drop in Hi.
    apply Hbs in Hi. rewrite <- Hi. f_equal. lia.
Qed.

Lemma lookup_store m p bs a :
  store m p bs !! a =
  if decide (p <= a < p + Z.of_nat (length bs)) then bs !! Z.to_nat (a - p) else m !! a.
Proof.
  revert p. induction bs as [|b bs IH]; intros p; simpl; [case_decide; [lia|done]|].
  rewrite lookup_insert. case_decide as Ha.
  - subst. rewrite decide_True by lia. by rewrite Z.sub_diag.
  - rewrite IH. case_decide; case_decide; try lia; [|done].
    by replace (Z.to_nat (a - p)) with (S (Z.to_nat (a - (p + 1)))) by lia.
Qed.

Lemma lookup_store_ne m p bs a :
  ~ (p <= a < p + Z.of_nat (length bs)) -> store m p bs !! a = m !! a.
Proof. intros. by rewrite lookup_store, decide_False. Qed.

(** The bytes [bs] with [e] written over them from [off]. *)
Definition patch (bs : list byte) (off : nat) (e : list byte) : list byte :=
  take off bs ++ e ++ drop (off + length e) bs.

Lemma length_patch bs off e :
  (off + length e <= length bs)%nat -> length (patch bs off e) = length bs.
Proof. intros. unfold patch. rewrite !length_app, length_take, length_drop. lia. Qed.

Lemma lookup_patch bs off e i :
  (off + length e <= length bs)%nat ->
  patch bs off e !! i =
  if decide (off <= i < off + length e)%nat then e !! (i - off)%nat else bs !! i.
Proof.
  intros Hb. unfold patch. case_decide as Hi.
  - rewrite lookup_app_r; rewrite length_take_le by lia; [|lia].
    rewrite lookup_app_l by lia. done.
  - destruct (decide (i < off)%nat).
    + rewrite lookup_app_l by (rewrite length_take_le; lia). by apply lookup_take_lt.
    + rewrite lookup_app_r; rewrite length_take_le by lia; [|lia].
      rewrite lookup_app_r by lia. rewrite lookup_drop. f_equal. lia.
Qed.

Lemma load_store_patch m p n bs off e :
  load m p n = Some bs -> (off + length e <= n)%nat ->
  load (store m (p + Z.of_nat off) e) p n = Some (patch bs off e).
Proof.
  intros [Hl Hbs]%load_Some Ho. apply load_Some.
  split; [rewrite length_patch; lia|].
  intros i b. rewrite lookup_patch by lia. rewrite lookup_store.
  case_decide; case_decide; try lia; [|by auto].
  intros <-. f_equal. lia.
Qed.

Lemma take_drop_patch_same bs off e :
  (off + length e <= length bs)%nat -> take (length e) (drop off (patch bs off e)) = e.
Proof.
  intros. unfold patch. rewrite drop_app_length' by (rewrite length_take; lia).
  by rewrite take_app_length.
Qed.

Lemma take_drop_patch_other bs off e o n :
  (off + length e <= length bs)%nat -> (o + n <= off \/ off + length e <= o)%nat ->
  take n (drop o (patch bs off e)) = take n (drop o bs).
Proof.
  intros Hb Hd. apply list_eq. intros i.
  destruct (decide (i < n)%nat); [|by rewrite !lookup_take_ge by lia].
  rewrite !lookup_take_lt, !lookup_drop, lookup_patch by lia.
  by rewrite decide_False by lia.
Qed.

(** ** The layout rule *)

Lemma csize_pos t : 0 < csize t.
Proof. by destruct t. Qed.

Lemma calign_pos t : 0 < calign t.
Proof. by destruct t. Qed.

#[export] Hint Resolve csize_pos calign_pos : rsi.

Lemma align_up_ge n a : 0 < a -> n <= align_up n a < n + a.
Proof.
  intros Ha. unfold align_up. pose proof (Z.div_mod (n + a - 1) a ltac:(lia)).
  pose proof (Z.mod_pos_bound (n + a - 1) a Ha). nia.
Qed.

Lemma align_up_mod n a : 0 < a -> align_up n a mod a = 0.
Proof. intros. unfold align_up. apply Z.mod_mul. lia. Qed.

Lemma end_from_ge n tys : n <= end_from n tys.
Proof.
  revert n. induction tys as [|t tys IH]; intros n; simpl; [lia|].
  pose proof (align_up_ge n (calign t) (calign_pos t)). pose proof (csize_pos t).
  etrans; [|apply IH]. lia.
Qed.

Lemma struct_align_pos tys : 0 < struct_align tys.
Proof.
  unfold struct_align. induction tys as [|t tys IH]; [done|].
  cbn [fmap list_fmap foldr]. lia.
Qed.

Lemma offsets_length tys n : length (offsets_from n tys) = length tys.
Proof. revert n. induction tys as [|t tys IH]; intros n; simpl; [done|]. by rewrite IH. Qed.

Lemma offsets_from_bound n tys i o t :
  offsets_from n tys !! i = Some o -> tys !! i = Some t ->
  n <= o /\ o + csize t <= end_from n tys /\ o mod calign t = 0.
Proof.
  revert n i. induction tys as [|t' tys IH]; intros n [|i]; simpl; [done|done| |].
  - intros [= <-] [= <-]. pose proof (align_up_ge n (calign t') (calign_pos t')).
    split_and!; [lia|apply end_from_ge|by apply align_up_mod, calign_pos].
  - intros Ho Ht. specialize (IH _ _ Ho Ht) as (? & ? & ?).
    pose proof (align_up_ge n (calign t') (calign_pos t')). pose proof (csize_pos t').
    split_and!; [lia|done|done].
Qed.

(** Two fields of one struct do not overlap, in declaration order. *)
Lemma offsets_from_disjoint n tys i j oi oj ti :
  (i < j)%nat -> offsets_from n tys !! i = Some oi -> offsets_from n tys !! j = Some oj ->
  tys !! i = Some ti -> oi + csize ti <= oj.
Proof.
  revert n i j. induction tys as [|t' tys IH]; intros n i j Hij; simpl; [done|].
  destruct j as [|j]; [lia|]. destruct i as [|i]; simpl.
  - intros [= <-] Hj [= <-].
    assert (is_Some (tys !! j)) as [tj Htj].
    { apply lookup_lt_is_Some. rewrite <- (offsets_length tys (align_up n (calign t') + csize t')).
      by eapply lookup_lt_Some. }
    by eapply offsets_from_bound in Hj as [? _].
  - intros Hi Hj Hti. eapply IH; [|done..]. lia.
Qed.

Lemma offset_bound tys i o t :
  offsets tys !! i = Some o -> tys !! i = Some t -> 0 <= o /\ o + csize t <= struct_size tys.
Proof.
  intros Ho Ht. destruct (offsets_from_bound _ _ _ _ _ Ho Ht) as (? & ? & _).
  split; [done|]. unfold struct_size.
  pose proof (align_up_ge (end_from 0 tys) _ (struct_align_pos tys)). lia.
Qed.

Lemma offsets_disjoint tys i j oi oj ti tj :
  i <> j -> offsets tys !! i = Some oi -> offsets tys !! j = Some oj ->
  tys !! i = Some ti -> tys !! j = Some tj -> oi + csize ti <= oj \/ oj + csize tj <= oi.
Proof.
  intros. destruct (decide (i < j)%nat).
  - left. by eapply offsets_from_disjoint.
  - right. eapply (offsets_from_disjoint 0 tys j i); try done. lia.
Qed.

(** ** Values at their type *)

Lemma length_encode_val t v : length (encode_val t v) = Z.to_nat (csize t).
Proof.
  destruct t; try apply length_le_split. cbn [encode_val].
  rewrite length_take, length_app. change (length nil_guid) with 16%nat.
  cbn [csize]. lia.
Qed.

Lemma decode_encode_val t v : decode_val t (encode_val t v) = norm_val t v.
Proof.
  destruct t; cbn [decode_val encode_val norm_val csize]; try done;
    by rewrite of_le_to_le.
Qed.

Lemma norm_val_wf t v : cval_wf t v -> norm_val t v = v.
Proof.
  assert (Hg : forall g, guid_wf g -> take 16 (g ++ nil_guid) = g).
  { intros g Hg. by rewrite take_app_length' by done. }
  destruct t, v as [z|g]; intros Hv; try done; cbn in *;
    [f_equal; by apply wrap_small..|]. by rewrite Hg.
Qed.

Lemma decode_val_wf t bs : length bs = Z.to_nat (csize t) -> cval_wf t (decode_val t bs).
Proof.
  destruct t; intros Hl; try exact (of_le_range _ _ Hl). exact Hl.
Qed.

Lemma length_decode_struct tys bs : length (decode_struct tys bs) = length tys.
Proof.
  unfold decode_struct, offsets. rewrite length_zip_with, offsets_length. lia.
Qed.

Lemma lookup_decode_struct tys bs j :
  decode_struct tys bs !! j =
  (o ← offsets tys !! j; t ← tys !! j; Some (decode_val t (slice_at bs o (csize t)))).
Proof. unfold decode_struct. by rewrite lookup_zip_with. Qed.

(** Every field of a decoded struct is a value of its type. *)
Lemma decode_struct_wf tys bs :
  length bs = Z.to_nat (struct_size tys) -> Forall2 cval_wf tys (decode_struct tys bs).
Proof.
  intros Hl. apply Forall2_same_length_lookup_2; [by rewrite length_decode_struct|].
  intros i t v Ht Hv. rewrite lookup_decode_struct, Ht in Hv.
  destruct (offsets tys !! i) as [o|] eqn:Ho; simplify_eq/=.
  apply decode_val_wf. unfold slice_at. rewrite length_take, length_drop.
  pose proof (offset_bound _ _ _ _ Ho Ht). lia.
Qed.

(** Assigning one field changes that field and no other. *)
Lemma decode_struct_patch tys bs i o t v :
  length bs = Z.to_nat (struct_size tys) ->
  offsets tys !! i = Some o -> tys !! i = Some t ->
  decode_struct tys (patch bs (Z.to_nat o) (encode_val t v)) =
  <[i := norm_val t v]> (decode_struct tys bs).
Proof.
  intros Hl Ho Ht. pose proof (offset_bound _ _ _ _ Ho Ht) as [? ?].
  pose proof (length_encode_val t v) as He. pose proof (csize_pos t).
  apply list_eq. intros j.
  destruct (decide (i = j)) as [->|Hne].
  - rewrite list_lookup_insert_eq
      by (rewrite length_decode_struct; by eapply lookup_lt_Some).
    rewrite lookup_decode_struct, Ho, Ht. simpl. unfold slice_at. rewrite <- He.
    rewrite take_drop_patch_same by lia. by rewrite decode_encode_val.
  - rewrite list_lookup_insert_ne by done. rewrite !lookup_decode_struct.
    destruct (offsets tys !! j) as [oj|] eqn:Hoj; [|done].
    destruct (tys !! j) as [tj|] eqn:Htj; [|done]. simpl. do 2 f_equal. unfold slice_at.
    pose proof (offsets_disjoint _ _ _ _ _ _ _ Hne Ho Hoj Ht Htj).
    pose proof (offset_bound _ _ _ _ Hoj Htj). pose proof (csize_pos tj).
    apply take_drop_patch_other; lia.
Qed.

Lemma read_struct_Some m p tys vs :
  read_struct m p tys = Some vs ->
  exists bs, load m p (Z.to_nat (struct_size tys)) = Some bs /\ vs = decode_struct tys bs.
Proof. unfold read_struct. intros (bs & -> & ->)%fmap_Some. eauto. Qed.

(** [write_field] then reading the struct back. *)
Lemma read_struct_write_field m p tys vs i v t :
  read_struct m p tys = Some vs -> tys !! i = Some t ->
  read_struct (write_field tys p i v m) p tys = Some (<[i := norm_val t v]> vs).
Proof.
  intros (bs & Hbs & ->)%read_struct_Some Ht. unfold read_struct, write_field.
  assert (is_Some (offsets tys !! i)) as [o Ho].
  { apply lookup_lt_is_Some. unfold offsets. rewrite offsets_length. by eapply lookup_lt_Some. }
  rewrite Ho, Ht. pose proof (offset_bound _ _ _ _ Ho Ht) as [? ?]. pose proof (csize_pos t).
  replace o with (Z.of_nat (Z.to_nat o)) at 1 by lia.
  rewrite (load_store_patch _ _ _ bs) by (try done; rewrite length_encode_val; lia).
  simpl. f_equal. apply decode_struct_patch; [by eapply load_length|done..].
Qed.

(** [write_field] touches only the struct's own bytes. *)
Lemma lookup_write_field tys p i v m a :
  ~ (p <= a < p + struct_size tys) -> write_field tys p i v m !! a = m !! a.
Proof.
  intros Ha. unfold write_field. destruct (offsets tys !! i) as [o|] eqn:Ho; [|done].
  destruct (tys !! i) as [t|] eqn:Ht; [|done]. apply lookup_store_ne.
  rewrite length_encode_val. pose proof (offset_bound _ _ _ _ Ho Ht). pose proof (csize_pos t). lia.
Qed.

Lemma read_array_length A `{Repr A} m p n xs : read_array A m p n = Some xs -> length xs = n.
Proof.
  revert p xs. induction n as [|n IH]; intros p xs; simpl; [by intros [= <-]|].
  intros (x & _ & (xs' & Hxs' & [= <-])%bind_Some)%bind_Some. simpl. f_equal. eauto.
Qed.

Lemma read_array_lookup A `{Repr A} m p n xs i x :
  read_array A m p n = Some xs -> xs !! i = Some x ->
  read A m (p + Z.of_nat i * size_of A) = Some x.
Proof.
  revert p xs i. induction n as [|n IH]; intros p xs i; simpl; [by intros [= <-]|].
  intros (y & Hy & (xs' & Hxs' & [= <-])%bind_Some)%bind_Some.
  destruct i as [|i]; simpl.
  - intros [= <-]. by rewrite Z.add_0_r.
  - intros Hx. rewrite <- (IH _ _ _ Hxs' Hx). f_equal. lia.
Qed.

(** *** Struct values as bytes *)

Fixpoint bytes_from (n : Z) (tys : list cty) (vs : list cval) : list byte :=
  match tys, vs with
  | t :: tys', v :: vs' =>
      let o := align_up n (calign t) in
      replicate (Z.to_nat (o - n)) Byte.x00 ++ encode_val t v ++ bytes_from (o + csize t) tys' vs'
  | _, _ => []
  end.

(** The bytes of a struct literal, the padding zero. *)
Definition struct_bytes (tys : list cty) (vs : list cval) : list byte :=
  bytes_from 0 tys vs ++
  replicate (Z.to_nat (struct_size tys - end_from 0 tys)) Byte.x00.

Lemma length_bytes_from n tys vs :
  length vs = length tys -> Z.of_nat (length (bytes_from n tys vs)) = end_from n tys - n.
Proof.
  revert n vs. induction tys as [|t tys IH]; intros n [|v vs]; simpl; try done; [lia|].
  intros [= Hl]. rewrite !length_app, length_replicate, length_encode_val.
  pose proof (align_up_ge n (calign t) (calign_pos t)). pose proof (csize_pos t).
  specialize (IH (align_up n (calign t) + csize t) vs Hl). lia.
Qed.

Lemma length_struct_bytes tys vs :
  length vs = length tys -> length (struct_bytes tys vs) = Z.to_nat (struct_size tys).
Proof.
  intros Hl. unfold struct_bytes. rewrite length_app, length_replicate.
  pose proof (length_bytes_from 0 tys vs Hl). pose proof (end_from_ge 0 tys).
  pose proof (align_up_ge (end_from 0 tys) _ (struct_align_pos tys)). unfold struct_size in *. lia.
Qed.

Lemma decode_bytes_from n tys vs pre post :
  Z.of_nat (length pre) = n -> Forall2 cval_wf tys vs ->
  zip_with (λ o t, decode_val t (slice_at (pre ++ bytes_from n tys vs ++ post) o (csize t)))
    (offsets_from n tys) tys = vs.
Proof.
  intros Hn Hvs. revert n pre Hn. induction Hvs as [|t v tys vs Hv Hvs IH]; intros n pre Hn; [done|].
  pose proof (align_up_ge n (calign t) (calign_pos t)) as Ha. pose proof (csize_pos t) as Hc.
  pose proof (length_encode_val t v) as He. cbn [bytes_from offsets_from zip_with].
  set (o := align_up n (calign t)) in *. set (pad := replicate (Z.to_nat (o - n)) Byte.x00).
  assert (Z.of_nat (length (pre ++ pad)) = o) as Hpo.
  { subst pad. rewrite length_app, length_replicate. lia. }
  f_equal.
  - unfold slice_at. rewrite !app_assoc, <- (app_assoc _ _ post), <- (app_assoc _ _ (_ ++ post)).
    rewrite drop_app_length' by lia. rewrite take_app_length' by lia.
    by rewrite decode_encode_val, norm_val_wf.
  - replace (pre ++ (pad ++ encode_val t v ++ bytes_from (o + csize t) tys vs) ++ post)
      with (((pre ++ pad) ++ encode_val t v) ++ bytes_from (o + csize t) tys vs ++ post)
      by (by rewrite <- !app_assoc).
    apply IH. rewrite length_app. lia.
Qed.

(** A struct literal reads back as the values it was written with. *)
Lemma decode_struct_bytes tys vs :
  Forall2 cval_wf tys vs -> decode_struct tys (struct_bytes tys vs) = vs.
Proof. intros Hvs. apply (decode_bytes_from 0 tys vs [] _ eq_refl Hvs). Qed.

(** *** The Rust types of the fields of a struct *)

Definition typed (A : Type) `{Repr A} (a : A) : Prop :=
  exists vs, Forall2 cval_wf (repr_layout A) vs /\ repr_of vs = Some a.

Lemma read_typed A `{Repr A} m p a : read A m p = Some a -> typed A a.
Proof.
  unfold read. intros (vs & (bs & Hl & ->)%read_struct_Some & Ha)%bind_Some.
  exists (decode_struct (repr_layout A) bs). split; [|done].
  apply decode_struct_wf. by eapply load_length.
Qed.

Lemma read_array_typed A `{Repr A} m p n xs : read_array A m p n = Some xs -> Forall (typed A) xs.
Proof.
  intros Hr. apply Forall_lookup. intros i x Hx. eapply read_typed, read_array_lookup; eauto.
Qed.

(** Valid memory, byte by byte. *)
Lemma load_is_Some m p n :
  is_Some (load m p n) <-> forall a, p <= a < p + Z.of_nat n -> is_Some (m !! a).
Proof.
  revert p. induction n as [|n IH]; intros p; simpl; [split; [lia|by eauto]|].
  split.
  - intros [bs (b & Hb & (bs' & Hbs & _)%bind_Some)%bind_Some] a Ha.
    destruct (decide (a = p)) as [->|]; [by eauto|]. apply (proj1 (IH (p + 1))); [eauto|lia].
  - intros Hm. destruct (Hm p ltac:(lia)) as [b Hb].
    destruct (proj2 (IH (p + 1))) as [bs Hbs]; [intros a Ha; apply Hm; lia|].
    rewrite Hb. simpl. rewrite Hbs. simpl. eauto.
Qed.

(** Takes a [typed] hypothesis apart into the type of each field. *)
Ltac destruct_typed H :=
  let vs := fresh "vs" in let Hvs := fresh "Hvs" in let Hof := fresh "Hof" in
  destruct H as (vs & Hvs & Hof); cbn in Hvs;
  repeat match goal with
  | Hc : Forall2 _ (_ :: _) _ |- _ =>
      let v := fresh "v" in let tl := fresh "tl" in
      apply Forall2_cons_inv_l in Hc as (v & tl & ? & Hc & ->); destruct v; try done
  | Hc : Forall2 _ [] _ |- _ => apply Forall2_nil_inv_l in Hc as ->
  end;
  cbn in Hof; simplify_eq/=.
