(* ===== verification/Platform.v ===== *)
(** * What the library is built on: the interfaces of code that is not part of the repository

    [librsi] calls four other pieces of code, and none of them is in its source tree:
    the kernel ABI constants and structs ([peios_uapi]), the request parsers and status
    vocabulary ([lcs_core::rsi]), the C library and the kernel behind it ([libc]), and the
    allocator ([peios_cabi]). Each is a type class of operations here, so that every
    definition of the development takes it as a parameter; what librsi relies on is a
    second class of laws, each law quoting the documentation it states. *)

From S2P Require Import Prelude Memory.

(** ** [peios_uapi]: constants and structs of the kernel ABI *)

(** [struct reg_src_hive_entry] and [struct reg_src_register_args], with the fields
    [src/src/source.rs] names. *)
Record reg_src_hive_entry := mk_hive_entry {
  he_name_len : Z;
  he_pad0 : Z;
  he_name_ptr : Z;
  he_root_guid : guid;
  he_flags : Z;
  he_pad1 : Z;
  he_scope_guid : guid
}.

Record reg_src_register_args := mk_register_args {
  ra_hive_count : Z;
  ra_max_sequence : Z;
  ra_hives_ptr : Z
}.

Class Uapi : Type := {
  RSI_LOOKUP : Z;
  RSI_CREATE_ENTRY : Z;
  RSI_HIDE_ENTRY : Z;
  RSI_DELETE_ENTRY : Z;
  RSI_ENUM_CHILDREN : Z;
  RSI_CREATE_KEY : Z;
  RSI_READ_KEY : Z;
  RSI_WRITE_KEY : Z;
  RSI_DROP_KEY : Z;
  RSI_QUERY_VALUES : Z;
  RSI_SET_VALUE : Z;
  RSI_DELETE_VALUE_ENTRY : Z;
  RSI_SET_BLANKET_TOMBSTONE : Z;
  RSI_BEGIN_TRANSACTION : Z;
  RSI_COMMIT_TRANSACTION : Z;
  RSI_ABORT_TRANSACTION : Z;
  RSI_DELETE_LAYER : Z;
  RSI_FLUSH : Z;
  RSI_REQUEST_HEADER_SIZE : Z;
  RSI_MIN_RESPONSE_SIZE : Z;
  RSI_RESPONSE_BIT : Z;
  RSI_OK : Z;
  RSI_PATH_TARGET_GUID : Z;
  RSI_PATH_TARGET_HIDDEN : Z;
  REG_SRC_REGISTER : Z;
  RSI_HIVE_PRIVATE : Z;
  (** the bytes of the two argument structs in the kernel's layout *)
  register_args_bytes : reg_src_register_args -> list byte;
  hive_entry_bytes : reg_src_hive_entry -> list byte
}.

Section opcodes.
Context `{U : Uapi}.

(** The 18 request kinds, as the [u16] op codes a frame carries. *)
Definition request_ops : list Z :=
  wrap 16 <$>
  [ RSI_LOOKUP; RSI_CREATE_ENTRY; RSI_HIDE_ENTRY; RSI_DELETE_ENTRY; RSI_ENUM_CHILDREN;
    RSI_CREATE_KEY; RSI_READ_KEY; RSI_WRITE_KEY; RSI_DROP_KEY; RSI_QUERY_VALUES;
    RSI_SET_VALUE; RSI_DELETE_VALUE_ENTRY; RSI_SET_BLANKET_TOMBSTONE;
    RSI_BEGIN_TRANSACTION; RSI_COMMIT_TRANSACTION; RSI_ABORT_TRANSACTION;
    RSI_DELETE_LAYER; RSI_FLUSH ].
End opcodes.

Class UapiLaws (U : Uapi) : Prop := {
  (** "the 22-byte RSI request header" *)
  request_header_size : RSI_REQUEST_HEADER_SIZE = 22;
  (** the [const] assertion next to [STATUS_FRAME_LEN] in response.rs *)
  min_response_size : RSI_MIN_RESPONSE_SIZE = 18;
  (** "op_code = req | 0x8000" (docs/design-notes.md) *)
  response_bit : RSI_RESPONSE_BIT = 32768;
  ok_u32 : is_u32 RSI_OK;
  (** "[RSI_PATH_TARGET_GUID] (0) or [RSI_PATH_TARGET_HIDDEN] (1)" *)
  path_target_guid : RSI_PATH_TARGET_GUID = 0;
  path_target_hidden : RSI_PATH_TARGET_HIDDEN = 1;
  (** each op has its own code: callers "dispatch on [op_code]" *)
  request_ops_distinct : NoDup request_ops;
  (** the [const] assertions on the structs' [size_of] in source.rs *)
  register_args_size : forall a, length (register_args_bytes a) = 24%nat;
  hive_entry_size : forall e, length (hive_entry_bytes e) = 56%nat
}.

(** ** [libc]: errno values and open flags *)

Class Libc : Type := {
  EINVAL : Z;
  ENOMEM : Z;
  EBADMSG : Z;
  EOVERFLOW : Z;
  EIO : Z;
  O_RDWR : Z;
  O_CLOEXEC : Z
}.

(** ** The kernel: system calls as functions of its state

    A call returns a value, or an errno value. *)

Class Kernel : Type := {
  kstate : Type;
  k_open : kstate -> list byte -> Z -> kstate * result Z Z;
  k_close : kstate -> Z -> kstate * result Z Z;
  (** the source device's [ioctl]: the kernel sees the argument struct and the whole of
      the process's memory, which its pointers lead into *)
  k_ioctl : kstate -> Z -> Z -> reg_src_register_args -> memory -> kstate * result Z Z;
  (** the bytes delivered into the caller's buffer of the given capacity *)
  k_read : kstate -> Z -> Z -> kstate * result Z (list byte);
  k_write : kstate -> Z -> list byte -> kstate * result Z Z
}.

Class KernelLaws (K : Kernel) : Prop := {
  (** read(2) delivers at most the capacity *)
  k_read_length k fd cap k' bs :
    k_read k fd cap = (k', Ok bs) -> Z.of_nat (length bs) <= cap;
  (** open(2), ioctl(2): a non-negative value, or -1 and an error *)
  k_open_nonneg k path flags k' fd : k_open k path flags = (k', Ok fd) -> 0 <= fd;
  k_ioctl_nonneg k fd req args view k' r :
    k_ioctl k fd req args view = (k', Ok r) -> 0 <= r;
  (** write(2) takes at most what it was given *)
  k_write_range k fd bs k' n :
    k_write k fd bs = (k', Ok n) -> 0 <= n <= Z.of_nat (length bs)
}.

(** ** The allocator ([peios_cabi::LibcAllocator] and [peios_cabi::abi::try_extend]) *)

(** A [Vec<A>]: its buffer's address, its capacity in elements, its elements. *)
Record rvec (A : Type) := mk_rvec { rv_ptr : Z; rv_cap : Z; rv_elems : list A }.
Arguments mk_rvec {A}.
Arguments rv_ptr {A}.
Arguments rv_cap {A}.
Arguments rv_elems {A}.

Class Allocator : Type := {
  astate : Type;
  (** a buffer of the given number of bytes: its address, or a refusal *)
  a_alloc : astate -> Z -> astate * option Z;
  (** [peios_cabi::abi::try_extend], a fallible [extend_from_slice] *)
  a_try_extend : astate -> rvec byte -> list byte -> astate * result unit (rvec byte)
}.

Class AllocatorLaws (A : Allocator) : Prop := {
  (** a successful [try_extend] appends the bytes *)
  try_extend_appends a v bs a' v' :
    a_try_extend a v bs = (a', Ok v') -> rv_elems v' = rv_elems v ++ bs
}.

(** ** [lcs_core::rsi]: request parsers and status vocabulary *)

(** A borrowed byte slice: its address and its bytes. *)
Record slice := mk_slice { sl_ptr : Z; sl_bytes : list byte }.

(** [lcs_core::rsi::RsiLengthPrefixedField]. *)
Record RsiLengthPrefixedField := mk_lpf { lpf_data : slice }.

(** What the parsers return, with the fields [src/src/request.rs] reads. *)
Record request_header := mk_request_header {
  hd_request_id : Z; hd_txn_id : Z; hd_op_code : Z }.
Record lookup_payload := { lk_parent_guid : guid; lk_child_name : RsiLengthPrefixedField }.
Record create_entry_payload := {
  ce_parent_guid : guid; ce_child_guid : guid; ce_child_name : RsiLengthPrefixedField;
  ce_layer_name : RsiLengthPrefixedField; ce_sequence : Z }.
Record hide_entry_payload := {
  hi_parent_guid : guid; hi_child_name : RsiLengthPrefixedField;
  hi_layer_name : RsiLengthPrefixedField; hi_sequence : Z }.
Record delete_entry_payload := {
  de_parent_guid : guid; de_child_name : RsiLengthPrefixedField;
  de_layer_name : RsiLengthPrefixedField }.
Record enum_children_payload := { ec_parent_guid : guid }.
Record create_key_payload := {
  ck_guid : guid; ck_parent_guid : guid; ck_name : RsiLengthPrefixedField;
  ck_sd : RsiLengthPrefixedField; ck_volatile : bool; ck_symlink : bool }.
Record key_guid_payload := { kg_guid : guid }.
Record write_key_payload := {
  wk_guid : guid; wk_field_mask : Z; wk_sd : option RsiLengthPrefixedField;
  wk_last_write_time : option Z }.
Record query_values_payload := {
  qv_guid : guid; qv_value_name : RsiLengthPrefixedField; qv_query_all : bool }.
Record set_value_payload := {
  sv_guid : guid; sv_value_name : RsiLengthPrefixedField;
  sv_layer_name : RsiLengthPrefixedField; sv_value_type : Z;
  sv_data : RsiLengthPrefixedField; sv_sequence : Z; sv_expected_sequence : Z }.
Record delete_value_entry_payload := {
  dv_guid : guid; dv_value_name : RsiLengthPrefixedField;
  dv_layer_name : RsiLengthPrefixedField }.
Record set_blanket_tombstone_payload := {
  bt_guid : guid; bt_layer_name : RsiLengthPrefixedField; bt_set : bool; bt_sequence : Z }.
Record begin_transaction_payload (mode : Type) := { bg_transaction_id : Z; bg_mode : mode }.
Arguments bg_transaction_id {mode}.
Arguments bg_mode {mode}.
Record transaction_payload := { tx_transaction_id : Z }.
Record layer_name_payload := { dl_layer_name : RsiLengthPrefixedField }.
Record hive_name_payload := { fl_hive_name : RsiLengthPrefixedField }.

Class LcsCore : Type := {
  LcsError : Type;
  RsiStatus : Type;
  RsiStatus_Ok : RsiStatus;
  RsiStatus_eq_dec :: EqDecision RsiStatus;
  RsiTransactionMode : Type;
  RsiTransactionMode_code : RsiTransactionMode -> Z;
  parse_rsi_request_header : slice -> result LcsError request_header;
  parse_rsi_lookup_request_payload : slice -> result LcsError lookup_payload;
  parse_rsi_create_entry_request_payload : slice -> result LcsError create_entry_payload;
  parse_rsi_hide_entry_request_payload : slice -> result LcsError hide_entry_payload;
  parse_rsi_delete_entry_request_payload : slice -> result LcsError delete_entry_payload;
  parse_rsi_enum_children_request_payload : slice -> result LcsError enum_children_payload;
  parse_rsi_create_key_request_payload : slice -> result LcsError create_key_payload;
  parse_rsi_read_key_request_payload : slice -> result LcsError key_guid_payload;
  parse_rsi_drop_key_request_payload : slice -> result LcsError key_guid_payload;
  parse_rsi_write_key_request_payload : slice -> result LcsError write_key_payload;
  parse_rsi_query_values_request_payload : slice -> result LcsError query_values_payload;
  parse_rsi_set_value_request_payload : slice -> result LcsError set_value_payload;
  parse_rsi_delete_value_entry_request_payload :
    slice -> result LcsError delete_value_entry_payload;
  parse_rsi_set_blanket_tombstone_request_payload :
    slice -> result LcsError set_blanket_tombstone_payload;
  parse_rsi_begin_transaction_request_payload :
    slice -> result LcsError (begin_transaction_payload RsiTransactionMode);
  parse_rsi_commit_transaction_request_payload : slice -> result LcsError transaction_payload;
  parse_rsi_abort_transaction_request_payload : slice -> result LcsError transaction_payload;
  parse_rsi_delete_layer_request_payload : slice -> result LcsError layer_name_payload;
  parse_rsi_flush_request_payload : slice -> result LcsError hive_name_payload;
  parse_rsi_status : Z -> result LcsError RsiStatus;
  rsi_request_has_status_only_response : Z -> result LcsError bool;
  rsi_response_op_code : Z -> result LcsError Z
}.

(** *** What a parse result looks like

    "Every decoded name/data field borrows into the caller's frame buffer (no copies)":
    the field's bytes are a sub-range of the parsed slice, at the matching address.  The
    other conjuncts are the Rust types of the fields. *)

Definition borrowed (sl : slice) (f : RsiLengthPrefixedField) : Prop :=
  exists off : nat,
    (off + length (sl_bytes (lpf_data f)) <= length (sl_bytes sl))%nat /\
    sl_ptr (lpf_data f) = sl_ptr sl + Z.of_nat off /\
    sl_bytes (lpf_data f) = take (length (sl_bytes (lpf_data f))) (drop off (sl_bytes sl)).

Section parsed.
Context (sl : slice).

Definition lookup_wf (v : lookup_payload) : Prop :=
  guid_wf (lk_parent_guid v) /\ borrowed sl (lk_child_name v).
Definition create_entry_wf (v : create_entry_payload) : Prop :=
  guid_wf (ce_parent_guid v) /\ guid_wf (ce_child_guid v) /\ borrowed sl (ce_child_name v) /\
  borrowed sl (ce_layer_name v) /\ is_u64 (ce_sequence v).
Definition hide_entry_wf (v : hide_entry_payload) : Prop :=
  guid_wf (hi_parent_guid v) /\ borrowed sl (hi_child_name v) /\
  borrowed sl (hi_layer_name v) /\ is_u64 (hi_sequence v).
Definition delete_entry_wf (v : delete_entry_payload) : Prop :=
  guid_wf (de_parent_guid v) /\ borrowed sl (de_child_name v) /\ borrowed sl (de_layer_name v).
Definition enum_children_wf (v : enum_children_payload) : Prop := guid_wf (ec_parent_guid v).
Definition create_key_wf (v : create_key_payload) : Prop :=
  guid_wf (ck_guid v) /\ guid_wf (ck_parent_guid v) /\ borrowed sl (ck_name v) /\
  borrowed sl (ck_sd v).
Definition key_guid_wf (v : key_guid_payload) : Prop := guid_wf (kg_guid v).
Definition write_key_wf (v : write_key_payload) : Prop :=
  guid_wf (wk_guid v) /\ is_u32 (wk_field_mask v) /\
  from_option (borrowed sl) True (wk_sd v) /\ from_option is_u64 True (wk_last_write_time v).
Definition query_values_wf (v : query_values_payload) : Prop :=
  guid_wf (qv_guid v) /\ borrowed sl (qv_value_name v).
Definition set_value_wf (v : set_value_payload) : Prop :=
  guid_wf (sv_guid v) /\ borrowed sl (sv_value_name v) /\ borrowed sl (sv_layer_name v) /\
  is_u32 (sv_value_type v) /\ borrowed sl (sv_data v) /\ is_u64 (sv_sequence v) /\
  is_u64 (sv_expected_sequence v).
Definition delete_value_entry_wf (v : delete_value_entry_payload) : Prop :=
  guid_wf (dv_guid v) /\ borrowed sl (dv_value_name v) /\ borrowed sl (dv_layer_name v).
Definition set_blanket_tombstone_wf (v : set_blanket_tombstone_payload) : Prop :=
  guid_wf (bt_guid v) /\ borrowed sl (bt_layer_name v) /\ is_u64 (bt_sequence v).
Definition begin_transaction_wf {mode} (code : mode -> Z)
    (v : begin_transaction_payload mode) : Prop :=
  is_u64 (bg_transaction_id v) /\ is_u32 (code (bg_mode v)).
Definition transaction_wf (v : transaction_payload) : Prop := is_u64 (tx_transaction_id v).
Definition layer_name_wf (v : layer_name_payload) : Prop := borrowed sl (dl_layer_name v).
Definition hive_name_wf (v : hive_name_payload) : Prop := borrowed sl (fl_hive_name v).
End parsed.

(** [returns parse wf]: every successful parse of any slice satisfies [wf]. *)
Definition returns {E A} (parse : slice -> result E A) (wf : slice -> A -> Prop) : Prop :=
  forall sl v, parse sl = Ok v -> wf sl v.

(** The ops whose success response carries a payload: "LOOKUP, ENUM_CHILDREN, READ_KEY,
    DELETE_LAYER, and QUERY_VALUES carry a payload on success" (include/rsi/response.h). *)
Definition payload_ops `{Uapi} : list Z :=
  wrap 16 <$> [RSI_LOOKUP; RSI_ENUM_CHILDREN; RSI_READ_KEY; RSI_DELETE_LAYER; RSI_QUERY_VALUES].

Class LcsLaws (U : Uapi) (L : LcsCore) : Prop := {
  (** "[parse_rsi_request_header] already enforces [len >= RSI_REQUEST_HEADER_SIZE] and a
      known op-code" *)
  parse_header_wf sl h : parse_rsi_request_header sl = Ok h ->
    RSI_REQUEST_HEADER_SIZE <= Z.of_nat (length (sl_bytes sl)) /\
    hd_op_code h ∈ request_ops /\ is_u64 (hd_request_id h) /\ is_u64 (hd_txn_id h);
  parse_lookup_wf : returns parse_rsi_lookup_request_payload lookup_wf;
  parse_create_entry_wf : returns parse_rsi_create_entry_request_payload create_entry_wf;
  parse_hide_entry_wf : returns parse_rsi_hide_entry_request_payload hide_entry_wf;
  parse_delete_entry_wf : returns parse_rsi_delete_entry_request_payload delete_entry_wf;
  parse_enum_children_wf :
    returns parse_rsi_enum_children_request_payload (λ _, enum_children_wf);
  parse_create_key_wf : returns parse_rsi_create_key_request_payload create_key_wf;
  parse_read_key_wf : returns parse_rsi_read_key_request_payload (λ _, key_guid_wf);
  parse_drop_key_wf : returns parse_rsi_drop_key_request_payload (λ _, key_guid_wf);
  parse_write_key_wf : returns parse_rsi_write_key_request_payload write_key_wf;
  parse_query_values_wf : returns parse_rsi_query_values_request_payload query_values_wf;
  parse_set_value_wf : returns parse_rsi_set_value_request_payload set_value_wf;
  parse_delete_value_entry_wf :
    returns parse_rsi_delete_value_entry_request_payload delete_value_entry_wf;
  parse_set_blanket_tombstone_wf :
    returns parse_rsi_set_blanket_tombstone_request_payload set_blanket_tombstone_wf;
  parse_begin_transaction_wf :
    returns parse_rsi_begin_transaction_request_payload
      (λ _, begin_transaction_wf RsiTransactionMode_code);
  parse_commit_transaction_wf :
    returns parse_rsi_commit_transaction_request_payload (λ _, transaction_wf);
  parse_abort_transaction_wf :
    returns parse_rsi_abort_transaction_request_payload (λ _, transaction_wf);
  parse_delete_layer_wf : returns parse_rsi_delete_layer_request_payload layer_name_wf;
  parse_flush_wf : returns parse_rsi_flush_request_payload hive_name_wf;
  (** "op-code = [req->op_code | RSI_RESPONSE_BIT]" *)
  response_op_known op : op ∈ request_ops ->
    rsi_response_op_code op = Ok (Z.lor op RSI_RESPONSE_BIT);
  (** "[EINVAL] on a NULL/bad-op-code [req]" *)
  response_op_unknown op : op ∉ request_ops -> exists e, rsi_response_op_code op = Err e;
  status_ok s : parse_rsi_status s = Ok RsiStatus_Ok <-> s = RSI_OK;
  (** "Most ops are status-only"; the payload-bearing ones are listed *)
  status_only_known op : op ∈ request_ops ->
    rsi_request_has_status_only_response op = Ok (bool_decide (op ∉ payload_ops))
}.

(** ** The whole platform *)

Class Platform : Type := {
  platform_uapi :: Uapi;
  platform_libc :: Libc;
  platform_kernel :: Kernel;
  platform_allocator :: Allocator;
  platform_lcs :: LcsCore
}.

Class PlatformLaws (P : Platform) : Prop := {
  platform_uapi_laws :: UapiLaws platform_uapi;
  platform_kernel_laws :: KernelLaws platform_kernel;
  platform_allocator_laws :: AllocatorLaws platform_allocator;
  platform_lcs_laws :: LcsLaws platform_uapi platform_lcs
}.
