(* ===== verification/Effects.v ===== *)
(** * Effects: the state librsi runs in, and the monad its functions run in

    A function of the library reads and writes the caller's memory, the [errno] slot, the
    allocator and the kernel. A call returns a value, returns a Rust [Err], aborts the
    process (a panic, or an infallible allocation that fails: [src/src/lib.rs] turns both
    into [abort(3)]), or has undefined behaviour because the caller broke a [# Safety]
    contract. [wp] is the total-correctness predicate over these outcomes: it excludes
    the last two. *)

From S2P Require Import Prelude Memory Platform.

(** ** State *)

(** The observable actions of a call, in order. [EvRefused] records a fallible
    allocation that was refused. *)
Inductive event : Type :=
  | EvRefused
  | EvOpen (path : list byte) (flags : Z)
  | EvClose (fd : Z)
  | EvIoctl (fd req : Z) (args : reg_src_register_args) (view : memory)
  | EvRead (fd cap : Z)
  | EvWrite (fd : Z) (frame : list byte).

Section effects.
Context `{P : Platform}.

Record state := mk_state {
  st_mem : memory;
  st_errno : Z;
  st_alloc : astate;
  st_kern : kstate;
  st_trace : list event
}.

Definition with_mem (m : memory) (s : state) : state :=
  mk_state m (st_errno s) (st_alloc s) (st_kern s) (st_trace s).
Definition with_errno (e : Z) (s : state) : state :=
  mk_state (st_mem s) e (st_alloc s) (st_kern s) (st_trace s).
Definition with_alloc (a : astate) (s : state) : state :=
  mk_state (st_mem s) (st_errno s) a (st_kern s) (st_trace s).
Definition with_kern (k : kstate) (s : state) : state :=
  mk_state (st_mem s) (st_errno s) (st_alloc s) k (st_trace s).
Definition log (ev : event) (s : state) : state :=
  mk_state (st_mem s) (st_errno s) (st_alloc s) (st_kern s) (st_trace s ++ [ev]).

(** ** The monad *)

Inductive outcome (A : Type) : Type :=
  | ORet (a : A) (s : state)
  | OErr (e : Z) (s : state)
  | OUndef
  | OAbort.
Arguments ORet {A}.
Arguments OErr {A}.
Arguments OUndef {A}.
Arguments OAbort {A}.

Definition M (A : Type) : Type := state -> outcome A.

#[global] Instance M_ret : MRet M := λ A a s, ORet a s.

#[global] Instance M_bind : MBind M := λ A B k m s,
  match m s with
  | ORet a s' => k a s'
  | OErr e s' => OErr e s'
  | OUndef => OUndef
  | OAbort => OAbort
  end.

Definition undef {A} : M A := λ _, OUndef.
(** [abort(3)]. *)
Definition abort {A} : M A := λ _, OAbort.
(** The panic handler of src/src/lib.rs: "abort the process on panic". *)
Definition panic {A} : M A := abort.

(** The assembler stub of src/src/lib.rs, should an unwinder ever reach it: "report a fatal
    personality error" and nothing else. *)
Definition rust_eh_personality : M Z := mret 3.
(** [return Err(e)] of a function that returns [Result<_, c_int>]. *)
Definition fail {A} (e : Z) : M A := λ s, OErr e s.
Definition gets {A} (f : state -> A) : M A := λ s, ORet (f s) s.
Definition modify (f : state -> state) : M unit := λ s, ORet tt (f s).

Definition set_errno (e : Z) : M unit := modify (with_errno e).
Definition get_errno : M Z := gets st_errno.

(** [set_errno(e); -1]. *)
Definition fail_errno (e : Z) : M Z := _ ← set_errno e; mret (-1).

(** [match m { Ok(a) => k(a), Err(e) => return fail_errno(e) }]. *)
Definition or_fail {A} (m : M A) (k : A -> M Z) : M Z := λ s,
  match m s with
  | ORet a s' => k a s'
  | OErr e s' => fail_errno e s'
  | OUndef => OUndef
  | OAbort => OAbort
  end.

(** [for i in 0..n], threading a mutable local. *)
Fixpoint for_from {St} (n : nat) (i : Z) (body : Z -> St -> M St) (st : St) : M St :=
  match n with
  | O => mret st
  | S n' => st' ← body i st; for_from n' (i + 1) body st'
  end.

Definition for_range {St} (n : Z) (body : Z -> St -> M St) (st : St) : M St :=
  for_from (Z.to_nat n) 0 body st.

(** [for x in xs], threading a mutable local. *)
Fixpoint for_each {X St} (xs : list X) (body : X -> St -> M St) (st : St) : M St :=
  match xs with
  | [] => mret st
  | x :: xs' => st' ← body x st; for_each xs' body st'
  end.

(** ** Pointers *)

(** [&*p]: undefined unless [p] is aligned and valid for the whole struct. *)
Definition deref (A : Type) `{Repr A} (p : Z) : M A := λ s,
  if (p =? 0) || negb (p mod align_of A =? 0) then OUndef
  else match read A (st_mem s) p with Some a => ORet a s | None => OUndef end.

(** [p.as_ref()]. *)
Definition as_ref (A : Type) `{Repr A} (p : Z) : M (option A) :=
  if p =? 0 then mret None else a ← deref A p; mret (Some a).

(** [p.as_mut()]; the reference is represented by its address. *)
Definition as_mut (A : Type) `{Repr A} (p : Z) : M (option Z) :=
  if p =? 0 then mret None else _ ← deref A p; mret (Some p).

(** [out.field_i = v]. *)
Definition set_field (A : Type) `{Repr A} (p : Z) (i : nat) (v : cval) : M unit :=
  modify (λ s, with_mem (write_field (repr_layout A) p i v (st_mem s)) s).

(** [slice::from_raw_parts(p, n)] for bytes: a non-null pointer to [n] valid bytes, at most
    [isize::MAX] of them, that do not run past the end of the address space. *)
Definition from_raw_parts (p n : Z) : M slice := λ s,
  if (p =? 0) || (isize_max <? n) || (2 ^ 64 <=? p + n) then OUndef
  else match load (st_mem s) p (Z.to_nat n) with
       | Some bs => ORet (mk_slice p bs) s
       | None => OUndef
       end.

(** ** [Vec] *)

(** [Vec::new()]: no buffer, a dangling well-aligned pointer. *)
Definition vec_new {A} (align : Z) : rvec A := mk_rvec align 0 [].

Definition vec_len {A} (v : rvec A) : Z := Z.of_nat (length (rv_elems v)).

(** std's amortised growth for elements of [sz] bytes. *)
Definition grow_cap (sz cap required : Z) : Z :=
  Z.max (if sz =? 1 then 8 else if sz <=? 1024 then 4 else 1) (Z.max (cap * 2) required).

(** [v.try_reserve(n)], [None] when it returns [Err]. *)
Definition vec_try_reserve {A} (sz : Z) (v : rvec A) (n : Z) : M (option (rvec A)) := λ s,
  if n <=? rv_cap v - vec_len v then ORet (Some v) s
  else
    let c := grow_cap sz (rv_cap v) (vec_len v + n) in
    if isize_max <? c * sz then ORet None (log EvRefused s)
    else match a_alloc (st_alloc s) (c * sz) with
         | (a, Some p) => ORet (Some (mk_rvec p c (rv_elems v))) (with_alloc a s)
         | (a, None) => ORet None (log EvRefused (with_alloc a s))
         end.

(** [v.push(x)]: reallocating when full, and aborting when that fails. *)
Definition vec_push {A} (sz : Z) (v : rvec A) (x : A) : M (rvec A) :=
  if vec_len v <? rv_cap v
  then mret (mk_rvec (rv_ptr v) (rv_cap v) (rv_elems v ++ [x]))
  else r ← vec_try_reserve sz v 1;
       match r with
       | Some v' => mret (mk_rvec (rv_ptr v') (rv_cap v') (rv_elems v' ++ [x]))
       | None => panic
       end.

(** [peios_cabi::abi::try_extend(&mut v, bs)]. *)
Definition try_extend (v : rvec byte) (bs : list byte) : M (option (rvec byte)) := λ s,
  match a_try_extend (st_alloc s) v bs with
  | (a, Ok v') => ORet (Some v') (with_alloc a s)
  | (a, Err _) => ORet None (log EvRefused (with_alloc a s))
  end.

(** ** System calls through libc: [-1] and [errno] on failure *)

Definition syscall (ev : state -> event) (call : state -> kstate * result Z Z) : M Z := λ s,
  let '(k, r) := call s in
  let s' := with_kern k (log (ev s) s) in
  match r with
  | Ok z => ORet z s'
  | Err e => ORet (-1) (with_errno e s')
  end.

Definition libc_open (path : list byte) (flags : Z) : M Z :=
  syscall (λ _, EvOpen path flags) (λ s, k_open (st_kern s) path flags).

Definition libc_close (fd : Z) : M Z :=
  syscall (λ _, EvClose fd) (λ s, k_close (st_kern s) fd).

(** [view] is the memory the kernel sees: the caller's, with the library's buffers in it. *)
Definition ioctl (fd req : Z) (args : reg_src_register_args) (view : memory -> memory) : M Z :=
  syscall (λ s, EvIoctl fd req args (view (st_mem s)))
          (λ s, k_ioctl (st_kern s) fd req args (view (st_mem s))).

Definition libc_write (fd : Z) (frame : list byte) : M Z :=
  syscall (λ _, EvWrite fd frame) (λ s, k_write (st_kern s) fd frame).

Definition libc_read (fd buf cap : Z) : M Z := λ s,
  match load (st_mem s) buf (Z.to_nat cap) with
  | None => OUndef
  | Some _ =>
      let '(k, r) := k_read (st_kern s) fd cap in
      let s' := with_kern k (log (EvRead fd cap) s) in
      match r with
      | Ok bs => ORet (Z.of_nat (length bs)) (with_mem (store (st_mem s) buf bs) s')
      | Err e => ORet (-1) (with_errno e s')
      end
  end.

(** ** Total correctness *)

Definition wp {A} (m : M A) (s : state) (Q : result Z A -> state -> Prop) : Prop :=
  match m s with
  | ORet a s' => Q (Ok a) s'
  | OErr e s' => Q (Err e) s'
  | OUndef => False
  | OAbort => False
  end.

(** [s'] is [s] with the events [evs] done and possibly another allocator state. *)
Record quiet (evs : list event) (s s' : state) : Prop := mk_quiet {
  quiet_mem : st_mem s' = st_mem s;
  quiet_errno : st_errno s' = st_errno s;
  quiet_kern : st_kern s' = st_kern s;
  quiet_trace : st_trace s' = st_trace s ++ evs
}.

Lemma wp_mono {A} (m : M A) s (Q R : result Z A -> state -> Prop) :
  wp m s Q -> (forall r s', Q r s' -> R r s') -> wp m s R.
Proof. unfold wp. destruct (m s); naive_solver. Qed.

Lemma wp_ret {A} (a : A) s (Q : result Z A -> state -> Prop) : Q (Ok a) s -> wp (mret a) s Q.
Proof. done. Qed.

Lemma wp_fail {A} e s (Q : result Z A -> state -> Prop) : Q (Err e) s -> wp (fail e) s Q.
Proof. done. Qed.

Lemma wp_bind {A B} (m : M A) (k : A -> M B) s (Q : result Z B -> state -> Prop) :
  wp m s (λ r s', match r with Ok a => wp (k a) s' Q | Err e => Q (Err e) s' end) ->
  wp (x ← m; k x) s Q.
Proof. unfold wp, mbind, M_bind. by destruct (m s). Qed.

Lemma wp_or_fail {A} (m : M A) (k : A -> M Z) s (Q : result Z Z -> state -> Prop) :
  wp m s (λ r s', match r with
                  | Ok a => wp (k a) s' Q
                  | Err e => Q (Ok (-1)) (with_errno e s') end) ->
  wp (or_fail m k) s Q.
Proof. unfold wp, or_fail. by destruct (m s). Qed.

Lemma wp_fail_errno e s (Q : result Z Z -> state -> Prop) :
  Q (Ok (-1)) (with_errno e s) -> wp (fail_errno e) s Q.
Proof. done. Qed.

Lemma wp_modify f s (Q : result Z unit -> state -> Prop) : Q (Ok tt) (f s) -> wp (modify f) s Q.
Proof. done. Qed.

(** The loop rule: [I i st s] holds before iteration [i]; an [Err] leaves the loop. *)
Lemma wp_for_from {St} (I : nat -> St -> state -> Prop) (E : Z -> state -> Prop)
    n (i : nat) (body : Z -> St -> M St) st s :
  (forall j st s, (i <= j < i + n)%nat -> I j st s ->
     wp (body (Z.of_nat j) st) s
       (λ r s', match r with Ok st' => I (S j) st' s' | Err e => E e s' end)) ->
  I i st s ->
  wp (for_from n (Z.of_nat i) body st) s
    (λ r s', match r with Ok st' => I (i + n)%nat st' s' | Err e => E e s' end).
Proof.
  revert i st s. induction n as [|n IH]; intros i st s Hbody HI; simpl.
  - apply wp_ret. by rewrite Nat.add_0_r.
  - apply wp_bind. eapply wp_mono; [apply Hbody; [lia|done]|].
    intros [st'|e] s' H; [|done].
    replace (Z.of_nat i + 1) with (Z.of_nat (S i)) by lia.
    replace (i + S n)%nat with (S i + n)%nat by lia.
    apply IH; [|done]. intros j st2 s2 Hj. apply Hbody. lia.
Qed.

Lemma wp_for_range {St} (I : nat -> St -> state -> Prop) (E : Z -> state -> Prop)
    n (body : Z -> St -> M St) st s :
  (forall j st s, (j < Z.to_nat n)%nat -> I j st s ->
     wp (body (Z.of_nat j) st) s
       (λ r s', match r with Ok st' => I (S j) st' s' | Err e => E e s' end)) ->
  I 0%nat st s ->
  wp (for_range n body st) s
    (λ r s', match r with Ok st' => I (Z.to_nat n) st' s' | Err e => E e s' end).
Proof.
  intros Hbody HI. apply (wp_for_from I E (Z.to_nat n) 0 body); [|done].
  intros j st2 s2 Hj. apply Hbody. lia.
Qed.

(** The same rule for a loop over a list; [I done st s] holds after the elements [done]. *)
Lemma wp_for_each_from {X St} (I : list X -> St -> state -> Prop) (E : Z -> state -> Prop)
    (xs all done : list X) (body : X -> St -> M St) st s :
  all = done ++ xs ->
  (forall pre x post st s, all = pre ++ x :: post -> I pre st s ->
     wp (body x st) s
       (λ r s', match r with Ok st' => I (pre ++ [x]) st' s' | Err e => E e s' end)) ->
  I done st s ->
  wp (for_each xs body st) s
    (λ r s', match r with Ok st' => I all st' s' | Err e => E e s' end).
Proof.
  intros Hall Hbody. revert done Hall st s.
  induction xs as [|x xs IH]; intros pre Hall st s HI; simpl.
  - apply wp_ret. by rewrite Hall, app_nil_r.
  - apply wp_bind. eapply wp_mono; [by eapply (Hbody pre x xs)|].
    intros [st'|e] s' H; [|done]. apply (IH (pre ++ [x])); [|done].
    by rewrite Hall, <- app_assoc.
Qed.

Lemma wp_for_each {X St} (I : list X -> St -> state -> Prop) (E : Z -> state -> Prop)
    (xs : list X) (body : X -> St -> M St) st s :
  (forall pre x post st s, xs = pre ++ x :: post -> I pre st s ->
     wp (body x st) s
       (λ r s', match r with Ok st' => I (pre ++ [x]) st' s' | Err e => E e s' end)) ->
  I [] st s ->
  wp (for_each xs body st) s
    (λ r s', match r with Ok st' => I xs st' s' | Err e => E e s' end).
Proof. by apply wp_for_each_from. Qed.

Lemma quiet_refl s : quiet [] s s.
Proof. split; try done. by rewrite app_nil_r. Qed.

Lemma quiet_trans evs1 evs2 s1 s2 s3 :
  quiet evs1 s1 s2 -> quiet evs2 s2 s3 -> quiet (evs1 ++ evs2) s1 s3.
Proof.
  intros [Hm1 He1 Hk1 Ht1] [Hm2 He2 Hk2 Ht2].
  split; [congruence..|]. by rewrite Ht2, Ht1, app_assoc.
Qed.

(** ** Rules of the primitives *)

(** [p] is a valid, aligned pointer to the struct value [a]. *)
Definition points_to (A : Type) `{Repr A} (m : memory) (p : Z) (a : A) : Prop :=
  p <> 0 /\ p mod align_of A = 0 /\ read A m p = Some a.

Lemma points_to_ext A `{Repr A} m m' p a :
  (forall q, p <= q < p + size_of A -> m' !! q = m !! q) ->
  points_to A m p a -> points_to A m' p a.
Proof.
  intros Hm (Hp & Hal & Hr). split_and!; [done|done|]. rewrite <- Hr.
  unfold read, read_struct. do 2 f_equal. apply load_ext. intros q Hq. apply Hm.
  unfold size_of in *. lia.
Qed.

Lemma wp_deref A `{Repr A} p a s (Q : result Z A -> state -> Prop) :
  points_to A (st_mem s) p a -> Q (Ok a) s -> wp (deref A p) s Q.
Proof.
  intros (Hp & Hal & Hr) HQ. unfold wp, deref.
  rewrite (proj2 (Z.eqb_neq _ _) Hp), Hal, Z.eqb_refl, Hr. done.
Qed.

Lemma wp_as_ref A `{Repr A} p a s (Q : result Z (option A) -> state -> Prop) :
  points_to A (st_mem s) p a -> Q (Ok (Some a)) s -> wp (as_ref A p) s Q.
Proof.
  intros Hp HQ. unfold as_ref. rewrite (proj2 (Z.eqb_neq _ _) (proj1 Hp)).
  apply wp_bind. by eapply wp_deref.
Qed.

Lemma wp_as_mut A `{Repr A} p a s (Q : result Z (option Z) -> state -> Prop) :
  points_to A (st_mem s) p a -> Q (Ok (Some p)) s -> wp (as_mut A p) s Q.
Proof.
  intros Hp HQ. unfold as_mut. rewrite (proj2 (Z.eqb_neq _ _) (proj1 Hp)).
  apply wp_bind. by eapply wp_deref.
Qed.

Lemma wp_from_raw_parts p n bs s (Q : result Z slice -> state -> Prop) :
  p <> 0 -> 0 <= n <= isize_max -> p + n < 2 ^ 64 ->
  load (st_mem s) p (Z.to_nat n) = Some bs ->
  Q (Ok (mk_slice p bs)) s -> wp (from_raw_parts p n) s Q.
Proof.
  intros Hp Hn Hw Hl HQ. unfold wp, from_raw_parts.
  rewrite (proj2 (Z.eqb_neq _ _) Hp), (proj2 (Z.ltb_ge _ _)), (proj2 (Z.leb_gt _ _)) by lia.
  simpl. by rewrite Hl.
Qed.

(** *** Refused allocations

    The allocator has a state in which it refuses a request of [n] bytes. *)
Inductive refuses (n : Z) : Prop :=
  | refuses_alloc a a' : a_alloc a n = (a', None) -> refuses n
  | refuses_extend a v bs a' e :
      a_try_extend a v bs = (a', Err e) -> n = Z.of_nat (length (rv_elems v ++ bs)) -> refuses n.

(** What no call on a description that fits a frame asks for: 256 GiB. *)
Definition alloc_limit : Z := 2 ^ 38.

(** The allocator may refuse a request of a size that calls make. *)
Definition may_refuse : Prop := exists n, n <= alloc_limit /\ refuses n.

Lemma may_refuse_intro n : refuses n -> may_refuse \/ alloc_limit < n.
Proof. intros Hr. destruct (Z.le_gt_cases n alloc_limit); [left; by exists n|right; lia]. Qed.

(** A reservation is granted, or refused and recorded; the elements stay. *)
Lemma wp_vec_try_reserve {A} sz (v : rvec A) n s
    (Q : result Z (option (rvec A)) -> state -> Prop) :
  (forall v' s', quiet [] s s' -> rv_elems v' = rv_elems v ->
     n <= rv_cap v' - vec_len v' -> Q (Ok (Some v')) s') ->
  (forall s', quiet [EvRefused] s s' -> rv_cap v - vec_len v < n ->
     may_refuse \/ alloc_limit < grow_cap sz (rv_cap v) (vec_len v + n) * sz ->
     Q (Ok None) s') ->
  wp (vec_try_reserve sz v n) s Q.
Proof.
  intros Hok Hno. unfold wp, vec_try_reserve.
  destruct (Z.leb_spec n (rv_cap v - vec_len v)); [by apply Hok; auto using quiet_refl|].
  destruct (Z.ltb_spec isize_max (grow_cap sz (rv_cap v) (vec_len v + n) * sz)).
  { apply Hno; [done|lia|]. right. unfold isize_max, alloc_limit in *. lia. }
  destruct (a_alloc _ _) as [a [p|]] eqn:Ha;
    [|apply Hno; [done|lia|by eapply may_refuse_intro, refuses_alloc]].
  apply Hok; [|done|].
  - split; try done. by rewrite app_nil_r.
  - unfold vec_len, grow_cap. simpl. lia.
Qed.

(** A push into spare capacity does not allocate. *)
Lemma wp_vec_push {A} sz (v : rvec A) x s (Q : result Z (rvec A) -> state -> Prop) :
  vec_len v < rv_cap v ->
  Q (Ok (mk_rvec (rv_ptr v) (rv_cap v) (rv_elems v ++ [x]))) s -> wp (vec_push sz v x) s Q.
Proof. intros Hv HQ. unfold vec_push. by rewrite (proj2 (Z.ltb_lt _ _) Hv). Qed.

Lemma wp_try_extend `{!AllocatorLaws platform_allocator} v bs s
    (Q : result Z (option (rvec byte)) -> state -> Prop) :
  (forall v' s', quiet [] s s' -> rv_elems v' = rv_elems v ++ bs -> Q (Ok (Some v')) s') ->
  (forall s', quiet [EvRefused] s s' ->
     may_refuse \/ alloc_limit < Z.of_nat (length (rv_elems v ++ bs)) -> Q (Ok None) s') ->
  wp (try_extend v bs) s Q.
Proof.
  intros Hok Hno. unfold wp, try_extend.
  destruct (a_try_extend _ _ _) as [a [v'|e]] eqn:He;
    [|apply Hno; [done|by eapply may_refuse_intro, refuses_extend]].
  apply Hok; [|by eapply try_extend_appends].
  split; try done. by rewrite app_nil_r.
Qed.

(** [p] points to an array holding the struct values [xs]; an empty array may be at any
    address. *)
Record array_at (A : Type) `{Repr A} (m : memory) (p : Z) (xs : list A) : Prop := mk_array_at {
  array_ptr : xs <> [] -> 0 < p;
  array_align : xs <> [] -> p mod align_of A = 0;
  array_read : read_array A m p (length xs) = Some xs
}.

Lemma size_of_aligned A `{Repr A} : size_of A mod align_of A = 0.
Proof. apply align_up_mod, struct_align_pos. Qed.

Lemma size_of_nonneg A `{Repr A} : 0 <= size_of A.
Proof.
  unfold size_of, struct_size.
  pose proof (align_up_ge (end_from 0 (repr_layout A)) _ (struct_align_pos (repr_layout A))).
  pose proof (end_from_ge 0 (repr_layout A)). lia.
Qed.

Lemma array_at_lookup A `{Repr A} m p xs j x :
  array_at A m p xs -> xs !! j = Some x -> points_to A m (p + Z.of_nat j * size_of A) x.
Proof.
  intros [Hp Hal Hr] Hx. assert (xs <> []) as Hne by (by intros ->).
  specialize (Hp Hne). specialize (Hal Hne). pose proof (size_of_nonneg A).
  split_and!; [nia| |by eapply read_array_lookup].
  pose proof (struct_align_pos (repr_layout A)).
  rewrite Z.add_mod, Z.mul_mod, size_of_aligned, Hal by (unfold align_of; lia).
  by rewrite Z.mul_0_r, Z.mod_0_l by (unfold align_of; lia).
Qed.

(** A loop over the structs of an array; the memory [m] the array is in does not change. *)
Lemma wp_for_array {St} A `{Repr A} (I : list A -> St -> state -> Prop)
    (E : Z -> state -> Prop) m p n (xs : list A) (body : A -> St -> M St) st s :
  n = Z.of_nat (length xs) -> array_at A m p xs ->
  (forall pre st s, I pre st s -> st_mem s = m) ->
  (forall pre x post st s, xs = pre ++ x :: post -> I pre st s ->
     wp (body x st) s
       (λ r s', match r with Ok st' => I (pre ++ [x]) st' s' | Err e => E e s' end)) ->
  I [] st s ->
  wp (for_range n (λ i st, a ← deref A (p + i * size_of A); body a st) st) s
    (λ r s', match r with Ok st' => I xs st' s' | Err e => E e s' end).
Proof.
  intros -> Harr Hmem Hbody HI. eapply wp_mono.
  - apply (wp_for_range (λ j, I (take j xs)) E); [|done].
    intros j st1 s1 Hj HI1. rewrite Nat2Z.id in Hj.
    destruct (lookup_lt_is_Some_2 _ _ Hj) as [x Hx].
    apply wp_bind. eapply wp_deref.
    { rewrite (Hmem _ _ _ HI1). by eapply array_at_lookup. }
    eapply wp_mono; [apply (Hbody (take j xs) x (drop (S j) xs)); [|done]|].
    + by rewrite take_drop_middle.
    + intros [st'|e] s' Hr; [|done]. by rewrite (take_S_r _ _ _ Hx).
  - rewrite Nat2Z.id. intros [st'|e] s' Hr; [|done]. by rewrite take_ge in Hr.
Qed.

End effects.

Arguments ORet {P A}.
Arguments OErr {P A}.
Arguments OUndef {P A}.
Arguments OAbort {P A}.

(** Early return through [fail_errno]. *)
Notation "x '←?' m ; k" := (or_fail m (λ x, k))
  (at level 20, m at level 100, k at level 200, right associativity, only parsing) : rsi_scope.
#[global] Open Scope rsi_scope.

#[export] Hint Resolve quiet_refl : rsi.
