(* ===== verification/Testing.v ===== *)
(** * What the repository's unit tests are written with

    The [#[cfg(test)]] modules of the three source files run the exported functions on
    literals and assert on the results. A test is a computation of type [M unit] here: a
    failed assertion and an [unwrap] of an [Err] are panics, so a test passes exactly when
    [wp] holds of it. Its local variables live in slots of a stack frame. *)

From Stdlib Require Import String.
From S2P Require Import Prelude Memory Platform Effects.
#[local] Open Scope Z_scope.

Section testing.
Context `{P : Platform}.

(** [assert!] and [assert_eq!]. *)
Definition assert_that (b : bool) : M unit := if b then mret tt else abort.
Definition assert_eq {A} `{EqDecision A} (a b : A) : M unit := assert_that (bool_decide (a = b)).

(** [Result::unwrap], of a pure function and of a function in the monad. *)
Definition unwrap {E A} (r : result E A) : M A :=
  match r with Ok a => mret a | Err _ => abort end.
Definition unwrap_m {A} (m : M A) : M A := λ s,
  match m s with OErr _ _ => OAbort | o => o end.

(** What most tests of a refusal end with: the call returns -1 with [errno]. *)
Definition fails_with (call : M Z) (errno : Z) : M unit :=
  r ← call;
  _ ← assert_eq r (-1);
  e ← get_errno;
  assert_eq e errno.

(** A test passes in [s]: it runs to its end. *)
Definition passes (t : M unit) (s : state) : Prop := wp t s (λ r _, r = Ok tt).

(** ** Local variables *)

(** Where the compiler puts the [i]-th local, none being larger than 4 KiB. *)
Definition slot (i : nat) : Z := 65536 + 4096 * Z.of_nat i.

Fixpoint put_locals (i : nat) (bss : list (list byte)) (m : memory) : memory :=
  match bss with
  | [] => m
  | bs :: bss' => store (put_locals (S i) bss' m) (slot i) bs
  end.

Definition locals (bss : list (list byte)) : M unit :=
  modify (λ s, with_mem (put_locals 0 bss (st_mem s)) s).

(** A struct literal, and [core::mem::zeroed]. *)
Definition literal (A : Type) `{Repr A} (vs : list cval) : list byte :=
  struct_bytes (repr_layout A) vs.
Definition zeros (n : nat) : list byte := replicate n Byte.x00.
Definition zeroed (A : Type) `{Repr A} : list byte := zeros (Z.to_nat (size_of A)).

(** [b"..."] and [[b; 16]]. *)
Definition bytes_of (s : string) : list byte := list_byte_of_string s.
Definition guid_of_byte (b : byte) : guid := replicate 16 b.

(** ** Rules *)

Lemma wp_run {A} (m : M A) s a s' (Q : result Z A -> state -> Prop) :
  m s = ORet a s' -> Q (Ok a) s' -> wp m s Q.
Proof. unfold wp. by intros ->. Qed.

Lemma wp_returns {A} (m : M A) a s :
  wp m s (λ r _, r = Ok a) -> exists s', m s = ORet a s'.
Proof. unfold wp. destruct (m s); [intros [= ->]; eauto|done..]. Qed.

Lemma wp_assert_that b s (Q : result Z unit -> state -> Prop) :
  b = true -> Q (Ok tt) s -> wp (assert_that b) s Q.
Proof. by intros ->. Qed.

Lemma wp_assert_eq {A} `{EqDecision A} (a b : A) s (Q : result Z unit -> state -> Prop) :
  a = b -> Q (Ok tt) s -> wp (assert_eq a b) s Q.
Proof. intros Hab. apply wp_assert_that. by apply bool_decide_eq_true. Qed.

Lemma passes_assert_eq {A} `{EqDecision A} (a b : A) s : a = b -> passes (assert_eq a b) s.
Proof. intros. by apply wp_assert_eq. Qed.

Lemma passes_then_assert {A} `{EqDecision A} (a b : A) (k : M unit) s :
  a = b -> passes k s -> passes (_ ← assert_eq a b; k) s.
Proof. intros. by apply wp_bind, wp_assert_eq. Qed.

Lemma passes_step {A} (m : M A) (k : A -> M unit) a s s' :
  m s = ORet a s' -> passes (k a) s' -> passes (x ← m; k x) s.
Proof. intros Hm Hk. apply wp_bind. unfold wp. by rewrite Hm. Qed.

Lemma passes_fails_with call errno s :
  wp call s (λ r s', r = Ok (-1) /\ st_errno s' = errno) -> passes (fails_with call errno) s.
Proof.
  intros Hc. apply wp_bind. eapply wp_mono; [exact Hc|]. intros r s' [-> He].
  by apply passes_then_assert, passes_assert_eq.
Qed.

Lemma passes_locals bss (k : M unit) s :
  passes k (with_mem (put_locals 0 bss (st_mem s)) s) -> passes (_ ← locals bss; k) s.
Proof. by intros Hk. Qed.

(** [m] holds the locals [bss]. *)
Definition has_locals (m : memory) (bss : list (list byte)) : Prop :=
  forall i bs, bss !! i = Some bs -> load m (slot i) (length bs) = Some bs.

Lemma put_locals_has bss m :
  Forall (λ bs, (length bs <= 4096)%nat) bss -> has_locals (put_locals 0 bss m) bss.
Proof.
  intros Hbss. assert (forall k i bs, bss !! i = Some bs ->
    load (put_locals k bss m) (slot (k + i)) (length bs) = Some bs) as Hk;
    [|intros i bs; apply (Hk 0%nat)].
  induction Hbss as [|bs0 bss Hl Hbss IH]; intros k i bs; [done|].
  destruct i as [|i]; simpl.
  - intros [= ->]. rewrite Nat.add_0_r. apply load_Some. split; [done|]. intros j b Hj.
    apply lookup_lt_Some in Hj as Hjl. rewrite lookup_store, decide_True by lia.
    rewrite <- Hj. f_equal. lia.
  - intros Hi. replace (k + S i)%nat with (S k + i)%nat by lia. rewrite <- (IH (S k) i bs Hi).
    apply load_ext. intros a Ha. apply lookup_store_ne. unfold slot in *. lia.
Qed.

(** A part of a local. *)
Lemma has_locals_sub m bss i bs off n :
  has_locals m bss -> bss !! i = Some bs -> (off + n <= length bs)%nat ->
  load m (slot i + Z.of_nat off) n = Some (take n (drop off bs)).
Proof. intros Hm Hi Hn. by eapply load_sub; [apply Hm|]. Qed.

(** ** Struct literals *)

Lemma length_literal A `{Repr A} vs :
  length vs = length (repr_layout A) -> length (literal A vs) = Z.to_nat (size_of A).
Proof. apply length_struct_bytes. Qed.

(** The field values [vs] make up the struct value [a]. *)
Definition literal_of (A : Type) `{Repr A} (vs : list cval) (a : A) : Prop :=
  Forall2 cval_wf (repr_layout A) vs /\ repr_of vs = Some a.

Lemma read_literal A `{Repr A} m p vs a :
  literal_of A vs a -> load m p (Z.to_nat (size_of A)) = Some (literal A vs) ->
  read A m p = Some a.
Proof.
  intros [Hvs Ha] Hl. unfold read, read_struct. unfold size_of in Hl. rewrite Hl. simpl.
  unfold literal. by rewrite decode_struct_bytes.
Qed.

Lemma slot_aligned A `{Repr A} i : struct_align (repr_layout A) ∈ [1; 2; 4; 8] ->
  slot i mod align_of A = 0.
Proof.
  unfold align_of, slot. rewrite !elem_of_cons, elem_of_nil.
  intros [->|[->|[->|[->|[]]]]].
  - apply Z.mod_1_r.
  - replace (65536 + _) with ((32768 + 2048 * Z.of_nat i) * 2) by lia. by apply Z.mod_mul.
  - replace (65536 + _) with ((16384 + 1024 * Z.of_nat i) * 4) by lia. by apply Z.mod_mul.
  - replace (65536 + _) with ((8192 + 512 * Z.of_nat i) * 8) by lia. by apply Z.mod_mul.
Qed.

Lemma local_points_to A `{Repr A} m bss i vs a :
  has_locals m bss -> bss !! i = Some (literal A vs) -> literal_of A vs a ->
  struct_align (repr_layout A) ∈ [1; 2; 4; 8] -> points_to A m (slot i) a.
Proof.
  intros Hm Hi Ha Hal. split_and!; [unfold slot; lia|by apply slot_aligned|].
  eapply read_literal; [done|]. rewrite <- (length_literal A vs); [by apply Hm|].
  symmetry. by eapply Forall2_length, Ha.
Qed.

(** An array literal. *)
Lemma read_array_literal A `{Repr A} m p vss xs :
  Forall2 (literal_of A) vss xs ->
  load m p (length (concat (literal A <$> vss))) = Some (concat (literal A <$> vss)) ->
  read_array A m p (length xs) = Some xs.
Proof.
  intros Hall. revert p. induction Hall as [|vs x vss xs Hx Hall IH]; intros p; csimpl; [done|].
  assert (length (literal A vs) = Z.to_nat (size_of A)) as Hl.
  { apply length_literal. symmetry. by eapply Forall2_length, Hx. }
  rewrite length_app, load_app. intros (b1 & H1 & (b2 & H2 & [= Heq])%bind_Some)%bind_Some.
  apply app_inj_1 in Heq as [-> ->]; [|by rewrite (load_length _ _ _ _ H1)].
  rewrite Hl in H1, H2. rewrite (read_literal A m p vs x Hx H1). cbn [mbind option_bind].
  pose proof (size_of_nonneg A).
  rewrite (IH (p + size_of A)); [done|]. rewrite <- H2. f_equal. lia.
Qed.

Lemma local_array_at A `{Repr A} m bss i vss xs :
  has_locals m bss -> bss !! i = Some (concat (literal A <$> vss)) ->
  Forall2 (literal_of A) vss xs -> struct_align (repr_layout A) ∈ [1; 2; 4; 8] ->
  array_at A m (slot i) xs.
Proof.
  intros Hm Hi Hall Hal. split; [unfold slot; lia|by intros; apply slot_aligned|].
  eapply read_array_literal; [done|]. by apply Hm.
Qed.

End testing.
