(* ===== verification/Source.v ===== *)
(** * Becoming a source: [src/src/source.rs]

    [rsi_register] marshals the caller's [rsi_hive] array into the kernel's entry array,
    opens the registry device and registers the hives with one [ioctl]. *)

From Stdlib Require Import String.
From S2P Require Import Prelude Memory Platform Effects.
#[local] Open Scope Z_scope.

Record rsi_hive := mk_rsi_hive {
  hv_name : Z;
  hv_name_len : Z;
  hv_flags : Z;
  hv_root_guid : guid;
  hv_scope_guid : guid
}.

#[export] Instance rsi_hive_repr : Repr rsi_hive := {
  repr_layout := [C_ptr; C_u32; C_u32; C_guid; C_guid];
  repr_of vs := match vs with
    | [VInt name; VInt name_len; VInt flags; VGuid root; VGuid scope] =>
        Some (mk_rsi_hive name name_len flags root scope)
    | _ => None
    end
}.

(** [/dev/pkm_registry], NUL-terminated. *)
Definition DEVICE : list byte := list_byte_of_string "/dev/pkm_registry" ++ [Byte.x00].

(** [size_of::<reg_src_hive_entry>()], pinned by the [const] assertion. *)
Definition hive_entry_stride : Z := 56.

Definition marshal_hive (h : rsi_hive) : reg_src_hive_entry :=
  mk_hive_entry (hv_name_len h) 0 (hv_name h) (hv_root_guid h) (hv_flags h) 0 (hv_scope_guid h).

Section source.
Context `{P : Platform}.

(** The kernel's view of the process's memory: the entry array is in it, at the address
    of the [Vec]'s buffer. *)
Definition entries_view (entries : rvec reg_src_hive_entry) (m : memory) : memory :=
  store m (rv_ptr entries) (concat (hive_entry_bytes <$> rv_elems entries)).

Definition rsi_register (hives count max_sequence : Z) : M Z :=
  if (count =? 0) || (hives =? 0) then (_ ← set_errno EINVAL; mret (-1))
  else
    reserved ← vec_try_reserve hive_entry_stride (vec_new 8) count;
    match reserved with
    | None => _ ← set_errno ENOMEM; mret (-1)
    | Some entries =>
        entries ← for_range count (λ i entries,
          h ← deref rsi_hive (hives + i * size_of rsi_hive);
          vec_push hive_entry_stride entries (marshal_hive h)) entries;
        let args := mk_register_args count max_sequence (rv_ptr entries) in
        fd ← libc_open DEVICE (Z.lor O_RDWR O_CLOEXEC);
        if fd <? 0 then mret (-1)
        else
          r ← ioctl fd REG_SRC_REGISTER args (entries_view entries);
          if r <? 0 then
            err ← get_errno;
            _ ← libc_close fd;
            _ ← set_errno err;
            mret (-1)
          else mret fd
    end.

(** ** What registration does, as a relation

    [register_step hs max s rc s']: with the hives [hs] as input, the call may end in
    [s'] with return value [rc]. *)

Definition register_args_for (hs : list rsi_hive) (max_sequence base : Z) :=
  mk_register_args (Z.of_nat (length hs)) max_sequence base.

(** The memory the kernel is shown holds, at the address in the argument struct, exactly
    the marshalled hives in order. *)
Definition shows_hives (hs : list rsi_hive) (args : reg_src_register_args) (view : memory) : Prop :=
  load view (ra_hives_ptr args) (56 * length hs)%nat =
    Some (concat ((λ h, hive_entry_bytes (marshal_hive h)) <$> hs)).

Inductive register_step (hs : list rsi_hive) (max_sequence : Z) (s : state) : Z -> state -> Prop :=
  | register_no_memory s' :
      may_refuse \/ alloc_limit < 56 * Z.max 4 (Z.of_nat (length hs)) ->
      st_errno s' = ENOMEM -> st_kern s' = st_kern s ->
      st_trace s' = st_trace s ++ [EvRefused] ->
      register_step hs max_sequence s (-1) s'
  | register_open_fails k e s' :
      k_open (st_kern s) DEVICE (Z.lor O_RDWR O_CLOEXEC) = (k, Err e) ->
      st_errno s' = e -> st_kern s' = k ->
      st_trace s' = st_trace s ++ [EvOpen DEVICE (Z.lor O_RDWR O_CLOEXEC)] ->
      register_step hs max_sequence s (-1) s'
  | register_ioctl_fails k fd base view k2 e k3 r s' :
      k_open (st_kern s) DEVICE (Z.lor O_RDWR O_CLOEXEC) = (k, Ok fd) ->
      shows_hives hs (register_args_for hs max_sequence base) view ->
      k_ioctl k fd REG_SRC_REGISTER (register_args_for hs max_sequence base) view = (k2, Err e) ->
      k_close k2 fd = (k3, r) ->
      st_errno s' = e -> st_kern s' = k3 ->
      st_trace s' = st_trace s ++
        [EvOpen DEVICE (Z.lor O_RDWR O_CLOEXEC);
         EvIoctl fd REG_SRC_REGISTER (register_args_for hs max_sequence base) view; EvClose fd] ->
      register_step hs max_sequence s (-1) s'
  | register_succeeds k fd base view k2 r s' :
      k_open (st_kern s) DEVICE (Z.lor O_RDWR O_CLOEXEC) = (k, Ok fd) ->
      shows_hives hs (register_args_for hs max_sequence base) view ->
      k_ioctl k fd REG_SRC_REGISTER (register_args_for hs max_sequence base) view = (k2, Ok r) ->
      st_errno s' = st_errno s -> st_kern s' = k2 ->
      st_trace s' = st_trace s ++
        [EvOpen DEVICE (Z.lor O_RDWR O_CLOEXEC);
         EvIoctl fd REG_SRC_REGISTER (register_args_for hs max_sequence base) view] ->
      register_step hs max_sequence s fd s'.

(** ** Marshalling loop *)

(** The pushes after a granted reservation never reallocate. *)
Lemma marshal_loop_spec hives count hs entries s :
  count = Z.of_nat (length hs) -> array_at rsi_hive (st_mem s) hives hs ->
  rv_elems entries = [] -> count <= rv_cap entries ->
  wp (for_range count (λ i entries,
        h ← deref rsi_hive (hives + i * size_of rsi_hive);
        vec_push hive_entry_stride entries (marshal_hive h)) entries) s
    (λ r s', s' = s /\ exists v, r = Ok v /\ rv_elems v = marshal_hive <$> hs /\
                                 rv_ptr v = rv_ptr entries).
Proof.
  intros Hc Hhs He Hcap. eapply wp_mono.
  - apply (wp_for_range
      (λ i v s', s' = s /\ rv_elems v = marshal_hive <$> take i hs /\
                 rv_ptr v = rv_ptr entries /\ rv_cap v = rv_cap entries) (λ _ _, False)).
    + intros j v s2 Hj (-> & Hv & Hvp & Hvc). apply wp_bind.
      assert (is_Some (hs !! j)) as [h Hh] by (apply lookup_lt_is_Some; lia).
      eapply wp_deref; [by eapply array_at_lookup|].
      apply wp_vec_push.
      * unfold vec_len. rewrite Hv, length_fmap, length_take. lia.
      * split_and!; simpl; [done| |done|done].
        by rewrite Hv, (take_S_r _ _ _ Hh), fmap_app.
    + by rewrite take_0.
  - intros [v|e] s' H; [|done]. destruct H as (-> & Hv & Hvp & _).
    split; [done|]. exists v. by rewrite take_ge in Hv by lia.
Qed.

Lemma concat_entries_length `{!UapiLaws platform_uapi} (es : list reg_src_hive_entry) :
  length (concat (hive_entry_bytes <$> es)) = (56 * length es)%nat.
Proof.
  induction es as [|e es IH]; csimpl; [done|].
  rewrite length_app, hive_entry_size, IH. lia.
Qed.

Lemma load_store_same m p bs : load (store m p bs) p (length bs) = Some bs.
Proof.
  apply load_Some. split; [done|]. intros i b Hb.
  rewrite lookup_store, decide_True by (apply lookup_lt_Some in Hb; lia).
  rewrite <- Hb. f_equal. lia.
Qed.

Lemma entries_view_shows `{!UapiLaws platform_uapi} hs v max m :
  rv_elems v = marshal_hive <$> hs ->
  shows_hives hs (register_args_for hs max (rv_ptr v)) (entries_view v m).
Proof.
  intros Hv. unfold shows_hives, entries_view. simpl ra_hives_ptr. rewrite Hv.
  rewrite <- (length_fmap marshal_hive hs), <- concat_entries_length, load_store_same.
  by rewrite <- list_fmap_compose.
Qed.

Lemma register_runs `{!PlatformLaws P} hives count max_sequence hs s :
  count = Z.of_nat (length hs) -> hs <> [] -> array_at rsi_hive (st_mem s) hives hs ->
  wp (rsi_register hives count max_sequence) s
    (λ r s', st_mem s' = st_mem s /\
             exists rc, r = Ok rc /\ register_step hs max_sequence s rc s').
Proof.
  intros Hc Hne Hhs. pose proof (array_ptr _ _ _ _ Hhs Hne) as Hp.
  assert (count <> 0) as Hc0 by (destruct hs; [done|simpl in Hc; lia]).
  unfold rsi_register. rewrite (proj2 (Z.eqb_neq _ _) Hc0), (proj2 (Z.eqb_neq _ _)) by lia.
  apply wp_bind, wp_vec_try_reserve.
  - intros v s1 [Hm1 He1 Hk1 Ht1] Hv Hcap. rewrite app_nil_r in Ht1. apply wp_bind.
    eapply wp_mono.
    { apply marshal_loop_spec; [done|by rewrite Hm1|done|].
      unfold vec_len in Hcap. rewrite Hv in Hcap. simpl in Hcap. lia. }
    intros r s' (-> & es & -> & Hes & _). clear v Hv Hcap.
    rewrite Hc. fold (register_args_for hs max_sequence (rv_ptr es)).
    pose proof (entries_view_shows hs es max_sequence (st_mem s1) Hes) as Hshow.
    unfold wp, mbind, M_bind, libc_open, ioctl, syscall. simpl. rewrite Hk1.
    destruct (k_open _ _ _) as [k [fd|e]] eqn:Hopen; simpl.
    2:{ split; [done|]. eexists. split; [done|].
        eapply register_open_fails; [done..|]. simpl. by rewrite Ht1. }
    rewrite (proj2 (Z.ltb_ge _ _)) by (by eapply k_open_nonneg).
    destruct (k_ioctl _ _ _ _ _) as [k2 [z|e]] eqn:Hio; simpl.
    + rewrite (proj2 (Z.ltb_ge _ _)) by (by eapply k_ioctl_nonneg).
      split; [done|]. eexists. split; [done|].
      eapply register_succeeds; [exact Hopen|exact Hshow|exact Hio|done..|]. simpl. by rewrite Ht1, <- app_assoc.
    + unfold get_errno, gets, libc_close, syscall. simpl.
      destruct (k_close _ _) as [k3 [z|e2]] eqn:Hcl; simpl;
        (split; [done|]; eexists; split; [done|];
         eapply register_ioctl_fails; [exact Hopen|exact Hshow|exact Hio|exact Hcl|done..|]; simpl; by rewrite Ht1, <- !app_assoc).
  - intros s1 [Hm1 He1 Hk1 Ht1] _ Hno. split; [done|]. eexists. split; [done|].
    apply register_no_memory; [|done..]. destruct Hno as [|Hno]; [by left|right].
    revert Hno. unfold grow_cap, hive_entry_stride, vec_len. simpl. lia.
Qed.

(** C7: a registration with at least one hive never aborts and never touches memory it was
    not given. It fails with [ENOMEM] before any system call, and then the allocator has
    refused a request, one of reasonable size or one for more than 256 GiB of hives; or with
    open(2)'s errno; or with the [ioctl]'s errno, the descriptor closed again; or it returns
    the descriptor, and then the kernel was shown exactly the marshalled hives, in order, under the count
    and sequence number the caller passed. *)
Theorem rsi_register_correct `{!PlatformLaws P} hives count max_sequence hs s :
  count = Z.of_nat (length hs) -> hs <> [] -> array_at rsi_hive (st_mem s) hives hs ->
  wp (rsi_register hives count max_sequence) s
    (λ r s', st_mem s' = st_mem s /\
             exists rc, r = Ok rc /\ register_step hs max_sequence s rc s').
Proof. apply register_runs. Qed.

(** No hives, or a NULL array, is refused with [EINVAL] before anything happens. *)
Theorem rsi_register_rejects hives count max_sequence s :
  count = 0 \/ hives = 0 ->
  rsi_register hives count max_sequence s = ORet (-1) (with_errno EINVAL s).
Proof.
  intros H. unfold rsi_register.
  assert ((count =? 0) || (hives =? 0) = true) as ->; [|done].
  destruct H as [->| ->]; by rewrite ?orb_true_r.
Qed.

End source.
