(* ===== verification/Request.v ===== *)
(** * Receiving and decoding requests: [src/src/request.rs]

    A frame read from the source fd is split into header and payload view
    ([rsi_parse_request]); the decoder of its op code then turns the payload into a flat
    struct in the caller's memory, whose name and data pointers lead back into the frame. *)

From S2P Require Import Prelude Memory Platform Effects.

(** ** The structs the caller passes *)

Record rsi_request := mk_rsi_request {
  rq_request_id : Z;
  rq_txn_id : Z;
  rq_payload : Z;
  rq_payload_len : Z;
  rq_op_code : Z
}.

#[export] Instance rsi_request_repr : Repr rsi_request := {
  repr_layout := [C_u64; C_u64; C_ptr; C_u32; C_u16];
  repr_of vs := match vs with
    | [VInt id; VInt txn; VInt p; VInt n; VInt op] => Some (mk_rsi_request id txn p n op)
    | _ => None
    end
}.

Record rsi_lookup := mk_rsi_lookup {
  rl_parent_guid : guid; rl_child_name : Z; rl_child_name_len : Z }.

#[export] Instance rsi_lookup_repr : Repr rsi_lookup := {
  repr_layout := [C_guid; C_ptr; C_u32];
  repr_of vs := match vs with
    | [VGuid g; VInt p; VInt n] => Some (mk_rsi_lookup g p n)
    | _ => None
    end
}.

Record rsi_create_entry := mk_rsi_create_entry {
  rce_parent_guid : guid; rce_child_guid : guid; rce_child_name : Z; rce_child_name_len : Z;
  rce_layer_name : Z; rce_layer_name_len : Z; rce_sequence : Z }.

#[export] Instance rsi_create_entry_repr : Repr rsi_create_entry := {
  repr_layout := [C_guid; C_guid; C_ptr; C_u32; C_ptr; C_u32; C_u64];
  repr_of vs := match vs with
    | [VGuid g; VGuid c; VInt p; VInt n; VInt lp; VInt ln; VInt q] =>
        Some (mk_rsi_create_entry g c p n lp ln q)
    | _ => None
    end
}.

Record rsi_hide_entry := mk_rsi_hide_entry {
  rhe_parent_guid : guid; rhe_child_name : Z; rhe_child_name_len : Z; rhe_layer_name : Z;
  rhe_layer_name_len : Z; rhe_sequence : Z }.

#[export] Instance rsi_hide_entry_repr : Repr rsi_hide_entry := {
  repr_layout := [C_guid; C_ptr; C_u32; C_ptr; C_u32; C_u64];
  repr_of vs := match vs with
    | [VGuid g; VInt p; VInt n; VInt lp; VInt ln; VInt q] =>
        Some (mk_rsi_hide_entry g p n lp ln q)
    | _ => None
    end
}.

Record rsi_delete_entry := mk_rsi_delete_entry {
  rde_parent_guid : guid; rde_child_name : Z; rde_child_name_len : Z; rde_layer_name : Z;
  rde_layer_name_len : Z }.

#[export] Instance rsi_delete_entry_repr : Repr rsi_delete_entry := {
  repr_layout := [C_guid; C_ptr; C_u32; C_ptr; C_u32];
  repr_of vs := match vs with
    | [VGuid g; VInt p; VInt n; VInt lp; VInt ln] => Some (mk_rsi_delete_entry g p n lp ln)
    | _ => None
    end
}.

Record rsi_enum_children := mk_rsi_enum_children { rec_parent_guid : guid }.

#[export] Instance rsi_enum_children_repr : Repr rsi_enum_children := {
  repr_layout := [C_guid];
  repr_of vs := match vs with [VGuid g] => Some (mk_rsi_enum_children g) | _ => None end
}.

Record rsi_create_key := mk_rsi_create_key {
  rck_guid : guid; rck_parent_guid : guid; rck_name : Z; rck_name_len : Z; rck_sd : Z;
  rck_sd_len : Z; rck_volatile_key : Z; rck_symlink : Z }.

#[export] Instance rsi_create_key_repr : Repr rsi_create_key := {
  repr_layout := [C_guid; C_guid; C_ptr; C_u32; C_ptr; C_u32; C_u8; C_u8];
  repr_of vs := match vs with
    | [VGuid g; VGuid pg; VInt p; VInt n; VInt sp; VInt sn; VInt v; VInt l] =>
        Some (mk_rsi_create_key g pg p n sp sn v l)
    | _ => None
    end
}.

Record rsi_key_guid := mk_rsi_key_guid { rkg_guid : guid }.

#[export] Instance rsi_key_guid_repr : Repr rsi_key_guid := {
  repr_layout := [C_guid];
  repr_of vs := match vs with [VGuid g] => Some (mk_rsi_key_guid g) | _ => None end
}.

Record rsi_write_key := mk_rsi_write_key {
  rwk_guid : guid; rwk_field_mask : Z; rwk_sd : Z; rwk_sd_len : Z; rwk_last_write_time : Z }.

#[export] Instance rsi_write_key_repr : Repr rsi_write_key := {
  repr_layout := [C_guid; C_u32; C_ptr; C_u32; C_u64];
  repr_of vs := match vs with
    | [VGuid g; VInt m; VInt p; VInt n; VInt t] => Some (mk_rsi_write_key g m p n t)
    | _ => None
    end
}.

Record rsi_query_values := mk_rsi_query_values {
  rqv_guid : guid; rqv_value_name : Z; rqv_value_name_len : Z; rqv_query_all : Z }.

#[export] Instance rsi_query_values_repr : Repr rsi_query_values := {
  repr_layout := [C_guid; C_ptr; C_u32; C_u8];
  repr_of vs := match vs with
    | [VGuid g; VInt p; VInt n; VInt a] => Some (mk_rsi_query_values g p n a)
    | _ => None
    end
}.

Record rsi_set_value := mk_rsi_set_value {
  rsv_guid : guid; rsv_value_name : Z; rsv_value_name_len : Z; rsv_layer_name : Z;
  rsv_layer_name_len : Z; rsv_value_type : Z; rsv_data : Z; rsv_data_len : Z;
  rsv_sequence : Z; rsv_expected_sequence : Z }.

#[export] Instance rsi_set_value_repr : Repr rsi_set_value := {
  repr_layout := [C_guid; C_ptr; C_u32; C_ptr; C_u32; C_u32; C_ptr; C_u32; C_u64; C_u64];
  repr_of vs := match vs with
    | [VGuid g; VInt p; VInt n; VInt lp; VInt ln; VInt ty; VInt dp; VInt dn; VInt q; VInt e] =>
        Some (mk_rsi_set_value g p n lp ln ty dp dn q e)
    | _ => None
    end
}.

Record rsi_delete_value_entry := mk_rsi_delete_value_entry {
  rdv_guid : guid; rdv_value_name : Z; rdv_value_name_len : Z; rdv_layer_name : Z;
  rdv_layer_name_len : Z }.

#[export] Instance rsi_delete_value_entry_repr : Repr rsi_delete_value_entry := {
  repr_layout := [C_guid; C_ptr; C_u32; C_ptr; C_u32];
  repr_of vs := match vs with
    | [VGuid g; VInt p; VInt n; VInt lp; VInt ln] =>
        Some (mk_rsi_delete_value_entry g p n lp ln)
    | _ => None
    end
}.

Record rsi_set_blanket_tombstone := mk_rsi_set_blanket_tombstone {
  rbt_guid : guid; rbt_layer_name : Z; rbt_layer_name_len : Z; rbt_set : Z; rbt_sequence : Z }.

#[export] Instance rsi_set_blanket_tombstone_repr : Repr rsi_set_blanket_tombstone := {
  repr_layout := [C_guid; C_ptr; C_u32; C_u8; C_u64];
  repr_of vs := match vs with
    | [VGuid g; VInt p; VInt n; VInt b; VInt q] =>
        Some (mk_rsi_set_blanket_tombstone g p n b q)
    | _ => None
    end
}.

Record rsi_begin_transaction := mk_rsi_begin_transaction {
  rbg_transaction_id : Z; rbg_mode : Z }.

#[export] Instance rsi_begin_transaction_repr : Repr rsi_begin_transaction := {
  repr_layout := [C_u64; C_u32];
  repr_of vs := match vs with
    | [VInt t; VInt m] => Some (mk_rsi_begin_transaction t m)
    | _ => None
    end
}.

Record rsi_transaction := mk_rsi_transaction { rtx_transaction_id : Z }.

#[export] Instance rsi_transaction_repr : Repr rsi_transaction := {
  repr_layout := [C_u64];
  repr_of vs := match vs with [VInt t] => Some (mk_rsi_transaction t) | _ => None end
}.

Record rsi_name := mk_rsi_name { rnm_name : Z; rnm_name_len : Z }.

#[export] Instance rsi_name_repr : Repr rsi_name := {
  repr_layout := [C_ptr; C_u32];
  repr_of vs := match vs with [VInt p; VInt n] => Some (mk_rsi_name p n) | _ => None end
}.

Section request.
Context `{P : Platform}.

(** ** Shared plumbing *)

(** [request.rs] and [response.rs] each have a [fail_errno], with the same body: it is
    modelled once, in [Effects.v]. *)
Definition bad_msg : M Z := fail_errno EBADMSG.

Definition einval : M Z := fail_errno EINVAL.

(** The empty static slice [&[]]. *)
Definition empty_slice : slice := mk_slice 1 [].

Definition req_payload_for (req expected_op : Z) : M slice :=
  o ← as_ref rsi_request req;
  match o with
  | None => fail EINVAL
  | Some r =>
      if negb (rq_op_code r =? wrap 16 expected_op) then fail EINVAL
      else if rq_payload r =? 0 then
        if rq_payload_len r =? 0 then mret empty_slice else fail EINVAL
      else from_raw_parts (rq_payload r) (rq_payload_len r)
  end.

(** The [req_payload_and_out!] macro, [k] being the rest of the decoder. *)
Definition req_payload_and_out (A : Type) `{Repr A} (req out expected_op : Z)
    (k : slice -> Z -> M Z) : M Z :=
  p ←? req_payload_for req expected_op;
  o ← as_mut A out;
  match o with
  | None => einval
  | Some out => k p out
  end.

Definition lpf (f : RsiLengthPrefixedField) : Z * Z :=
  (sl_ptr (lpf_data f), wrap 32 (Z.of_nat (length (sl_bytes (lpf_data f))))).

(** [(out.field_i, out.field_j) = lpf(&f)], then the rest. *)
Definition set_lpf (A : Type) `{Repr A} (out : Z) (i j : nat) (f : RsiLengthPrefixedField)
    : M unit :=
  _ ← set_field A out i (VInt (lpf f).1);
  set_field A out j (VInt (lpf f).2).

(** ** Frame header *)

Definition rsi_read_request (fd buf cap : Z) : M Z := libc_read fd buf cap.

Definition rsi_parse_request (frame len out : Z) : M Z :=
  o ← as_mut rsi_request out;
  match o with
  | None => einval
  | Some out =>
      if frame =? 0 then einval
      else
        frame_slice ← from_raw_parts frame len;
        match parse_rsi_request_header frame_slice with
        | Ok h =>
            let hdr := RSI_REQUEST_HEADER_SIZE in
            _ ← set_field rsi_request out 0 (VInt (hd_request_id h));
            _ ← set_field rsi_request out 1 (VInt (hd_txn_id h));
            _ ← set_field rsi_request out 4 (VInt (hd_op_code h));
            _ ← set_field rsi_request out 2 (VInt (frame + hdr));
            _ ← set_field rsi_request out 3 (VInt (wrap 32 (wrap 64 (len - hdr))));
            mret 0
        | Err _ => bad_msg
        end
  end.

(** ** Per-op decoders *)

Definition rsi_request_lookup (req out : Z) : M Z :=
  req_payload_and_out rsi_lookup req out RSI_LOOKUP (λ p out,
    match parse_rsi_lookup_request_payload p with
    | Ok v =>
        _ ← set_field rsi_lookup out 0 (VGuid (lk_parent_guid v));
        _ ← set_lpf rsi_lookup out 1 2 (lk_child_name v);
        mret 0
    | Err _ => bad_msg
    end).

Definition rsi_request_create_entry (req out : Z) : M Z :=
  req_payload_and_out rsi_create_entry req out RSI_CREATE_ENTRY (λ p out,
    match parse_rsi_create_entry_request_payload p with
    | Ok v =>
        _ ← set_field rsi_create_entry out 0 (VGuid (ce_parent_guid v));
        _ ← set_field rsi_create_entry out 1 (VGuid (ce_child_guid v));
        _ ← set_lpf rsi_create_entry out 2 3 (ce_child_name v);
        _ ← set_lpf rsi_create_entry out 4 5 (ce_layer_name v);
        _ ← set_field rsi_create_entry out 6 (VInt (ce_sequence v));
        mret 0
    | Err _ => bad_msg
    end).

Definition rsi_request_hide_entry (req out : Z) : M Z :=
  req_payload_and_out rsi_hide_entry req out RSI_HIDE_ENTRY (λ p out,
    match parse_rsi_hide_entry_request_payload p with
    | Ok v =>
        _ ← set_field rsi_hide_entry out 0 (VGuid (hi_parent_guid v));
        _ ← set_lpf rsi_hide_entry out 1 2 (hi_child_name v);
        _ ← set_lpf rsi_hide_entry out 3 4 (hi_layer_name v);
        _ ← set_field rsi_hide_entry out 5 (VInt (hi_sequence v));
        mret 0
    | Err _ => bad_msg
    end).

Definition rsi_request_delete_entry (req out : Z) : M Z :=
  req_payload_and_out rsi_delete_entry req out RSI_DELETE_ENTRY (λ p out,
    match parse_rsi_delete_entry_request_payload p with
    | Ok v =>
        _ ← set_field rsi_delete_entry out 0 (VGuid (de_parent_guid v));
        _ ← set_lpf rsi_delete_entry out 1 2 (de_child_name v);
        _ ← set_lpf rsi_delete_entry out 3 4 (de_layer_name v);
        mret 0
    | Err _ => bad_msg
    end).

Definition rsi_request_enum_children (req out : Z) : M Z :=
  req_payload_and_out rsi_enum_children req out RSI_ENUM_CHILDREN (λ p out,
    match parse_rsi_enum_children_request_payload p with
    | Ok v =>
        _ ← set_field rsi_enum_children out 0 (VGuid (ec_parent_guid v));
        mret 0
    | Err _ => bad_msg
    end).

Definition rsi_request_create_key (req out : Z) : M Z :=
  req_payload_and_out rsi_create_key req out RSI_CREATE_KEY (λ p out,
    match parse_rsi_create_key_request_payload p with
    | Ok v =>
        _ ← set_field rsi_create_key out 0 (VGuid (ck_guid v));
        _ ← set_field rsi_create_key out 1 (VGuid (ck_parent_guid v));
        _ ← set_lpf rsi_create_key out 2 3 (ck_name v);
        _ ← set_lpf rsi_create_key out 4 5 (ck_sd v);
        _ ← set_field rsi_create_key out 6 (VInt (Z.b2z (ck_volatile v)));
        _ ← set_field rsi_create_key out 7 (VInt (Z.b2z (ck_symlink v)));
        mret 0
    | Err _ => bad_msg
    end).

Definition rsi_request_read_key (req out : Z) : M Z :=
  req_payload_and_out rsi_key_guid req out RSI_READ_KEY (λ p out,
    match parse_rsi_read_key_request_payload p with
    | Ok v =>
        _ ← set_field rsi_key_guid out 0 (VGuid (kg_guid v));
        mret 0
    | Err _ => bad_msg
    end).

Definition rsi_request_drop_key (req out : Z) : M Z :=
  req_payload_and_out rsi_key_guid req out RSI_DROP_KEY (λ p out,
    match parse_rsi_drop_key_request_payload p with
    | Ok v =>
        _ ← set_field rsi_key_guid out 0 (VGuid (kg_guid v));
        mret 0
    | Err _ => bad_msg
    end).

Definition rsi_request_write_key (req out : Z) : M Z :=
  req_payload_and_out rsi_write_key req out RSI_WRITE_KEY (λ p out,
    match parse_rsi_write_key_request_payload p with
    | Ok v =>
        _ ← set_field rsi_write_key out 0 (VGuid (wk_guid v));
        _ ← set_field rsi_write_key out 1 (VInt (wk_field_mask v));
        _ ← match wk_sd v with
            | Some f => set_lpf rsi_write_key out 2 3 f
            | None =>
                _ ← set_field rsi_write_key out 2 (VInt 0);
                set_field rsi_write_key out 3 (VInt 0)
            end;
        _ ← set_field rsi_write_key out 4 (VInt (default 0 (wk_last_write_time v)));
        mret 0
    | Err _ => bad_msg
    end).

Definition rsi_request_query_values (req out : Z) : M Z :=
  req_payload_and_out rsi_query_values req out RSI_QUERY_VALUES (λ p out,
    match parse_rsi_query_values_request_payload p with
    | Ok v =>
        _ ← set_field rsi_query_values out 0 (VGuid (qv_guid v));
        _ ← set_lpf rsi_query_values out 1 2 (qv_value_name v);
        _ ← set_field rsi_query_values out 3 (VInt (Z.b2z (qv_query_all v)));
        mret 0
    | Err _ => bad_msg
    end).

Definition rsi_request_set_value (req out : Z) : M Z :=
  req_payload_and_out rsi_set_value req out RSI_SET_VALUE (λ p out,
    match parse_rsi_set_value_request_payload p with
    | Ok v =>
        _ ← set_field rsi_set_value out 0 (VGuid (sv_guid v));
        _ ← set_lpf rsi_set_value out 1 2 (sv_value_name v);
        _ ← set_lpf rsi_set_value out 3 4 (sv_layer_name v);
        _ ← set_field rsi_set_value out 5 (VInt (sv_value_type v));
        _ ← set_lpf rsi_set_value out 6 7 (sv_data v);
        _ ← set_field rsi_set_value out 8 (VInt (sv_sequence v));
        _ ← set_field rsi_set_value out 9 (VInt (sv_expected_sequence v));
        mret 0
    | Err _ => bad_msg
    end).

Definition rsi_request_delete_value_entry (req out : Z) : M Z :=
  req_payload_and_out rsi_delete_value_entry req out RSI_DELETE_VALUE_ENTRY (λ p out,
    match parse_rsi_delete_value_entry_request_payload p with
    | Ok v =>
        _ ← set_field rsi_delete_value_entry out 0 (VGuid (dv_guid v));
        _ ← set_lpf rsi_delete_value_entry out 1 2 (dv_value_name v);
        _ ← set_lpf rsi_delete_value_entry out 3 4 (dv_layer_name v);
        mret 0
    | Err _ => bad_msg
    end).

Definition rsi_request_set_blanket_tombstone (req out : Z) : M Z :=
  req_payload_and_out rsi_set_blanket_tombstone req out RSI_SET_BLANKET_TOMBSTONE (λ p out,
    match parse_rsi_set_blanket_tombstone_request_payload p with
    | Ok v =>
        _ ← set_field rsi_set_blanket_tombstone out 0 (VGuid (bt_guid v));
        _ ← set_lpf rsi_set_blanket_tombstone out 1 2 (bt_layer_name v);
        _ ← set_field rsi_set_blanket_tombstone out 3 (VInt (Z.b2z (bt_set v)));
        _ ← set_field rsi_set_blanket_tombstone out 4 (VInt (bt_sequence v));
        mret 0
    | Err _ => bad_msg
    end).

Definition rsi_request_begin_transaction (req out : Z) : M Z :=
  req_payload_and_out rsi_begin_transaction req out RSI_BEGIN_TRANSACTION (λ p out,
    match parse_rsi_begin_transaction_request_payload p with
    | Ok v =>
        _ ← set_field rsi_begin_transaction out 0 (VInt (bg_transaction_id v));
        _ ← set_field rsi_begin_transaction out 1 (VInt (RsiTransactionMode_code (bg_mode v)));
        mret 0
    | Err _ => bad_msg
    end).

Definition rsi_request_commit_transaction (req out : Z) : M Z :=
  req_payload_and_out rsi_transaction req out RSI_COMMIT_TRANSACTION (λ p out,
    match parse_rsi_commit_transaction_request_payload p with
    | Ok v =>
        _ ← set_field rsi_transaction out 0 (VInt (tx_transaction_id v));
        mret 0
    | Err _ => bad_msg
    end).

Definition rsi_request_abort_transaction (req out : Z) : M Z :=
  req_payload_and_out rsi_transaction req out RSI_ABORT_TRANSACTION (λ p out,
    match parse_rsi_abort_transaction_request_payload p with
    | Ok v =>
        _ ← set_field rsi_transaction out 0 (VInt (tx_transaction_id v));
        mret 0
    | Err _ => bad_msg
    end).

Definition rsi_request_delete_layer (req out : Z) : M Z :=
  req_payload_and_out rsi_name req out RSI_DELETE_LAYER (λ p out,
    match parse_rsi_delete_layer_request_payload p with
    | Ok v =>
        _ ← set_lpf rsi_name out 0 1 (dl_layer_name v);
        mret 0
    | Err _ => bad_msg
    end).

Definition rsi_request_flush (req out : Z) : M Z :=
  req_payload_and_out rsi_name req out RSI_FLUSH (λ p out,
    match parse_rsi_flush_request_payload p with
    | Ok v =>
        _ ← set_lpf rsi_name out 0 1 (fl_hive_name v);
        mret 0
    | Err _ => bad_msg
    end).

End request.
