(* ===== verification/RequestSpec.v ===== *)
(** * The request side: what [rsi_parse_request] and the decoders promise

    [decoder_correct] is the contract shared by the eighteen decoders of [Request.v]; it is
    proved once for the skeleton they share ([decoder_intro]) and then per decoder. *)

From S2P Require Import Prelude Memory Platform Effects Request.

Create HintDb decoders.

(** [Forall (borrowed sl) fields] from the well-formedness of the parse result. *)
Ltac solve_fields :=
  match goal with Hv : ?wf _ _ |- _ => unfold wf in Hv end;
  repeat (apply Forall_cons_2; [tauto|]); try apply Forall_nil_2.

Section request_spec.
Context `{P : Platform}.

(** ** What a decoder promises *)

(** The payload view [sl] of a request struct [r]: what [rsi_parse_request] leaves there,
    or NULL with length zero. *)
Inductive request_payload (m : memory) (r : rsi_request) : slice -> Prop :=
  | payload_null :
      rq_payload r = 0 -> rq_payload_len r = 0 -> request_payload m r empty_slice
  | payload_bytes bs :
      rq_payload r <> 0 -> 0 <= rq_payload r -> is_u32 (rq_payload_len r) ->
      rq_payload r + rq_payload_len r < 2 ^ 64 ->
      load m (rq_payload r) (Z.to_nat (rq_payload_len r)) = Some bs ->
      request_payload m r (mk_slice (rq_payload r) bs).

(** [m'] is [m] except that the struct at [out] now is [a]. *)
Definition stored (A : Type) `{Repr A} (m m' : memory) (out : Z) (a : A) : Prop :=
  read A m' out = Some a /\
  forall p, ~ (out <= p < out + size_of A) -> m' !! p = m !! p.

(** The contract every decoder shares, on every path: which of its inputs is at fault, the
    errno that says so, and what is in [out] when it returns 0. Nothing but [errno] (on
    failure) or the bytes of [out] (on success) changes. *)
Record decoder_correct {V A : Type} `{Repr A} (decoder : Z -> Z -> M Z) (op : Z)
    (parse : slice -> result LcsError V) (view : V -> A) : Prop := mk_decoder_correct {
  decoder_null_request out s :
    decoder 0 out s = ORet (-1) (with_errno EINVAL s);
  decoder_wrong_op req out r s :
    points_to rsi_request (st_mem s) req r -> rq_op_code r <> wrap 16 op ->
    decoder req out s = ORet (-1) (with_errno EINVAL s);
  decoder_null_payload req out r s :
    points_to rsi_request (st_mem s) req r -> rq_payload r = 0 -> rq_payload_len r <> 0 ->
    decoder req out s = ORet (-1) (with_errno EINVAL s);
  decoder_null_out req r sl s :
    points_to rsi_request (st_mem s) req r -> request_payload (st_mem s) r sl ->
    decoder req 0 s = ORet (-1) (with_errno EINVAL s);
  decoder_malformed req out r sl a e s :
    points_to rsi_request (st_mem s) req r -> rq_op_code r = wrap 16 op ->
    request_payload (st_mem s) r sl -> points_to A (st_mem s) out a ->
    parse sl = Err e -> decoder req out s = ORet (-1) (with_errno EBADMSG s);
  decoder_decodes req out r sl a v s :
    points_to rsi_request (st_mem s) req r -> rq_op_code r = wrap 16 op ->
    request_payload (st_mem s) r sl -> points_to A (st_mem s) out a ->
    parse sl = Ok v ->
    exists m', decoder req out s = ORet 0 (with_mem m' s) /\
               stored A (st_mem s) m' out (view v)
}.

(** What each decoder leaves in [out]. *)
Definition lookup_view (v : lookup_payload) : rsi_lookup :=
  mk_rsi_lookup (lk_parent_guid v) (lpf (lk_child_name v)).1 (lpf (lk_child_name v)).2.
Definition create_entry_view (v : create_entry_payload) : rsi_create_entry :=
  mk_rsi_create_entry (ce_parent_guid v) (ce_child_guid v)
    (lpf (ce_child_name v)).1 (lpf (ce_child_name v)).2
    (lpf (ce_layer_name v)).1 (lpf (ce_layer_name v)).2 (ce_sequence v).
Definition hide_entry_view (v : hide_entry_payload) : rsi_hide_entry :=
  mk_rsi_hide_entry (hi_parent_guid v) (lpf (hi_child_name v)).1 (lpf (hi_child_name v)).2
    (lpf (hi_layer_name v)).1 (lpf (hi_layer_name v)).2 (hi_sequence v).
Definition delete_entry_view (v : delete_entry_payload) : rsi_delete_entry :=
  mk_rsi_delete_entry (de_parent_guid v) (lpf (de_child_name v)).1 (lpf (de_child_name v)).2
    (lpf (de_layer_name v)).1 (lpf (de_layer_name v)).2.
Definition enum_children_view (v : enum_children_payload) : rsi_enum_children :=
  mk_rsi_enum_children (ec_parent_guid v).
Definition create_key_view (v : create_key_payload) : rsi_create_key :=
  mk_rsi_create_key (ck_guid v) (ck_parent_guid v) (lpf (ck_name v)).1 (lpf (ck_name v)).2
    (lpf (ck_sd v)).1 (lpf (ck_sd v)).2 (Z.b2z (ck_volatile v)) (Z.b2z (ck_symlink v)).
Definition key_guid_view (v : key_guid_payload) : rsi_key_guid := mk_rsi_key_guid (kg_guid v).

(** A descriptor the request does not carry is NULL with length 0, an absent time is 0. *)
Definition write_key_view (v : write_key_payload) : rsi_write_key :=
  let sd := match wk_sd v with Some f => lpf f | None => (0, 0) end in
  mk_rsi_write_key (wk_guid v) (wk_field_mask v) sd.1 sd.2
    (match wk_last_write_time v with Some t => t | None => 0 end).
Definition query_values_view (v : query_values_payload) : rsi_query_values :=
  mk_rsi_query_values (qv_guid v) (lpf (qv_value_name v)).1 (lpf (qv_value_name v)).2
    (Z.b2z (qv_query_all v)).
Definition set_value_view (v : set_value_payload) : rsi_set_value :=
  mk_rsi_set_value (sv_guid v) (lpf (sv_value_name v)).1 (lpf (sv_value_name v)).2
    (lpf (sv_layer_name v)).1 (lpf (sv_layer_name v)).2 (sv_value_type v)
    (lpf (sv_data v)).1 (lpf (sv_data v)).2 (sv_sequence v) (sv_expected_sequence v).
Definition delete_value_entry_view (v : delete_value_entry_payload) : rsi_delete_value_entry :=
  mk_rsi_delete_value_entry (dv_guid v) (lpf (dv_value_name v)).1 (lpf (dv_value_name v)).2
    (lpf (dv_layer_name v)).1 (lpf (dv_layer_name v)).2.
Definition set_blanket_tombstone_view (v : set_blanket_tombstone_payload)
    : rsi_set_blanket_tombstone :=
  mk_rsi_set_blanket_tombstone (bt_guid v) (lpf (bt_layer_name v)).1 (lpf (bt_layer_name v)).2
    (Z.b2z (bt_set v)) (bt_sequence v).
Definition begin_transaction_view (v : begin_transaction_payload RsiTransactionMode)
    : rsi_begin_transaction :=
  mk_rsi_begin_transaction (bg_transaction_id v) (RsiTransactionMode_code (bg_mode v)).
Definition transaction_view (v : transaction_payload) : rsi_transaction :=
  mk_rsi_transaction (tx_transaction_id v).
Definition layer_name_view (v : layer_name_payload) : rsi_name :=
  mk_rsi_name (lpf (dl_layer_name v)).1 (lpf (dl_layer_name v)).2.
Definition hive_name_view (v : hive_name_payload) : rsi_name :=
  mk_rsi_name (lpf (fl_hive_name v)).1 (lpf (fl_hive_name v)).2.

(** ** Field assignments as a list of writes *)

Definition write_all (tys : list cty) (out : Z) (ws : list (nat * cval)) (m : memory) : memory :=
  foldl (λ m iv, write_field tys out iv.1 iv.2 m) m ws.

Definition update_all (tys : list cty) (ws : list (nat * cval)) (vs : list cval) : list cval :=
  foldl (λ vs iv, match tys !! iv.1 with
                  | Some t => <[iv.1 := norm_val t iv.2]> vs
                  | None => vs end) vs ws.

Lemma lookup_write_all tys out ws m a :
  ~ (out <= a < out + struct_size tys) -> write_all tys out ws m !! a = m !! a.
Proof.
  intros Ha. unfold write_all. revert m. induction ws as [|[i v] ws IH]; intros m; simpl; [done|].
  by rewrite IH, lookup_write_field.
Qed.

Lemma read_struct_write_all tys out ws m vs :
  read_struct m out tys = Some vs ->
  read_struct (write_all tys out ws m) out tys = Some (update_all tys ws vs).
Proof.
  unfold write_all, update_all. revert m vs.
  induction ws as [|[i v] ws IH]; intros m vs Hvs; simpl; [done|]. apply IH.
  destruct (tys !! i) as [t|] eqn:Ht; [by apply read_struct_write_field|].
  unfold write_field. rewrite Ht. by destruct (offsets tys !! i).
Qed.

(** [prog] performs the assignments [ws] to the struct at [out] and returns 0. *)
Definition assigns (tys : list cty) (out : Z) (prog : M Z) (ws : list (nat * cval)) : Prop :=
  forall s, prog s = ORet 0 (with_mem (write_all tys out ws (st_mem s)) s).

Lemma assigns_ret tys out : assigns tys out (mret 0) [].
Proof. by intros []. Qed.

Lemma assigns_field A `{Repr A} out i v prog ws :
  assigns (repr_layout A) out prog ws ->
  assigns (repr_layout A) out (_ ← set_field A out i v; prog) ((i, v) :: ws).
Proof. intros Hp s. exact (Hp _). Qed.

Lemma assigns_lpf A `{Repr A} out i j f prog ws :
  assigns (repr_layout A) out prog ws ->
  assigns (repr_layout A) out (_ ← set_lpf A out i j f; prog)
    ((i, VInt (lpf f).1) :: (j, VInt (lpf f).2) :: ws).
Proof. intros Hp s. exact (Hp _). Qed.

(** Two assignments grouped in one branch of the source. *)
Lemma assigns_pair A `{Repr A} out i v j w prog ws :
  assigns (repr_layout A) out prog ws ->
  assigns (repr_layout A) out (_ ← (_ ← set_field A out i v; set_field A out j w); prog)
    ((i, v) :: (j, w) :: ws).
Proof. intros Hp s. exact (Hp _). Qed.

Lemma read_length A `{Repr A} m p a :
  read A m p = Some a ->
  exists vs, read_struct m p (repr_layout A) = Some vs /\ length vs = length (repr_layout A).
Proof.
  unfold read. intros (vs & Hvs & _)%bind_Some. exists vs. split; [done|].
  apply read_struct_Some in Hvs as (bs & _ & ->). apply length_decode_struct.
Qed.

(** After the assignments the struct reads as the record they build. *)
Lemma assigns_stored A `{Repr A} out a b prog ws s :
  assigns (repr_layout A) out prog ws -> points_to A (st_mem s) out a ->
  (forall vs, length vs = length (repr_layout A) ->
     repr_of (update_all (repr_layout A) ws vs) = Some b) ->
  exists m', prog s = ORet 0 (with_mem m' s) /\ stored A (st_mem s) m' out b.
Proof.
  intros Hp (_ & _ & Hr) Hb. apply read_length in Hr as (vs & Hvs & Hl).
  eexists. split; [apply Hp|]. split.
  - unfold read. erewrite read_struct_write_all by done. by apply Hb.
  - intros p Hpa. by apply lookup_write_all.
Qed.

(** ** The decoder skeleton *)

Definition slice_in_range (sl : slice) : Prop :=
  0 <= sl_ptr sl /\ Z.of_nat (length (sl_bytes sl)) < 2 ^ 32 /\
  sl_ptr sl + Z.of_nat (length (sl_bytes sl)) < 2 ^ 64.

Lemma request_payload_in_range m r sl : request_payload m r sl -> slice_in_range sl.
Proof.
  intros [Hp Hn|bs Hp Hp0 Hn Hw Hl]; [by split_and!|].
  apply load_length in Hl. unfold is_u32 in Hn. split_and!; simpl; lia.
Qed.

(** A borrowed field's pointer and length fit their C types: the [as u32] cast in [lpf]
    loses nothing. *)
Lemma borrowed_lpf sl f :
  slice_in_range sl -> borrowed sl f ->
  0 <= (lpf f).1 < 2 ^ 64 /\ 0 <= (lpf f).2 < 2 ^ 32 /\
  (lpf f).2 = Z.of_nat (length (sl_bytes (lpf_data f))).
Proof.
  intros (? & ? & ?) (off & ? & Hp & _). unfold lpf. simpl.
  rewrite wrap_small by lia. lia.
Qed.

Lemma deref_eq A `{Repr A} p a s :
  points_to A (st_mem s) p a -> deref A p s = ORet a s.
Proof.
  intros (Hp & Hal & Hr). unfold deref.
  by rewrite (proj2 (Z.eqb_neq _ _) Hp), Hal, Z.eqb_refl, Hr.
Qed.

Lemma as_ref_eq A `{Repr A} p a s :
  points_to A (st_mem s) p a -> as_ref A p s = ORet (Some a) s.
Proof.
  intros Hp. unfold as_ref. rewrite (proj2 (Z.eqb_neq _ _) (proj1 Hp)).
  unfold mbind, M_bind. by rewrite (deref_eq _ _ _ _ Hp).
Qed.

Lemma as_mut_eq A `{Repr A} p a s :
  points_to A (st_mem s) p a -> as_mut A p s = ORet (Some p) s.
Proof.
  intros Hp. unfold as_mut. rewrite (proj2 (Z.eqb_neq _ _) (proj1 Hp)).
  unfold mbind, M_bind. by rewrite (deref_eq _ _ _ _ Hp).
Qed.

Lemma from_raw_parts_eq p n bs s :
  p <> 0 -> n <= isize_max -> p + n < 2 ^ 64 -> load (st_mem s) p (Z.to_nat n) = Some bs ->
  from_raw_parts p n s = ORet (mk_slice p bs) s.
Proof.
  intros Hp Hn Hw Hl. unfold from_raw_parts.
  rewrite (proj2 (Z.eqb_neq _ _) Hp), (proj2 (Z.ltb_ge _ _)), (proj2 (Z.leb_gt _ _)) by lia.
  simpl. by rewrite Hl.
Qed.

(** [req_payload_for] on a request struct: its three refusals and its success. *)
Lemma req_payload_for_eq req op r s :
  points_to rsi_request (st_mem s) req r ->
  (rq_op_code r <> wrap 16 op -> req_payload_for req op s = OErr EINVAL s) /\
  (rq_payload r = 0 -> rq_payload_len r <> 0 -> req_payload_for req op s = OErr EINVAL s) /\
  (forall sl, rq_op_code r = wrap 16 op -> request_payload (st_mem s) r sl ->
     req_payload_for req op s = ORet sl s).
Proof.
  intros Hr. unfold req_payload_for, mbind, M_bind. rewrite (as_ref_eq _ _ _ _ Hr).
  destruct (Z.eqb_spec (rq_op_code r) (wrap 16 op)) as [Hop|Hop]; simpl.
  - split_and!; [done| |].
    + intros -> Hn. simpl. by rewrite (proj2 (Z.eqb_neq _ _) Hn).
    + intros sl _ [Hp Hn|bs Hp Hp0 Hn Hw Hl]; [by rewrite Hp, Hn|].
      rewrite (proj2 (Z.eqb_neq _ _) Hp). unfold is_u32 in Hn.
      by apply from_raw_parts_eq; [|unfold isize_max; lia|..].
  - by split_and!.
Qed.

Section skeleton.
Context {V A : Type} `{Repr A} (decoder : Z -> Z -> M Z) (op : Z).
Context (parse : slice -> result LcsError V) (wf : slice -> V -> Prop) (view : V -> A).
Context (assign : V -> Z -> M Z).

(** A decoder that is the macro, the parser and a list of assignments that build [view]. *)
Lemma decoder_intro :
  (forall req out, decoder req out = req_payload_and_out A req out op (λ p out,
     match parse p with Ok v => assign v out | Err _ => bad_msg end)) ->
  returns parse wf ->
  (forall sl v out, slice_in_range sl -> wf sl v ->
     exists ws, assigns (repr_layout A) out (assign v out) ws /\
       forall vs, length vs = length (repr_layout A) ->
         repr_of (update_all (repr_layout A) ws vs) = Some (view v)) ->
  decoder_correct decoder op parse view.
Proof.
  intros Hdec Hwf Hview. split; intros; rewrite Hdec; unfold req_payload_and_out, or_fail.
  - done.
  - destruct (req_payload_for_eq req op r s) as (-> & _); done.
  - destruct (req_payload_for_eq req op r s) as (_ & -> & _); done.
  - destruct (decide (rq_op_code r = wrap 16 op)) as [Hop|Hop].
    + destruct (req_payload_for_eq req op r s) as (_ & _ & Heq); [done|].
      by rewrite (Heq sl).
    + by destruct (req_payload_for_eq req op r s) as (-> & _).
  - destruct (req_payload_for_eq req op r s) as (_ & _ & Heq); [done|].
    rewrite (Heq sl) by done. unfold mbind, M_bind.
    erewrite as_mut_eq by done. by match goal with E : parse sl = _ |- _ => rewrite E end.
  - destruct (req_payload_for_eq req op r s) as (_ & _ & Heq); [done|].
    rewrite (Heq sl) by done. unfold mbind, M_bind. erewrite as_mut_eq by done.
    match goal with E : parse sl = _ |- _ => rewrite E; apply Hwf in E as Hv end.
    destruct (Hview sl v out) as (ws & Hws & Hb); [by eapply request_payload_in_range|done|].
    by eapply assigns_stored.
Qed.
End skeleton.

(** Splits the hypotheses of a parse result and turns each borrowed field into the ranges of
    its pointer and length. *)
Ltac split_wf Hsl :=
  repeat match goal with H : _ /\ _ |- _ => lazymatch type of H with
    | 0 <= _ < _ => fail | slice_in_range _ => fail | _ => destruct H end end;
  repeat match goal with
  | H : borrowed _ ?f |- _ =>
      let Hp := fresh "Hptr" in let Hn := fresh "Hlen" in
      destruct (borrowed_lpf _ _ Hsl H) as (Hp & Hn & _); clear H
  end.

(** Collects the assignments of a decoder body. *)
Ltac collect_assigns :=
  repeat first [ apply assigns_ret | apply assigns_field | apply assigns_lpf | apply assigns_pair ].

Ltac destruct_vals vs Hl :=
  repeat (destruct vs as [|? vs]; [discriminate Hl|]);
  destruct vs; [clear Hl|discriminate Hl].

Ltac solve_cval_wf :=
  first [ assumption | exact (conj (Z.le_refl 0) eq_refl)
        | match goal with |- cval_wf _ (VInt (Z.b2z ?b)) => by destruct b end ].

Ltac solve_decoder :=
  let sl := fresh "sl" in let v := fresh "v" in let out := fresh "out" in
  let Hsl := fresh "Hsl" in let Hv := fresh "Hv" in let vs := fresh "vs" in
  let Hl := fresh "Hl" in
  intros sl v out Hsl Hv;
  cbv beta delta [lookup_wf create_entry_wf hide_entry_wf delete_entry_wf enum_children_wf
    create_key_wf key_guid_wf query_values_wf set_value_wf delete_value_entry_wf
    set_blanket_tombstone_wf begin_transaction_wf transaction_wf layer_name_wf
    hive_name_wf] in Hv;
  split_wf Hsl;
  eexists; split; [collect_assigns|];
  intros vs Hl; destruct_vals vs Hl;
  cbn -[norm_val lpf]; rewrite !norm_val_wf by solve_cval_wf; reflexivity.

Context `{!PlatformLaws P}.

Lemma lookup_decoder :
  decoder_correct rsi_request_lookup RSI_LOOKUP parse_rsi_lookup_request_payload lookup_view.
Proof. eapply decoder_intro; [done|apply parse_lookup_wf|solve_decoder]. Qed.

Lemma create_entry_decoder :
  decoder_correct rsi_request_create_entry RSI_CREATE_ENTRY
    parse_rsi_create_entry_request_payload create_entry_view.
Proof. eapply decoder_intro; [done|apply parse_create_entry_wf|solve_decoder]. Qed.

Lemma hide_entry_decoder :
  decoder_correct rsi_request_hide_entry RSI_HIDE_ENTRY
    parse_rsi_hide_entry_request_payload hide_entry_view.
Proof. eapply decoder_intro; [done|apply parse_hide_entry_wf|solve_decoder]. Qed.

Lemma delete_entry_decoder :
  decoder_correct rsi_request_delete_entry RSI_DELETE_ENTRY
    parse_rsi_delete_entry_request_payload delete_entry_view.
Proof. eapply decoder_intro; [done|apply parse_delete_entry_wf|solve_decoder]. Qed.

Lemma enum_children_decoder :
  decoder_correct rsi_request_enum_children RSI_ENUM_CHILDREN
    parse_rsi_enum_children_request_payload enum_children_view.
Proof. eapply decoder_intro; [done|apply parse_enum_children_wf|solve_decoder]. Qed.

Lemma create_key_decoder :
  decoder_correct rsi_request_create_key RSI_CREATE_KEY
    parse_rsi_create_key_request_payload create_key_view.
Proof. eapply decoder_intro; [done|apply parse_create_key_wf|solve_decoder]. Qed.

Lemma read_key_decoder :
  decoder_correct rsi_request_read_key RSI_READ_KEY
    parse_rsi_read_key_request_payload key_guid_view.
Proof. eapply decoder_intro; [done|apply parse_read_key_wf|solve_decoder]. Qed.

Lemma drop_key_decoder :
  decoder_correct rsi_request_drop_key RSI_DROP_KEY
    parse_rsi_drop_key_request_payload key_guid_view.
Proof. eapply decoder_intro; [done|apply parse_drop_key_wf|solve_decoder]. Qed.

Lemma write_key_decoder :
  decoder_correct rsi_request_write_key RSI_WRITE_KEY
    parse_rsi_write_key_request_payload write_key_view.
Proof.
  eapply decoder_intro; [done|apply parse_write_key_wf|].
  intros sl [g m [f|] [t|]] out Hsl (Hg & Hm & Hf & Ht); simpl in *; split_wf Hsl;
    (eexists; split; [collect_assigns|]; intros vs Hl; destruct_vals vs Hl;
     cbn -[norm_val lpf]; rewrite !norm_val_wf by solve_cval_wf; reflexivity).
Qed.

Lemma query_values_decoder :
  decoder_correct rsi_request_query_values RSI_QUERY_VALUES
    parse_rsi_query_values_request_payload query_values_view.
Proof. eapply decoder_intro; [done|apply parse_query_values_wf|solve_decoder]. Qed.

Lemma set_value_decoder :
  decoder_correct rsi_request_set_value RSI_SET_VALUE
    parse_rsi_set_value_request_payload set_value_view.
Proof. eapply decoder_intro; [done|apply parse_set_value_wf|solve_decoder]. Qed.

Lemma delete_value_entry_decoder :
  decoder_correct rsi_request_delete_value_entry RSI_DELETE_VALUE_ENTRY
    parse_rsi_delete_value_entry_request_payload delete_value_entry_view.
Proof. eapply decoder_intro; [done|apply parse_delete_value_entry_wf|solve_decoder]. Qed.

Lemma set_blanket_tombstone_decoder :
  decoder_correct rsi_request_set_blanket_tombstone RSI_SET_BLANKET_TOMBSTONE
    parse_rsi_set_blanket_tombstone_request_payload set_blanket_tombstone_view.
Proof. eapply decoder_intro; [done|apply parse_set_blanket_tombstone_wf|solve_decoder]. Qed.

Lemma begin_transaction_decoder :
  decoder_correct rsi_request_begin_transaction RSI_BEGIN_TRANSACTION
    parse_rsi_begin_transaction_request_payload begin_transaction_view.
Proof. eapply decoder_intro; [done|apply parse_begin_transaction_wf|solve_decoder]. Qed.

Lemma commit_transaction_decoder :
  decoder_correct rsi_request_commit_transaction RSI_COMMIT_TRANSACTION
    parse_rsi_commit_transaction_request_payload transaction_view.
Proof. eapply decoder_intro; [done|apply parse_commit_transaction_wf|solve_decoder]. Qed.

Lemma abort_transaction_decoder :
  decoder_correct rsi_request_abort_transaction RSI_ABORT_TRANSACTION
    parse_rsi_abort_transaction_request_payload transaction_view.
Proof. eapply decoder_intro; [done|apply parse_abort_transaction_wf|solve_decoder]. Qed.

Lemma delete_layer_decoder :
  decoder_correct rsi_request_delete_layer RSI_DELETE_LAYER
    parse_rsi_delete_layer_request_payload layer_name_view.
Proof. eapply decoder_intro; [done|apply parse_delete_layer_wf|solve_decoder]. Qed.

Lemma flush_decoder :
  decoder_correct rsi_request_flush RSI_FLUSH
    parse_rsi_flush_request_payload hive_name_view.
Proof. eapply decoder_intro; [done|apply parse_flush_wf|solve_decoder]. Qed.

(** ** Properties of the request side *)

(** [bs] is a frame of [len] bytes at [frame], in the caller's valid memory. *)
Record frame_at (m : memory) (frame len : Z) (bs : list byte) : Prop := mk_frame_at {
  frame_ptr : 0 < frame;
  frame_len : len = Z.of_nat (length bs);
  frame_small : len <= isize_max;
  frame_no_wrap : frame + len < 2 ^ 64;
  frame_load : load m frame (length bs) = Some bs
}.

Definition header_view (frame len : Z) (h : request_header) : rsi_request :=
  mk_rsi_request (hd_request_id h) (hd_txn_id h) (frame + RSI_REQUEST_HEADER_SIZE)
    (wrap 32 (len - RSI_REQUEST_HEADER_SIZE)) (hd_op_code h).

(** The five assignments of [rsi_parse_request]. *)
Definition header_writes (frame len : Z) (h : request_header) : list (nat * cval) :=
  [ (0%nat, VInt (hd_request_id h)); (1%nat, VInt (hd_txn_id h)); (4%nat, VInt (hd_op_code h));
    (2%nat, VInt (frame + RSI_REQUEST_HEADER_SIZE));
    (3%nat, VInt (wrap 32 (wrap 64 (len - RSI_REQUEST_HEADER_SIZE)))) ].

Lemma wrap_wrap z : wrap 32 (wrap 64 z) = wrap 32 z.
Proof.
  unfold wrap. apply Z.mod_mod_divide. by exists (2 ^ 32).
Qed.

Lemma request_ops_u16 op : op ∈ request_ops -> is_u16 op.
Proof. intros (z & -> & _)%list_elem_of_fmap. by apply wrap_range. Qed.

Lemma header_stored frame len bs h out r0 s :
  frame_at (st_mem s) frame len bs -> points_to rsi_request (st_mem s) out r0 ->
  parse_rsi_request_header (mk_slice frame bs) = Ok h ->
  exists m', rsi_parse_request frame len out s = ORet 0 (with_mem m' s) /\
             stored rsi_request (st_mem s) m' out (header_view frame len h).
Proof.
  intros [Hp Hlen Hsm Hw Hl] Hout Hh.
  destruct (parse_header_wf _ _ Hh) as (Hmin & Hop & Hid & Htxn). simpl in Hmin.
  apply request_ops_u16 in Hop. rewrite request_header_size in Hmin.
  destruct (assigns_stored rsi_request out r0 (header_view frame len h)
              (_ ← set_field rsi_request out 0 (VInt (hd_request_id h));
               _ ← set_field rsi_request out 1 (VInt (hd_txn_id h));
               _ ← set_field rsi_request out 4 (VInt (hd_op_code h));
               _ ← set_field rsi_request out 2 (VInt (frame + RSI_REQUEST_HEADER_SIZE));
               _ ← set_field rsi_request out 3
                     (VInt (wrap 32 (wrap 64 (len - RSI_REQUEST_HEADER_SIZE))));
               mret 0) (header_writes frame len h) s) as (m' & Hrun & Hst).
  - unfold header_writes. repeat apply assigns_field. apply assigns_ret.
  - done.
  - intros vs Hvl. destruct_vals vs Hvl. cbn -[norm_val wrap].
    unfold header_view. rewrite request_header_size, !norm_val_wf, wrap_wrap;
      try reflexivity; try assumption.
    + by apply wrap_range.
    + cbn. lia.
  - exists m'. split; [|done]. rewrite <- Hrun. unfold rsi_parse_request.
    unfold mbind at 1, M_bind at 1. rewrite (as_mut_eq _ _ _ _ Hout).
    rewrite (proj2 (Z.eqb_neq frame 0)) by lia. unfold mbind at 1, M_bind at 1.
    rewrite (from_raw_parts_eq _ _ bs), Hh; [done|lia|done|done|].
    by rewrite Hlen, Nat2Z.id.
Qed.

Lemma parse_request_outcome frame len bs out r0 s :
  frame_at (st_mem s) frame len bs -> points_to rsi_request (st_mem s) out r0 ->
  match parse_rsi_request_header (mk_slice frame bs) with
  | Err _ => rsi_parse_request frame len out s = ORet (-1) (with_errno EBADMSG s)
  | Ok h => exists m', rsi_parse_request frame len out s = ORet 0 (with_mem m' s) /\
                       stored rsi_request (st_mem s) m' out (header_view frame len h)
  end.
Proof.
  intros Hf Hout. destruct (parse_rsi_request_header _) as [h|e] eqn:Hh.
  - by eapply header_stored.
  - destruct Hf as [Hp Hlen Hsm Hw Hl]. unfold rsi_parse_request.
    unfold mbind at 1, M_bind at 1. rewrite (as_mut_eq _ _ _ _ Hout).
    rewrite (proj2 (Z.eqb_neq frame 0)) by lia. unfold mbind at 1, M_bind at 1.
    rewrite (from_raw_parts_eq _ _ bs), Hh; [done|lia|done|done|].
    by rewrite Hlen, Nat2Z.id.
Qed.

(** C25: [rsi_parse_request] on a valid frame and a valid [out] is exactly lcs-core's header
    parse: a malformed frame gives [EBADMSG] and leaves memory alone, and a well-formed one
    fills [out] with the header, the address just past the 22-byte header and the number of
    bytes left (as [u32]), writing no byte outside [out]. *)
Theorem rsi_parse_request_correct frame len bs out r0 s :
  frame_at (st_mem s) frame len bs -> points_to rsi_request (st_mem s) out r0 ->
  match parse_rsi_request_header (mk_slice frame bs) with
  | Err _ => rsi_parse_request frame len out s = ORet (-1) (with_errno EBADMSG s)
  | Ok h => exists m', rsi_parse_request frame len out s = ORet 0 (with_mem m' s) /\
                       stored rsi_request (st_mem s) m' out (header_view frame len h)
  end.
Proof. apply parse_request_outcome. Qed.

(** A NULL [out], or a valid one and a NULL frame. *)
Definition null_argument (m : memory) (frame out : Z) : Prop :=
  out = 0 \/ ((exists r0, points_to rsi_request m out r0) /\ frame = 0).

(** NULL arguments of [rsi_parse_request] are [EINVAL], [out] being checked first. *)
Theorem rsi_parse_request_null frame len out s :
  null_argument (st_mem s) frame out ->
  rsi_parse_request frame len out s = ORet (-1) (with_errno EINVAL s).
Proof.
  intros [->|[[r0 Hout] ->]]; [done|]. unfold rsi_parse_request, mbind, M_bind.
  by rewrite (as_mut_eq _ _ _ _ Hout).
Qed.

(** C27: the five path-entry decoders obey the decoder contract. *)
Theorem entry_decoders_correct :
  decoder_correct rsi_request_lookup RSI_LOOKUP parse_rsi_lookup_request_payload lookup_view /\
  decoder_correct rsi_request_create_entry RSI_CREATE_ENTRY
    parse_rsi_create_entry_request_payload create_entry_view /\
  decoder_correct rsi_request_hide_entry RSI_HIDE_ENTRY
    parse_rsi_hide_entry_request_payload hide_entry_view /\
  decoder_correct rsi_request_delete_entry RSI_DELETE_ENTRY
    parse_rsi_delete_entry_request_payload delete_entry_view /\
  decoder_correct rsi_request_enum_children RSI_ENUM_CHILDREN
    parse_rsi_enum_children_request_payload enum_children_view.
Proof.
  split_and!; [apply lookup_decoder|apply create_entry_decoder|apply hide_entry_decoder
              |apply delete_entry_decoder|apply enum_children_decoder].
Qed.

(** C28: the four key decoders obey the decoder contract; WRITE_KEY's optional descriptor and
    time are NULL/0 and 0 when the request does not carry them. *)
Theorem key_decoders_correct :
  decoder_correct rsi_request_create_key RSI_CREATE_KEY
    parse_rsi_create_key_request_payload create_key_view /\
  decoder_correct rsi_request_read_key RSI_READ_KEY
    parse_rsi_read_key_request_payload key_guid_view /\
  decoder_correct rsi_request_write_key RSI_WRITE_KEY
    parse_rsi_write_key_request_payload write_key_view /\
  decoder_correct rsi_request_drop_key RSI_DROP_KEY
    parse_rsi_drop_key_request_payload key_guid_view.
Proof.
  split_and!; [apply create_key_decoder|apply read_key_decoder|apply write_key_decoder
              |apply drop_key_decoder].
Qed.

(** C29: the four value decoders obey the decoder contract. *)
Theorem value_decoders_correct :
  decoder_correct rsi_request_query_values RSI_QUERY_VALUES
    parse_rsi_query_values_request_payload query_values_view /\
  decoder_correct rsi_request_set_value RSI_SET_VALUE
    parse_rsi_set_value_request_payload set_value_view /\
  decoder_correct rsi_request_delete_value_entry RSI_DELETE_VALUE_ENTRY
    parse_rsi_delete_value_entry_request_payload delete_value_entry_view /\
  decoder_correct rsi_request_set_blanket_tombstone RSI_SET_BLANKET_TOMBSTONE
    parse_rsi_set_blanket_tombstone_request_payload set_blanket_tombstone_view.
Proof.
  split_and!; [apply query_values_decoder|apply set_value_decoder
              |apply delete_value_entry_decoder|apply set_blanket_tombstone_decoder].
Qed.

(** C30: the transaction, layer and flush decoders obey the decoder contract. *)
Theorem transaction_decoders_correct :
  decoder_correct rsi_request_begin_transaction RSI_BEGIN_TRANSACTION
    parse_rsi_begin_transaction_request_payload begin_transaction_view /\
  decoder_correct rsi_request_commit_transaction RSI_COMMIT_TRANSACTION
    parse_rsi_commit_transaction_request_payload transaction_view /\
  decoder_correct rsi_request_abort_transaction RSI_ABORT_TRANSACTION
    parse_rsi_abort_transaction_request_payload transaction_view /\
  decoder_correct rsi_request_delete_layer RSI_DELETE_LAYER
    parse_rsi_delete_layer_request_payload layer_name_view /\
  decoder_correct rsi_request_flush RSI_FLUSH parse_rsi_flush_request_payload hive_name_view.
Proof.
  split_and!; [apply begin_transaction_decoder|apply commit_transaction_decoder
              |apply abort_transaction_decoder|apply delete_layer_decoder|apply flush_decoder].
Qed.

(** *** Receiving a frame *)

Lemma load_store m p bs : load (store m p bs) p (length bs) = Some bs.
Proof.
  apply load_Some. split; [done|]. intros i b Hi. apply lookup_lt_Some in Hi as Hlt.
  rewrite lookup_store, decide_True by lia. rewrite <- Hi. f_equal. lia.
Qed.

(** [m'] is [m] with the bytes [bs] delivered at [buf], and nothing else changed. *)
Definition received (m m' : memory) (buf : Z) (bs : list byte) : Prop :=
  load m' buf (length bs) = Some bs /\
  forall p, ~ (buf <= p < buf + Z.of_nat (length bs)) -> m' !! p = m !! p.

Lemma read_request_outcome fd buf cap bs0 s :
  load (st_mem s) buf (Z.to_nat cap) = Some bs0 ->
  exists k res, k_read (st_kern s) fd cap = (k, res) /\
    let s1 := with_kern k (log (EvRead fd cap) s) in
    match res with
    | Ok bs => exists m', rsi_read_request fd buf cap s =
          ORet (Z.of_nat (length bs)) (with_mem m' s1) /\
        Z.of_nat (length bs) <= cap /\ received (st_mem s) m' buf bs
    | Err e => rsi_read_request fd buf cap s = ORet (-1) (with_errno e s1)
    end.
Proof.
  intros Hl. unfold rsi_read_request, libc_read. rewrite Hl.
  destruct (k_read _ _ _) as [k res] eqn:Hk. exists k, res. split; [done|].
  destruct res as [bs|e]; [|done]. eexists. split; [done|].
  split; [by eapply k_read_length|]. split; [apply load_store|].
  intros p Hp. by apply lookup_store_ne.
Qed.

(** *** From the frame to the decoders *)

Lemma stored_disjoint A `{Repr A} m m' out a p n :
  stored A m m' out a -> (p + Z.of_nat n <= out \/ out + size_of A <= p) ->
  load m' p n = load m p n.
Proof. intros [_ Hm] Hd. apply load_ext. intros q Hq. apply Hm. lia. Qed.

(** A stored header has the bytes past the header as its payload. *)
Lemma header_view_payload frame len bs out h m m' :
  frame_at m frame len bs -> stored rsi_request m m' out (header_view frame len h) ->
  frame + len <= out \/ out + size_of rsi_request <= frame ->
  len < 2 ^ 32 + RSI_REQUEST_HEADER_SIZE ->
  parse_rsi_request_header (mk_slice frame bs) = Ok h ->
  request_payload m' (header_view frame len h)
    (mk_slice (frame + RSI_REQUEST_HEADER_SIZE) (drop (Z.to_nat RSI_REQUEST_HEADER_SIZE) bs)).
Proof.
  intros [Hp Hlen Hsm Hw Hl] Hst Hd Hlt Hh. destruct (parse_header_wf _ _ Hh) as (Hmin & _).
  simpl in Hmin. unfold header_view. rewrite request_header_size in *.
  rewrite wrap_small by lia. apply payload_bytes; simpl; unfold is_u32; try lia.
  rewrite (stored_disjoint _ _ _ _ _ _ _ Hst) by lia.
  replace (frame + 22) with (frame + Z.of_nat 22) by lia.
  rewrite (load_sub _ _ _ bs) by (exact Hl || lia). f_equal.
  rewrite take_ge; [done|]. rewrite length_drop. lia.
Qed.

(** C26: the request struct [rsi_parse_request] leaves behind is what the decoders need: its
    payload view is exactly the frame's bytes past the header, provided [out] does not
    overlap the frame and the frame is shorter than 4 GiB (the length field is a [u32]). *)
Theorem rsi_parse_request_payload frame len bs out r0 h s :
  frame_at (st_mem s) frame len bs -> points_to rsi_request (st_mem s) out r0 ->
  frame + len <= out \/ out + size_of rsi_request <= frame ->
  len < 2 ^ 32 + RSI_REQUEST_HEADER_SIZE ->
  parse_rsi_request_header (mk_slice frame bs) = Ok h ->
  exists m' r, rsi_parse_request frame len out s = ORet 0 (with_mem m' s) /\
    points_to rsi_request m' out r /\ rq_op_code r = hd_op_code h /\
    request_payload m' r
      (mk_slice (frame + RSI_REQUEST_HEADER_SIZE) (drop (Z.to_nat RSI_REQUEST_HEADER_SIZE) bs)).
Proof.
  intros Hf Hout Hd Hlt Hh. destruct (header_stored _ _ _ _ _ _ _ Hf Hout Hh) as (m' & Hrun & Hst).
  exists m', (header_view frame len h). split_and!; [done| |done|by eapply header_view_payload].
  destruct Hout as (? & ? & _). by split_and!; [| |apply Hst].
Qed.

(** A borrowed field read back through its C pointer and length. *)
Lemma borrowed_readable m m' r sl f :
  request_payload m r sl -> borrowed sl f ->
  (forall p, rq_payload r <= p < rq_payload r + rq_payload_len r -> m' !! p = m !! p) ->
  load m' (lpf f).1 (Z.to_nat (lpf f).2) = Some (sl_bytes (lpf_data f)).
Proof.
  intros Hpay Hb Hm. pose proof (request_payload_in_range _ _ _ Hpay) as Hsl.
  destruct (borrowed_lpf _ _ Hsl Hb) as (_ & _ & ->). rewrite Nat2Z.id.
  destruct Hb as (off & Hoff & Hp & Hbs). unfold lpf. simpl. rewrite Hp.
  destruct Hpay as [Hp0 Hn|bs Hp0 Hp1 Hn Hw Hl]; simpl in *.
  - by destruct (sl_bytes (lpf_data f)); [|simpl in *; lia].
  - rewrite Hbs at 2. pose proof (load_length _ _ _ _ Hl) as Hll.
    rewrite (load_ext m' m); [by eapply load_sub; [done|lia]|].
    intros a Ha. apply Hm. lia.
Qed.

(** C32: after a SET_VALUE decode, each of the three (pointer, length) pairs in [out] reads
    back, in the caller's memory, the very bytes lcs-core found in the payload: the value
    name, the layer name and the data. *)
Theorem set_value_fields_readable req out r sl a v s :
  points_to rsi_request (st_mem s) req r -> rq_op_code r = wrap 16 RSI_SET_VALUE ->
  request_payload (st_mem s) r sl -> points_to rsi_set_value (st_mem s) out a ->
  rq_payload r + rq_payload_len r <= out \/ out + size_of rsi_set_value <= rq_payload r ->
  parse_rsi_set_value_request_payload sl = Ok v ->
  exists m' o, rsi_request_set_value req out s = ORet 0 (with_mem m' s) /\
    read rsi_set_value m' out = Some o /\
    load m' (rsv_value_name o) (Z.to_nat (rsv_value_name_len o)) =
      Some (sl_bytes (lpf_data (sv_value_name v))) /\
    load m' (rsv_layer_name o) (Z.to_nat (rsv_layer_name_len o)) =
      Some (sl_bytes (lpf_data (sv_layer_name v))) /\
    load m' (rsv_data o) (Z.to_nat (rsv_data_len o)) =
      Some (sl_bytes (lpf_data (sv_data v))).
Proof.
  intros Hr Hop Hpay Hout Hd Hv.
  destruct (decoder_decodes _ _ _ _ set_value_decoder _ _ _ _ _ _ _ Hr Hop Hpay Hout Hv)
    as (m' & Hrun & Hrd & Hm).
  exists m', (set_value_view v). apply parse_set_value_wf in Hv as (_ & Hn & Hl & _ & Hdt & _).
  split_and!; [done|done|..]; eapply borrowed_readable; try done; intros p Hp; apply Hm; lia.
Qed.

(** [decoder] leaves its borrowed [fields] readable: each, through the pointer and length it
    has in C, is the bytes the parser found. *)
Definition keeps_fields {V A : Type} `{Repr A} (decoder : Z -> Z -> M Z) (op : Z)
    (parse : slice -> result LcsError V) (view : V -> A)
    (fields : V -> list RsiLengthPrefixedField) : Prop :=
  forall req out r sl a v s,
    points_to rsi_request (st_mem s) req r -> rq_op_code r = wrap 16 op ->
    request_payload (st_mem s) r sl -> points_to A (st_mem s) out a ->
    rq_payload r + rq_payload_len r <= out \/ out + size_of A <= rq_payload r ->
    parse sl = Ok v ->
    exists m', decoder req out s = ORet 0 (with_mem m' s) /\ read A m' out = Some (view v) /\
      Forall (λ f, load m' (lpf f).1 (Z.to_nat (lpf f).2) = Some (sl_bytes (lpf_data f)))
        (fields v).

Lemma keeps_fields_intro {V A : Type} `{Repr A} decoder op (parse : slice -> result LcsError V)
    (wf : slice -> V -> Prop) (view : V -> A) fields :
  decoder_correct decoder op parse view -> returns parse wf ->
  (forall sl v, wf sl v -> Forall (borrowed sl) (fields v)) ->
  keeps_fields decoder op parse view fields.
Proof.
  intros Hdec Hwf Hf req out r sl a v s Hr Hop Hpay Hout Hd Hv.
  destruct (decoder_decodes _ _ _ _ Hdec _ _ _ _ _ _ _ Hr Hop Hpay Hout Hv)
    as (m' & Hrun & Hrd & Hm).
  exists m'. split_and!; [done|done|]. eapply Forall_impl; [by eapply Hf, Hwf|].
  intros f Hb. eapply borrowed_readable; [done|done|]. intros p Hp. apply Hm. lia.
Qed.

(** C33: every name, descriptor and layer field that a decoder hands back, the optional
    descriptor of WRITE_KEY included, reads back in the caller's memory as the bytes lcs-core
    found in the payload, provided the output struct does not overlap the payload. *)
Theorem name_fields_readable :
  keeps_fields rsi_request_lookup RSI_LOOKUP
    parse_rsi_lookup_request_payload lookup_view (λ v, [lk_child_name v]) /\
  keeps_fields rsi_request_create_entry RSI_CREATE_ENTRY
    parse_rsi_create_entry_request_payload create_entry_view (λ v, [ce_child_name v; ce_layer_name v]) /\
  keeps_fields rsi_request_hide_entry RSI_HIDE_ENTRY
    parse_rsi_hide_entry_request_payload hide_entry_view (λ v, [hi_child_name v; hi_layer_name v]) /\
  keeps_fields rsi_request_delete_entry RSI_DELETE_ENTRY
    parse_rsi_delete_entry_request_payload delete_entry_view (λ v, [de_child_name v; de_layer_name v]) /\
  keeps_fields rsi_request_create_key RSI_CREATE_KEY
    parse_rsi_create_key_request_payload create_key_view (λ v, [ck_name v; ck_sd v]) /\
  keeps_fields rsi_request_query_values RSI_QUERY_VALUES
    parse_rsi_query_values_request_payload query_values_view (λ v, [qv_value_name v]) /\
  keeps_fields rsi_request_delete_value_entry RSI_DELETE_VALUE_ENTRY
    parse_rsi_delete_value_entry_request_payload delete_value_entry_view (λ v, [dv_value_name v; dv_layer_name v]) /\
  keeps_fields rsi_request_set_blanket_tombstone RSI_SET_BLANKET_TOMBSTONE
    parse_rsi_set_blanket_tombstone_request_payload set_blanket_tombstone_view (λ v, [bt_layer_name v]) /\
  keeps_fields rsi_request_delete_layer RSI_DELETE_LAYER
    parse_rsi_delete_layer_request_payload layer_name_view (λ v, [dl_layer_name v]) /\
  keeps_fields rsi_request_flush RSI_FLUSH
    parse_rsi_flush_request_payload hive_name_view (λ v, [fl_hive_name v]) /\
  keeps_fields rsi_request_write_key RSI_WRITE_KEY
    parse_rsi_write_key_request_payload write_key_view (λ v, option_list (wk_sd v)).
Proof.
  split_and!.
  - apply (keeps_fields_intro _ _ _ _ _ _ lookup_decoder parse_lookup_wf). intros sl v Hv. solve_fields.
  - apply (keeps_fields_intro _ _ _ _ _ _ create_entry_decoder parse_create_entry_wf). intros sl v Hv. solve_fields.
  - apply (keeps_fields_intro _ _ _ _ _ _ hide_entry_decoder parse_hide_entry_wf). intros sl v Hv. solve_fields.
  - apply (keeps_fields_intro _ _ _ _ _ _ delete_entry_decoder parse_delete_entry_wf). intros sl v Hv. solve_fields.
  - apply (keeps_fields_intro _ _ _ _ _ _ create_key_decoder parse_create_key_wf). intros sl v Hv. solve_fields.
  - apply (keeps_fields_intro _ _ _ _ _ _ query_values_decoder parse_query_values_wf). intros sl v Hv. solve_fields.
  - apply (keeps_fields_intro _ _ _ _ _ _ delete_value_entry_decoder parse_delete_value_entry_wf). intros sl v Hv. solve_fields.
  - apply (keeps_fields_intro _ _ _ _ _ _ set_blanket_tombstone_decoder parse_set_blanket_tombstone_wf). intros sl v Hv. solve_fields.
  - apply (keeps_fields_intro _ _ _ _ _ _ delete_layer_decoder parse_delete_layer_wf). intros sl v Hv. solve_fields.
  - apply (keeps_fields_intro _ _ _ _ _ _ flush_decoder parse_flush_wf). intros sl v Hv. solve_fields.
  - apply (keeps_fields_intro _ _ _ _ _ _ write_key_decoder parse_write_key_wf).
    intros sl v (_ & _ & Hsd & _). destruct (wk_sd v); [|constructor].
    apply Forall_cons_2; [exact Hsd|constructor].
Qed.

(** *** Dispatch *)

Lemma request_ops_lookup i j a b :
  request_ops !! i = Some a -> request_ops !! j = Some b -> i <> j -> a <> b.
Proof.
  intros Hi Hj Hij ->. apply Hij. by eapply NoDup_lookup; [apply request_ops_distinct|..].
Qed.

(** Every decoder with the op code it is for. *)
Definition decoder_table : list (Z * (Z -> Z -> M Z)) :=
  zip request_ops
    [ rsi_request_lookup; rsi_request_create_entry; rsi_request_hide_entry;
      rsi_request_delete_entry; rsi_request_enum_children; rsi_request_create_key;
      rsi_request_read_key; rsi_request_write_key; rsi_request_drop_key;
      rsi_request_query_values; rsi_request_set_value; rsi_request_delete_value_entry;
      rsi_request_set_blanket_tombstone; rsi_request_begin_transaction;
      rsi_request_commit_transaction; rsi_request_abort_transaction;
      rsi_request_delete_layer; rsi_request_flush ].

Definition refuses_other_ops (op : Z) (decoder : Z -> Z -> M Z) : Prop :=
  forall req out r s, points_to rsi_request (st_mem s) req r -> rq_op_code r <> op ->
    decoder req out s = ORet (-1) (with_errno EINVAL s).

Lemma refuses_of_decoder {A Pay} `{Repr A} op dec (parse : slice -> result LcsError Pay) view :
  decoder_correct (A:=A) dec op parse view -> refuses_other_ops (wrap 16 op) dec.
Proof. intros Hd req out r s Hr Hne. by eapply decoder_wrong_op. Qed.

Lemma decoder_table_refuses : Forall (λ d, refuses_other_ops d.1 d.2) decoder_table.
Proof.
  unfold decoder_table, request_ops. csimpl.
  repeat apply Forall_cons_2; simpl.
  - exact (refuses_of_decoder _ _ _ _ lookup_decoder).
  - exact (refuses_of_decoder _ _ _ _ create_entry_decoder).
  - exact (refuses_of_decoder _ _ _ _ hide_entry_decoder).
  - exact (refuses_of_decoder _ _ _ _ delete_entry_decoder).
  - exact (refuses_of_decoder _ _ _ _ enum_children_decoder).
  - exact (refuses_of_decoder _ _ _ _ create_key_decoder).
  - exact (refuses_of_decoder _ _ _ _ read_key_decoder).
  - exact (refuses_of_decoder _ _ _ _ write_key_decoder).
  - exact (refuses_of_decoder _ _ _ _ drop_key_decoder).
  - exact (refuses_of_decoder _ _ _ _ query_values_decoder).
  - exact (refuses_of_decoder _ _ _ _ set_value_decoder).
  - exact (refuses_of_decoder _ _ _ _ delete_value_entry_decoder).
  - exact (refuses_of_decoder _ _ _ _ set_blanket_tombstone_decoder).
  - exact (refuses_of_decoder _ _ _ _ begin_transaction_decoder).
  - exact (refuses_of_decoder _ _ _ _ commit_transaction_decoder).
  - exact (refuses_of_decoder _ _ _ _ abort_transaction_decoder).
  - exact (refuses_of_decoder _ _ _ _ delete_layer_decoder).
  - exact (refuses_of_decoder _ _ _ _ flush_decoder).
  - constructor.
Qed.

(** C31: a request has one decoder. For the request of any entry of the table, every other
    entry's decoder refuses with [EINVAL] and leaves memory alone. *)
Theorem one_decoder_per_request i j opi opj deci decj req out r s :
  i <> j -> decoder_table !! i = Some (opi, deci) -> decoder_table !! j = Some (opj, decj) ->
  points_to rsi_request (st_mem s) req r -> rq_op_code r = opi ->
  decj req out s = ORet (-1) (with_errno EINVAL s).
Proof.
  intros Hij Hi Hj Hr Hop.
  assert (opi <> opj) as Hne.
  { eapply (request_ops_lookup i j); [..|exact Hij];
      [revert Hi|revert Hj]; unfold decoder_table; rewrite lookup_zip_with;
      intros (x & Hx & (y & _ & [= <- <-])%bind_Some)%bind_Some; exact Hx. }
  pose proof decoder_table_refuses as Hall. rewrite Forall_lookup in Hall.
  apply (Hall _ _ Hj _ _ r); [done|]. by rewrite Hop.
Qed.

End request_spec.
