(* ===== verification/Guids.v ===== *)
(** * Validating what the caller hands to a responder: [src/src/response.rs], lines 37-222

    The structs a response is described with, the checks on single arguments, and the
    sets of key GUIDs by which LOOKUP, ENUM_CHILDREN and DELETE_LAYER responses are checked
    before a byte of them is encoded. A function that returns [Result<T, c_int>] in the
    source is an [M T] here, its [Err] being [fail]. *)

From S2P Require Import Prelude Memory Platform Effects Request.

(** ** The structs the caller passes *)

Record rsi_path_entry := mk_rsi_path_entry {
  pe_layer : Z;
  pe_layer_len : Z;
  pe_target_type : Z;
  pe_target_guid : guid;
  pe_sequence : Z
}.

#[export] Instance rsi_path_entry_repr : Repr rsi_path_entry := {
  repr_layout := [C_ptr; C_u32; C_u8; C_guid; C_u64];
  repr_of vs := match vs with
    | [VInt p; VInt n; VInt t; VGuid g; VInt q] => Some (mk_rsi_path_entry p n t g q)
    | _ => None
    end
}.

Record rsi_key_metadata := mk_rsi_key_metadata {
  km_guid : guid;
  km_sd : Z;
  km_sd_len : Z;
  km_volatile_key : Z;
  km_symlink : Z;
  km_last_write_time : Z
}.

#[export] Instance rsi_key_metadata_repr : Repr rsi_key_metadata := {
  repr_layout := [C_guid; C_ptr; C_u32; C_u8; C_u8; C_u64];
  repr_of vs := match vs with
    | [VGuid g; VInt p; VInt n; VInt v; VInt l; VInt t] => Some (mk_rsi_key_metadata g p n v l t)
    | _ => None
    end
}.

Record rsi_child_entry := mk_rsi_child_entry {
  ch_child_name : Z;
  ch_child_name_len : Z;
  ch_entries : Z;
  ch_entry_count : Z
}.

#[export] Instance rsi_child_entry_repr : Repr rsi_child_entry := {
  repr_layout := [C_ptr; C_u32; C_ptr; C_u32];
  repr_of vs := match vs with
    | [VInt p; VInt n; VInt ep; VInt en] => Some (mk_rsi_child_entry p n ep en)
    | _ => None
    end
}.

Section guids.
Context `{P : Platform}.

(** ** Checks on single arguments *)

Definition require_array (ptr count : Z) : M unit :=
  if negb (count =? 0) && (ptr =? 0) then fail EINVAL else mret tt.

Definition require_lpf (ptr len : Z) : M unit :=
  if negb (len =? 0) && (ptr =? 0) then fail EINVAL else mret tt.

Definition require_bool (value : Z) : M unit :=
  if (value =? 0) || (value =? 1) then mret tt else fail EINVAL.

Definition require_path_target (target_type : Z) (target_guid : guid) : M unit :=
  if target_type =? RSI_PATH_TARGET_GUID then mret tt
  else if (target_type =? RSI_PATH_TARGET_HIDDEN) && bool_decide (target_guid = nil_guid)
  then mret tt
  else fail EINVAL.

Definition is_guid_target (target_type : Z) : bool := target_type =? RSI_PATH_TARGET_GUID.

(** ** Vectors of GUIDs *)

(** [size_of::<[u8; 16]>()]; the alignment of [[u8; 16]] is 1. *)
Definition GUID_SIZE : Z := 16.

Definition guid_vec_with_capacity (capacity : Z) : M (rvec guid) :=
  r ← vec_try_reserve GUID_SIZE (vec_new 1) capacity;
  match r with Some guids => mret guids | None => fail ENOMEM end.

Definition push_guid (guids : rvec guid) (g : guid) : M (rvec guid) :=
  guids ← (if vec_len guids =? rv_cap guids
           then r ← vec_try_reserve GUID_SIZE guids 1;
                match r with Some guids => mret guids | None => fail ENOMEM end
           else mret guids) : M (rvec guid);
  vec_push GUID_SIZE guids g.

(** [sort_unstable]: the order on [[u8; 16]] is total and antisymmetric, so the sorted
    permutation is the same whatever the algorithm. *)
Definition sort_unstable (guids : list guid) : list guid := merge_sort guid_le guids.

(** [windows(2).any(|pair| pair[0] == pair[1])]. *)
Fixpoint any_equal_pair (guids : list guid) : bool :=
  match guids with
  | a :: (b :: _) as rest => bool_decide (a = b) || any_equal_pair rest
  | _ => false
  end.

(** [Vec::dedup]: of a run of equal elements the first is kept. *)
Fixpoint dedup (guids : list guid) : list guid :=
  match guids with
  | a :: (b :: _) as rest => if bool_decide (a = b) then dedup rest else a :: dedup rest
  | _ => guids
  end.

Definition set_elems {A} (v : rvec A) (xs : list A) : rvec A := mk_rvec (rv_ptr v) (rv_cap v) xs.

(** The sorted elements, in place of the [&mut] slice. *)
Definition validate_unique_nonzero_guids (guids : list guid) : M (list guid) :=
  let guids := sort_unstable guids in
  if bool_decide (head guids = Some nil_guid) then fail EINVAL
  else if any_equal_pair guids then fail EINVAL
  else mret guids.

Definition sort_dedup_guids (guids : rvec guid) : rvec guid :=
  set_elems guids (dedup (sort_unstable (rv_elems guids))).

(** ** The GUIDs of a response description *)

Definition metadata_guid_set (metadata count : Z) : M (rvec guid) :=
  _ ← require_array metadata count;
  guids ← guid_vec_with_capacity count;
  guids ← for_range count (λ i guids,
    m ← deref rsi_key_metadata (metadata + i * size_of rsi_key_metadata);
    vec_push GUID_SIZE guids (km_guid m)) guids;
  sorted ← validate_unique_nonzero_guids (rv_elems guids);
  mret (set_elems guids sorted).

(** The body of the two loops over path entries. *)
Definition push_target (entry : rsi_path_entry) (guids : rvec guid) : M (rvec guid) :=
  _ ← require_path_target (pe_target_type entry) (pe_target_guid entry);
  if is_guid_target (pe_target_type entry) then push_guid guids (pe_target_guid entry)
  else mret guids.

Definition lookup_target_guid_set (entries count : Z) : M (rvec guid) :=
  _ ← require_array entries count;
  guids ← for_range count (λ i guids,
    entry ← deref rsi_path_entry (entries + i * size_of rsi_path_entry);
    push_target entry guids) (vec_new 1);
  mret (sort_dedup_guids guids).

Definition enum_children_target_guid_set (children count : Z) : M (rvec guid) :=
  _ ← require_array children count;
  guids ← for_range count (λ i guids,
    child ← deref rsi_child_entry (children + i * size_of rsi_child_entry);
    _ ← require_array (ch_entries child) (ch_entry_count child);
    for_range (ch_entry_count child) (λ j guids,
      entry ← deref rsi_path_entry (ch_entries child + j * size_of rsi_path_entry);
      push_target entry guids) guids) (vec_new 1);
  mret (sort_dedup_guids guids).

Definition validate_lookup_metadata (entries entry_count metadata metadata_count : Z) : M unit :=
  target_guids ← lookup_target_guid_set entries entry_count;
  metadata_guids ← metadata_guid_set metadata metadata_count;
  if bool_decide (rv_elems metadata_guids = rv_elems target_guids) then mret tt else fail EINVAL.

Definition validate_enum_children_metadata
    (children child_count metadata metadata_count : Z) : M unit :=
  target_guids ← enum_children_target_guid_set children child_count;
  metadata_guids ← metadata_guid_set metadata metadata_count;
  if bool_decide (rv_elems metadata_guids = rv_elems target_guids) then mret tt else fail EINVAL.

(** [chunks_exact(n)]: the whole chunks, a shorter rest left out. *)
Definition chunks_exact (n : nat) (bs : list byte) : list (list byte) :=
  (λ i, take n (drop (i * n) bs)) <$> seq 0 (length bs / n).

Definition orphaned_guid_bytes (orphaned_guids orphaned_count : Z) : M (list byte) :=
  let guid_bytes_len := orphaned_count * 16 in
  if 2 ^ 64 <=? guid_bytes_len then fail EOVERFLOW
  else if guid_bytes_len =? 0 then mret []
  else if orphaned_guids =? 0 then fail EINVAL
  else
    bytes ← from_raw_parts orphaned_guids guid_bytes_len;
    guids ← guid_vec_with_capacity orphaned_count;
    guids ← for_each (chunks_exact 16 (sl_bytes bytes))
              (λ g guids, vec_push GUID_SIZE guids g) guids;
    _ ← validate_unique_nonzero_guids (rv_elems guids);
    mret (sl_bytes bytes).

(** ** Checks on the request being answered *)

Definition require_response_req (req expected_op : Z) : M rsi_request :=
  o ← as_ref rsi_request req;
  match o with
  | None => fail EINVAL
  | Some r => if negb (rq_op_code r =? wrap 16 expected_op) then fail EINVAL else mret r
  end.

#[local] Existing Instance RsiStatus_eq_dec.

Definition validate_status_response (req : rsi_request) (status : Z) : M unit :=
  match parse_rsi_status status with
  | Err _ => fail EINVAL
  | Ok status =>
      if bool_decide (status = RsiStatus_Ok) then
        match rsi_request_has_status_only_response (rq_op_code req) with
        | Err _ => fail EINVAL
        | Ok false => fail EINVAL
        | Ok true => mret tt
        end
      else mret tt
  end.

End guids.
