(* ===== verification/GuidsSpec.v ===== *)
(** * What the GUID checks accept

    The library sorts and compares vectors; what it means is a statement about sets: the
    metadata GUIDs are distinct, none is nil, and they are exactly the GUIDs the entries
    point to. *)

From S2P Require Import Prelude Memory Platform Effects Request Guids.

(** ** Sorted lists of GUIDs *)

Abbreviation sorted := (StronglySorted guid_le).

Lemma sort_sorted l : sorted (sort_unstable l).
Proof. apply StronglySorted_merge_sort; apply _. Qed.

Lemma sort_permutation l : sort_unstable l ≡ₚ l.
Proof. apply merge_sort_Permutation. Qed.

Lemma elem_of_dedup g l : g ∈ dedup l <-> g ∈ l.
Proof.
  induction l as [|a [|b l] IH]; [done..|]. change (dedup (a :: b :: l)) with
    (if bool_decide (a = b) then dedup (b :: l) else a :: dedup (b :: l)).
  case_bool_decide as Hab.
  - rewrite IH, Hab, !elem_of_cons. tauto.
  - rewrite elem_of_cons, IH, !elem_of_cons. tauto.
Qed.

Lemma elem_of_sort g l : g ∈ sort_unstable l <-> g ∈ l.
Proof. by rewrite (sort_permutation l). Qed.

Lemma sorted_cons a l : sorted (a :: l) <-> (forall g, g ∈ l -> guid_le a g) /\ sorted l.
Proof.
  split.
  - intros [Hl Ha]%StronglySorted_inv. by rewrite Forall_forall in Ha.
  - intros [Ha Hl]. constructor; [done|]. by rewrite Forall_forall.
Qed.

(** In a sorted list equal elements are neighbours. *)
Lemma sorted_head_notin a b l : sorted (a :: b :: l) -> a <> b -> a ∉ b :: l.
Proof.
  intros [Ha [Hb _]%sorted_cons]%sorted_cons Hab [->|Hin]%elem_of_cons; [done|].
  apply Hab, (anti_symm guid_le); [apply Ha; left|by apply Hb].
Qed.

Lemma any_equal_pair_nodup l : sorted l -> any_equal_pair l = false <-> NoDup l.
Proof.
  induction l as [|a [|b l] IH]; intros Hs.
  - split; [constructor|done].
  - split; [intros _; apply NoDup_singleton|done].
  - change (any_equal_pair (a :: b :: l)) with (bool_decide (a = b) || any_equal_pair (b :: l)).
    rewrite orb_false_iff, bool_decide_eq_false, NoDup_cons.
    pose proof Hs as [_ Hs']%sorted_cons. rewrite (IH Hs'). split.
    + intros [Hab Hnd]. split; [by apply sorted_head_notin|done].
    + intros [Hin Hnd]. split; [|done]. intros ->. apply Hin, list_elem_of_here.
Qed.

Lemma dedup_sorted l : sorted l -> sorted (dedup l).
Proof.
  induction l as [|a [|b l] IH]; intros Hs; [done..|].
  change (dedup (a :: b :: l)) with
    (if bool_decide (a = b) then dedup (b :: l) else a :: dedup (b :: l)).
  apply sorted_cons in Hs as [Ha Hs]. case_bool_decide; [by apply IH|].
  apply sorted_cons. split; [|by apply IH]. intros g. rewrite elem_of_dedup. apply Ha.
Qed.

Lemma dedup_nodup l : sorted l -> NoDup (dedup l).
Proof.
  induction l as [|a [|b l] IH]; intros Hs;
    [constructor|apply NoDup_singleton|].
  change (dedup (a :: b :: l)) with
    (if bool_decide (a = b) then dedup (b :: l) else a :: dedup (b :: l)).
  pose proof Hs as [_ Hs']%sorted_cons. case_bool_decide; [by apply IH|].
  apply NoDup_cons. split; [|by apply IH]. rewrite elem_of_dedup. by apply sorted_head_notin.
Qed.

Lemma sorted_head_nil l :
  sorted l -> Forall guid_wf l -> head l = Some nil_guid <-> nil_guid ∈ l.
Proof.
  destruct l as [|a l]; [by rewrite elem_of_nil|].
  intros [Ha _]%sorted_cons [Hwf _]%Forall_cons. simpl. split.
  - intros [= ->]. apply list_elem_of_here.
  - intros [<-|Hin]%elem_of_cons; [done|].
    f_equal. apply (anti_symm guid_le); [by apply Ha|by apply nil_guid_least].
Qed.

(** Comparing a sorted vector with a sorted and deduplicated one compares sets. *)
Lemma sort_eq_dedup_sort l1 l2 :
  NoDup l1 ->
  sort_unstable l1 = dedup (sort_unstable l2) <-> (forall g, g ∈ l1 <-> g ∈ l2).
Proof.
  intros Hnd. split.
  - intros Heq g. by rewrite <- (elem_of_sort g l1), Heq, elem_of_dedup, elem_of_sort.
  - intros Hiff. apply (StronglySorted_unique guid_le).
    + apply sort_sorted.
    + apply dedup_sorted, sort_sorted.
    + apply NoDup_Permutation.
      * by rewrite sort_permutation.
      * apply dedup_nodup, sort_sorted.
      * intros g. by rewrite elem_of_dedup, !elem_of_sort.
Qed.

(** [l'] is the outcome of some sorting algorithm on [l]. *)
Definition arrangement_of (l l' : list guid) : Prop := sorted l' /\ l' ≡ₚ l.

(** The two vectors hold the same GUIDs. *)
Definition same_guids (v1 v2 : rvec guid) : Prop :=
  forall g, g ∈ rv_elems v1 <-> g ∈ rv_elems v2.

(** The source does not say which algorithm [sort_unstable] is, and it does not matter: the
    order on GUIDs leaves one sorted arrangement of a vector, the one of the model. *)
Lemma sort_unstable_unique l l' : arrangement_of l l' -> l' = sort_unstable l.
Proof.
  intros [Hs Hp]. apply (StronglySorted_unique guid_le); [done|apply sort_sorted|].
  by rewrite sort_permutation.
Qed.

(** C34: sorting and deduplicating is a canonical form of the set of GUIDs in a vector: two
    vectors have the same result exactly when they hold the same GUIDs, whatever the order
    and the repetitions. *)
Theorem sort_dedup_canonical v1 v2 :
  rv_elems (sort_dedup_guids v1) = rv_elems (sort_dedup_guids v2) <->
  same_guids v1 v2.
Proof.
  unfold same_guids. simpl. split.
  - intros Heq g. by rewrite <- elem_of_sort, <- elem_of_dedup, Heq, elem_of_dedup, elem_of_sort.
  - intros Hiff. apply (StronglySorted_unique guid_le); [apply dedup_sorted, sort_sorted..|].
    apply NoDup_Permutation; [apply dedup_nodup, sort_sorted..|].
    intros g. by rewrite !elem_of_dedup, !elem_of_sort.
Qed.

(** ** What a description must satisfy *)

Record valid_guid_set (gs : list guid) : Prop := mk_valid_guid_set {
  guids_distinct : NoDup gs;
  guids_nonzero : nil_guid ∉ gs
}.

#[export] Instance valid_guid_set_dec gs : Decision (valid_guid_set gs).
Proof.
  destruct (decide (NoDup gs)) as [Hd|Hd]; [|right; by intros []].
  destruct (decide (nil_guid ∈ gs)) as [Hn|Hn]; [right; by intros []|by left].
Defined.

Section guids_spec.
Context `{P : Platform}.

(** The kernel's rule for a path entry: it points to a key, or it hides and names none. *)
Definition valid_target (e : rsi_path_entry) : bool :=
  (pe_target_type e =? RSI_PATH_TARGET_GUID) ||
  (pe_target_type e =? RSI_PATH_TARGET_HIDDEN) && bool_decide (pe_target_guid e = nil_guid).

(** The keys a list of entries points to. *)
Definition targets (es : list rsi_path_entry) : list guid :=
  pe_target_guid <$> filter (λ e, is_guid_target (pe_target_type e) = true) es.

(** *** Array arguments

    The [# Safety] contract of a (pointer, count) pair, and the array it describes: none
    when the pointer is NULL and elements are announced. *)
Definition safe_array (A : Type) `{Repr A} (m : memory) (p n : Z) : Prop :=
  p <> 0 -> exists xs, n = Z.of_nat (length xs) /\ array_at A m p xs.

Definition array_of (A : Type) `{Repr A} (m : memory) (p n : Z) : option (list A) :=
  if n =? 0 then Some [] else if p =? 0 then None else read_array A m p (Z.to_nat n).

Lemma array_of_Some A `{Repr A} m p n xs :
  safe_array A m p n -> array_of A m p n = Some xs ->
  n = Z.of_nat (length xs) /\ array_at A m p xs.
Proof.
  intros Hs. unfold array_of. destruct (Z.eqb_spec n 0) as [->|Hn]; [by intros [= <-]|].
  destruct (Z.eqb_spec p 0) as [|Hp]; [done|].
  destruct (Hs Hp) as (ys & -> & Hys). rewrite Nat2Z.id.
  intros Hxs. pose proof (array_read _ _ _ _ Hys) as Hr. by simplify_eq.
Qed.

Lemma array_of_None A `{Repr A} m p n :
  safe_array A m p n -> array_of A m p n = None -> p = 0 /\ n <> 0.
Proof.
  intros Hs. unfold array_of. destruct (Z.eqb_spec n 0) as [->|Hn]; [done|].
  destruct (Z.eqb_spec p 0) as [|Hp]; [done|].
  destruct (Hs Hp) as (ys & -> & Hys). rewrite Nat2Z.id.
  by rewrite (array_read _ _ _ _ Hys).
Qed.

(** The same for a (pointer, length) pair of bytes. *)
Definition safe_field (m : memory) (p n : Z) : Prop :=
  p <> 0 -> n <> 0 -> 0 < p /\ p + n < 2 ^ 64 /\ is_Some (load m p (Z.to_nat n)).

Definition field_of (m : memory) (p n : Z) : option (list byte) :=
  if n =? 0 then Some [] else if p =? 0 then None else load m p (Z.to_nat n).

Lemma field_of_length m p n bs : field_of m p n = Some bs -> 0 <= n -> Z.of_nat (length bs) = n.
Proof.
  unfold field_of. destruct (Z.eqb_spec n 0) as [->|]; [by intros [= <-]|].
  destruct (p =? 0); [done|]. intros Hl%load_length ?. lia.
Qed.

Lemma field_of_null m p n : field_of m p n = None -> safe_field m p n -> p = 0 /\ n <> 0.
Proof.
  unfold field_of, safe_field. destruct (Z.eqb_spec n 0); [done|].
  destruct (Z.eqb_spec p 0); [done|]. intros Hl Hs. destruct Hs as (_ & _ & bs & ?); [done..|].
  congruence.
Qed.

(** [slice::from_raw_parts] of a field that is there. *)
Lemma wp_field p n bs s (Q : result Z slice -> state -> Prop) :
  safe_field (st_mem s) p n -> field_of (st_mem s) p n = Some bs -> 0 <= n <= isize_max ->
  n <> 0 -> Q (Ok (mk_slice p bs)) s -> wp (from_raw_parts p n) s Q.
Proof.
  unfold field_of, safe_field. intros Hs Ho Hn Hn0.
  rewrite (proj2 (Z.eqb_neq _ _) Hn0) in Ho.
  destruct (Z.eqb_spec p 0) as [|Hp]; [done|]. destruct (Hs Hp Hn0) as (? & ? & _).
  by apply wp_from_raw_parts.
Qed.

(** Why a vector of up to [k] GUIDs may not be had: the allocator refuses requests of
    reasonable size, or there are more GUIDs than any response can describe. *)
Definition starved_for (k : Z) : Prop := may_refuse \/ 2 ^ 32 <= k.

(** A check of a description with up to [k] GUIDs, that passes with a result satisfying [Q]
    exactly when [valid] holds, unless an allocation is refused first. *)
Definition checked {A} (k : Z) (s : state) (valid : Prop) (Q : A -> Prop) (r : result Z A)
    (s' : state) : Prop :=
  match r with
  | Ok a => valid /\ Q a /\ quiet [] s s'
  | Err e => (e = EINVAL /\ ~ valid /\ quiet [] s s') \/
             (e = ENOMEM /\ quiet [EvRefused] s s' /\ starved_for k)
  end.

Lemma checked_quiet {A} k s s1 (valid : Prop) (Q : A -> Prop) r s' :
  quiet [] s s1 -> checked k s1 valid Q r s' -> checked k s valid Q r s'.
Proof.
  intros Hq. destruct r as [a|e]; simpl.
  - intros (? & ? & Hq'). split_and!; [done..|]. apply (quiet_trans [] [] _ _ _ Hq Hq').
  - intros [(? & ? & Hq')|(? & Hq' & ?)]; [left|right]; split_and!; try done.
    + apply (quiet_trans [] [] _ _ _ Hq Hq').
    + apply (quiet_trans [] [EvRefused] _ _ _ Hq Hq').
Qed.

(** Running one check after another. *)
Lemma checked_bind {A B} n s (m : M A) (k : A -> M B) (v1 v2 valid : Prop)
    (Q1 : A -> Prop) (Q : B -> Prop) :
  (valid <-> v1 /\ v2) ->
  wp m s (checked n s v1 Q1) ->
  (forall a s1, v1 -> Q1 a -> quiet [] s s1 -> wp (k a) s1 (checked n s1 v2 Q)) ->
  wp (x ← m; k x) s (checked n s valid Q).
Proof.
  intros Hv Hm Hk. apply wp_bind. eapply wp_mono; [exact Hm|]. intros [a|e] s1; simpl.
  - intros (Hv1 & HQ1 & Hq). eapply wp_mono; [by apply Hk|]. intros [b|e] s2; simpl.
    + intros (? & ? & Hq2). split_and!; [tauto|done|].
      apply (quiet_trans [] [] _ _ _ Hq Hq2).
    + intros [(? & ? & Hq2)|(? & Hq2 & ?)]; [left|right]; split_and!; try tauto.
      * apply (quiet_trans [] [] _ _ _ Hq Hq2).
      * apply (quiet_trans [] [EvRefused] _ _ _ Hq Hq2).
  - intros [(-> & ? & ?)|(-> & ? & ?)]; [left|right]; split_and!; tauto.
Qed.

Lemma checked_mono {A} k s (v1 v2 : Prop) (Q1 Q2 : A -> Prop) r s' :
  (v1 <-> v2) -> (forall a, Q1 a -> Q2 a) -> checked k s v1 Q1 r s' -> checked k s v2 Q2 r s'.
Proof. intros Hv HQ. unfold checked. destruct r; [intuition auto|tauto]. Qed.

Section bounded.
Context (limit : Z).

(** ** The single checks *)

Lemma wp_require_array A `{Repr A} m p n s :
  safe_array A m p n ->
  wp (require_array p n) s (checked limit s (is_Some (array_of A m p n)) (λ _, True)).
Proof.
  intros Hs. unfold require_array. destruct (array_of A m p n) as [xs|] eqn:Ho.
  - assert (negb (n =? 0) && (p =? 0) = false) as ->.
    { unfold array_of in Ho. by destruct (n =? 0), (p =? 0). }
    apply wp_ret. split_and!; eauto with rsi.
  - apply array_of_None in Ho as [-> Hn]; [|done].
    rewrite (proj2 (Z.eqb_neq _ _) Hn). apply wp_fail. left.
    split_and!; [done| |auto with rsi]. by intros [? ?].
Qed.

Lemma wp_require_path_target e s :
  wp (require_path_target (pe_target_type e) (pe_target_guid e)) s
    (checked limit s (valid_target e = true) (λ _, True)).
Proof.
  unfold require_path_target, valid_target.
  destruct (_ =? _); simpl; [apply wp_ret; split_and!; auto with rsi|].
  destruct (_ && _); [apply wp_ret|apply wp_fail; left]; split_and!; auto with rsi.
Qed.

Lemma wp_guid_vec_with_capacity n s (Q : result Z (rvec guid) -> state -> Prop) :
  n <= limit ->
  (forall v s', quiet [] s s' -> rv_elems v = [] -> n <= rv_cap v -> Q (Ok v) s') ->
  (forall s', quiet [EvRefused] s s' -> starved_for limit -> Q (Err ENOMEM) s') ->
  wp (guid_vec_with_capacity n) s Q.
Proof.
  intros Hk Hok Hno. apply wp_bind, wp_vec_try_reserve; simpl.
  - intros v s' Hq Hel Hcap. apply Hok; [done..|]. unfold vec_len in Hcap. rewrite Hel in Hcap.
    simpl in Hcap. lia.
  - intros s' Hq _ Hr. apply Hno; [done|]. destruct Hr as [|Hr]; [by left|right].
    revert Hr. unfold alloc_limit, grow_cap, GUID_SIZE, vec_len. simpl. lia.
Qed.

(** [push_guid] never reallocates infallibly. *)
Lemma wp_push_guid v g s :
  vec_len v <= rv_cap v -> vec_len v <= limit ->
  wp (push_guid v g) s (λ r s', match r with
    | Ok v' => rv_elems v' = rv_elems v ++ [g] /\ vec_len v' <= rv_cap v' /\ quiet [] s s'
    | Err e => e = ENOMEM /\ quiet [EvRefused] s s' /\ starved_for limit
    end).
Proof.
  intros Hcap Hk. apply wp_bind.
  assert (forall v' s', vec_len v' < rv_cap v' -> rv_elems v' = rv_elems v -> quiet [] s s' ->
    wp (vec_push GUID_SIZE v' g) s' (λ r s', match r with
    | Ok v' => rv_elems v' = rv_elems v ++ [g] /\ vec_len v' <= rv_cap v' /\ quiet [] s s'
    | Err e => e = ENOMEM /\ quiet [EvRefused] s s' /\ starved_for limit
    end)) as Hpush.
  { intros v' s' Hlt Hel Hq. apply wp_vec_push; [done|]. simpl. rewrite Hel.
    split_and!; [done| |done]. unfold vec_len in *. simpl. rewrite length_app, Hel in *. simpl. lia. }
  destruct (Z.eqb_spec (vec_len v) (rv_cap v)) as [Hfull|Hroom].
  - apply wp_bind, wp_vec_try_reserve.
    + intros v' s' Hq Hel Hc. apply wp_ret, Hpush; [lia|done..].
    + intros s' Hq _ Hr. split_and!; [done..|]. destruct Hr as [|Hr]; [by left|right].
      revert Hr. unfold alloc_limit, grow_cap, GUID_SIZE. simpl. lia.
  - apply wp_ret, Hpush; [lia|done|auto with rsi].
Qed.

Lemma validate_guids_eq gs s :
  Forall guid_wf gs ->
  validate_unique_nonzero_guids gs s =
    if bool_decide (valid_guid_set gs) then ORet (sort_unstable gs) s else OErr EINVAL s.
Proof.
  intros Hwf. unfold validate_unique_nonzero_guids.
  assert (Forall guid_wf (sort_unstable gs)) as Hwf' by (by rewrite sort_permutation).
  pose proof (sort_sorted gs) as Hs. case_bool_decide as Hh.
  { rewrite bool_decide_false; [done|]. intros [_ Hz]. apply Hz.
    by rewrite <- elem_of_sort, <- sorted_head_nil. }
  destruct (any_equal_pair (sort_unstable gs)) eqn:Hp.
  { rewrite bool_decide_false; [done|]. intros [Hd _].
    rewrite <- (sort_permutation gs), <- any_equal_pair_nodup in Hd by done. congruence. }
  rewrite bool_decide_true; [done|]. split.
  - by rewrite <- (sort_permutation gs), <- any_equal_pair_nodup.
  - intros Hz. apply Hh. by rewrite sorted_head_nil, elem_of_sort.
Qed.

(** Looking at the first element and at neighbours of the sorted vector is enough:
    [validate_unique_nonzero_guids] accepts a vector of GUIDs exactly when no GUID is there
    twice and none is nil, leaving the vector sorted; otherwise it is [EINVAL]. Nothing is
    allocated and nothing else changes. *)
Theorem validate_unique_nonzero_guids_correct gs s :
  Forall guid_wf gs ->
  (exists gs', valid_guid_set gs /\ arrangement_of gs gs' /\
     validate_unique_nonzero_guids gs s = ORet gs' s) \/
  (~ valid_guid_set gs /\ validate_unique_nonzero_guids gs s = OErr EINVAL s).
Proof.
  intros Hwf. rewrite validate_guids_eq by done. case_bool_decide; [left|by right].
  exists (sort_unstable gs). split_and!; [done| |done].
  split; [apply sort_sorted|apply sort_permutation].
Qed.

Lemma wp_validate_unique_nonzero_guids gs s :
  Forall guid_wf gs ->
  wp (validate_unique_nonzero_guids gs) s
    (checked limit s (valid_guid_set gs) (λ gs', gs' = sort_unstable gs)).
Proof.
  intros Hwf. unfold wp. rewrite validate_guids_eq by done. case_bool_decide.
  - split_and!; auto with rsi.
  - left. split_and!; auto with rsi.
Qed.

(** *** Loops of checks *)

Lemma wp_for_array_checked {St} A `{Repr A} (V : A -> Prop) (I : list A -> St -> Prop)
    p n (xs : list A) (body : A -> St -> M St) st s :
  n = Z.of_nat (length xs) -> array_at A (st_mem s) p xs ->
  (forall pre x post st s1, xs = pre ++ x :: post -> I pre st -> st_mem s1 = st_mem s ->
     wp (body x st) s1 (checked limit s1 (V x) (I (pre ++ [x])))) ->
  I [] st ->
  wp (for_range n (λ i st, a ← deref A (p + i * size_of A); body a st) st) s
    (checked limit s (Forall V xs) (I xs)).
Proof.
  intros Hn Harr Hbody HI. eapply wp_mono.
  - apply (wp_for_array A (λ pre st s', quiet [] s s' /\ Forall V pre /\ I pre st)
      (λ e s', (e = EINVAL /\ ~ Forall V xs /\ quiet [] s s') \/
               (e = ENOMEM /\ quiet [EvRefused] s s' /\ starved_for limit)) _ _ _ _ _ _ _ Hn Harr).
    + intros pre st1 s1 (Hq & _). apply Hq.
    + intros pre x post st1 s1 -> (Hq & HV & HI1).
      eapply wp_mono; [eapply Hbody; [done..|apply Hq]|].
      intros r s' Hr%(checked_quiet _ _ _ _ _ _ _ Hq). destruct r as [st'|e]; simpl in Hr.
      * destruct Hr as (Hx & HI' & Hq'). split_and!; [done| |done]. by apply Forall_app_2; auto.
      * rewrite Forall_app, Forall_cons. tauto.
    + split_and!; auto with rsi.
  - intros [st'|e] s'; simpl; tauto.
Qed.

(** ** The sets of GUIDs *)

(** The result of a computation on an argument that may be absent. *)
Definition opt_valid {A} (V : A -> Prop) (o : option A) : Prop := from_option V False o.

Lemma opt_valid_split {A} (V : A -> Prop) o : opt_valid V o <-> is_Some o /\ opt_valid V o.
Proof. unfold opt_valid. destruct o; simpl; [|tauto]. split; [|tauto]. eauto. Qed.

Lemma targets_app es1 es2 : targets (es1 ++ es2) = targets es1 ++ targets es2.
Proof. unfold targets. by rewrite filter_app, fmap_app. Qed.

Lemma wp_push_target e v s :
  vec_len v <= rv_cap v -> vec_len v <= limit ->
  wp (push_target e v) s (checked limit s (valid_target e = true)
    (λ v', rv_elems v' = rv_elems v ++ targets [e] /\ vec_len v' <= rv_cap v')).
Proof.
  intros Hcap Hlim. unfold push_target.
  apply (checked_bind _ _ _ _ (valid_target e = true) True _ (λ _, True)); [tauto| |].
  { apply wp_require_path_target. }
  intros _ s1 _ _ _. unfold targets, is_guid_target.
  destruct (pe_target_type e =? RSI_PATH_TARGET_GUID) eqn:Ht.
  - rewrite filter_cons_True by done. eapply wp_mono; [by apply wp_push_guid|].
    intros [v'|err] s'; simpl; [|auto].
    intros (? & ? & ?). by split_and!.
  - rewrite filter_cons_False by congruence. apply wp_ret.
    split_and!; [done|by rewrite app_nil_r|done|auto with rsi].
Qed.

Lemma wp_push_targets p n es v s :
  n = Z.of_nat (length es) -> array_at rsi_path_entry (st_mem s) p es -> vec_len v <= rv_cap v ->
  vec_len v + Z.of_nat (length (targets es)) <= limit ->
  wp (for_range n (λ j guids,
        entry ← deref rsi_path_entry (p + j * size_of rsi_path_entry);
        push_target entry guids) v) s
    (checked limit s (Forall (λ e, valid_target e = true) es)
       (λ v', rv_elems v' = rv_elems v ++ targets es /\ vec_len v' <= rv_cap v')).
Proof.
  intros Hn Harr Hcap Hlim.
  apply (wp_for_array_checked rsi_path_entry (λ e, valid_target e = true)
    (λ pre v', rv_elems v' = rv_elems v ++ targets pre /\ vec_len v' <= rv_cap v')); [done..| |].
  - intros pre e post v1 s1 -> [Hel Hc] _. eapply wp_mono; [apply wp_push_target; [done|]|].
    { unfold vec_len in *. rewrite targets_app, length_app in Hlim.
      rewrite Hel, length_app. lia. }
    intros [v'|err] s'; simpl; [|done]. rewrite targets_app, Hel, app_assoc. done.
  - split; [|done]. by rewrite app_nil_r.
Qed.

Lemma wp_lookup_target_guid_set p n s :
  safe_array rsi_path_entry (st_mem s) p n ->
  let o := array_of rsi_path_entry (st_mem s) p n in
  Z.of_nat (length (targets (default [] o))) <= limit ->
  wp (lookup_target_guid_set p n) s
    (checked limit s (opt_valid (Forall (λ e, valid_target e = true)) o)
       (λ v, exists es, o = Some es /\ rv_elems v = dedup (sort_unstable (targets es)))).
Proof.
  intros Hs o Hlim. unfold lookup_target_guid_set.
  eapply checked_bind; [apply opt_valid_split|by apply wp_require_array|].
  intros _ s1 [es Ho] _ Hq. destruct (array_of_Some _ _ _ _ _ Hs Ho) as [Hn Harr]. rewrite Ho in *. simpl.
  eapply (checked_bind _ _ _ _ _ True); [|eapply wp_push_targets; [done| |done|exact Hlim]|].
  - tauto.
  - by rewrite (quiet_mem _ _ _ Hq).
  - intros v s2 _ [Hel _] _. apply wp_ret. split_and!; [done| |auto with rsi].
    exists es. split; [done|]. simpl. by rewrite Hel.
Qed.

(** What the entries of a child are: NULL with entries announced is not a valid child. *)
Definition child_entries (m : memory) (c : rsi_child_entry) : option (list rsi_path_entry) :=
  array_of rsi_path_entry m (ch_entries c) (ch_entry_count c).

Definition valid_child (m : memory) (c : rsi_child_entry) : Prop :=
  opt_valid (Forall (λ e, valid_target e = true)) (child_entries m c).

(** All the path entries of an enumeration. *)
Definition all_entries (m : memory) (cs : list rsi_child_entry) : list rsi_path_entry :=
  mjoin (default [] ∘ child_entries m <$> cs).

Lemma all_entries_app m cs1 cs2 :
  all_entries m (cs1 ++ cs2) = all_entries m cs1 ++ all_entries m cs2.
Proof. unfold all_entries. by rewrite fmap_app, join_app. Qed.

Lemma all_entries_cons m c cs :
  all_entries m (c :: cs) = default [] (child_entries m c) ++ all_entries m cs.
Proof. done. Qed.

Definition safe_child_entries (m : memory) (c : rsi_child_entry) : Prop :=
  safe_array rsi_path_entry m (ch_entries c) (ch_entry_count c).

Lemma wp_enum_children_target_guid_set p n s :
  safe_array rsi_child_entry (st_mem s) p n ->
  let o := array_of rsi_child_entry (st_mem s) p n in
  Forall (safe_child_entries (st_mem s)) (default [] o) ->
  Z.of_nat (length (targets (all_entries (st_mem s) (default [] o)))) <= limit ->
  wp (enum_children_target_guid_set p n) s
    (checked limit s (opt_valid (Forall (valid_child (st_mem s))) o)
       (λ v, exists cs, o = Some cs /\
          rv_elems v = dedup (sort_unstable (targets (all_entries (st_mem s) cs))))).
Proof.
  intros Hs o Hsafe Hlim. unfold enum_children_target_guid_set.
  eapply checked_bind; [apply opt_valid_split|by apply wp_require_array|].
  intros _ s1 [cs Ho] _ Hq. destruct (array_of_Some _ _ _ _ _ Hs Ho) as [Hn Harr].
  rewrite Ho in *. simpl in *.
  pose proof (quiet_mem _ _ _ Hq) as Hm. rewrite <- Hm in *.
  apply (checked_bind _ _ _ _ (Forall (valid_child (st_mem s1)) cs) True _
    (λ v, rv_elems v = targets (all_entries (st_mem s1) cs) /\ vec_len v <= rv_cap v));
    [tauto| |].
  - apply (wp_for_array_checked rsi_child_entry (valid_child (st_mem s1))
      (λ pre v, rv_elems v = targets (all_entries (st_mem s1) pre) /\ vec_len v <= rv_cap v));
      [done|done| |done].
    intros pre c post v1 s2 -> [Hel Hc] Hm2.
    rewrite Forall_app, Forall_cons in Hsafe. destruct Hsafe as (_ & Hsc & _).
    unfold valid_child. eapply checked_bind; [apply opt_valid_split| |].
    { rewrite <- Hm2. apply wp_require_array. by rewrite Hm2. }
    intros _ s3 [es Hes] _ Hq3. destruct (array_of_Some _ _ _ _ _ Hsc Hes) as [Hen Hearr].
    assert (child_entries (st_mem s1) c = Some es) as Hce by exact Hes.
    rewrite Hes. simpl. eapply wp_mono; [eapply wp_push_targets; [done| |done|]|].
    { by rewrite (quiet_mem _ _ _ Hq3), Hm2. }
    { revert Hlim. unfold vec_len. rewrite all_entries_app, all_entries_cons.
      rewrite Hce, !targets_app, !length_app, Hel. simpl. lia. }
    intros [v'|e] s'; simpl; [|done]. rewrite all_entries_app, all_entries_cons.
    by rewrite Hce, !targets_app, app_nil_r, Hel.
  - intros v s2 _ [Hel _] _. apply wp_ret. split_and!; [done| |auto with rsi].
    exists cs. split; [done|]. simpl. by rewrite Hel.
Qed.

Lemma typed_metadata_guid m : typed rsi_key_metadata m -> guid_wf (km_guid m).
Proof. intros H. by destruct_typed H. Qed.

Lemma wp_metadata_guid_set p n s :
  safe_array rsi_key_metadata (st_mem s) p n -> n <= limit ->
  let o := array_of rsi_key_metadata (st_mem s) p n in
  wp (metadata_guid_set p n) s
    (checked limit s (opt_valid (λ ms, valid_guid_set (km_guid <$> ms)) o)
       (λ v, exists ms, o = Some ms /\ rv_elems v = sort_unstable (km_guid <$> ms))).
Proof.
  intros Hs Hlim o. unfold metadata_guid_set.
  eapply checked_bind; [apply opt_valid_split|by apply wp_require_array|].
  intros _ s1 [ms Ho] _ Hq. destruct (array_of_Some _ _ _ _ _ Hs Ho) as [Hn Harr]. rewrite Ho. simpl.
  apply (checked_bind _ _ _ _ True (valid_guid_set (km_guid <$> ms)) _
    (λ v, rv_elems v = [] /\ n <= rv_cap v)); [tauto| |].
  { apply wp_guid_vec_with_capacity; simpl; auto. }
  intros v s2 _ [Hel Hcap] Hq2.
  assert (st_mem s2 = st_mem s) as Hm by (by rewrite (quiet_mem _ _ _ Hq2), (quiet_mem _ _ _ Hq)).
  rewrite <- Hm in Harr.
  apply (checked_bind _ _ _ _ True (valid_guid_set (km_guid <$> ms)) _
    (λ v, rv_elems v = km_guid <$> ms)); [tauto| |].
  { eapply wp_mono; [apply (wp_for_array_checked rsi_key_metadata (λ _, True)
      (λ pre v', rv_elems v' = km_guid <$> pre /\ n <= rv_cap v'))|]; [done|done| |done|].
    - intros pre x post v1 s3 -> [Hel1 Hc1] _. rewrite length_app in Hn. simpl in Hn.
      apply wp_vec_push.
      + unfold vec_len. rewrite Hel1, length_fmap. lia.
      + simpl. rewrite Hel1, fmap_app. split_and!; auto with rsi.
    - intros r s'. apply checked_mono; [|tauto]. by split; [|intros _; apply Forall_true].
  }
  intros v2 s3 _ Hel2 _. rewrite Hel2.
  apply (checked_bind _ _ _ _ (valid_guid_set (km_guid <$> ms)) True _
    (λ gs, gs = sort_unstable (km_guid <$> ms))); [tauto| |].
  - apply wp_validate_unique_nonzero_guids. apply Forall_fmap.
    eapply Forall_impl; [eapply read_array_typed, array_read, Harr|].
    intros m. apply typed_metadata_guid.
  - intros gs s4 _ -> _. apply wp_ret. split_and!; eauto with rsi.
Qed.

(** *** The two validations *)

Lemma wp_guid_sets_equal {X Y} s (o1 : option X) (o2 : option Y) (V1 : X -> Prop)
    (T1 : X -> list guid) (T2 : Y -> list guid) (get_targets get_metas : M (rvec guid)) :
  wp get_targets s (checked limit s (opt_valid V1 o1)
    (λ v, exists x, o1 = Some x /\ rv_elems v = dedup (sort_unstable (T1 x)))) ->
  (forall s1, st_mem s1 = st_mem s ->
   wp get_metas s1 (checked limit s1 (opt_valid (λ y, valid_guid_set (T2 y)) o2)
    (λ v, exists y, o2 = Some y /\ rv_elems v = sort_unstable (T2 y)))) ->
  wp (t ← get_targets; m ← get_metas;
      if bool_decide (rv_elems m = rv_elems t) then mret tt else fail EINVAL) s
    (checked limit s (opt_valid (λ x, V1 x /\
         opt_valid (λ y, valid_guid_set (T2 y) /\ forall g, g ∈ T2 y <-> g ∈ T1 x) o2) o1)
       (λ _, True)).
Proof.
  intros Ht Hm.
  eapply (checked_bind _ _ _ _ (opt_valid V1 o1) (opt_valid (λ x,
     opt_valid (λ y, valid_guid_set (T2 y) /\ forall g, g ∈ T2 y <-> g ∈ T1 x) o2) o1));
    [|exact Ht|].
  { destruct o1; simpl; tauto. }
  intros t s1 _ (x & -> & Ht1) Hq. simpl.
  eapply (checked_bind _ _ _ _ (opt_valid (λ y, valid_guid_set (T2 y)) o2)
    (opt_valid (λ y, forall g, g ∈ T2 y <-> g ∈ T1 x) o2)); [|apply Hm, Hq|].
  { destruct o2; simpl; tauto. }
  intros m s2 Hv (y & -> & Hm1) _. simpl in *. destruct Hv as [Hnd _].
  rewrite Hm1, Ht1. case_bool_decide as Heq; rewrite sort_eq_dedup_sort in Heq by done.
  - apply wp_ret. split_and!; auto with rsi.
  - apply wp_fail. left. split_and!; auto with rsi.
Qed.

End bounded.

(** The metadata describes exactly the keys the entries point to, each once, and no nil key. *)
Definition metadata_of (gs : list guid) (o : option (list rsi_key_metadata)) : Prop :=
  opt_valid (λ ms, valid_guid_set (km_guid <$> ms) /\
                   forall g, g ∈ km_guid <$> ms <-> g ∈ gs) o.

(** A LOOKUP description is accepted. *)
Definition lookup_ok (m : memory) (entries entry_count metadata metadata_count : Z) : Prop :=
  opt_valid (λ es, Forall (λ e, valid_target e = true) es /\
               metadata_of (targets es) (array_of rsi_key_metadata m metadata metadata_count))
    (array_of rsi_path_entry m entries entry_count).

(** An ENUM_CHILDREN description is accepted. *)
Definition enum_ok (m : memory) (children child_count metadata metadata_count : Z) : Prop :=
  opt_valid (λ cs, Forall (valid_child m) cs /\
               metadata_of (targets (all_entries m cs))
                 (array_of rsi_key_metadata m metadata metadata_count))
    (array_of rsi_child_entry m children child_count).

(** Every child of the array, if there is one, has a safe entry array. *)
Definition safe_children (m : memory) (children child_count : Z) : Prop :=
  safe_array rsi_child_entry m children child_count /\
  Forall (safe_child_entries m) (default [] (array_of rsi_child_entry m children child_count)).

(** How many GUIDs the checks of a description put in a vector, at most. *)
Definition lookup_guids (m : memory) (p n mn : Z) : Z :=
  Z.max (Z.of_nat (length (targets (default [] (array_of rsi_path_entry m p n))))) mn.

Definition enum_guids (m : memory) (p n mn : Z) : Z :=
  Z.max (Z.of_nat (length (targets (all_entries m
           (default [] (array_of rsi_child_entry m p n)))))) mn.

Lemma length_targets es : (length (targets es) <= length es)%nat.
Proof. unfold targets. rewrite length_fmap. apply length_filter. Qed.

Lemma wp_validate_lookup_metadata p n mp mn s :
  safe_array rsi_path_entry (st_mem s) p n -> safe_array rsi_key_metadata (st_mem s) mp mn ->
  wp (validate_lookup_metadata p n mp mn) s
    (checked (lookup_guids (st_mem s) p n mn) s (lookup_ok (st_mem s) p n mp mn) (λ _, True)).
Proof.
  intros He Hm. unfold validate_lookup_metadata, lookup_guids.
  apply (wp_guid_sets_equal _ _ _ _ _ targets).
  - apply wp_lookup_target_guid_set; [done|lia].
  - intros s1 Hs1. rewrite <- Hs1 in *. apply wp_metadata_guid_set; [done|lia].
Qed.

Lemma wp_validate_enum_children_metadata p n mp mn s :
  safe_children (st_mem s) p n -> safe_array rsi_key_metadata (st_mem s) mp mn ->
  wp (validate_enum_children_metadata p n mp mn) s
    (checked (enum_guids (st_mem s) p n mn) s (enum_ok (st_mem s) p n mp mn) (λ _, True)).
Proof.
  intros [Hc He] Hm. unfold validate_enum_children_metadata.
  unfold enum_guids.
  apply (wp_guid_sets_equal _ _ _ _ _ (λ cs, targets (all_entries (st_mem s) cs))).
  - apply wp_enum_children_target_guid_set; [done..|lia].
  - intros s1 Hs1. rewrite <- Hs1 in *. apply wp_metadata_guid_set; [done|lia].
Qed.

(** C36: [validate_lookup_metadata] passes exactly on a LOOKUP description whose entries are
    valid and whose metadata GUIDs are distinct, not nil, and the same set as the GUIDs the
    entries point to (repeated targets counting once). It fails with [EINVAL] otherwise,
    with [ENOMEM] only after the allocator refused a request no larger than the counts call
    for, and has no other effect; in particular no vector is grown by an aborting push. *)
Theorem validate_lookup_metadata_correct p n mp mn s :
  safe_array rsi_path_entry (st_mem s) p n -> safe_array rsi_key_metadata (st_mem s) mp mn ->
  wp (validate_lookup_metadata p n mp mn) s
    (checked (lookup_guids (st_mem s) p n mn) s (lookup_ok (st_mem s) p n mp mn) (λ _, True)).
Proof. apply wp_validate_lookup_metadata. Qed.

(** C37: [validate_enum_children_metadata] decides the same for an enumeration, over the
    entries of all its children together. *)
Theorem validate_enum_children_metadata_correct p n mp mn s :
  safe_children (st_mem s) p n -> safe_array rsi_key_metadata (st_mem s) mp mn ->
  wp (validate_enum_children_metadata p n mp mn) s
    (checked (enum_guids (st_mem s) p n mn) s (enum_ok (st_mem s) p n mp mn) (λ _, True)).
Proof. apply wp_validate_enum_children_metadata. Qed.

(** *** The orphaned GUIDs of a layer deletion *)

Lemma length_chunks n bs : length (chunks_exact n bs) = (length bs / n)%nat.
Proof. unfold chunks_exact. by rewrite length_fmap, length_seq. Qed.

Lemma chunks_wf bs : Forall guid_wf (chunks_exact 16 bs).
Proof.
  apply Forall_fmap, Forall_seq. intros i [_ Hi]. unfold guid_wf, compose.
  rewrite length_take, length_drop. pose proof (Nat.div_mod_eq (length bs) 16). lia.
Qed.

(** The orphaned GUIDs of a call: the 16-byte chunks of its byte argument. *)
Definition orphans_of (m : memory) (p n : Z) : option (list guid) :=
  chunks_exact 16 <$> field_of m p (n * 16).

Lemma wp_orphaned_guid_bytes p n s :
  safe_field (st_mem s) p (n * 16) -> is_u32 n ->
  wp (orphaned_guid_bytes p n) s
    (checked n s (opt_valid valid_guid_set (orphans_of (st_mem s) p n))
       (λ bs, field_of (st_mem s) p (n * 16) = Some bs)).
Proof.
  intros Hs [Hn0 Hn]. unfold orphaned_guid_bytes, orphans_of.
  destruct (Z.leb_spec (2 ^ 64) (n * 16)); [lia|].
  destruct (Z.eqb_spec (n * 16) 0) as [->|Hz].
  { apply wp_ret. split_and!; [|done|auto with rsi]. split; [constructor|apply not_elem_of_nil]. }
  destruct (Z.eqb_spec p 0) as [->|Hp].
  { apply wp_fail. left. unfold field_of. rewrite (proj2 (Z.eqb_neq _ _) Hz).
    split_and!; auto with rsi. }
  destruct (field_of (st_mem s) p (n * 16)) as [bs|] eqn:Ho;
    [|by destruct (field_of_null _ _ _ Ho Hs)].
  apply wp_bind. eapply wp_field; [done|done|unfold isize_max; lia|done|].
  pose proof (field_of_length _ _ _ _ Ho ltac:(lia)) as Hlen.
  assert (length (chunks_exact 16 bs) = Z.to_nat n) as Hc.
  { rewrite length_chunks. replace (length bs) with (Z.to_nat n * 16)%nat by lia.
    by rewrite Nat.div_mul. }
  simpl. apply (checked_bind _ _ _ _ True (valid_guid_set (chunks_exact 16 bs)) _
    (λ v, rv_elems v = [] /\ n <= rv_cap v)); [tauto| |].
  { apply (wp_guid_vec_with_capacity n); simpl; auto using Z.le_refl. }
  intros v s1 _ [Hel Hcap] _.
  apply (checked_bind _ _ _ _ True (valid_guid_set (chunks_exact 16 bs)) _
    (λ v, rv_elems v = chunks_exact 16 bs)); [tauto| |].
  { eapply wp_mono; [apply (wp_for_each (λ pre v s', quiet [] s1 s' /\ rv_elems v = pre /\
      n <= rv_cap v) (λ _ _, False))|].
    - intros pre g post v1 s2 Hch (Hq & Hel1 & Hc1). rewrite Hch, length_app in Hc. simpl in Hc.
      apply wp_vec_push; [unfold vec_len; rewrite Hel1; lia|]. simpl. by rewrite Hel1.
    - auto with rsi.
    - intros [v'|e] s'; [|done]. intros (? & ? & ?). by split_and!. }
  intros v2 s2 _ -> _.
  apply (checked_bind _ _ _ _ (valid_guid_set (chunks_exact 16 bs)) True _
    (λ gs, gs = sort_unstable (chunks_exact 16 bs))); [tauto| |].
  - apply wp_validate_unique_nonzero_guids, chunks_wf.
  - intros gs s3 _ _ _. apply wp_ret. split_and!; auto with rsi.
Qed.

End guids_spec.
