(* ===== verification/Frame.v ===== *)
(** * Assembling and writing a response frame: [src/src/response.rs], lines 234-399

    The 14-byte header and the 4-byte status, the growing buffer a payload is written to
    ([FrameWriter]), and the single [write] a finished frame is sent with. *)

From S2P Require Import Prelude Memory Platform Effects Request Guids.

Section frame.
Context `{P : Platform}.

Definition STATUS_FRAME_LEN : Z := 18.

(** [buf[a..b].copy_from_slice(src)]: a panic when the range is out of bounds or the
    lengths differ. *)
Definition copy_from_slice (buf : list byte) (a b : nat) (src : list byte) : M (list byte) :=
  if (b <=? length buf)%nat && (length src =? b - a)%nat
  then mret (take a buf ++ src ++ drop b buf)
  else panic.

Definition put_response_header (buf : list byte) (total_len request_id resp_op : Z) :
    M (list byte) :=
  buf ← copy_from_slice buf 0 4 (to_le 4 total_len);
  buf ← copy_from_slice buf 4 12 (to_le 8 request_id);
  copy_from_slice buf 12 14 (to_le 2 resp_op).

(** [r as usize == frame.len()] is read only when [r] is not negative. *)
Definition write_frame (fd : Z) (frame : list byte) : M Z :=
  r ← libc_write fd frame;
  if r <? 0 then mret (-1)
  else if r =? Z.of_nat (length frame) then mret 0
  else fail_errno EIO.

(** ** Status-only responses *)

Definition build_status_frame (request_id resp_op status : Z) : M (list byte) :=
  let frame := replicate (Z.to_nat STATUS_FRAME_LEN) Byte.x00 in
  frame ← put_response_header frame (wrap 32 STATUS_FRAME_LEN) request_id resp_op;
  copy_from_slice frame 14 18 (to_le 4 status).

(** [libc::write] of the caller's own frame. *)
Definition rsi_write_response (fd frame len : Z) : M Z := λ s,
  match load (st_mem s) frame (Z.to_nat len) with
  | Some bs => libc_write fd bs s
  | None => OUndef
  end.

Definition rsi_respond_status (fd req status : Z) : M Z :=
  o ← as_ref rsi_request req;
  match o with
  | None => _ ← set_errno EINVAL; mret (-1)
  | Some r =>
      match rsi_response_op_code (rq_op_code r) with
      | Err _ => _ ← set_errno EINVAL; mret (-1)
      | Ok resp_op =>
          _ ←? validate_status_response r status;
          frame ← build_status_frame (rq_request_id r) resp_op status;
          write_frame fd frame
      end
  end.

(** ** The frame writer *)

Record FrameWriter := mk_frame_writer {
  fw_buf : rvec byte;
  fw_oom : bool
}.

(** [FrameWriter::new]. *)
Definition fw_new : FrameWriter := mk_frame_writer (vec_new 1) false.

(** [raw]; a vector whose extension was refused is left as it was. *)
Definition fw_raw (w : FrameWriter) (b : list byte) : M FrameWriter :=
  if fw_oom w then mret w
  else
    r ← try_extend (fw_buf w) b;
    match r with
    | Some buf => mret (mk_frame_writer buf false)
    | None => mret (mk_frame_writer (fw_buf w) true)
    end.

Definition fw_u8 (w : FrameWriter) (x : Z) : M FrameWriter := fw_raw w (to_le 1 x).
Definition fw_u32 (w : FrameWriter) (x : Z) : M FrameWriter := fw_raw w (to_le 4 x).
Definition fw_u64 (w : FrameWriter) (x : Z) : M FrameWriter := fw_raw w (to_le 8 x).
Definition fw_guid (w : FrameWriter) (g : guid) : M FrameWriter := fw_raw w g.

Definition fw_lpf (w : FrameWriter) (ptr len : Z) : M FrameWriter :=
  _ ← require_lpf ptr len;
  w ← fw_u32 w len;
  if len =? 0 then mret w
  else bytes ← from_raw_parts ptr len; fw_raw w (sl_bytes bytes).

Definition new_writer : M FrameWriter :=
  fw_raw fw_new (replicate (Z.to_nat STATUS_FRAME_LEN) Byte.x00).

(** The frame's bytes, in the writer's buffer. *)
Definition finish_response (req : rsi_request) (w : FrameWriter) : M (list byte) :=
  match rsi_response_op_code (rq_op_code req) with
  | Err _ => fail EINVAL
  | Ok resp_op =>
      if fw_oom w then fail ENOMEM
      else
        let len := Z.of_nat (length (rv_elems (fw_buf w))) in
        if 2 ^ 32 <=? len then fail EOVERFLOW
        else
          buf ← put_response_header (rv_elems (fw_buf w)) len (rq_request_id req) resp_op;
          copy_from_slice buf 14 18 (to_le 4 RSI_OK)
  end.

Definition finish_and_send (fd : Z) (req : rsi_request) (w : FrameWriter) : M Z :=
  frame ←? finish_response req w;
  write_frame fd frame.

End frame.
