(* ===== verification/FrameSpec.v ===== *)
(** * What the frame writer builds and what a finished frame is

    [response_frame] is the wire format of a response. [encodes] is the contract of a piece
    of encoder: it appends given bytes to the frame, or finds the caller's description
    invalid; a refused allocation latches the writer's [oom] flag and changes neither. *)

From S2P Require Import Prelude Memory Platform Effects Request Guids GuidsSpec Frame.

Section frame_spec.
Context `{P : Platform}.

(** ** Frames *)

(** Header, status and payload of the response to a request. *)
Definition response_frame (request_id op status : Z) (payload : list byte) : list byte :=
  to_le 4 (18 + Z.of_nat (length payload)) ++ to_le 8 request_id ++
  to_le 2 (Z.lor op RSI_RESPONSE_BIT) ++ to_le 4 status ++ payload.

Lemma length_response_frame id op status payload :
  length (response_frame id op status payload) = (18 + length payload)%nat.
Proof. unfold response_frame. autorewrite with len. lia. Qed.

(** Sending one frame: what [write_frame] returns and the state it leaves. *)
Definition send (fd : Z) (frame : list byte) (s : state) : Z * state :=
  let '(k, r) := k_write (st_kern s) fd frame in
  let s' := with_kern k (log (EvWrite fd frame) s) in
  match r with
  | Ok n => if n =? Z.of_nat (length frame) then (0, s') else (-1, with_errno EIO s')
  | Err e => (-1, with_errno e s')
  end.

Lemma write_frame_send `{!KernelLaws platform_kernel} fd frame s :
  write_frame fd frame s = ORet (send fd frame s).1 (send fd frame s).2.
Proof.
  unfold write_frame, send, libc_write, syscall, mbind, M_bind.
  destruct (k_write _ _ _) as [k [n|e]] eqn:Hw; [|done].
  apply k_write_range in Hw. rewrite (proj2 (Z.ltb_ge _ _)) by lia. by destruct (_ =? _).
Qed.

Lemma copy_from_slice_ok buf (a b : nat) src s :
  (b <= length buf)%nat -> length src = (b - a)%nat ->
  copy_from_slice buf a b src s = ORet (take a buf ++ src ++ drop b buf) s.
Proof.
  intros Hb Hs. unfold copy_from_slice.
  by rewrite (proj2 (Nat.leb_le _ _) Hb), (proj2 (Nat.eqb_eq _ _) Hs).
Qed.

(** Header and status written over an 18-byte placeholder. *)
Lemma fill_header hole payload total id op status s :
  length hole = 18%nat ->
  (buf ← put_response_header (hole ++ payload) total id op;
   copy_from_slice buf 14 18 (to_le 4 status)) s =
  ORet (to_le 4 total ++ to_le 8 id ++ to_le 2 op ++ to_le 4 status ++ payload) s.
Proof.
  intros Hl. do 18 (destruct hole as [|? hole]; [discriminate Hl|]).
  destruct hole; [clear Hl|discriminate Hl].
  unfold put_response_header, mbind, M_bind.
  rewrite copy_from_slice_ok by (rewrite ?length_app, ?length_le_split; simpl; lia).
  rewrite copy_from_slice_ok by (rewrite ?length_app, ?length_le_split; simpl; lia).
  rewrite copy_from_slice_ok by (rewrite ?length_app, ?length_le_split; simpl; lia).
  rewrite copy_from_slice_ok by (rewrite ?length_app, ?length_le_split; simpl; lia).
  reflexivity.
Qed.

Lemma build_status_frame_eq id op status s :
  build_status_frame id (Z.lor op RSI_RESPONSE_BIT) status s =
  ORet (response_frame id op status []) s.
Proof.
  unfold build_status_frame. rewrite <- (app_nil_r (replicate _ _)). by rewrite fill_header.
Qed.

(** ** The writer *)

(** [s] is [s0] up to at most one refused allocation. *)
Definition settled (s0 s : state) : Prop := quiet [] s0 s \/ quiet [EvRefused] s0 s.

(** Why a frame of [n] bytes may not be had. *)
Definition frame_starved (n : nat) : Prop := may_refuse \/ alloc_limit < Z.of_nat n.

(** The writer holds the bytes [bs] written since [s0], or an allocation was refused. *)
Definition writer (s0 : state) (w : FrameWriter) (bs : list byte) (s : state) : Prop :=
  (fw_oom w = false /\ rv_elems (fw_buf w) = bs /\ quiet [] s0 s) \/
  (fw_oom w = true /\ quiet [EvRefused] s0 s /\ frame_starved (length bs)).

Lemma writer_settled s0 w bs s : writer s0 w bs s -> settled s0 s.
Proof. intros [(_ & _ & ?)|(_ & ? & _)]; [by left|by right]. Qed.

Lemma settled_mem s0 s : settled s0 s -> st_mem s = st_mem s0.
Proof. intros [[]|[]]; done. Qed.

Lemma writer_mem s0 w bs s : writer s0 w bs s -> st_mem s = st_mem s0.
Proof. intros ?%writer_settled. by apply settled_mem. Qed.

(** [enc] appends the bytes [o], or reports [EINVAL] when there are none to append. *)
Definition encodes (s0 : state) (enc : FrameWriter -> M FrameWriter) (o : option (list byte)) :
    Prop :=
  forall w bs s, writer s0 w bs s ->
    wp (enc w) s (λ r s', match r with
      | Ok w' => exists b, o = Some b /\ writer s0 w' (bs ++ b) s'
      | Err e => e = EINVAL /\ o = None /\ settled s0 s'
      end).

(** Concatenation of optional byte strings. *)
Definition cat (o1 o2 : option (list byte)) : option (list byte) :=
  b1 ← o1; b2 ← o2; Some (b1 ++ b2).

Fixpoint encode_all {A} (f : A -> option (list byte)) (xs : list A) : option (list byte) :=
  match xs with
  | [] => Some []
  | x :: xs' => cat (f x) (encode_all f xs')
  end.

Lemma cat_assoc o1 o2 o3 : cat o1 (cat o2 o3) = cat (cat o1 o2) o3.
Proof. destruct o1, o2, o3; simpl; try done. by rewrite app_assoc. Qed.

Lemma cat_nil_l o : cat (Some []) o = o.
Proof. by destruct o. Qed.

Lemma cat_nil_r o : cat o (Some []) = o.
Proof. destruct o; simpl; [|done]. by rewrite app_nil_r. Qed.

Lemma cat_None_r o : cat o None = None.
Proof. by destruct o. Qed.

Lemma encode_all_app {A} (f : A -> option (list byte)) xs ys :
  encode_all f (xs ++ ys) = cat (encode_all f xs) (encode_all f ys).
Proof.
  induction xs as [|x xs IH]; cbn [app encode_all]; [by rewrite cat_nil_l|].
  by rewrite IH, cat_assoc.
Qed.

(** A length-prefixed field, as it goes on the wire. *)
Definition lpf_bytes (bs : list byte) : list byte := to_le 4 (Z.of_nat (length bs)) ++ bs.

Lemma encodes_bind s0 e1 e2 o1 o2 :
  encodes s0 e1 o1 -> encodes s0 e2 o2 -> encodes s0 (λ w, w ← e1 w; e2 w) (cat o1 o2).
Proof.
  intros H1 H2 w bs s Hw. apply wp_bind. eapply wp_mono; [by apply H1|].
  intros [w1|e] s1.
  - intros (b1 & -> & Hw1). eapply wp_mono; [by apply (H2 _ _ _ Hw1)|].
    intros [w2|e] s2; [intros (b2 & -> & Hw2)|intros (-> & -> & ?); done].
    exists (b1 ++ b2). by rewrite app_assoc.
  - by intros (-> & -> & ?).
Qed.

(** A check on the way: it fails with [EINVAL] and has no effect. *)
Definition guards (c : M unit) (v : bool) : Prop :=
  forall s, c s = if v then ORet tt s else OErr EINVAL s.

Lemma encodes_guard s0 c v e o :
  guards c v -> encodes s0 e o -> encodes s0 (λ w, _ ← c; e w) (if v then o else None).
Proof.
  intros Hc He w bs s Hw. apply wp_bind. unfold wp at 1. rewrite Hc. destruct v; [by apply He|].
  split_and!; [done..|by eapply writer_settled].
Qed.

Lemma require_bool_guards z : guards (require_bool z) ((z =? 0) || (z =? 1)).
Proof. intros s. unfold require_bool. by destruct (_ || _). Qed.

Lemma require_path_target_guards e :
  guards (require_path_target (pe_target_type e) (pe_target_guid e)) (valid_target e).
Proof.
  intros s. unfold require_path_target, valid_target.
  destruct (_ =? _); [done|]. by destruct (_ && _).
Qed.

Lemma require_array_guards A `{Repr A} m p n :
  safe_array A m p n -> guards (require_array p n) (bool_decide (is_Some (array_of A m p n))).
Proof.
  intros Hs s. unfold require_array. destruct (array_of A m p n) as [xs|] eqn:Ho.
  - rewrite bool_decide_true by eauto.
    assert (negb (n =? 0) && (p =? 0) = false) as ->; [|done].
    unfold array_of in Ho. by destruct (n =? 0), (p =? 0).
  - rewrite bool_decide_false by (by intros [? ?]).
    apply array_of_None in Ho as [-> Hn]; [|done]. by rewrite (proj2 (Z.eqb_neq _ _) Hn).
Qed.

Lemma require_lpf_guards m p n :
  safe_field m p n -> guards (require_lpf p n) (bool_decide (is_Some (field_of m p n))).
Proof.
  intros Hs s. unfold require_lpf. destruct (field_of m p n) as [xs|] eqn:Ho.
  - rewrite bool_decide_true by eauto.
    assert (negb (n =? 0) && (p =? 0) = false) as ->; [|done].
    unfold field_of in Ho. by destruct (n =? 0), (p =? 0).
  - rewrite bool_decide_false by (by intros [? ?]).
    apply field_of_null in Ho as [-> Hn]; [|done]. by rewrite (proj2 (Z.eqb_neq _ _) Hn).
Qed.

Context `{!AllocatorLaws platform_allocator}.

Lemma encodes_raw s0 b : encodes s0 (λ w, fw_raw w b) (Some b).
Proof.
  intros w bs s [(Ho & He & Hq)|(Ho & Hq & Hst)]; unfold fw_raw; rewrite Ho.
  - apply wp_bind, wp_try_extend.
    + intros v' s' Hq' Hel. apply wp_ret. exists b. split; [done|]. left. simpl.
      split_and!; [done|by rewrite Hel, He|]. apply (quiet_trans [] [] _ _ _ Hq Hq').
    + intros s' Hq' Hst. apply wp_ret. exists b. split; [done|]. right. rewrite He in Hst.
      split_and!; [done| |exact Hst]. apply (quiet_trans [] [EvRefused] _ _ _ Hq Hq').
  - apply wp_ret. exists b. split; [done|]. right. split_and!; [done..|].
    destruct Hst as [|Hst]; [by left|right]. rewrite length_app. lia.
Qed.

Lemma encodes_ret s0 : encodes s0 (λ w, mret w) (Some []).
Proof. intros w bs s Hw. apply wp_ret. exists []. by rewrite app_nil_r. Qed.

Lemma encodes_lpf s0 p n :
  safe_field (st_mem s0) p n -> is_u32 n ->
  encodes s0 (λ w, fw_lpf w p n) (lpf_bytes <$> field_of (st_mem s0) p n).
Proof.
  intros Hs Hn. pose proof (require_lpf_guards _ _ _ Hs) as Hg.
  destruct (field_of (st_mem s0) p n) as [bs0|] eqn:Ho.
  - rewrite bool_decide_true in Hg by eauto.
    pose proof (field_of_length _ _ _ _ Ho ltac:(apply Hn)) as Hlen.
    change (encodes s0 (λ w, _ ← require_lpf p n; (λ w, w ← fw_u32 w n;
      if n =? 0 then mret w
      else bytes ← from_raw_parts p n; fw_raw w (sl_bytes bytes)) w) (Some (lpf_bytes bs0))).
    apply (encodes_guard _ _ true); [done|].
    apply (encodes_bind _ _ _ (Some (to_le 4 (Z.of_nat (length bs0)))) (Some bs0)).
    { rewrite Hlen. apply encodes_raw. }
    destruct (Z.eqb_spec n 0) as [Hz|Hz].
    + assert (bs0 = []) as -> by (apply nil_length_inv; lia). apply encodes_ret.
    + intros w bs s Hw. apply wp_bind. pose proof (writer_mem _ _ _ _ Hw) as Hm.
      eapply wp_field; [by rewrite Hm|by rewrite Hm|unfold is_u32, isize_max in *; lia|done|].
      by apply encodes_raw.
  - rewrite bool_decide_false in Hg by (by intros [? ?]).
    intros w bs s Hw. apply wp_bind. unfold wp. rewrite Hg.
    split_and!; [done..|by eapply writer_settled].
Qed.

(** A loop over an array appends the encodings of its elements in order. *)
Lemma encodes_array A `{Repr A} s0 p n xs (body : A -> FrameWriter -> M FrameWriter)
    (f : A -> option (list byte)) :
  n = Z.of_nat (length xs) -> array_at A (st_mem s0) p xs ->
  Forall (λ x, encodes s0 (body x) (f x)) xs ->
  encodes s0 (λ w, for_range n (λ i w, a ← deref A (p + i * size_of A); body a w) w)
    (encode_all f xs).
Proof.
  intros Hn Harr Hbody w bs s Hw. eapply wp_mono.
  - apply (wp_for_array A
      (λ pre w s', exists b, encode_all f pre = Some b /\ writer s0 w (bs ++ b) s')
      (λ e s', e = EINVAL /\ encode_all f xs = None /\ settled s0 s') (st_mem s0) _ _ xs);
      [done|done| | |].
    + intros pre w1 s1 (b & _ & Hw1). by eapply writer_mem.
    + intros pre x post w1 s1 Hxs (b & Hb & Hw1).
      rewrite Hxs, Forall_app, Forall_cons in Hbody. destruct Hbody as (_ & Hx & _).
      eapply wp_mono; [by apply (Hx _ _ _ Hw1)|]. intros [w2|e] s2.
      * intros (b2 & Hb2 & Hw2). exists (b ++ b2). rewrite encode_all_app, Hb. simpl.
        rewrite Hb2. simpl. by rewrite app_nil_r, app_assoc.
      * intros (-> & Hno & ?). split_and!; [done| |done].
        rewrite Hxs, encode_all_app. simpl. by rewrite Hno, cat_None_r.
    + exists []. by rewrite app_nil_r.
  - intros [w'|e] s'; naive_solver.
Qed.

(** ** Finishing *)

Lemma wp_new_writer s :
  wp new_writer s (λ r s', exists w, r = Ok w /\ writer s w (replicate 18 Byte.x00) s').
Proof.
  eapply wp_mono; [apply (encodes_raw s _ fw_new [] s); left; auto with rsi|].
  intros [w|e] s'; [intros (b & [= <-] & Hw); eauto|by intros (_ & ? & _)].
Qed.

(** What a responder is given: the payload its arguments describe, if they describe one, and
    how many GUIDs there are to check first. *)
Record description := mk_description {
  desc_guids : Z;
  desc_reply : list byte -> Prop
}.

(** The outcome of a payload-bearing responder: a reply sent, too long for the [u32] length
    field, no valid reply, or an allocation refused: a request of
    reasonable size, or one for more GUIDs or payload bytes than a frame has room for. *)
Inductive responded (fd : Z) (r : rsi_request) (d : description) (s : state) :
    Z -> state -> Prop :=
  | responded_sent b s1 rc s' :
      desc_reply d b -> 18 + Z.of_nat (length b) < 2 ^ 32 -> quiet [] s s1 ->
      send fd (response_frame (rq_request_id r) (rq_op_code r) RSI_OK b) s1 = (rc, s') ->
      responded fd r d s rc s'
  | responded_overflow b s1 :
      desc_reply d b -> 2 ^ 32 <= 18 + Z.of_nat (length b) -> quiet [] s s1 ->
      responded fd r d s (-1) (with_errno EOVERFLOW s1)
  | responded_invalid s1 :
      (forall b, ~ desc_reply d b) -> settled s s1 ->
      responded fd r d s (-1) (with_errno EINVAL s1)
  | responded_starved s1 :
      quiet [EvRefused] s s1 -> may_refuse \/ 2 ^ 32 <= desc_guids d \/
        (exists b, desc_reply d b /\ 2 ^ 32 <= 18 + Z.of_nat (length b)) ->
      responded fd r d s (-1) (with_errno ENOMEM s1).

Context `{!KernelLaws platform_kernel, !LcsLaws platform_uapi platform_lcs}.

Lemma finish_response_eq r w hole payload s :
  length hole = 18%nat -> (fw_oom w = false -> rv_elems (fw_buf w) = hole ++ payload) ->
  finish_response r w s =
    if bool_decide (rq_op_code r ∈ request_ops) then
      if fw_oom w then OErr ENOMEM s
      else if 2 ^ 32 <=? 18 + Z.of_nat (length payload) then OErr EOVERFLOW s
      else ORet (response_frame (rq_request_id r) (rq_op_code r) RSI_OK payload) s
    else OErr EINVAL s.
Proof.
  intros Hl Hw. unfold finish_response. case_bool_decide as Hop.
  - rewrite response_op_known by done. destruct (fw_oom w); [done|]. rewrite (Hw eq_refl).
    replace (Z.of_nat (length (hole ++ payload))) with (18 + Z.of_nat (length payload))
      by (rewrite length_app; lia).
    destruct (_ <=? _); [done|]. by rewrite fill_header.
  - by destruct (response_op_unknown _ Hop) as [e ->].
Qed.

(** C39: [finish_response] on a buffer that starts with the 18-byte placeholder never panics.
    It is the frame of the payload when that fits the [u32] length field, and [EOVERFLOW]
    from 4 GiB on; a latched refusal is [ENOMEM] whatever the buffer holds, and a request
    whose op code is unknown is [EINVAL] before either. *)
Theorem finish_response_correct r w hole payload s :
  length hole = 18%nat -> (fw_oom w = false -> rv_elems (fw_buf w) = hole ++ payload) ->
  finish_response r w s =
    if bool_decide (rq_op_code r ∈ request_ops) then
      if fw_oom w then OErr ENOMEM s
      else if 2 ^ 32 <=? 18 + Z.of_nat (length payload) then OErr EOVERFLOW s
      else ORet (response_frame (rq_request_id r) (rq_op_code r) RSI_OK payload) s
    else OErr EINVAL s.
Proof. apply finish_response_eq. Qed.

Lemma wp_finish_and_send fd r d w b s0 s :
  rq_op_code r ∈ request_ops -> desc_reply d b ->
  writer s0 w (replicate 18 Byte.x00 ++ b) s ->
  wp (finish_and_send fd r w) s (λ res s', exists rc, res = Ok rc /\
    responded fd r d s0 rc s').
Proof.
  intros Hop Hb Hw. unfold finish_and_send. apply wp_or_fail.
  unfold wp, finish_response. rewrite response_op_known by done.
  destruct Hw as [(Ho & Hel & Hq)|(Ho & Hq & Hst)]; rewrite Ho; simpl.
  2: { eexists. split; [done|]. apply responded_starved; [done|].
    destruct Hst as [|Hst]; [by left|right; right]. exists b. split; [done|].
    rewrite length_app in Hst. unfold alloc_limit in Hst. simpl in Hst. lia. }
  assert (Z.of_nat (length (rv_elems (fw_buf w))) = 18 + Z.of_nat (length b)) as ->.
  { rewrite Hel, length_app, length_replicate. lia. }
  destruct (Z.leb_spec (2 ^ 32) (18 + Z.of_nat (length b))) as [Hbig|Hsmall].
  { eexists. split; [done|]. by eapply responded_overflow. }
  rewrite Hel, fill_header by done. unfold wp. rewrite write_frame_send.
  eexists. split; [done|]. eapply responded_sent; [done..|]. by rewrite <- surjective_pairing.
Qed.

End frame_spec.
