(* ===== verification/Response.v ===== *)
(** * Payload-bearing responses: [src/src/response.rs], lines 401-687

    The blocks a payload is made of, and the five exported functions that validate the
    caller's arrays, encode them after an 18-byte placeholder and send the frame. *)

From S2P Require Import Prelude Memory Platform Effects Request Guids Frame.

(** ** The structs the caller passes *)

Record rsi_value_entry := mk_rsi_value_entry {
  ve_value_name : Z;
  ve_value_name_len : Z;
  ve_layer_name : Z;
  ve_layer_name_len : Z;
  ve_value_type : Z;
  ve_data : Z;
  ve_data_len : Z;
  ve_sequence : Z
}.

#[export] Instance rsi_value_entry_repr : Repr rsi_value_entry := {
  repr_layout := [C_ptr; C_u32; C_ptr; C_u32; C_u32; C_ptr; C_u32; C_u64];
  repr_of vs := match vs with
    | [VInt p; VInt n; VInt lp; VInt ln; VInt t; VInt dp; VInt dn; VInt q] =>
        Some (mk_rsi_value_entry p n lp ln t dp dn q)
    | _ => None
    end
}.

Record rsi_blanket_entry := mk_rsi_blanket_entry {
  be_layer_name : Z;
  be_layer_name_len : Z;
  be_sequence : Z
}.

#[export] Instance rsi_blanket_entry_repr : Repr rsi_blanket_entry := {
  repr_layout := [C_ptr; C_u32; C_u64];
  repr_of vs := match vs with
    | [VInt p; VInt n; VInt q] => Some (mk_rsi_blanket_entry p n q)
    | _ => None
    end
}.

Section response.
Context `{P : Platform}.

(** ** Blocks *)

Definition encode_path_entry_block (w : FrameWriter) (entries count : Z) : M FrameWriter :=
  _ ← require_array entries count;
  w ← fw_u32 w count;
  for_range count (λ i w,
    e ← deref rsi_path_entry (entries + i * size_of rsi_path_entry);
    w ← fw_lpf w (pe_layer e) (pe_layer_len e);
    _ ← require_path_target (pe_target_type e) (pe_target_guid e);
    w ← fw_u8 w (pe_target_type e);
    w ← fw_guid w (pe_target_guid e);
    fw_u64 w (pe_sequence e)) w.

Definition encode_metadata_block (w : FrameWriter) (metadata count : Z) : M FrameWriter :=
  _ ← require_array metadata count;
  w ← fw_u32 w count;
  for_range count (λ i w,
    m ← deref rsi_key_metadata (metadata + i * size_of rsi_key_metadata);
    w ← fw_guid w (km_guid m);
    w ← fw_lpf w (km_sd m) (km_sd_len m);
    _ ← require_bool (km_volatile_key m);
    _ ← require_bool (km_symlink m);
    w ← fw_u8 w (km_volatile_key m);
    w ← fw_u8 w (km_symlink m);
    fw_u64 w (km_last_write_time m)) w.

(** ** Responders *)

Definition rsi_respond_lookup
    (fd req entries entry_count metadata metadata_count : Z) : M Z :=
  req ←? require_response_req req RSI_LOOKUP;
  _ ←? validate_lookup_metadata entries entry_count metadata metadata_count;
  w ← new_writer;
  w ←? (w ← encode_path_entry_block w entries entry_count;
        encode_metadata_block w metadata metadata_count);
  finish_and_send fd req w.

Definition rsi_respond_delete_layer (fd req orphaned_guids orphaned_count : Z) : M Z :=
  req ←? require_response_req req RSI_DELETE_LAYER;
  orphaned_bytes ←? orphaned_guid_bytes orphaned_guids orphaned_count;
  w ← new_writer;
  w ← fw_u32 w orphaned_count;
  w ← fw_raw w orphaned_bytes;
  finish_and_send fd req w.

(** A failing loop body returns from the whole function with [fail_errno]. *)
Definition rsi_respond_enum_children
    (fd req children child_count metadata metadata_count : Z) : M Z :=
  req ←? require_response_req req RSI_ENUM_CHILDREN;
  _ ←? validate_enum_children_metadata children child_count metadata metadata_count;
  w ← new_writer;
  w ← fw_u32 w child_count;
  w ←? for_range child_count (λ i w,
    c ← deref rsi_child_entry (children + i * size_of rsi_child_entry);
    w ← fw_lpf w (ch_child_name c) (ch_child_name_len c);
    encode_path_entry_block w (ch_entries c) (ch_entry_count c)) w;
  w ←? encode_metadata_block w metadata metadata_count;
  finish_and_send fd req w.

Definition rsi_respond_read_key
    (fd req name name_len parent_guid sd sd_len volatile_key symlink last_write_time : Z) :
    M Z :=
  req ←? require_response_req req RSI_READ_KEY;
  if parent_guid =? 0 then fail_errno EINVAL
  else
    w ← new_writer;
    w ←? fw_lpf w name name_len;
    parent ← from_raw_parts parent_guid 16;
    w ← fw_raw w (sl_bytes parent);
    w ←? fw_lpf w sd sd_len;
    _ ←? (_ ← require_bool volatile_key; require_bool symlink);
    w ← fw_u8 w volatile_key;
    w ← fw_u8 w symlink;
    w ← fw_u64 w last_write_time;
    finish_and_send fd req w.

Definition rsi_respond_query_values
    (fd req entries entry_count blankets blanket_count : Z) : M Z :=
  req ←? require_response_req req RSI_QUERY_VALUES;
  _ ←? (_ ← require_array entries entry_count; require_array blankets blanket_count);
  w ← new_writer;
  w ← fw_u32 w entry_count;
  w ←? for_range entry_count (λ i w,
    e ← deref rsi_value_entry (entries + i * size_of rsi_value_entry);
    w ← fw_lpf w (ve_value_name e) (ve_value_name_len e);
    w ← fw_lpf w (ve_layer_name e) (ve_layer_name_len e);
    w ← fw_u32 w (ve_value_type e);
    w ← fw_lpf w (ve_data e) (ve_data_len e);
    fw_u64 w (ve_sequence e)) w;
  w ← fw_u32 w blanket_count;
  w ←? for_range blanket_count (λ i w,
    b ← deref rsi_blanket_entry (blankets + i * size_of rsi_blanket_entry);
    w ← fw_lpf w (be_layer_name b) (be_layer_name_len b);
    fw_u64 w (be_sequence b)) w;
  finish_and_send fd req w.

End response.
