(* ===== verification/Abi.v ===== *)
(** * The C structs: [src/abi/rsi-abi.h]

    The structs of the ABI snapshot, as a C compiler for an LP64 target lays them out, and
    the theorem that they are the [repr(C)] structs of the Rust sources: the member that a
    caller compiled against the headers calls by a name is the field that the library calls
    by that name. *)

From Stdlib Require Import String.
From S2P Require Import Prelude Memory Platform Effects Source Request Guids Response.
#[local] Open Scope string_scope.
#[local] Open Scope Z_scope.

(** ** C declarations *)

Inductive c_type : Type :=
  | uint8_t
  | uint16_t
  | uint32_t
  | uint64_t
  | pointer
  | uint8_t_array (n : Z).

Record c_field := mk_c_field { cf_type : c_type; cf_name : string }.
Definition c_struct : Type := list c_field.

Definition sizeof (t : c_type) : Z :=
  match t with
  | uint8_t => 1
  | uint16_t => 2
  | uint32_t => 4
  | uint64_t => 8
  | pointer => 8
  | uint8_t_array n => n
  end.

Definition alignof (t : c_type) : Z :=
  match t with uint8_t_array _ => 1 | _ => sizeof t end.

(** *** Layout

    Stated, not computed: where a C compiler puts the fields of a struct. [os] are the
    offsets of the fields [fs], of which the first may start at [end] or later. *)

(** [o] is the first multiple of [a] that is not before [n]. *)
Definition first_aligned (a n o : Z) : Prop :=
  o mod a = 0 /\ n <= o /\ forall o', o' mod a = 0 -> n <= o' -> o <= o'.

Inductive laid_out : Z -> list c_field -> list Z -> Z -> Prop :=
  | laid_out_nil n : laid_out n [] [] n
  | laid_out_cons n f fs o os m :
      first_aligned (alignof (cf_type f)) n o ->
      laid_out (o + sizeof (cf_type f)) fs os m ->
      laid_out n (f :: fs) (o :: os) m.

(** The strictest alignment of a field. *)
Definition struct_alignment (fs : c_struct) (a : Z) : Prop :=
  (a = 1 \/ exists f, f ∈ fs /\ a = alignof (cf_type f)) /\
  1 <= a /\ Forall (λ f, alignof (cf_type f) <= a) fs.

(** [fs] is laid out at [os], in [n] bytes aligned to [a]. *)
Definition c_layout (fs : c_struct) (os : list Z) (n a : Z) : Prop :=
  exists m, laid_out 0 fs os m /\ struct_alignment fs a /\ first_aligned a m n.

(** *** The declarations *)

Definition c_rsi_request : c_struct :=
  [ mk_c_field uint64_t "request_id"; mk_c_field uint64_t "txn_id"; mk_c_field pointer "payload";
    mk_c_field uint32_t "payload_len"; mk_c_field uint16_t "op_code" ].

Definition c_rsi_hive : c_struct :=
  [ mk_c_field pointer "name"; mk_c_field uint32_t "name_len"; mk_c_field uint32_t "flags";
    mk_c_field (uint8_t_array 16) "root_guid"; mk_c_field (uint8_t_array 16) "scope_guid" ].

Definition c_rsi_transaction : c_struct :=
  [ mk_c_field uint64_t "transaction_id" ].

Definition c_rsi_begin_transaction : c_struct :=
  [ mk_c_field uint64_t "transaction_id"; mk_c_field uint32_t "mode" ].

Definition c_rsi_create_entry : c_struct :=
  [ mk_c_field (uint8_t_array 16) "parent_guid"; mk_c_field (uint8_t_array 16) "child_guid";
    mk_c_field pointer "child_name"; mk_c_field uint32_t "child_name_len";
    mk_c_field pointer "layer_name"; mk_c_field uint32_t "layer_name_len";
    mk_c_field uint64_t "sequence" ].

Definition c_rsi_create_key : c_struct :=
  [ mk_c_field (uint8_t_array 16) "guid"; mk_c_field (uint8_t_array 16) "parent_guid";
    mk_c_field pointer "name"; mk_c_field uint32_t "name_len"; mk_c_field pointer "sd";
    mk_c_field uint32_t "sd_len"; mk_c_field uint8_t "volatile_key";
    mk_c_field uint8_t "symlink" ].

Definition c_rsi_delete_entry : c_struct :=
  [ mk_c_field (uint8_t_array 16) "parent_guid"; mk_c_field pointer "child_name";
    mk_c_field uint32_t "child_name_len"; mk_c_field pointer "layer_name";
    mk_c_field uint32_t "layer_name_len" ].

Definition c_rsi_name : c_struct :=
  [ mk_c_field pointer "name"; mk_c_field uint32_t "name_len" ].

Definition c_rsi_delete_value_entry : c_struct :=
  [ mk_c_field (uint8_t_array 16) "guid"; mk_c_field pointer "value_name";
    mk_c_field uint32_t "value_name_len"; mk_c_field pointer "layer_name";
    mk_c_field uint32_t "layer_name_len" ].

Definition c_rsi_key_guid : c_struct :=
  [ mk_c_field (uint8_t_array 16) "guid" ].

Definition c_rsi_enum_children : c_struct :=
  [ mk_c_field (uint8_t_array 16) "parent_guid" ].

Definition c_rsi_hide_entry : c_struct :=
  [ mk_c_field (uint8_t_array 16) "parent_guid"; mk_c_field pointer "child_name";
    mk_c_field uint32_t "child_name_len"; mk_c_field pointer "layer_name";
    mk_c_field uint32_t "layer_name_len"; mk_c_field uint64_t "sequence" ].

Definition c_rsi_lookup : c_struct :=
  [ mk_c_field (uint8_t_array 16) "parent_guid"; mk_c_field pointer "child_name";
    mk_c_field uint32_t "child_name_len" ].

Definition c_rsi_query_values : c_struct :=
  [ mk_c_field (uint8_t_array 16) "guid"; mk_c_field pointer "value_name";
    mk_c_field uint32_t "value_name_len"; mk_c_field uint8_t "query_all" ].

Definition c_rsi_set_blanket_tombstone : c_struct :=
  [ mk_c_field (uint8_t_array 16) "guid"; mk_c_field pointer "layer_name";
    mk_c_field uint32_t "layer_name_len"; mk_c_field uint8_t "set";
    mk_c_field uint64_t "sequence" ].

Definition c_rsi_set_value : c_struct :=
  [ mk_c_field (uint8_t_array 16) "guid"; mk_c_field pointer "value_name";
    mk_c_field uint32_t "value_name_len"; mk_c_field pointer "layer_name";
    mk_c_field uint32_t "layer_name_len"; mk_c_field uint32_t "value_type";
    mk_c_field pointer "data"; mk_c_field uint32_t "data_len"; mk_c_field uint64_t "sequence";
    mk_c_field uint64_t "expected_sequence" ].

Definition c_rsi_write_key : c_struct :=
  [ mk_c_field (uint8_t_array 16) "guid"; mk_c_field uint32_t "field_mask";
    mk_c_field pointer "sd"; mk_c_field uint32_t "sd_len";
    mk_c_field uint64_t "last_write_time" ].

Definition c_rsi_path_entry : c_struct :=
  [ mk_c_field pointer "layer"; mk_c_field uint32_t "layer_len";
    mk_c_field uint8_t "target_type"; mk_c_field (uint8_t_array 16) "target_guid";
    mk_c_field uint64_t "sequence" ].

Definition c_rsi_child_entry : c_struct :=
  [ mk_c_field pointer "child_name"; mk_c_field uint32_t "child_name_len";
    mk_c_field pointer "entries"; mk_c_field uint32_t "entry_count" ].

Definition c_rsi_key_metadata : c_struct :=
  [ mk_c_field (uint8_t_array 16) "guid"; mk_c_field pointer "sd"; mk_c_field uint32_t "sd_len";
    mk_c_field uint8_t "volatile_key"; mk_c_field uint8_t "symlink";
    mk_c_field uint64_t "last_write_time" ].

Definition c_rsi_value_entry : c_struct :=
  [ mk_c_field pointer "value_name"; mk_c_field uint32_t "value_name_len";
    mk_c_field pointer "layer_name"; mk_c_field uint32_t "layer_name_len";
    mk_c_field uint32_t "value_type"; mk_c_field pointer "data"; mk_c_field uint32_t "data_len";
    mk_c_field uint64_t "sequence" ].

Definition c_rsi_blanket_entry : c_struct :=
  [ mk_c_field pointer "layer_name"; mk_c_field uint32_t "layer_name_len";
    mk_c_field uint64_t "sequence" ].

(** ** The fields of the Rust structs

    By the names they have in [source.rs], [request.rs] and [response.rs]. *)

Class Fields (A : Type) : Type := fields_of : A -> list (string * cval).

#[export] Instance rsi_request_fields : Fields rsi_request := λ v,
  [ ("request_id", VInt (rq_request_id v)); ("txn_id", VInt (rq_txn_id v));
    ("payload", VInt (rq_payload v)); ("payload_len", VInt (rq_payload_len v));
    ("op_code", VInt (rq_op_code v)) ].

#[export] Instance rsi_hive_fields : Fields rsi_hive := λ v,
  [ ("name", VInt (hv_name v)); ("name_len", VInt (hv_name_len v)); ("flags", VInt (hv_flags v));
    ("root_guid", VGuid (hv_root_guid v)); ("scope_guid", VGuid (hv_scope_guid v)) ].

#[export] Instance rsi_transaction_fields : Fields rsi_transaction := λ v,
  [ ("transaction_id", VInt (rtx_transaction_id v)) ].

#[export] Instance rsi_begin_transaction_fields : Fields rsi_begin_transaction := λ v,
  [ ("transaction_id", VInt (rbg_transaction_id v)); ("mode", VInt (rbg_mode v)) ].

#[export] Instance rsi_create_entry_fields : Fields rsi_create_entry := λ v,
  [ ("parent_guid", VGuid (rce_parent_guid v)); ("child_guid", VGuid (rce_child_guid v));
    ("child_name", VInt (rce_child_name v)); ("child_name_len", VInt (rce_child_name_len v));
    ("layer_name", VInt (rce_layer_name v)); ("layer_name_len", VInt (rce_layer_name_len v));
    ("sequence", VInt (rce_sequence v)) ].

#[export] Instance rsi_create_key_fields : Fields rsi_create_key := λ v,
  [ ("guid", VGuid (rck_guid v)); ("parent_guid", VGuid (rck_parent_guid v));
    ("name", VInt (rck_name v)); ("name_len", VInt (rck_name_len v)); ("sd", VInt (rck_sd v));
    ("sd_len", VInt (rck_sd_len v)); ("volatile_key", VInt (rck_volatile_key v));
    ("symlink", VInt (rck_symlink v)) ].

#[export] Instance rsi_delete_entry_fields : Fields rsi_delete_entry := λ v,
  [ ("parent_guid", VGuid (rde_parent_guid v)); ("child_name", VInt (rde_child_name v));
    ("child_name_len", VInt (rde_child_name_len v)); ("layer_name", VInt (rde_layer_name v));
    ("layer_name_len", VInt (rde_layer_name_len v)) ].

#[export] Instance rsi_name_fields : Fields rsi_name := λ v,
  [ ("name", VInt (rnm_name v)); ("name_len", VInt (rnm_name_len v)) ].

#[export] Instance rsi_delete_value_entry_fields : Fields rsi_delete_value_entry := λ v,
  [ ("guid", VGuid (rdv_guid v)); ("value_name", VInt (rdv_value_name v));
    ("value_name_len", VInt (rdv_value_name_len v)); ("layer_name", VInt (rdv_layer_name v));
    ("layer_name_len", VInt (rdv_layer_name_len v)) ].

#[export] Instance rsi_key_guid_fields : Fields rsi_key_guid := λ v,
  [ ("guid", VGuid (rkg_guid v)) ].

#[export] Instance rsi_enum_children_fields : Fields rsi_enum_children := λ v,
  [ ("parent_guid", VGuid (rec_parent_guid v)) ].

#[export] Instance rsi_hide_entry_fields : Fields rsi_hide_entry := λ v,
  [ ("parent_guid", VGuid (rhe_parent_guid v)); ("child_name", VInt (rhe_child_name v));
    ("child_name_len", VInt (rhe_child_name_len v)); ("layer_name", VInt (rhe_layer_name v));
    ("layer_name_len", VInt (rhe_layer_name_len v)); ("sequence", VInt (rhe_sequence v)) ].

#[export] Instance rsi_lookup_fields : Fields rsi_lookup := λ v,
  [ ("parent_guid", VGuid (rl_parent_guid v)); ("child_name", VInt (rl_child_name v));
    ("child_name_len", VInt (rl_child_name_len v)) ].

#[export] Instance rsi_query_values_fields : Fields rsi_query_values := λ v,
  [ ("guid", VGuid (rqv_guid v)); ("value_name", VInt (rqv_value_name v));
    ("value_name_len", VInt (rqv_value_name_len v)); ("query_all", VInt (rqv_query_all v)) ].

#[export] Instance rsi_set_blanket_tombstone_fields : Fields rsi_set_blanket_tombstone := λ v,
  [ ("guid", VGuid (rbt_guid v)); ("layer_name", VInt (rbt_layer_name v));
    ("layer_name_len", VInt (rbt_layer_name_len v)); ("set", VInt (rbt_set v));
    ("sequence", VInt (rbt_sequence v)) ].

#[export] Instance rsi_set_value_fields : Fields rsi_set_value := λ v,
  [ ("guid", VGuid (rsv_guid v)); ("value_name", VInt (rsv_value_name v));
    ("value_name_len", VInt (rsv_value_name_len v)); ("layer_name", VInt (rsv_layer_name v));
    ("layer_name_len", VInt (rsv_layer_name_len v)); ("value_type", VInt (rsv_value_type v));
    ("data", VInt (rsv_data v)); ("data_len", VInt (rsv_data_len v));
    ("sequence", VInt (rsv_sequence v)); ("expected_sequence", VInt (rsv_expected_sequence v)) ].

#[export] Instance rsi_write_key_fields : Fields rsi_write_key := λ v,
  [ ("guid", VGuid (rwk_guid v)); ("field_mask", VInt (rwk_field_mask v));
    ("sd", VInt (rwk_sd v)); ("sd_len", VInt (rwk_sd_len v));
    ("last_write_time", VInt (rwk_last_write_time v)) ].

#[export] Instance rsi_path_entry_fields : Fields rsi_path_entry := λ v,
  [ ("layer", VInt (pe_layer v)); ("layer_len", VInt (pe_layer_len v));
    ("target_type", VInt (pe_target_type v)); ("target_guid", VGuid (pe_target_guid v));
    ("sequence", VInt (pe_sequence v)) ].

#[export] Instance rsi_child_entry_fields : Fields rsi_child_entry := λ v,
  [ ("child_name", VInt (ch_child_name v)); ("child_name_len", VInt (ch_child_name_len v));
    ("entries", VInt (ch_entries v)); ("entry_count", VInt (ch_entry_count v)) ].

#[export] Instance rsi_key_metadata_fields : Fields rsi_key_metadata := λ v,
  [ ("guid", VGuid (km_guid v)); ("sd", VInt (km_sd v)); ("sd_len", VInt (km_sd_len v));
    ("volatile_key", VInt (km_volatile_key v)); ("symlink", VInt (km_symlink v));
    ("last_write_time", VInt (km_last_write_time v)) ].

#[export] Instance rsi_value_entry_fields : Fields rsi_value_entry := λ v,
  [ ("value_name", VInt (ve_value_name v)); ("value_name_len", VInt (ve_value_name_len v));
    ("layer_name", VInt (ve_layer_name v)); ("layer_name_len", VInt (ve_layer_name_len v));
    ("value_type", VInt (ve_value_type v)); ("data", VInt (ve_data v));
    ("data_len", VInt (ve_data_len v)); ("sequence", VInt (ve_sequence v)) ].

#[export] Instance rsi_blanket_entry_fields : Fields rsi_blanket_entry := λ v,
  [ ("layer_name", VInt (be_layer_name v)); ("layer_name_len", VInt (be_layer_name_len v));
    ("sequence", VInt (be_sequence v)) ].

(** ** The Rust structs are laid out that way *)

(** A field of type [t] in C is a field of type [u] in Rust. *)
Definition same_field (t : c_type) (u : cty) : Prop :=
  match t, u with
  | uint8_t, C_u8 | uint16_t, C_u16 | uint32_t, C_u32 | uint64_t, C_u64 | pointer, C_ptr => True
  | uint8_t_array n, C_guid => n = 16
  | _, _ => False
  end.

(** What C reads in a member of type [t] that holds the bytes [bs]. *)
Definition c_value (t : c_type) (bs : list byte) : cval :=
  match t with uint8_t_array _ => VGuid bs | _ => VInt (of_le bs) end.

(** What C reads, under each member's name, in the struct at [p] whose members are at [os]. *)
Definition c_members (m : memory) (p : Z) (d : c_struct) (os : list Z) :
    list (string * option cval) :=
  zip_with (λ f o, (cf_name f,
    c_value (cf_type f) <$> load m (p + o) (Z.to_nat (sizeof (cf_type f))))) d os.

(** The declaration [d] is the Rust struct [A]: field by field the same types, laid out by any
    C compiler the same offsets, size and alignment, and, wherever Rust reads a struct, C
    reads the same values under the same names. *)
Definition declares (d : c_struct) (A : Type) `{Repr A, Fields A} : Prop :=
  NoDup (cf_name <$> d) /\ Forall2 (λ f u, same_field (cf_type f) u) d (repr_layout A) /\
  (forall os n a, c_layout d os n a <->
     os = offsets (repr_layout A) /\ n = size_of A /\ a = align_of A) /\
  forall os n a m p x, c_layout d os n a -> read A m p = Some x ->
    c_members m p d os = prod_map id Some <$> fields_of x.

Lemma same_field_size t u : same_field t u -> sizeof t = csize u /\ alignof t = calign u.
Proof. by destruct t, u; simpl; try done; intros ->. Qed.

Lemma first_aligned_unique a n o o' : first_aligned a n o -> first_aligned a n o' -> o = o'.
Proof.
  intros (Hm & Hn & Ho) (Hm' & Hn' & Ho'). pose proof (Ho _ Hm' Hn'). pose proof (Ho' _ Hm Hn). lia.
Qed.

Lemma first_aligned_up a n : 0 < a -> first_aligned a n (align_up n a).
Proof.
  intros Ha. split_and!; [by apply align_up_mod|by apply align_up_ge|].
  intros o Ho Hn. unfold align_up. apply Z.mod_divide in Ho as [k ->]; [|lia].
  pose proof (Z.div_lt_upper_bound (n + a - 1) a (k + 1) ltac:(lia) ltac:(nia)). nia.
Qed.

Lemma first_aligned_iff a n o : 0 < a -> first_aligned a n o <-> o = align_up n a.
Proof.
  intros Ha. split; [|intros ->; by apply first_aligned_up].
  intros Ho. eapply first_aligned_unique; [done|by apply first_aligned_up].
Qed.

Lemma laid_out_iff fs us n os m :
  Forall2 (λ f u, same_field (cf_type f) u) fs us ->
  laid_out n fs os m <-> os = offsets_from n us /\ m = end_from n us.
Proof.
  intros Hall. revert n os. induction Hall as [|f u fs us Hf Hall IH]; intros n os; simpl.
  { split; [by inversion 1|intros [-> ->]; constructor]. }
  apply same_field_size in Hf as [Hs Ha]. pose proof (calign_pos u).
  split.
  - inversion 1 as [|? ? ? o os' ? Ho Hos]; subst. rewrite Ha, first_aligned_iff in Ho by done.
    rewrite Hs, IH in Hos. by destruct Hos as [-> ->]; subst.
  - intros [-> ->]. constructor; [rewrite Ha; by apply first_aligned_up|].
    rewrite Hs. by apply IH.
Qed.

Lemma struct_alignment_iff fs us a :
  Forall2 (λ f u, same_field (cf_type f) u) fs us ->
  struct_alignment fs a <-> a = struct_align us.
Proof.
  intros Hall.
  assert (struct_alignment fs (struct_align us)) as Hus.
  { unfold struct_alignment, struct_align.
    induction Hall as [|f u fs us Hf Hall (Hin & H1 & Hle)];
      csimpl; [split_and!; [by left|lia|constructor]|].
    apply same_field_size in Hf as [_ Ha]. pose proof (calign_pos u).
    split_and!; [|lia|].
    2: { apply Forall_cons. split; [lia|]. eapply Forall_impl; [done|]. intros g Hg.
         etrans; [exact Hg|apply Z.le_max_r]. }
    destruct (Z.max_spec (calign u) (foldr Z.max 1 (calign <$> us))) as [[_ ->]|[_ ->]].
    - destruct Hin as [|(g & ? & ?)]; [by left|]. right. exists g. split; [apply elem_of_cons; by right|done].
    - right. exists f. split; [apply elem_of_cons; by left|done]. }
  split; [|by intros ->]. revert Hus. generalize (struct_align us).
  intros b (Hb & Hb1 & Hbs) (Ha & Ha1 & Has). rewrite Forall_forall in *.
  destruct Ha as [->|(f & Hf & ->)], Hb as [->|(g & Hg & ->)]; [done|..].
  - specialize (Has _ Hg). simpl in *. lia.
  - specialize (Hbs _ Hf). simpl in *. lia.
  - specialize (Has _ Hg). specialize (Hbs _ Hf). simpl in *. lia.
Qed.

Lemma c_layout_iff fs us os n a :
  Forall2 (λ f u, same_field (cf_type f) u) fs us ->
  c_layout fs os n a <-> os = offsets us /\ n = struct_size us /\ a = struct_align us.
Proof.
  intros Hall. unfold c_layout.
  setoid_rewrite (laid_out_iff _ _ 0 _ _ Hall). setoid_rewrite (struct_alignment_iff _ _ _ Hall).
  pose proof (struct_align_pos us). split.
  - intros (m & [-> ->] & -> & Hn'). by apply first_aligned_iff in Hn'.
  - intros (-> & -> & ->). eexists. split_and!; [done|done|done|]. by apply first_aligned_up.
Qed.

Lemma same_field_value t u bs : same_field t u -> c_value t bs = decode_val u bs.
Proof. by destruct t, u. Qed.

(** C and Rust decode the bytes of a struct alike. *)
Lemma c_members_decode d us m p bs :
  Forall2 (λ f u, same_field (cf_type f) u) d us ->
  load m p (Z.to_nat (struct_size us)) = Some bs ->
  c_members m p d (offsets us) = zip (cf_name <$> d) (Some <$> decode_struct us bs).
Proof.
  intros Hall Hbs. apply list_eq. intros i. unfold c_members.
  rewrite lookup_zip_with, lookup_zip_with, !list_lookup_fmap, lookup_decode_struct.
  destruct (d !! i) as [f|] eqn:Hf; [|done].
  destruct (Forall2_lookup_l _ _ _ _ _ Hall Hf) as (u & Hu & Hfu).
  destruct (offsets us !! i) as [o|] eqn:Ho; [|done]. rewrite Hu. simpl. do 2 f_equal.
  destruct (offset_bound _ _ _ _ Ho Hu) as [H0 Hend]. pose proof (csize_pos u).
  rewrite (proj1 (same_field_size _ _ Hfu)). replace o with (Z.of_nat (Z.to_nat o)) at 1 by lia.
  rewrite (load_sub _ _ _ _ _ _ Hbs) by lia. simpl. by rewrite (same_field_value _ _ _ Hfu).
Qed.

Lemma declares_intro d A `{Repr A, Fields A} :
  NoDup (cf_name <$> d) -> Forall2 (λ f u, same_field (cf_type f) u) d (repr_layout A) ->
  (forall vs x, repr_of vs = Some x -> fields_of x = zip (cf_name <$> d) vs) ->
  declares d A.
Proof.
  intros Hn Hall Hx. split_and!; [done|done|intros os n a; by apply c_layout_iff|].
  intros os n a m p x (-> & _ & _)%(c_layout_iff _ _ _ _ _ Hall) Hread.
  unfold read in Hread. apply bind_Some in Hread as (vs & (bs & Hbs & ->)%read_struct_Some & Hof).
  rewrite (c_members_decode _ _ _ _ _ Hall Hbs), (Hx _ _ Hof).
  by rewrite prod_map_zip, list_fmap_id.
Qed.

Ltac solve_declares :=
  apply declares_intro;
  [ by apply (bool_decide_unpack _)
  | repeat constructor
  | intros vs x; cbn; repeat case_match; by intros [= <-] ].

(** C24: the types of the C boundary: every struct of the ABI snapshot has, in any C
    compiler's layout of it, the field types, offsets, size and alignment of the [repr(C)]
    struct through which the library reads and writes the caller's memory, and C reads under
    the name of each member the value that Rust has in the field of that name. *)
Theorem abi_structs_match :
  declares c_rsi_request rsi_request /\
  declares c_rsi_hive rsi_hive /\
  declares c_rsi_transaction rsi_transaction /\
  declares c_rsi_begin_transaction rsi_begin_transaction /\
  declares c_rsi_create_entry rsi_create_entry /\
  declares c_rsi_create_key rsi_create_key /\
  declares c_rsi_delete_entry rsi_delete_entry /\
  declares c_rsi_name rsi_name /\
  declares c_rsi_delete_value_entry rsi_delete_value_entry /\
  declares c_rsi_key_guid rsi_key_guid /\
  declares c_rsi_enum_children rsi_enum_children /\
  declares c_rsi_hide_entry rsi_hide_entry /\
  declares c_rsi_lookup rsi_lookup /\
  declares c_rsi_query_values rsi_query_values /\
  declares c_rsi_set_blanket_tombstone rsi_set_blanket_tombstone /\
  declares c_rsi_set_value rsi_set_value /\
  declares c_rsi_write_key rsi_write_key /\
  declares c_rsi_path_entry rsi_path_entry /\
  declares c_rsi_child_entry rsi_child_entry /\
  declares c_rsi_key_metadata rsi_key_metadata /\
  declares c_rsi_value_entry rsi_value_entry /\
  declares c_rsi_blanket_entry rsi_blanket_entry.
Proof. split_and!; solve_declares. Qed.
