(* ===== verification/Signatures.v ===== *)
(** * The function prototypes of [src/abi/rsi-abi.h]

    A caller is compiled against the prototypes of the ABI snapshot and linked with the
    [extern "C"] functions of the Rust sources. Here are both, and how the x86-64 calling
    convention carries arguments from one to the other: one 64-bit word per argument, in
    order (the first six in registers), of which an argument narrower than that determines
    only the low bits. The structs the pointers point to are in [Abi.v]. *)

From Stdlib Require Import String.
From S2P Require Import Prelude Memory Platform Effects Source Request Guids Frame Response Abi.
#[local] Open Scope string_scope.
#[local] Open Scope Z_scope.

(** ** Types of arguments *)

(** What a pointer points to; a struct by its tag. *)
Inductive pointee : Type :=
  | to_void
  | to_bytes
  | to_struct (tag : string).

Inductive c_arg : Type :=
  | c_int
  | c_ssize_t
  | c_size_t
  | c_data (t : c_type)
  | c_pointer (const : bool) (p : pointee).

Inductive rust_type : Type :=
  | R_c_int
  | R_ssize_t
  | R_usize
  | R_u8
  | R_u32
  | R_u64
  | R_const (p : pointee)
  | R_mut (p : pointee).

(** Width in bits, and whether there is a sign. *)
Definition rep : Type := Z * bool.

Definition c_rep (t : c_arg) : rep :=
  match t with
  | c_int => (32, true)
  | c_ssize_t => (64, true)
  | c_size_t | c_pointer _ _ => (64, false)
  | c_data t => (8 * sizeof t, false)
  end.

Definition rust_rep (t : rust_type) : rep :=
  match t with
  | R_c_int => (32, true)
  | R_ssize_t => (64, true)
  | R_u8 => (8, false)
  | R_u32 => (32, false)
  | R_usize | R_u64 | R_const _ | R_mut _ => (64, false)
  end.

Definition in_range (r : rep) (v : Z) : Prop :=
  if r.2 then - 2 ^ (r.1 - 1) <= v < 2 ^ (r.1 - 1) else 0 <= v < 2 ^ r.1.

(** ** The calling convention *)

(** The word of an argument; [junk] is in the bits above its width. *)
Definition pass (r : rep) (junk v : Z) : Z := wrap 64 (wrap r.1 v + 2 ^ r.1 * junk).

(** The value a word stands for. *)
Definition receive (r : rep) (word : Z) : Z :=
  let u := wrap r.1 word in if r.2 && (2 ^ (r.1 - 1) <=? u) then u - 2 ^ r.1 else u.

Section signatures.
Context `{P : Platform}.

(** A modelled function of [n] arguments, and its application to a list of them. *)
Fixpoint entry (n : nat) : Type :=
  match n with O => M Z | S n => Z -> entry n end.

Fixpoint enter (n : nat) : entry n -> list Z -> option (M Z) :=
  match n with
  | O => λ m vs, match vs with [] => Some m | _ => None end
  | S n => λ f vs, match vs with v :: vs => enter n (f v) vs | [] => None end
  end.

Record prototype := mk_prototype {
  pr_name : string;
  pr_params : list (string * c_arg);
  pr_ret : c_arg
}.

Record rust_fn := mk_rust_fn {
  rf_name : string;
  rf_params : list (string * rust_type);
  rf_ret : rust_type;
  rf_body : entry (length rf_params)
}.

(** A caller that knows the prototype passes [vs]; the function runs on what it receives. *)
Definition pass_all (d : prototype) (junk vs : list Z) : list Z :=
  zip_with (λ r jv, pass r jv.1 jv.2) ((λ p, c_rep p.2) <$> pr_params d) (zip junk vs).
Definition run_words (f : rust_fn) (words : list Z) : option (M Z) :=
  enter _ (rf_body f) (zip_with receive ((λ p, rust_rep p.2) <$> rf_params f) words).

(** ** The Rust signatures

    Each with the function of this development that models the body. *)

Definition sig_rsi_register : rust_fn := mk_rust_fn "rsi_register"
  [ ("hives", R_const (to_struct "rsi_hive")); ("count", R_u32); ("max_sequence", R_u64) ] R_c_int
  rsi_register.

Definition sig_rsi_read_request : rust_fn := mk_rust_fn "rsi_read_request"
  [ ("fd", R_c_int); ("buf", R_mut to_void); ("cap", R_usize) ] R_ssize_t
  rsi_read_request.

Definition sig_rsi_parse_request : rust_fn := mk_rust_fn "rsi_parse_request"
  [ ("frame", R_const to_void); ("len", R_usize); ("out", R_mut (to_struct "rsi_request")) ] R_c_int
  rsi_parse_request.

Definition sig_rsi_request_lookup : rust_fn := mk_rust_fn "rsi_request_lookup"
  [ ("req", R_const (to_struct "rsi_request")); ("out", R_mut (to_struct "rsi_lookup")) ] R_c_int
  rsi_request_lookup.

Definition sig_rsi_request_create_entry : rust_fn := mk_rust_fn "rsi_request_create_entry"
  [ ("req", R_const (to_struct "rsi_request")); ("out", R_mut (to_struct "rsi_create_entry")) ] R_c_int
  rsi_request_create_entry.

Definition sig_rsi_request_hide_entry : rust_fn := mk_rust_fn "rsi_request_hide_entry"
  [ ("req", R_const (to_struct "rsi_request")); ("out", R_mut (to_struct "rsi_hide_entry")) ] R_c_int
  rsi_request_hide_entry.

Definition sig_rsi_request_delete_entry : rust_fn := mk_rust_fn "rsi_request_delete_entry"
  [ ("req", R_const (to_struct "rsi_request")); ("out", R_mut (to_struct "rsi_delete_entry")) ] R_c_int
  rsi_request_delete_entry.

Definition sig_rsi_request_enum_children : rust_fn := mk_rust_fn "rsi_request_enum_children"
  [ ("req", R_const (to_struct "rsi_request")); ("out", R_mut (to_struct "rsi_enum_children")) ] R_c_int
  rsi_request_enum_children.

Definition sig_rsi_request_create_key : rust_fn := mk_rust_fn "rsi_request_create_key"
  [ ("req", R_const (to_struct "rsi_request")); ("out", R_mut (to_struct "rsi_create_key")) ] R_c_int
  rsi_request_create_key.

Definition sig_rsi_request_read_key : rust_fn := mk_rust_fn "rsi_request_read_key"
  [ ("req", R_const (to_struct "rsi_request")); ("out", R_mut (to_struct "rsi_key_guid")) ] R_c_int
  rsi_request_read_key.

Definition sig_rsi_request_drop_key : rust_fn := mk_rust_fn "rsi_request_drop_key"
  [ ("req", R_const (to_struct "rsi_request")); ("out", R_mut (to_struct "rsi_key_guid")) ] R_c_int
  rsi_request_drop_key.

Definition sig_rsi_request_write_key : rust_fn := mk_rust_fn "rsi_request_write_key"
  [ ("req", R_const (to_struct "rsi_request")); ("out", R_mut (to_struct "rsi_write_key")) ] R_c_int
  rsi_request_write_key.

Definition sig_rsi_request_query_values : rust_fn := mk_rust_fn "rsi_request_query_values"
  [ ("req", R_const (to_struct "rsi_request")); ("out", R_mut (to_struct "rsi_query_values")) ] R_c_int
  rsi_request_query_values.

Definition sig_rsi_request_set_value : rust_fn := mk_rust_fn "rsi_request_set_value"
  [ ("req", R_const (to_struct "rsi_request")); ("out", R_mut (to_struct "rsi_set_value")) ] R_c_int
  rsi_request_set_value.

Definition sig_rsi_request_delete_value_entry : rust_fn := mk_rust_fn "rsi_request_delete_value_entry"
  [ ("req", R_const (to_struct "rsi_request"));
    ("out", R_mut (to_struct "rsi_delete_value_entry")) ] R_c_int
  rsi_request_delete_value_entry.

Definition sig_rsi_request_set_blanket_tombstone : rust_fn := mk_rust_fn "rsi_request_set_blanket_tombstone"
  [ ("req", R_const (to_struct "rsi_request"));
    ("out", R_mut (to_struct "rsi_set_blanket_tombstone")) ] R_c_int
  rsi_request_set_blanket_tombstone.

Definition sig_rsi_request_begin_transaction : rust_fn := mk_rust_fn "rsi_request_begin_transaction"
  [ ("req", R_const (to_struct "rsi_request"));
    ("out", R_mut (to_struct "rsi_begin_transaction")) ] R_c_int
  rsi_request_begin_transaction.

Definition sig_rsi_request_commit_transaction : rust_fn := mk_rust_fn "rsi_request_commit_transaction"
  [ ("req", R_const (to_struct "rsi_request")); ("out", R_mut (to_struct "rsi_transaction")) ] R_c_int
  rsi_request_commit_transaction.

Definition sig_rsi_request_abort_transaction : rust_fn := mk_rust_fn "rsi_request_abort_transaction"
  [ ("req", R_const (to_struct "rsi_request")); ("out", R_mut (to_struct "rsi_transaction")) ] R_c_int
  rsi_request_abort_transaction.

Definition sig_rsi_request_delete_layer : rust_fn := mk_rust_fn "rsi_request_delete_layer"
  [ ("req", R_const (to_struct "rsi_request")); ("out", R_mut (to_struct "rsi_name")) ] R_c_int
  rsi_request_delete_layer.

Definition sig_rsi_request_flush : rust_fn := mk_rust_fn "rsi_request_flush"
  [ ("req", R_const (to_struct "rsi_request")); ("out", R_mut (to_struct "rsi_name")) ] R_c_int
  rsi_request_flush.

Definition sig_rsi_write_response : rust_fn := mk_rust_fn "rsi_write_response"
  [ ("fd", R_c_int); ("frame", R_const to_void); ("len", R_usize) ] R_ssize_t
  rsi_write_response.

Definition sig_rsi_respond_status : rust_fn := mk_rust_fn "rsi_respond_status"
  [ ("fd", R_c_int); ("req", R_const (to_struct "rsi_request")); ("status", R_u32) ] R_c_int
  rsi_respond_status.

Definition sig_rsi_respond_lookup : rust_fn := mk_rust_fn "rsi_respond_lookup"
  [ ("fd", R_c_int); ("req", R_const (to_struct "rsi_request"));
    ("entries", R_const (to_struct "rsi_path_entry")); ("entry_count", R_u32);
    ("metadata", R_const (to_struct "rsi_key_metadata")); ("metadata_count", R_u32) ] R_c_int
  rsi_respond_lookup.

Definition sig_rsi_respond_delete_layer : rust_fn := mk_rust_fn "rsi_respond_delete_layer"
  [ ("fd", R_c_int); ("req", R_const (to_struct "rsi_request"));
    ("orphaned_guids", R_const to_bytes); ("orphaned_count", R_u32) ] R_c_int
  rsi_respond_delete_layer.

Definition sig_rsi_respond_enum_children : rust_fn := mk_rust_fn "rsi_respond_enum_children"
  [ ("fd", R_c_int); ("req", R_const (to_struct "rsi_request"));
    ("children", R_const (to_struct "rsi_child_entry")); ("child_count", R_u32);
    ("metadata", R_const (to_struct "rsi_key_metadata")); ("metadata_count", R_u32) ] R_c_int
  rsi_respond_enum_children.

Definition sig_rsi_respond_read_key : rust_fn := mk_rust_fn "rsi_respond_read_key"
  [ ("fd", R_c_int); ("req", R_const (to_struct "rsi_request")); ("name", R_const to_void);
    ("name_len", R_u32); ("parent_guid", R_const to_bytes); ("sd", R_const to_void);
    ("sd_len", R_u32); ("volatile_key", R_u8); ("symlink", R_u8); ("last_write_time", R_u64) ] R_c_int
  rsi_respond_read_key.

Definition sig_rsi_respond_query_values : rust_fn := mk_rust_fn "rsi_respond_query_values"
  [ ("fd", R_c_int); ("req", R_const (to_struct "rsi_request"));
    ("entries", R_const (to_struct "rsi_value_entry")); ("entry_count", R_u32);
    ("blankets", R_const (to_struct "rsi_blanket_entry")); ("blanket_count", R_u32) ] R_c_int
  rsi_respond_query_values.

(** ** The prototypes, and the exports in their order *)

Definition prototypes : list prototype :=
  [ mk_prototype "rsi_parse_request"
      [ ("frame", c_pointer true to_void); ("len", c_size_t);
        ("out", c_pointer false (to_struct "rsi_request")) ] c_int;
    mk_prototype "rsi_read_request"
      [ ("fd", c_int); ("buf", c_pointer false to_void); ("cap", c_size_t) ] c_ssize_t;
    mk_prototype "rsi_register"
      [ ("hives", c_pointer true (to_struct "rsi_hive")); ("count", c_data uint32_t);
        ("max_sequence", c_data uint64_t) ] c_int;
    mk_prototype "rsi_request_abort_transaction"
      [ ("req", c_pointer true (to_struct "rsi_request"));
        ("out", c_pointer false (to_struct "rsi_transaction")) ] c_int;
    mk_prototype "rsi_request_begin_transaction"
      [ ("req", c_pointer true (to_struct "rsi_request"));
        ("out", c_pointer false (to_struct "rsi_begin_transaction")) ] c_int;
    mk_prototype "rsi_request_commit_transaction"
      [ ("req", c_pointer true (to_struct "rsi_request"));
        ("out", c_pointer false (to_struct "rsi_transaction")) ] c_int;
    mk_prototype "rsi_request_create_entry"
      [ ("req", c_pointer true (to_struct "rsi_request"));
        ("out", c_pointer false (to_struct "rsi_create_entry")) ] c_int;
    mk_prototype "rsi_request_create_key"
      [ ("req", c_pointer true (to_struct "rsi_request"));
        ("out", c_pointer false (to_struct "rsi_create_key")) ] c_int;
    mk_prototype "rsi_request_delete_entry"
      [ ("req", c_pointer true (to_struct "rsi_request"));
        ("out", c_pointer false (to_struct "rsi_delete_entry")) ] c_int;
    mk_prototype "rsi_request_delete_layer"
      [ ("req", c_pointer true (to_struct "rsi_request"));
        ("out", c_pointer false (to_struct "rsi_name")) ] c_int;
    mk_prototype "rsi_request_delete_value_entry"
      [ ("req", c_pointer true (to_struct "rsi_request"));
        ("out", c_pointer false (to_struct "rsi_delete_value_entry")) ] c_int;
    mk_prototype "rsi_request_drop_key"
      [ ("req", c_pointer true (to_struct "rsi_request"));
        ("out", c_pointer false (to_struct "rsi_key_guid")) ] c_int;
    mk_prototype "rsi_request_enum_children"
      [ ("req", c_pointer true (to_struct "rsi_request"));
        ("out", c_pointer false (to_struct "rsi_enum_children")) ] c_int;
    mk_prototype "rsi_request_flush"
      [ ("req", c_pointer true (to_struct "rsi_request"));
        ("out", c_pointer false (to_struct "rsi_name")) ] c_int;
    mk_prototype "rsi_request_hide_entry"
      [ ("req", c_pointer true (to_struct "rsi_request"));
        ("out", c_pointer false (to_struct "rsi_hide_entry")) ] c_int;
    mk_prototype "rsi_request_lookup"
      [ ("req", c_pointer true (to_struct "rsi_request"));
        ("out", c_pointer false (to_struct "rsi_lookup")) ] c_int;
    mk_prototype "rsi_request_query_values"
      [ ("req", c_pointer true (to_struct "rsi_request"));
        ("out", c_pointer false (to_struct "rsi_query_values")) ] c_int;
    mk_prototype "rsi_request_read_key"
      [ ("req", c_pointer true (to_struct "rsi_request"));
        ("out", c_pointer false (to_struct "rsi_key_guid")) ] c_int;
    mk_prototype "rsi_request_set_blanket_tombstone"
      [ ("req", c_pointer true (to_struct "rsi_request"));
        ("out", c_pointer false (to_struct "rsi_set_blanket_tombstone")) ] c_int;
    mk_prototype "rsi_request_set_value"
      [ ("req", c_pointer true (to_struct "rsi_request"));
        ("out", c_pointer false (to_struct "rsi_set_value")) ] c_int;
    mk_prototype "rsi_request_write_key"
      [ ("req", c_pointer true (to_struct "rsi_request"));
        ("out", c_pointer false (to_struct "rsi_write_key")) ] c_int;
    mk_prototype "rsi_respond_delete_layer"
      [ ("fd", c_int); ("req", c_pointer true (to_struct "rsi_request"));
        ("orphaned_guids", c_pointer true to_bytes); ("orphaned_count", c_data uint32_t) ] c_int;
    mk_prototype "rsi_respond_enum_children"
      [ ("fd", c_int); ("req", c_pointer true (to_struct "rsi_request"));
        ("children", c_pointer true (to_struct "rsi_child_entry"));
        ("child_count", c_data uint32_t);
        ("metadata", c_pointer true (to_struct "rsi_key_metadata"));
        ("metadata_count", c_data uint32_t) ] c_int;
    mk_prototype "rsi_respond_lookup"
      [ ("fd", c_int); ("req", c_pointer true (to_struct "rsi_request"));
        ("entries", c_pointer true (to_struct "rsi_path_entry"));
        ("entry_count", c_data uint32_t);
        ("metadata", c_pointer true (to_struct "rsi_key_metadata"));
        ("metadata_count", c_data uint32_t) ] c_int;
    mk_prototype "rsi_respond_query_values"
      [ ("fd", c_int); ("req", c_pointer true (to_struct "rsi_request"));
        ("entries", c_pointer true (to_struct "rsi_value_entry"));
        ("entry_count", c_data uint32_t);
        ("blankets", c_pointer true (to_struct "rsi_blanket_entry"));
        ("blanket_count", c_data uint32_t) ] c_int;
    mk_prototype "rsi_respond_read_key"
      [ ("fd", c_int); ("req", c_pointer true (to_struct "rsi_request"));
        ("name", c_pointer true to_void); ("name_len", c_data uint32_t);
        ("parent_guid", c_pointer true to_bytes); ("sd", c_pointer true to_void);
        ("sd_len", c_data uint32_t); ("volatile_key", c_data uint8_t);
        ("symlink", c_data uint8_t); ("last_write_time", c_data uint64_t) ] c_int;
    mk_prototype "rsi_respond_status"
      [ ("fd", c_int); ("req", c_pointer true (to_struct "rsi_request"));
        ("status", c_data uint32_t) ] c_int;
    mk_prototype "rsi_write_response"
      [ ("fd", c_int); ("frame", c_pointer true to_void); ("len", c_size_t) ] c_ssize_t ].

Definition exports : list rust_fn :=
  [ sig_rsi_parse_request; sig_rsi_read_request; sig_rsi_register;
    sig_rsi_request_abort_transaction; sig_rsi_request_begin_transaction;
    sig_rsi_request_commit_transaction; sig_rsi_request_create_entry;
    sig_rsi_request_create_key; sig_rsi_request_delete_entry; sig_rsi_request_delete_layer;
    sig_rsi_request_delete_value_entry; sig_rsi_request_drop_key;
    sig_rsi_request_enum_children; sig_rsi_request_flush; sig_rsi_request_hide_entry;
    sig_rsi_request_lookup; sig_rsi_request_query_values; sig_rsi_request_read_key;
    sig_rsi_request_set_blanket_tombstone; sig_rsi_request_set_value;
    sig_rsi_request_write_key; sig_rsi_respond_delete_layer; sig_rsi_respond_enum_children;
    sig_rsi_respond_lookup; sig_rsi_respond_query_values; sig_rsi_respond_read_key;
    sig_rsi_respond_status; sig_rsi_write_response ].

(** ** They link *)

Definition same_type (t : c_arg) (u : rust_type) : Prop :=
  match t, u with
  | c_int, R_c_int | c_ssize_t, R_ssize_t | c_size_t, R_usize => True
  | c_data uint8_t, R_u8 | c_data uint32_t, R_u32 | c_data uint64_t, R_u64 => True
  | c_pointer true p, R_const q | c_pointer false p, R_mut q => p = q
  | _, _ => False
  end.

(** The prototype is that of the function: parameter by parameter the same name and type,
    and a call through it is the modelled function on the caller's arguments, whatever is
    in the unused bits of the words, with the result the function returns. *)
Record links (d : prototype) (f : rust_fn) : Prop := mk_links {
  link_name : pr_name d = rf_name f;
  link_params : Forall2 (λ p q, p.1 = q.1 /\ same_type p.2 q.2) (pr_params d) (rf_params f);
  link_call vs junk :
    Forall2 (λ p v, in_range (c_rep p.2) v) (pr_params d) vs -> length junk = length vs ->
    exists m, enter _ (rf_body f) vs = Some m /\ run_words f (pass_all d junk vs) = Some m;
  link_result v junk :
    in_range (rust_rep (rf_ret f)) v ->
    receive (c_rep (pr_ret d)) (pass (rust_rep (rf_ret f)) junk v) = v
}.

Lemma same_type_rep t u : same_type t u -> c_rep t = rust_rep u.
Proof. by destruct t as [| | |[]|[] ?], u. Qed.

Lemma rust_rep_width u : 0 < (rust_rep u).1 <= 64.
Proof. destruct u; simpl; lia. Qed.

Lemma wrap_pass r junk v : 0 < r.1 <= 64 -> wrap r.1 (pass r junk v) = wrap r.1 v.
Proof.
  intros Hr. unfold pass, wrap. rewrite Z.mod_mod_divide.
  - rewrite (Z.mul_comm (2 ^ r.1)), Z.mod_add, Z.mod_mod by lia. done.
  - exists (2 ^ (64 - r.1)). rewrite <- Z.pow_add_r by lia. f_equal. lia.
Qed.

Lemma receive_pass r junk v : 0 < r.1 <= 64 -> in_range r v -> receive r (pass r junk v) = v.
Proof.
  intros Hr Hv. unfold receive. rewrite wrap_pass by done. unfold in_range in Hv.
  destruct r as [w []]; cbn [fst snd andb] in *; [|by apply wrap_small].
  assert (2 ^ w = 2 * 2 ^ (w - 1)) as Hw by (rewrite <- Z.pow_succ_r by lia; f_equal; lia).
  unfold wrap. destruct (Z.leb_spec 0 v).
  - rewrite Z.mod_small by lia. destruct (Z.leb_spec (2 ^ (w - 1)) v); lia.
  - rewrite <- (Z.mod_add v 1) by lia. rewrite Z.mod_small by lia.
    destruct (Z.leb_spec (2 ^ (w - 1)) (v + 1 * 2 ^ w)); lia.
Qed.

Lemma enter_total n (f : entry n) vs : length vs = n -> exists m, enter n f vs = Some m.
Proof. revert f vs. induction n as [|n IH]; intros f [|v vs]; simpl; eauto; naive_solver. Qed.

Lemma receive_all d f vs junk :
  Forall2 (λ p q, p.1 = q.1 /\ same_type p.2 q.2) (pr_params d) (rf_params f) ->
  Forall2 (λ p v, in_range (c_rep p.2) v) (pr_params d) vs -> length junk = length vs ->
  zip_with receive ((λ p, rust_rep p.2) <$> rf_params f) (pass_all d junk vs) = vs.
Proof.
  unfold pass_all. intros Hps. revert vs junk.
  induction Hps as [|p q ps qs [_ Hpq] _ IH]; intros vs junk Hvs Hlen;
    inversion Hvs as [|? v ? vs' Hv Hvs']; subst; [done|].
  destruct junk as [|j junk]; [done|]. csimpl. rewrite (same_type_rep _ _ Hpq) in Hv |- *.
  f_equal; [apply receive_pass; [apply rust_rep_width|done]|]. apply IH; [done|by injection Hlen].
Qed.

Lemma links_intro d f :
  pr_name d = rf_name f ->
  Forall2 (λ p q, p.1 = q.1 /\ same_type p.2 q.2) (pr_params d) (rf_params f) ->
  same_type (pr_ret d) (rf_ret f) -> links d f.
Proof.
  intros Hn Hps Hret. split; [done..| |].
  - intros vs junk Hvs Hlen. unfold run_words. rewrite receive_all by done.
    destruct (enter_total _ (rf_body f) vs) as [m Hm]; [|by exists m].
    apply Forall2_length in Hps, Hvs. lia.
  - intros v junk Hv. rewrite (same_type_rep _ _ Hret).
    apply receive_pass; [apply rust_rep_width|done].
Qed.

(** C40: the functions of the C boundary: the ABI snapshot declares exactly the exported
    functions, each under its own name, with the parameters of its Rust definition by name,
    order and type; and what a caller compiled against the snapshot runs is the modelled
    function on the arguments it passed, whatever the calling convention leaves in the
    unused bits. *)
Theorem exports_link :
  Forall2 links prototypes exports /\ NoDup (pr_name <$> prototypes).
Proof.
  split; [|by apply (bool_decide_unpack _)].
  repeat (apply Forall2_cons_2; [apply links_intro; [done| |done]; by repeat constructor|]).
  apply Forall2_nil_2.
Qed.

End signatures.
