(* ===== verification/ResponseSpec.v ===== *)
(** * What the responders promise

    For each responder: which payloads ([*_reply]) its arguments describe, as a function of
    the caller's memory, and the theorem that it sends exactly the frame of that payload in
    one [write], or reports why not and sends nothing ([responded]). *)

From S2P Require Import Prelude Memory Platform Effects Request Guids GuidsSpec Frame FrameSpec.
From S2P Require Import Response.

Section response_spec.
Context `{P : Platform}.

(** ** The payload a description stands for *)

(** The bytes of a (pointer, length) pair on the wire; none when NULL has a length. *)
Definition lpf_of (m : memory) (p n : Z) : option (list byte) := lpf_bytes <$> field_of m p n.

Definition is_bool (z : Z) : bool := (z =? 0) || (z =? 1).

Definition entry_bytes (m : memory) (e : rsi_path_entry) : option (list byte) :=
  cat (lpf_of m (pe_layer e) (pe_layer_len e))
      (if valid_target e
       then Some (to_le 1 (pe_target_type e) ++ pe_target_guid e ++ to_le 8 (pe_sequence e))
       else None).

Definition metadata_bytes (m : memory) (k : rsi_key_metadata) : option (list byte) :=
  cat (Some (km_guid k))
      (cat (lpf_of m (km_sd k) (km_sd_len k))
           (if is_bool (km_volatile_key k) then
              if is_bool (km_symlink k) then
                Some (to_le 1 (km_volatile_key k) ++ to_le 1 (km_symlink k) ++
                      to_le 8 (km_last_write_time k))
              else None
            else None)).

(** A count and the elements of an array. *)
Definition block {A} `{Repr A} (f : A -> option (list byte)) (m : memory) (p n : Z) :
    option (list byte) :=
  xs ← array_of A m p n; cat (Some (to_le 4 n)) (encode_all f xs).

Lemma block_Some {A} `{Repr A} (f : A -> option (list byte)) m p n xs :
  array_of A m p n = Some xs -> block f m p n = cat (Some (to_le 4 n)) (encode_all f xs).
Proof. unfold block. by intros ->. Qed.

Definition child_bytes (m : memory) (c : rsi_child_entry) : option (list byte) :=
  cat (lpf_of m (ch_child_name c) (ch_child_name_len c))
      (block (entry_bytes m) m (ch_entries c) (ch_entry_count c)).

Definition value_bytes (m : memory) (v : rsi_value_entry) : option (list byte) :=
  cat (lpf_of m (ve_value_name v) (ve_value_name_len v))
      (cat (lpf_of m (ve_layer_name v) (ve_layer_name_len v))
           (cat (Some (to_le 4 (ve_value_type v)))
                (cat (lpf_of m (ve_data v) (ve_data_len v)) (Some (to_le 8 (ve_sequence v)))))).

Definition blanket_bytes (m : memory) (b : rsi_blanket_entry) : option (list byte) :=
  cat (lpf_of m (be_layer_name b) (be_layer_name_len b)) (Some (to_le 8 (be_sequence b))).

Definition lookup_reply (m : memory) (entries entry_count metadata metadata_count : Z)
    (payload : list byte) : Prop :=
  lookup_ok m entries entry_count metadata metadata_count /\
  cat (block (entry_bytes m) m entries entry_count)
      (block (metadata_bytes m) m metadata metadata_count) = Some payload.

Definition enum_children_reply (m : memory) (children child_count metadata metadata_count : Z)
    (payload : list byte) : Prop :=
  enum_ok m children child_count metadata metadata_count /\
  cat (block (child_bytes m) m children child_count)
      (block (metadata_bytes m) m metadata metadata_count) = Some payload.

Definition delete_layer_reply (m : memory) (orphaned_guids orphaned_count : Z)
    (payload : list byte) : Prop :=
  opt_valid valid_guid_set (orphans_of m orphaned_guids orphaned_count) /\
  cat (Some (to_le 4 orphaned_count)) (field_of m orphaned_guids (orphaned_count * 16)) =
    Some payload.

Definition read_key_reply (m : memory)
    (name name_len parent_guid sd sd_len volatile_key symlink last_write_time : Z)
    (payload : list byte) : Prop :=
  cat (lpf_of m name name_len)
      (cat (field_of m parent_guid 16)
           (cat (lpf_of m sd sd_len)
                (if is_bool volatile_key then
                   if is_bool symlink then
                     Some (to_le 1 volatile_key ++ to_le 1 symlink ++ to_le 8 last_write_time)
                   else None
                 else None))) = Some payload.

Definition query_values_reply (m : memory) (entries entry_count blankets blanket_count : Z)
    (payload : list byte) : Prop :=
  cat (block (value_bytes m) m entries entry_count)
      (block (blanket_bytes m) m blankets blanket_count) = Some payload.

(** *** How long a payload is, at least *)

Lemma length_cat o1 o2 b :
  cat o1 o2 = Some b -> exists b1 b2, o1 = Some b1 /\ o2 = Some b2 /\
    length b = (length b1 + length b2)%nat.
Proof.
  destruct o1 as [b1|], o2 as [b2|]; simpl; try done. intros [= <-].
  exists b1, b2. by rewrite length_app.
Qed.

(** An array whose elements take [c] bytes and as many as [size] says. *)
Lemma length_encode_all {A} (f : A -> option (list byte)) (size : A -> nat) xs b :
  (forall x bx, x ∈ xs -> f x = Some bx -> (size x <= length bx)%nat) ->
  encode_all f xs = Some b -> (sum_list_with size xs <= length b)%nat.
Proof.
  revert b. induction xs as [|x xs IH]; intros b Hf; simpl; [lia|].
  intros (b1 & b2 & H1 & H2 & ->)%length_cat.
  pose proof (Hf x b1 ltac:(left) H1). pose proof (IH b2 ltac:(set_solver) H2). lia.
Qed.

Lemma length_lpf_of m p n b : lpf_of m p n = Some b -> (4 <= length b)%nat.
Proof.
  unfold lpf_of. destruct (field_of m p n) as [bs|]; [|done]. intros [= <-].
  unfold lpf_bytes. autorewrite with len. lia.
Qed.

Lemma length_block A `{Repr A} (f : A -> option (list byte)) (size : A -> nat) m p n b :
  (forall x bx, f x = Some bx -> (size x <= length bx)%nat) ->
  block f m p n = Some b -> (sum_list_with size (default [] (array_of A m p n)) <= length b)%nat.
Proof.
  intros Hf. unfold block. destruct (array_of A m p n) as [xs|]; [|done].
  cbn [mbind option_bind from_option]. intros (b1 & b2 & _ & H2 & ->)%length_cat.
  pose proof (length_encode_all f size xs b2 ltac:(naive_solver) H2). unfold id. lia.
Qed.

Lemma sum_list_with_const {A} (c : nat) (xs : list A) :
  sum_list_with (λ _, c) xs = (c * length xs)%nat.
Proof. induction xs as [|x xs IH]; simpl; lia. Qed.

(** As many bytes as elements. *)
Lemma length_block_count A `{Repr A} (f : A -> option (list byte)) m p n b :
  safe_array A m p n -> (forall x bx, f x = Some bx -> (1 <= length bx)%nat) ->
  block f m p n = Some b -> n <= Z.of_nat (length b).
Proof.
  intros Hs Hf Hb. pose proof (length_block A f (λ _, 1%nat) _ _ _ _ Hf Hb) as Hl.
  rewrite sum_list_with_const in Hl. unfold block in Hb.
  destruct (array_of A m p n) as [xs|] eqn:Ho; [|done]. simpl in Hl.
  destruct (array_of_Some _ _ _ _ _ Hs Ho) as [-> _]. lia.
Qed.

Lemma length_entry_bytes m e b : entry_bytes m e = Some b -> (1 <= length b)%nat.
Proof. intros (b1 & b2 & ?%length_lpf_of & _ & ->)%length_cat. lia. Qed.

Lemma length_metadata_bytes m k b : metadata_bytes m k = Some b -> (1 <= length b)%nat.
Proof.
  unfold metadata_bytes. intros (b1 & b2 & _ & H & ->)%length_cat.
  apply length_cat in H as (b3 & b4 & ?%length_lpf_of & _ & ->). lia.
Qed.

Lemma length_child_bytes m c b :
  child_bytes m c = Some b -> (length (default [] (child_entries m c)) <= length b)%nat.
Proof.
  intros (b1 & b2 & _ & H2 & ->)%length_cat.
  apply (length_block _ _ (λ _, 1%nat)) in H2; [|apply length_entry_bytes].
  rewrite sum_list_with_const in H2. unfold child_entries. lia.
Qed.

Lemma length_all_entries m cs :
  length (all_entries m cs) =
  sum_list_with (λ c, length (default [] (child_entries m c))) cs.
Proof.
  induction cs as [|c cs IH]; [done|]. by rewrite all_entries_cons, length_app, IH.
Qed.

(** The vectors the checks build have no more GUIDs than the payload has bytes. *)
Lemma lookup_guids_bound m p n mp mn b :
  safe_array rsi_key_metadata m mp mn -> lookup_reply m p n mp mn b ->
  lookup_guids m p n mn <= Z.of_nat (length b).
Proof.
  intros Hs [_ (b1 & b2 & H1 & H2 & ->)%length_cat].
  apply (length_block _ _ (λ _, 1%nat)) in H1; [|apply length_entry_bytes].
  apply length_block_count in H2; [|done|apply length_metadata_bytes].
  rewrite sum_list_with_const in H1. unfold lookup_guids.
  pose proof (length_targets (default [] (array_of rsi_path_entry m p n))). lia.
Qed.

Lemma enum_guids_bound m p n mp mn b :
  safe_array rsi_key_metadata m mp mn -> enum_children_reply m p n mp mn b ->
  enum_guids m p n mn <= Z.of_nat (length b).
Proof.
  intros Hs [_ (b1 & b2 & H1 & H2 & ->)%length_cat].
  eapply length_block in H1; [|apply length_child_bytes].
  apply length_block_count in H2; [|done|apply length_metadata_bytes].
  rewrite <- length_all_entries in H1. unfold enum_guids.
  pose proof (length_targets (all_entries m (default [] (array_of rsi_child_entry m p n)))). lia.
Qed.

Lemma orphans_bound m p n b :
  0 <= n -> delete_layer_reply m p n b -> n <= Z.of_nat (length b).
Proof.
  intros Hn [_ (b1 & b2 & _ & H2 & ->)%length_cat]. apply field_of_length in H2; lia.
Qed.

(** *** What a call is given *)

Definition lookup_desc (m : memory) (p n mp mn : Z) : description :=
  mk_description (lookup_guids m p n mn) (lookup_reply m p n mp mn).
Definition enum_children_desc (m : memory) (p n mp mn : Z) : description :=
  mk_description (enum_guids m p n mn) (enum_children_reply m p n mp mn).
Definition delete_layer_desc (m : memory) (p n : Z) : description :=
  mk_description n (delete_layer_reply m p n).
Definition read_key_desc (m : memory) (name name_len parent sd sd_len v l t : Z) : description :=
  mk_description 0 (read_key_reply m name name_len parent sd sd_len v l t).
Definition query_values_desc (m : memory) (p n bp bn : Z) : description :=
  mk_description 0 (query_values_reply m p n bp bn).

(** A description stands for one payload at most, which has a byte for each GUID. *)
Record definite (d : description) : Prop := mk_definite {
  definite_unique b b' : desc_reply d b -> desc_reply d b' -> b' = b;
  definite_guids b : desc_reply d b -> desc_guids d <= Z.of_nat (length b)
}.

Lemma lookup_definite m p n mp mn :
  safe_array rsi_key_metadata m mp mn -> definite (lookup_desc m p n mp mn).
Proof.
  intros Hs. split; [intros b b' [_ H] [_ H']; congruence|].
  intros b. by apply lookup_guids_bound.
Qed.

Lemma enum_children_definite m p n mp mn :
  safe_array rsi_key_metadata m mp mn -> definite (enum_children_desc m p n mp mn).
Proof.
  intros Hs. split; [intros b b' [_ H] [_ H']; congruence|].
  intros b. by apply enum_guids_bound.
Qed.

Lemma delete_layer_definite m p n : 0 <= n -> definite (delete_layer_desc m p n).
Proof.
  intros Hn. split; [intros b b' [_ H] [_ H']; congruence|]. intros b. by apply orphans_bound.
Qed.

Lemma read_key_definite m name name_len parent sd sd_len v l t :
  definite (read_key_desc m name name_len parent sd sd_len v l t).
Proof.
  split; simpl; [|lia]. unfold read_key_reply. intros b b' H H'. congruence.
Qed.

Lemma query_values_definite m p n bp bn : definite (query_values_desc m p n bp bn).
Proof. split; simpl; [|lia]. unfold query_values_reply. intros b b' H H'. congruence. Qed.

(** ** The safety contracts *)

(** A safe array whose elements are safe. *)
Definition safe_block (A : Type) `{Repr A} (safe : A -> Prop) (m : memory) (p n : Z) : Prop :=
  safe_array A m p n /\ Forall safe (default [] (array_of A m p n)).

Definition safe_entry (m : memory) (e : rsi_path_entry) : Prop :=
  safe_field m (pe_layer e) (pe_layer_len e).
Definition safe_metadata (m : memory) (k : rsi_key_metadata) : Prop :=
  safe_field m (km_sd k) (km_sd_len k).
Definition safe_child (m : memory) (c : rsi_child_entry) : Prop :=
  safe_field m (ch_child_name c) (ch_child_name_len c) /\
  safe_block rsi_path_entry (safe_entry m) m (ch_entries c) (ch_entry_count c).
Definition safe_value (m : memory) (v : rsi_value_entry) : Prop :=
  safe_field m (ve_value_name v) (ve_value_name_len v) /\
  safe_field m (ve_layer_name v) (ve_layer_name_len v) /\
  safe_field m (ve_data v) (ve_data_len v).
Definition safe_blanket (m : memory) (b : rsi_blanket_entry) : Prop :=
  safe_field m (be_layer_name b) (be_layer_name_len b).

(** ** Encoders *)

Section encoders.
Context `{!AllocatorLaws platform_allocator} (s0 : state).
Abbreviation m0 := (st_mem s0).

Lemma encodes_entry e :
  typed rsi_path_entry e -> safe_entry m0 e ->
  encodes s0 (λ w,
    w ← fw_lpf w (pe_layer e) (pe_layer_len e);
    _ ← require_path_target (pe_target_type e) (pe_target_guid e);
    w ← fw_u8 w (pe_target_type e);
    w ← fw_guid w (pe_target_guid e);
    fw_u64 w (pe_sequence e)) (entry_bytes m0 e).
Proof.
  intros Ht Hs. apply encodes_bind; [apply encodes_lpf; [done|by destruct_typed Ht]|].
  apply encodes_guard; [apply require_path_target_guards|].
  apply (encodes_bind _ _ _ (Some _) (Some _)); [apply encodes_raw|].
  apply (encodes_bind _ _ _ (Some _) (Some _)); apply encodes_raw.
Qed.

Lemma encodes_metadata k :
  typed rsi_key_metadata k -> safe_metadata m0 k ->
  encodes s0 (λ w,
    w ← fw_guid w (km_guid k);
    w ← fw_lpf w (km_sd k) (km_sd_len k);
    _ ← require_bool (km_volatile_key k);
    _ ← require_bool (km_symlink k);
    w ← fw_u8 w (km_volatile_key k);
    w ← fw_u8 w (km_symlink k);
    fw_u64 w (km_last_write_time k)) (metadata_bytes m0 k).
Proof.
  intros Ht Hs. apply encodes_bind; [apply encodes_raw|].
  apply encodes_bind; [apply encodes_lpf; [done|by destruct_typed Ht]|].
  apply encodes_guard; [apply require_bool_guards|].
  apply encodes_guard; [apply require_bool_guards|].
  apply (encodes_bind _ _ _ (Some _) (Some _)); [apply encodes_raw|].
  apply (encodes_bind _ _ _ (Some _) (Some _)); apply encodes_raw.
Qed.

Lemma encodes_value v :
  typed rsi_value_entry v -> safe_value m0 v ->
  encodes s0 (λ w,
    w ← fw_lpf w (ve_value_name v) (ve_value_name_len v);
    w ← fw_lpf w (ve_layer_name v) (ve_layer_name_len v);
    w ← fw_u32 w (ve_value_type v);
    w ← fw_lpf w (ve_data v) (ve_data_len v);
    fw_u64 w (ve_sequence v)) (value_bytes m0 v).
Proof.
  intros Ht (Hn & Hl & Hd).
  apply encodes_bind; [apply encodes_lpf; [done|by destruct_typed Ht]|].
  apply encodes_bind; [apply encodes_lpf; [done|by destruct_typed Ht]|].
  apply encodes_bind; [apply encodes_raw|].
  apply encodes_bind; [apply encodes_lpf; [done|by destruct_typed Ht]|apply encodes_raw].
Qed.

Lemma encodes_blanket b :
  typed rsi_blanket_entry b -> safe_blanket m0 b ->
  encodes s0 (λ w,
    w ← fw_lpf w (be_layer_name b) (be_layer_name_len b);
    fw_u64 w (be_sequence b)) (blanket_bytes m0 b).
Proof.
  intros Ht Hs. apply encodes_bind; [apply encodes_lpf; [done|by destruct_typed Ht]|].
  apply encodes_raw.
Qed.

(** The elements of a safe block. *)
Lemma encodes_elements A `{Repr A} (safe : A -> Prop) p n xs
    (body : A -> FrameWriter -> M FrameWriter) (f : A -> option (list byte)) :
  safe_block A safe m0 p n -> array_of A m0 p n = Some xs ->
  (forall x, typed A x -> safe x -> encodes s0 (body x) (f x)) ->
  encodes s0 (λ w, for_range n (λ i w, a ← deref A (p + i * size_of A); body a w) w)
    (encode_all f xs).
Proof.
  intros [Ha Hs] Hxs Hbody. destruct (array_of_Some _ _ _ _ _ Ha Hxs) as [Hn Harr].
  rewrite Hxs in Hs. apply encodes_array; [done..|].
  pose proof (read_array_typed _ _ _ _ _ (array_read _ _ _ _ Harr)) as Hty.
  eapply Forall_impl; [exact (proj2 (Forall_and _ _) (conj Hty Hs))|]. intros x [? ?]. by apply Hbody.
Qed.

Lemma encodes_block A `{Repr A} (safe : A -> Prop) p n
    (body : A -> FrameWriter -> M FrameWriter) (f : A -> option (list byte)) :
  safe_block A safe m0 p n ->
  (forall x, typed A x -> safe x -> encodes s0 (body x) (f x)) ->
  encodes s0 (λ w, _ ← require_array p n; w ← fw_u32 w n;
                   for_range n (λ i w, a ← deref A (p + i * size_of A); body a w) w)
    (block f m0 p n).
Proof.
  intros Hb Hbody. pose proof (require_array_guards _ _ _ _ (proj1 Hb)) as Hg.
  unfold block. destruct (array_of A m0 p n) as [xs|] eqn:Hxs.
  - rewrite bool_decide_true in Hg by eauto.
    apply (encodes_guard _ _ true _ _ Hg), (encodes_bind _ _ _ (Some _)); [apply encodes_raw|].
    by eapply encodes_elements.
  - rewrite bool_decide_false in Hg by (by intros [? ?]).
    intros w bs s Hw. apply wp_bind. unfold wp. rewrite Hg.
    split_and!; [done..|by eapply writer_settled].
Qed.

Lemma encodes_path_entry_block p n :
  safe_block rsi_path_entry (safe_entry m0) m0 p n ->
  encodes s0 (λ w, encode_path_entry_block w p n) (block (entry_bytes m0) m0 p n).
Proof. intros Hb. eapply encodes_block; [done|]. intros e. apply encodes_entry. Qed.

Lemma encodes_metadata_block p n :
  safe_block rsi_key_metadata (safe_metadata m0) m0 p n ->
  encodes s0 (λ w, encode_metadata_block w p n) (block (metadata_bytes m0) m0 p n).
Proof. intros Hb. eapply encodes_block; [done|]. intros e. apply encodes_metadata. Qed.

Lemma encodes_child c :
  typed rsi_child_entry c -> safe_child m0 c ->
  encodes s0 (λ w,
    w ← fw_lpf w (ch_child_name c) (ch_child_name_len c);
    encode_path_entry_block w (ch_entries c) (ch_entry_count c)) (child_bytes m0 c).
Proof.
  intros Ht [Hn He]. apply encodes_bind; [apply encodes_lpf; [done|by destruct_typed Ht]|].
  by apply encodes_path_entry_block.
Qed.

(** ** Steps of a responder *)

(** The responder's postcondition. *)
Definition answers (fd : Z) (r : rsi_request) (d : description)
    (res : result Z Z) (s' : state) : Prop :=
  exists rc, res = Ok rc /\ responded fd r d s0 rc s'.

Lemma answers_invalid fd r d s :
  (forall b, ~ desc_reply d b) -> settled s0 s ->
  answers fd r d (Ok (-1)) (with_errno EINVAL s).
Proof. intros. eexists. split; [done|]. by apply responded_invalid. Qed.

Lemma wp_encode fd r d e o w bs s k :
  encodes s0 e o -> writer s0 w bs s ->
  (o = None -> forall b, ~ desc_reply d b) ->
  (forall b w' s', o = Some b -> writer s0 w' (bs ++ b) s' -> wp (k w') s' (answers fd r d)) ->
  wp (or_fail (e w) k) s (answers fd r d).
Proof.
  intros He Hw Hno Hk. apply wp_or_fail. eapply wp_mono; [by apply He|]. intros [w'|err] s'.
  - intros (b & Hb & Hw'). by eapply Hk.
  - intros (-> & Ho & Hs). apply answers_invalid; auto.
Qed.

Lemma wp_append fd r d b w bs s (k : FrameWriter -> M Z) :
  writer s0 w bs s ->
  (forall w' s', writer s0 w' (bs ++ b) s' -> wp (k w') s' (answers fd r d)) ->
  wp (w ← fw_raw w b; k w) s (answers fd r d).
Proof.
  intros Hw Hk. apply wp_bind. eapply wp_mono; [by apply encodes_raw|]. intros [w'|err] s'.
  - intros (b' & [= <-] & Hw'). by apply Hk.
  - by intros (_ & ? & _).
Qed.

Lemma wp_begin fd r d s (k : FrameWriter -> M Z) :
  quiet [] s0 s ->
  (forall w s', writer s0 w (replicate 18 Byte.x00) s' -> wp (k w) s' (answers fd r d)) ->
  wp (w ← new_writer; k w) s (answers fd r d).
Proof.
  intros Hq Hk. eapply (wp_append _ _ _ _ _ []); [left; auto with rsi|]. auto.
Qed.

(** A failing check with one of the two errnos of [checked]. *)
Lemma wp_validate {A} fd r d (c : M A) (valid : Prop) (Q : A -> Prop) (rest : A -> M Z) :
  wp c s0 (checked (desc_guids d) s0 valid Q) ->
  (~ valid -> forall b, ~ desc_reply d b) ->
  (forall a s, valid -> Q a -> quiet [] s0 s -> wp (rest a) s (answers fd r d)) ->
  wp (or_fail c rest) s0 (answers fd r d).
Proof.
  intros Hc Hno Hk. apply wp_or_fail. eapply wp_mono; [exact Hc|]. intros [a|e] s'; simpl.
  - intros (? & ? & ?). by apply Hk.
  - intros [(-> & ? & ?)|(-> & ? & Hst)].
    + apply answers_invalid; [auto|by left].
    + eexists. split; [done|]. apply responded_starved; [done|].
      destruct Hst as [|Hst]; auto.
Qed.

Lemma wp_require_response_req fd r d req op (k : rsi_request -> M Z) :
  points_to rsi_request m0 req r -> rq_op_code r = wrap 16 op ->
  wp (k r) s0 (answers fd r d) ->
  wp (or_fail (require_response_req req op) k) s0 (answers fd r d).
Proof.
  intros Hr Hop Hk. apply wp_or_fail. unfold require_response_req.
  apply wp_bind. eapply wp_as_ref; [done|]. by rewrite Hop, Z.eqb_refl.
Qed.

End encoders.

(** ** The responders *)

Context `{!PlatformLaws P}.

Lemma op_known r op :
  rq_op_code r = wrap 16 op -> wrap 16 op ∈ request_ops -> rq_op_code r ∈ request_ops.
Proof. by intros ->. Qed.

Ltac known_op := eapply op_known; [eassumption|]; clear; unfold request_ops; csimpl; set_solver.

Lemma safe_children_block m p n :
  safe_block rsi_child_entry (safe_child m) m p n -> safe_children m p n.
Proof.
  intros [Ha Hs]. split; [done|]. eapply Forall_impl; [exact Hs|]. by intros c (_ & Hc & _).
Qed.

Lemma lookup_responds fd req r p n mp mn s :
  points_to rsi_request (st_mem s) req r -> rq_op_code r = wrap 16 RSI_LOOKUP ->
  safe_block rsi_path_entry (safe_entry (st_mem s)) (st_mem s) p n ->
  safe_block rsi_key_metadata (safe_metadata (st_mem s)) (st_mem s) mp mn ->
  wp (rsi_respond_lookup fd req p n mp mn) s (λ res s', exists rc, res = Ok rc /\
    responded fd r (lookup_desc (st_mem s) p n mp mn) s rc s').
Proof.
  intros Hr Hop He Hm. eapply wp_require_response_req; [done..|].
  eapply wp_validate; [apply wp_validate_lookup_metadata; [apply He|apply Hm]|by intros ?? []|].
  intros _ s1 Hok _ Hq. apply wp_begin; [done|]. intros w s2 Hw.
  eapply (wp_encode _ _ _ _ (λ w, w ← encode_path_entry_block w p n;
    encode_metadata_block w mp mn)); [|done|by intros Hno b [_ Hb]; rewrite Hno in Hb|].
  { by apply encodes_bind; [apply encodes_path_entry_block|apply encodes_metadata_block]. }
  intros b w' s3 Hb Hw'. eapply wp_finish_and_send; [known_op|by split|done].
Qed.

Lemma enum_children_responds fd req r p n mp mn s :
  points_to rsi_request (st_mem s) req r -> rq_op_code r = wrap 16 RSI_ENUM_CHILDREN ->
  safe_block rsi_child_entry (safe_child (st_mem s)) (st_mem s) p n ->
  safe_block rsi_key_metadata (safe_metadata (st_mem s)) (st_mem s) mp mn ->
  wp (rsi_respond_enum_children fd req p n mp mn) s (λ res s', exists rc, res = Ok rc /\
    responded fd r (enum_children_desc (st_mem s) p n mp mn) s rc s').
Proof.
  intros Hr Hop He Hm. eapply wp_require_response_req; [done..|].
  eapply wp_validate;
    [apply wp_validate_enum_children_metadata; [by apply safe_children_block|apply Hm]
    |by intros ?? []|].
  intros _ s1 Hok _ Hq. apply wp_begin; [done|]. intros w s2 Hw.
  eapply wp_append; [done|]. intros w2 s3 Hw2.
  destruct (array_of rsi_child_entry (st_mem s) p n) as [cs|] eqn:Hcs;
    [|unfold enum_ok in Hok; by rewrite Hcs in Hok].
  assert (forall o, cat (block (child_bytes (st_mem s)) (st_mem s) p n) o =
    cat (Some (to_le 4 n)) (cat (encode_all (child_bytes (st_mem s)) cs) o)) as Hblock.
  { intros o. by rewrite (block_Some _ _ _ _ _ Hcs), cat_assoc. }
  eapply wp_encode; [|done| |].
  { eapply (encodes_elements _ _ _ _ _ _ _ (child_bytes (st_mem s))); [done|done|].
    intros c. apply encodes_child. }
  { intros Hno b [_ Hb]. by rewrite Hblock, Hno in Hb. }
  intros b w3 s4 Hb Hw3. eapply (wp_encode _ _ _ _ (λ w, encode_metadata_block w mp mn));
    [by apply encodes_metadata_block|done| |].
  { intros Hno b' [_ Hb']. by rewrite Hblock, Hno, Hb in Hb'. }
  intros b' w4 s5 Hb' Hw4. eapply wp_finish_and_send; [known_op| |].
  - split; [done|]. rewrite Hblock, Hb, Hb'. done.
  - by rewrite <- !app_assoc in Hw4.
Qed.

Lemma delete_layer_responds fd req r p n s :
  points_to rsi_request (st_mem s) req r -> rq_op_code r = wrap 16 RSI_DELETE_LAYER ->
  safe_field (st_mem s) p (n * 16) -> is_u32 n ->
  wp (rsi_respond_delete_layer fd req p n) s (λ res s', exists rc, res = Ok rc /\
    responded fd r (delete_layer_desc (st_mem s) p n) s rc s').
Proof.
  intros Hr Hop Hs Hn. eapply wp_require_response_req; [done..|].
  eapply wp_validate; [exact (wp_orphaned_guid_bytes _ _ _ Hs Hn)|by intros ?? []|].
  intros bs s1 Hok Hbs Hq. apply wp_begin; [done|]. intros w s2 Hw.
  eapply wp_append; [done|]. intros w2 s3 Hw2.
  eapply wp_append; [done|]. intros w3 s4 Hw3.
  eapply wp_finish_and_send; [known_op| |by rewrite <- app_assoc in Hw3].
  split; [done|]. by rewrite Hbs.
Qed.

(** [H]: some bytes are the payload of a READ_KEY description. *)
Ltac show_read_key H :=
  cbn [desc_reply read_key_desc] in H; unfold read_key_reply, lpf_of in H.

Lemma read_key_responds fd req r name name_len parent sd sd_len v l t s :
  points_to rsi_request (st_mem s) req r -> rq_op_code r = wrap 16 RSI_READ_KEY ->
  safe_field (st_mem s) name name_len -> is_u32 name_len ->
  safe_field (st_mem s) parent 16 ->
  safe_field (st_mem s) sd sd_len -> is_u32 sd_len ->
  wp (rsi_respond_read_key fd req name name_len parent sd sd_len v l t) s
    (λ res s', exists rc, res = Ok rc /\
      responded fd r (read_key_desc (st_mem s) name name_len parent sd sd_len v l t) s rc s').
Proof.
  intros Hr Hop Hn Hnl Hp Hd Hdl. eapply wp_require_response_req; [done..|].
  destruct (Z.eqb_spec parent 0) as [->|Hp0].
  { apply answers_invalid; [|by left; auto with rsi]. intros b Hb. show_read_key Hb.
    by destruct (lpf_bytes <$> field_of _ name name_len). }
  destruct (field_of (st_mem s) parent 16) as [pg|] eqn:Hpg;
    [|by destruct (field_of_null _ _ _ Hpg Hp)].
  apply wp_begin; [auto with rsi|]. intros w s1 Hw.
  eapply (wp_encode _ _ _ _ (λ w, fw_lpf w name name_len)); [by apply encodes_lpf|done| |].
  { intros Hno b Hb. show_read_key Hb. by rewrite Hno in Hb. }
  intros b1 w1 s2 Hb1 Hw1. apply wp_bind. pose proof (writer_mem _ _ _ _ Hw1) as Hm.
  eapply wp_field; [by rewrite Hm|by rewrite Hm|unfold isize_max; lia|done|].
  eapply wp_append; [done|]. intros w2 s3 Hw2.
  eapply (wp_encode _ _ _ _ (λ w, fw_lpf w sd sd_len)); [by apply encodes_lpf|done| |].
  { intros Hno b Hb. show_read_key Hb. by rewrite Hb1, Hpg, Hno in Hb. }
  intros b2 w3 s4 Hb2 Hw3. apply wp_or_fail, wp_bind.
  unfold wp at 1. rewrite (require_bool_guards v s4). fold (is_bool v).
  unfold read_key_desc, read_key_reply, lpf_of. rewrite Hb1, Hpg, Hb2.
  destruct (is_bool v); [|apply answers_invalid; [done|by eapply writer_settled]].
  unfold wp at 1. rewrite (require_bool_guards l s4). fold (is_bool l).
  destruct (is_bool l); [|apply answers_invalid; [done|by eapply writer_settled]].
  eapply wp_append; [done|]. intros w4 s5 Hw4. eapply wp_append; [done|]. intros w5 s6 Hw5.
  eapply wp_append; [done|]. intros w6 s7 Hw6.
  eapply wp_finish_and_send; [known_op|done|by rewrite <- !app_assoc in Hw6].
Qed.

Lemma query_values_responds fd req r p n bp bn s :
  points_to rsi_request (st_mem s) req r -> rq_op_code r = wrap 16 RSI_QUERY_VALUES ->
  safe_block rsi_value_entry (safe_value (st_mem s)) (st_mem s) p n ->
  safe_block rsi_blanket_entry (safe_blanket (st_mem s)) (st_mem s) bp bn ->
  wp (rsi_respond_query_values fd req p n bp bn) s (λ res s', exists rc, res = Ok rc /\
    responded fd r (query_values_desc (st_mem s) p n bp bn) s rc s').
Proof.
  intros Hr Hop He Hb. eapply wp_require_response_req; [done..|].
  eapply (wp_validate _ _ _ _ _ (is_Some (array_of rsi_value_entry (st_mem s) p n) /\
      is_Some (array_of rsi_blanket_entry (st_mem s) bp bn)) (λ _, True)).
  { eapply checked_bind; [reflexivity|apply wp_require_array, He|].
    intros _ s1 _ _ Hq. rewrite <- (quiet_mem _ _ _ Hq). apply wp_require_array.
    rewrite (quiet_mem _ _ _ Hq). apply Hb. }
  { intros Hno b Hrep. apply Hno. cbn [desc_reply query_values_desc] in Hrep.
    unfold query_values_reply, block in Hrep.
    destruct (array_of rsi_value_entry _ _ _) as [vs|]; [|done].
    destruct (array_of rsi_blanket_entry _ _ _) as [bs|]; [eauto|].
    by rewrite cat_None_r in Hrep. }
  intros _ s1 [[vs Hvs] [bs Hbs]] _ Hq. apply wp_begin; [done|]. intros w s2 Hw.
  assert (forall b, desc_reply (query_values_desc (st_mem s) p n bp bn) b <->
    cat (Some (to_le 4 n)) (cat (encode_all (value_bytes (st_mem s)) vs)
      (cat (Some (to_le 4 bn)) (encode_all (blanket_bytes (st_mem s)) bs))) = Some b) as Hrep.
  { intros b. cbn [desc_reply query_values_desc]. unfold query_values_reply.
    by rewrite (block_Some _ _ _ _ _ Hvs), (block_Some _ _ _ _ _ Hbs), <- cat_assoc. }
  eapply wp_append; [done|]. intros w2 s3 Hw2.
  eapply wp_encode; [|done| |].
  { eapply (encodes_elements _ _ _ _ _ _ _ (value_bytes (st_mem s))); [done|done|].
    intros c. apply encodes_value. }
  { intros Hno b Hb1. by rewrite Hrep, Hno in Hb1. }
  intros b1 w3 s4 Hb1 Hw3. eapply wp_append; [done|]. intros w4 s5 Hw4.
  eapply wp_encode; [|done| |].
  { eapply (encodes_elements _ _ _ _ _ _ _ (blanket_bytes (st_mem s))); [done|done|].
    intros c. apply encodes_blanket. }
  { intros Hno b Hb2. by rewrite Hrep, Hb1, Hno in Hb2. }
  intros b2 w5 s6 Hb2 Hw5. eapply wp_finish_and_send; [known_op| |].
  - rewrite Hrep, Hb1, Hb2. done.
  - by rewrite <- !app_assoc in Hw5.
Qed.

(** C8: [rsi_respond_lookup] on safe arguments never aborts and never dereferences a bad
    pointer. If the metadata describes exactly the distinct non-nil keys the valid entries
    point to and every field is well formed, it writes the one frame of that reply (or
    reports [EOVERFLOW] past 4 GiB); if not, it reports [EINVAL] and writes nothing;
    [ENOMEM] is reported, and nothing written, only when the allocator refused a request of
    reasonable size or the description holds more than a frame has room for. *)
Theorem rsi_respond_lookup_correct fd req r p n mp mn s :
  points_to rsi_request (st_mem s) req r -> rq_op_code r = wrap 16 RSI_LOOKUP ->
  safe_block rsi_path_entry (safe_entry (st_mem s)) (st_mem s) p n ->
  safe_block rsi_key_metadata (safe_metadata (st_mem s)) (st_mem s) mp mn ->
  wp (rsi_respond_lookup fd req p n mp mn) s (λ res s', exists rc, res = Ok rc /\
    responded fd r (lookup_desc (st_mem s) p n mp mn) s rc s').
Proof. apply lookup_responds. Qed.

(** C9: the same for [rsi_respond_enum_children]: the metadata must describe exactly the keys
    that the entries of all children together point to. *)
Theorem rsi_respond_enum_children_correct fd req r p n mp mn s :
  points_to rsi_request (st_mem s) req r -> rq_op_code r = wrap 16 RSI_ENUM_CHILDREN ->
  safe_block rsi_child_entry (safe_child (st_mem s)) (st_mem s) p n ->
  safe_block rsi_key_metadata (safe_metadata (st_mem s)) (st_mem s) mp mn ->
  wp (rsi_respond_enum_children fd req p n mp mn) s (λ res s', exists rc, res = Ok rc /\
    responded fd r (enum_children_desc (st_mem s) p n mp mn) s rc s').
Proof. apply enum_children_responds. Qed.

(** C12: [rsi_respond_delete_layer] sends the count and the caller's GUIDs exactly when they
    are distinct and none is nil. *)
Theorem rsi_respond_delete_layer_correct fd req r p n s :
  points_to rsi_request (st_mem s) req r -> rq_op_code r = wrap 16 RSI_DELETE_LAYER ->
  safe_field (st_mem s) p (n * 16) -> is_u32 n ->
  wp (rsi_respond_delete_layer fd req p n) s (λ res s', exists rc, res = Ok rc /\
    responded fd r (delete_layer_desc (st_mem s) p n) s rc s').
Proof. apply delete_layer_responds. Qed.

(** C11: [rsi_respond_read_key] sends the key's metadata exactly when the parent GUID is
    there, no field is NULL with a length, and both flags are 0 or 1. *)
Theorem rsi_respond_read_key_correct fd req r name name_len parent sd sd_len v l t s :
  points_to rsi_request (st_mem s) req r -> rq_op_code r = wrap 16 RSI_READ_KEY ->
  safe_field (st_mem s) name name_len -> is_u32 name_len ->
  safe_field (st_mem s) parent 16 ->
  safe_field (st_mem s) sd sd_len -> is_u32 sd_len ->
  wp (rsi_respond_read_key fd req name name_len parent sd sd_len v l t) s
    (λ res s', exists rc, res = Ok rc /\
      responded fd r (read_key_desc (st_mem s) name name_len parent sd sd_len v l t) s rc s').
Proof. apply read_key_responds. Qed.

(** C10: [rsi_respond_query_values] sends the values and the blanket tombstones in the order
    given, exactly when no array or field is NULL with a length. *)
Theorem rsi_respond_query_values_correct fd req r p n bp bn s :
  points_to rsi_request (st_mem s) req r -> rq_op_code r = wrap 16 RSI_QUERY_VALUES ->
  safe_block rsi_value_entry (safe_value (st_mem s)) (st_mem s) p n ->
  safe_block rsi_blanket_entry (safe_blanket (st_mem s)) (st_mem s) bp bn ->
  wp (rsi_respond_query_values fd req p n bp bn) s (λ res s', exists rc, res = Ok rc /\
    responded fd r (query_values_desc (st_mem s) p n bp bn) s rc s').
Proof. apply query_values_responds. Qed.

(** ** Refused requests and status responses *)

(** The request pointer is NULL, or the request is of another kind. *)
Definition wrong_request (req op : Z) (s : state) : Prop :=
  req = 0 \/ exists r, points_to rsi_request (st_mem s) req r /\ rq_op_code r <> wrap 16 op.

Lemma require_response_req_wrong req op (k : rsi_request -> M Z) s :
  wrong_request req op s ->
  or_fail (require_response_req req op) k s = ORet (-1) (with_errno EINVAL s).
Proof.
  intros [->|(r & (Hp & Hal & Hr) & Hop)]; [done|].
  unfold or_fail, require_response_req, as_ref, deref, mbind, M_bind.
  rewrite (proj2 (Z.eqb_neq _ _) Hp), Hal, Z.eqb_refl. simpl. rewrite Hr. simpl.
  by rewrite (proj2 (Z.eqb_neq _ _) Hop).
Qed.

(** C38: a payload-bearing responder called with NULL, or to answer a request of another
    kind, returns -1 with [EINVAL] before it looks at any other argument: nothing is
    allocated or written, and dangling arrays are harmless. *)
Theorem responders_refuse_wrong_request fd req s a1 a2 a3 a4 a5 a6 a7 a8 :
  let refused := ORet (-1) (with_errno EINVAL s) in
  (wrong_request req RSI_LOOKUP s -> rsi_respond_lookup fd req a1 a2 a3 a4 s = refused) /\
  (wrong_request req RSI_ENUM_CHILDREN s ->
     rsi_respond_enum_children fd req a1 a2 a3 a4 s = refused) /\
  (wrong_request req RSI_DELETE_LAYER s -> rsi_respond_delete_layer fd req a1 a2 s = refused) /\
  (wrong_request req RSI_READ_KEY s ->
     rsi_respond_read_key fd req a1 a2 a3 a4 a5 a6 a7 a8 s = refused) /\
  (wrong_request req RSI_QUERY_VALUES s ->
     rsi_respond_query_values fd req a1 a2 a3 a4 s = refused).
Proof. split_and!; by apply require_response_req_wrong. Qed.

(** A status may answer a request: the op and the status are known, and a success without
    payload is not claimed for a request that must be answered with one. *)
Definition status_allowed (op status : Z) : bool :=
  bool_decide (op ∈ request_ops) && is_ok (parse_rsi_status status) &&
  (negb (status =? RSI_OK) || bool_decide (op ∉ payload_ops)).

Lemma send_status_frame fd id op status s :
  (frame ← build_status_frame id (Z.lor op RSI_RESPONSE_BIT) status; write_frame fd frame) s =
  let '(rc, s') := send fd (response_frame id op status []) s in ORet rc s'.
Proof.
  unfold mbind, M_bind. rewrite build_status_frame_eq, write_frame_send. by destruct (send _ _ _).
Qed.

Lemma validate_status_response_eq r status s :
  rq_op_code r ∈ request_ops ->
  validate_status_response r status s =
    if status_allowed (rq_op_code r) status then ORet tt s else OErr EINVAL s.
Proof.
  intros Hop. unfold status_allowed, validate_status_response. rewrite bool_decide_true by done.
  pose proof (status_ok status) as Hok.
  destruct (parse_rsi_status status) as [st|e]; simpl; [|done].
  destruct (Z.eqb_spec status RSI_OK) as [Heq|Hne]; simpl.
  - rewrite bool_decide_true by (apply Hok in Heq; congruence).
    rewrite status_only_known by done. by case_bool_decide.
  - by rewrite bool_decide_false by (intros ->; by apply Hne, Hok).
Qed.

Lemma rsi_respond_status_eq fd req status s :
  (req = 0 -> rsi_respond_status fd req status s = ORet (-1) (with_errno EINVAL s)) /\
  (forall r, points_to rsi_request (st_mem s) req r ->
     rsi_respond_status fd req status s =
       if status_allowed (rq_op_code r) status
       then let '(rc, s') :=
              send fd (response_frame (rq_request_id r) (rq_op_code r) status []) s in ORet rc s'
       else ORet (-1) (with_errno EINVAL s)).
Proof.
  split; [by intros ->|]. intros r (Hp & Hal & Hr).
  unfold rsi_respond_status. unfold mbind at 1, M_bind at 1.
  assert (as_ref rsi_request req s = ORet (Some r) s) as ->.
  { unfold as_ref, deref, mbind, M_bind.
    by rewrite (proj2 (Z.eqb_neq _ _) Hp), Hal, Z.eqb_refl, Hr. }
  destruct (decide (rq_op_code r ∈ request_ops)) as [Hop|Hop].
  - rewrite response_op_known by done. unfold or_fail.
    rewrite validate_status_response_eq by done.
    destruct (status_allowed _ _); [apply send_status_frame|done].
  - destruct (response_op_unknown _ Hop) as [e ->].
    unfold status_allowed. by rewrite bool_decide_false.
Qed.

(** C13: [rsi_respond_status] sends the 18-byte status frame of the request, in one [write],
    exactly when the status may answer it; otherwise, and for a NULL request, it reports
    [EINVAL] and changes nothing else. *)
Theorem rsi_respond_status_correct fd req status s :
  (req = 0 -> rsi_respond_status fd req status s = ORet (-1) (with_errno EINVAL s)) /\
  (forall r, points_to rsi_request (st_mem s) req r ->
     rsi_respond_status fd req status s =
       if status_allowed (rq_op_code r) status
       then let '(rc, s') :=
              send fd (response_frame (rq_request_id r) (rq_op_code r) status []) s in ORet rc s'
       else ORet (-1) (with_errno EINVAL s)).
Proof. apply rsi_respond_status_eq. Qed.

End response_spec.
