(* ===== verification/RequestTests.v ===== *)
(** * The unit tests of [request.rs]

    The tests of [src/src/request.rs] (lines 688-1132), translated one by one under their
    own names. They build request frames with lcs-core's writers, which are parameters here
    ([RequestWriters]) like its parsers: what is assumed of a writer is that the frame it
    builds parses back to what it was built from. *)

From Stdlib Require Import String.
From S2P Require Import Prelude Memory Platform Effects Testing Request RequestSpec.
#[local] Open Scope Z_scope.

(** ** [lcs_core::rsi]: request writers

    [write buf.len() request_id txn_id ..], as a function of what it is given. *)

(** What a writer returns: [built_bytes] is the part of the buffer that was written,
    [&buf[..built.len]]; [built_retained] what the kernel keeps of the request, to check the
    response against. *)
Record built (R : Type) := mk_built { built_bytes : list byte; built_retained : R }.
Arguments mk_built {R}.
Arguments built_bytes {R}.
Arguments built_retained {R}.

Class RequestWriters `{P : Platform} : Type := {
  RsiRetainedRequest : Type;
  RSI_WRITE_KEY_FIELD_SD : Z;
  RSI_WRITE_KEY_FIELD_LAST_WRITE_TIME : Z;
  RsiTransactionMode_ReadOnly : RsiTransactionMode;
  RsiTransactionMode_ReadWrite : RsiTransactionMode;
  write_rsi_lookup_request_frame (cap : nat) (request_id txn_id : Z)
    (parent_guid : guid) (child_name : list byte) : result LcsError (built RsiRetainedRequest);
  write_rsi_create_entry_request_frame (cap : nat) (request_id txn_id : Z)
    (parent_guid : guid) (child_name layer_name : list byte) (child_guid : guid)
    (sequence : Z) : result LcsError (built RsiRetainedRequest);
  write_rsi_hide_entry_request_frame (cap : nat) (request_id txn_id : Z)
    (parent_guid : guid) (child_name layer_name : list byte) (sequence : Z) :
    result LcsError (built RsiRetainedRequest);
  write_rsi_delete_entry_request_frame (cap : nat) (request_id txn_id : Z)
    (parent_guid : guid) (child_name layer_name : list byte) :
    result LcsError (built RsiRetainedRequest);
  write_rsi_enum_children_request_frame (cap : nat) (request_id txn_id : Z)
    (parent_guid : guid) : result LcsError (built RsiRetainedRequest);
  write_rsi_create_key_request_frame (cap : nat) (request_id txn_id : Z)
    (key : guid) (name : list byte) (parent_guid : guid) (sd : list byte)
    (volatile symlink : bool) : result LcsError (built RsiRetainedRequest);
  write_rsi_read_key_request_frame (cap : nat) (request_id txn_id : Z) (key : guid) :
    result LcsError (built RsiRetainedRequest);
  write_rsi_drop_key_request_frame (cap : nat) (request_id txn_id : Z) (key : guid) :
    result LcsError (built RsiRetainedRequest);
  write_rsi_write_key_request_frame (cap : nat) (request_id txn_id : Z) (key : guid)
    (sd : option (list byte)) (last_write_time : option Z) :
    result LcsError (built RsiRetainedRequest);
  write_rsi_query_values_request_frame (cap : nat) (request_id txn_id : Z) (key : guid)
    (value_name : list byte) (query_all : bool) : result LcsError (built RsiRetainedRequest);
  write_rsi_set_value_request_frame (cap : nat) (request_id txn_id : Z) (key : guid)
    (value_name layer_name : list byte) (value_type : Z) (data : list byte)
    (sequence expected_sequence : Z) : result LcsError (built RsiRetainedRequest);
  write_rsi_delete_value_entry_request_frame (cap : nat) (request_id txn_id : Z)
    (key : guid) (value_name layer_name : list byte) : result LcsError (built RsiRetainedRequest);
  write_rsi_set_blanket_tombstone_request_frame (cap : nat) (request_id txn_id : Z)
    (key : guid) (layer_name : list byte) (set : bool) (sequence : Z) :
    result LcsError (built RsiRetainedRequest);
  write_rsi_begin_transaction_request_frame (cap : nat) (request_id txn_id : Z)
    (transaction_id : Z) (mode : RsiTransactionMode) : result LcsError (built RsiRetainedRequest);
  write_rsi_commit_transaction_request_frame (cap : nat) (request_id txn_id : Z)
    (transaction_id : Z) : result LcsError (built RsiRetainedRequest);
  write_rsi_abort_transaction_request_frame (cap : nat) (request_id txn_id : Z)
    (transaction_id : Z) : result LcsError (built RsiRetainedRequest);
  write_rsi_delete_layer_request_frame (cap : nat) (request_id txn_id : Z)
    (layer_name : list byte) : result LcsError (built RsiRetainedRequest);
  write_rsi_flush_request_frame (cap : nat) (request_id txn_id : Z)
    (hive_name : list byte) : result LcsError (built RsiRetainedRequest)
}.

(** The bytes of a parsed field. *)
Definition field (f : RsiLengthPrefixedField) : list byte := sl_bytes (lpf_data f).

Section request_tests.
Context `{P : Platform, W : !RequestWriters}.

(** The frames of a writer fit the buffer and parse back, wherever they are in memory: the
    header to the ids and the op, the payload to what was written. *)
Definition builds {V} (write : nat -> Z -> Z -> result LcsError (built RsiRetainedRequest)) (op : Z)
    (parse : slice -> result LcsError V) (means : V -> Prop) : Prop :=
  forall cap id txn b, is_u64 id -> is_u64 txn -> write cap id txn = Ok b ->
    let bs := built_bytes b in
    (length bs <= cap)%nat /\
    forall p, exists h v,
      parse_rsi_request_header (mk_slice p bs) = Ok h /\
      hd_request_id h = id /\ hd_txn_id h = txn /\ hd_op_code h = wrap 16 op /\
      parse (mk_slice (p + RSI_REQUEST_HEADER_SIZE)
                      (drop (Z.to_nat RSI_REQUEST_HEADER_SIZE) bs)) = Ok v /\ means v.

(** A name or some data that a [u32] length can announce. *)
Definition short (bs : list byte) : Prop := is_u32 (Z.of_nat (length bs)).

(** "Decoders are thin wrappers over the kernel's own RSI parsers, so the wire handling is
    guaranteed compatible" (include/rsi/request.h): each writer builds what the parser of
    its op reads. *)
Class RequestWritersLaws : Prop := {
  (** "[RSI_TXN_READ_WRITE] (0) or [RSI_TXN_READ_ONLY] (1)" *)
  read_write_code : RsiTransactionMode_code RsiTransactionMode_ReadWrite = 0;
  read_only_code : RsiTransactionMode_code RsiTransactionMode_ReadOnly = 1;
  (** two bits of one mask *)
  field_bits_apart :
    Z.land RSI_WRITE_KEY_FIELD_SD RSI_WRITE_KEY_FIELD_LAST_WRITE_TIME = 0;
  write_lookup_builds g n : guid_wf g -> short n ->
    builds (λ cap id txn, write_rsi_lookup_request_frame cap id txn g n) RSI_LOOKUP
      parse_rsi_lookup_request_payload
      (λ v, lk_parent_guid v = g /\ field (lk_child_name v) = n);
  write_create_entry_builds g n l c q : guid_wf g -> guid_wf c -> short n -> short l ->
    is_u64 q ->
    builds (λ cap id txn, write_rsi_create_entry_request_frame cap id txn g n l c q)
      RSI_CREATE_ENTRY parse_rsi_create_entry_request_payload
      (λ v, ce_parent_guid v = g /\ ce_child_guid v = c /\ field (ce_child_name v) = n /\
            field (ce_layer_name v) = l /\ ce_sequence v = q);
  write_hide_entry_builds g n l q : guid_wf g -> short n -> short l -> is_u64 q ->
    builds (λ cap id txn, write_rsi_hide_entry_request_frame cap id txn g n l q)
      RSI_HIDE_ENTRY parse_rsi_hide_entry_request_payload
      (λ v, hi_parent_guid v = g /\ field (hi_child_name v) = n /\
            field (hi_layer_name v) = l /\ hi_sequence v = q);
  write_delete_entry_builds g n l : guid_wf g -> short n -> short l ->
    builds (λ cap id txn, write_rsi_delete_entry_request_frame cap id txn g n l)
      RSI_DELETE_ENTRY parse_rsi_delete_entry_request_payload
      (λ v, de_parent_guid v = g /\ field (de_child_name v) = n /\
            field (de_layer_name v) = l);
  write_enum_children_builds g : guid_wf g ->
    builds (λ cap id txn, write_rsi_enum_children_request_frame cap id txn g)
      RSI_ENUM_CHILDREN parse_rsi_enum_children_request_payload (λ v, ec_parent_guid v = g);
  write_create_key_builds g n pg sd vo sy : guid_wf g -> guid_wf pg -> short n -> short sd ->
    builds (λ cap id txn, write_rsi_create_key_request_frame cap id txn g n pg sd vo sy)
      RSI_CREATE_KEY parse_rsi_create_key_request_payload
      (λ v, ck_guid v = g /\ ck_parent_guid v = pg /\ field (ck_name v) = n /\
            field (ck_sd v) = sd /\ ck_volatile v = vo /\ ck_symlink v = sy);
  write_read_key_builds g : guid_wf g ->
    builds (λ cap id txn, write_rsi_read_key_request_frame cap id txn g)
      RSI_READ_KEY parse_rsi_read_key_request_payload (λ v, kg_guid v = g);
  write_drop_key_builds g : guid_wf g ->
    builds (λ cap id txn, write_rsi_drop_key_request_frame cap id txn g)
      RSI_DROP_KEY parse_rsi_drop_key_request_payload (λ v, kg_guid v = g);
  write_write_key_builds g sd t : guid_wf g -> from_option short True sd ->
    from_option is_u64 True t ->
    builds (λ cap id txn, write_rsi_write_key_request_frame cap id txn g sd t)
      RSI_WRITE_KEY parse_rsi_write_key_request_payload
      (λ v, wk_guid v = g /\ field <$> wk_sd v = sd /\ wk_last_write_time v = t /\
            wk_field_mask v = Z.lor (if sd is Some _ then RSI_WRITE_KEY_FIELD_SD else 0)
                                    (if t is Some _
                                     then RSI_WRITE_KEY_FIELD_LAST_WRITE_TIME else 0));
  write_query_values_builds g n a : guid_wf g -> short n ->
    builds (λ cap id txn, write_rsi_query_values_request_frame cap id txn g n a)
      RSI_QUERY_VALUES parse_rsi_query_values_request_payload
      (λ v, qv_guid v = g /\ field (qv_value_name v) = n /\ qv_query_all v = a);
  write_set_value_builds g n l ty d q e : guid_wf g -> short n -> short l -> is_u32 ty ->
    short d -> is_u64 q -> is_u64 e ->
    builds (λ cap id txn, write_rsi_set_value_request_frame cap id txn g n l ty d q e)
      RSI_SET_VALUE parse_rsi_set_value_request_payload
      (λ v, sv_guid v = g /\ field (sv_value_name v) = n /\ field (sv_layer_name v) = l /\
            sv_value_type v = ty /\ field (sv_data v) = d /\ sv_sequence v = q /\
            sv_expected_sequence v = e);
  write_delete_value_entry_builds g n l : guid_wf g -> short n -> short l ->
    builds (λ cap id txn, write_rsi_delete_value_entry_request_frame cap id txn g n l)
      RSI_DELETE_VALUE_ENTRY parse_rsi_delete_value_entry_request_payload
      (λ v, dv_guid v = g /\ field (dv_value_name v) = n /\ field (dv_layer_name v) = l);
  write_set_blanket_tombstone_builds g l b q : guid_wf g -> short l -> is_u64 q ->
    builds (λ cap id txn, write_rsi_set_blanket_tombstone_request_frame cap id txn g l b q)
      RSI_SET_BLANKET_TOMBSTONE parse_rsi_set_blanket_tombstone_request_payload
      (λ v, bt_guid v = g /\ field (bt_layer_name v) = l /\ bt_set v = b /\
            bt_sequence v = q);
  write_begin_transaction_builds t m : is_u64 t ->
    builds (λ cap id txn, write_rsi_begin_transaction_request_frame cap id txn t m)
      RSI_BEGIN_TRANSACTION parse_rsi_begin_transaction_request_payload
      (λ v, bg_transaction_id v = t /\ bg_mode v = m);
  write_commit_transaction_builds t : is_u64 t ->
    builds (λ cap id txn, write_rsi_commit_transaction_request_frame cap id txn t)
      RSI_COMMIT_TRANSACTION parse_rsi_commit_transaction_request_payload
      (λ v, tx_transaction_id v = t);
  write_abort_transaction_builds t : is_u64 t ->
    builds (λ cap id txn, write_rsi_abort_transaction_request_frame cap id txn t)
      RSI_ABORT_TRANSACTION parse_rsi_abort_transaction_request_payload
      (λ v, tx_transaction_id v = t);
  write_delete_layer_builds n : short n ->
    builds (λ cap id txn, write_rsi_delete_layer_request_frame cap id txn n)
      RSI_DELETE_LAYER parse_rsi_delete_layer_request_payload
      (λ v, field (dl_layer_name v) = n);
  write_flush_builds n : short n ->
    builds (λ cap id txn, write_rsi_flush_request_frame cap id txn n)
      RSI_FLUSH parse_rsi_flush_request_payload (λ v, field (fl_hive_name v) = n)
}.

(** ** The tests

    Each test has its frame buffer in slot 0, the parsed request in slot 1 and the output
    struct in slot 2. The frames the tests build have names. *)

(** [let built = write_..(&mut buf, ..).unwrap(); let frame = &buf[..built.len]]. *)
Definition build (w : result LcsError (built RsiRetainedRequest)) : M Z :=
  b ← unwrap w;
  _ ← modify (λ s, with_mem (store (st_mem s) (slot 0) (built_bytes b)) s);
  mret (Z.of_nat (length (built_bytes b))).

Definition zero_local (A : Type) `{Repr A} (i : nat) : M unit :=
  modify (λ s, with_mem (store (st_mem s) (slot i) (zeroed A)) s).

(** [parse(frame)], for a frame of [len] bytes. *)
Definition parse (len : Z) : M rsi_request :=
  _ ← zero_local rsi_request 1;
  rc ← rsi_parse_request (slot 0) len (slot 1);
  _ ← assert_eq rc 0;
  deref rsi_request (slot 1).

(** [let mut out = zeroed(); assert_eq!(decoder(&req, &mut out), 0)]. *)
Definition decode (A : Type) `{Repr A} (decoder : Z -> Z -> M Z) : M A :=
  _ ← zero_local A 2;
  rc ← decoder (slot 1) (slot 2);
  _ ← assert_eq rc 0;
  deref A (slot 2).

Definition field_bytes (ptr len : Z) : M (list byte) :=
  sl ← from_raw_parts ptr len; mret (sl_bytes sl).

(** [assert_eq!(field_bytes(ptr, len), bs)]. *)
Definition assert_field (ptr len : Z) (bs : list byte) : M unit :=
  b ← field_bytes ptr len; assert_eq b bs.

Definition lookup_frame :=
  write_rsi_lookup_request_frame 128 7 3 (guid_of_byte Byte.xab) (bytes_of "Software").

Definition lookup_roundtrips : M unit :=
  _ ← locals [zeros 128];
  len ← build lookup_frame;
  req ← parse len;
  _ ← assert_eq (rq_request_id req) 7;
  _ ← assert_eq (rq_txn_id req) 3;
  out ← decode rsi_lookup rsi_request_lookup;
  _ ← assert_eq (rl_parent_guid out) (guid_of_byte Byte.xab);
  assert_field (rl_child_name out) (rl_child_name_len out) (bytes_of "Software").

Definition dead_beef : list byte := [Byte.xde; Byte.xad; Byte.xbe; Byte.xef].

Definition set_value_frame :=
  write_rsi_set_value_request_frame 256 9 0 (guid_of_byte Byte.x01) (bytes_of "Color")
    (bytes_of "base") 3 dead_beef 42 100.

Definition set_value_roundtrips : M unit :=
  _ ← locals [zeros 256];
  len ← build set_value_frame;
  _ ← parse len;
  out ← decode rsi_set_value rsi_request_set_value;
  _ ← assert_eq (rsv_guid out) (guid_of_byte Byte.x01);
  _ ← assert_field (rsv_value_name out) (rsv_value_name_len out) (bytes_of "Color");
  _ ← assert_field (rsv_layer_name out) (rsv_layer_name_len out) (bytes_of "base");
  _ ← assert_eq (rsv_value_type out) 3;
  _ ← assert_field (rsv_data out) (rsv_data_len out) dead_beef;
  _ ← assert_eq (rsv_sequence out) 42;
  assert_eq (rsv_expected_sequence out) 100.

Definition write_key_sd_frame :=
  write_rsi_write_key_request_frame 256 1 0 (guid_of_byte Byte.x02)
    (Some [Byte.x11; Byte.x22; Byte.x33]) None.
Definition write_key_time_frame :=
  write_rsi_write_key_request_frame 256 2 0 (guid_of_byte Byte.x03) None (Some 0x1122334455667788).
Definition write_key_both_frame :=
  write_rsi_write_key_request_frame 256 3 0 (guid_of_byte Byte.x04) (Some [Byte.x44; Byte.x55])
    (Some 0x8877665544332211).

Definition write_key_options_roundtrip : M unit :=
  _ ← locals [zeros 256];
  len ← build write_key_sd_frame;
  _ ← parse len;
  out ← decode rsi_write_key rsi_request_write_key;
  _ ← assert_eq (rwk_field_mask out) RSI_WRITE_KEY_FIELD_SD;
  _ ← assert_field (rwk_sd out) (rwk_sd_len out) [Byte.x11; Byte.x22; Byte.x33];
  _ ← assert_eq (rwk_last_write_time out) 0;
  _ ← assert_eq (Z.land (rwk_field_mask out) RSI_WRITE_KEY_FIELD_LAST_WRITE_TIME) 0;
  len ← build write_key_time_frame;
  _ ← parse len;
  out ← decode rsi_write_key rsi_request_write_key;
  _ ← assert_eq (rwk_field_mask out) RSI_WRITE_KEY_FIELD_LAST_WRITE_TIME;
  _ ← assert_eq (rwk_sd out) 0;
  _ ← assert_eq (rwk_sd_len out) 0;
  _ ← assert_eq (rwk_last_write_time out) 0x1122334455667788;
  len ← build write_key_both_frame;
  _ ← parse len;
  out ← decode rsi_write_key rsi_request_write_key;
  _ ← assert_eq (rwk_field_mask out)
        (Z.lor RSI_WRITE_KEY_FIELD_SD RSI_WRITE_KEY_FIELD_LAST_WRITE_TIME);
  _ ← assert_field (rwk_sd out) (rwk_sd_len out) [Byte.x44; Byte.x55];
  assert_eq (rwk_last_write_time out) 0x8877665544332211.

Definition begin_read_only_frame :=
  write_rsi_begin_transaction_request_frame 64 5 0 99 RsiTransactionMode_ReadOnly.
Definition begin_read_write_frame :=
  write_rsi_begin_transaction_request_frame 64 6 0 100 RsiTransactionMode_ReadWrite.

Definition begin_transaction_roundtrips : M unit :=
  _ ← locals [zeros 64];
  len ← build begin_read_only_frame;
  _ ← parse len;
  out ← decode rsi_begin_transaction rsi_request_begin_transaction;
  _ ← assert_eq (rbg_transaction_id out) 99;
  _ ← assert_eq (rbg_mode out) 1;
  len ← build begin_read_write_frame;
  _ ← parse len;
  out ← decode rsi_begin_transaction rsi_request_begin_transaction;
  _ ← assert_eq (rbg_transaction_id out) 100;
  assert_eq (rbg_mode out) 0.

Definition create_entry_frame :=
  write_rsi_create_entry_request_frame 256 10 4 (guid_of_byte Byte.x10) (bytes_of "Child")
    (bytes_of "base") (guid_of_byte Byte.x11) 55.
Definition hide_entry_frame :=
  write_rsi_hide_entry_request_frame 256 11 4 (guid_of_byte Byte.x20) (bytes_of "Hidden")
    (bytes_of "mask") 56.
Definition delete_entry_frame :=
  write_rsi_delete_entry_request_frame 256 12 4 (guid_of_byte Byte.x30) (bytes_of "Dead")
    (bytes_of "overlay").
Definition enum_children_frame :=
  write_rsi_enum_children_request_frame 256 13 4 (guid_of_byte Byte.x40).

Definition entry_request_decoders_roundtrip : M unit :=
  _ ← locals [zeros 256];
  len ← build create_entry_frame;
  _ ← parse len;
  create_entry ← decode rsi_create_entry rsi_request_create_entry;
  _ ← assert_eq (rce_parent_guid create_entry) (guid_of_byte Byte.x10);
  _ ← assert_eq (rce_child_guid create_entry) (guid_of_byte Byte.x11);
  _ ← assert_field (rce_child_name create_entry) (rce_child_name_len create_entry)
        (bytes_of "Child");
  _ ← assert_field (rce_layer_name create_entry) (rce_layer_name_len create_entry)
        (bytes_of "base");
  _ ← assert_eq (rce_sequence create_entry) 55;
  len ← build hide_entry_frame;
  _ ← parse len;
  hide_entry ← decode rsi_hide_entry rsi_request_hide_entry;
  _ ← assert_eq (rhe_parent_guid hide_entry) (guid_of_byte Byte.x20);
  _ ← assert_field (rhe_child_name hide_entry) (rhe_child_name_len hide_entry)
        (bytes_of "Hidden");
  _ ← assert_field (rhe_layer_name hide_entry) (rhe_layer_name_len hide_entry)
        (bytes_of "mask");
  _ ← assert_eq (rhe_sequence hide_entry) 56;
  len ← build delete_entry_frame;
  _ ← parse len;
  delete_entry ← decode rsi_delete_entry rsi_request_delete_entry;
  _ ← assert_eq (rde_parent_guid delete_entry) (guid_of_byte Byte.x30);
  _ ← assert_field (rde_child_name delete_entry) (rde_child_name_len delete_entry)
        (bytes_of "Dead");
  _ ← assert_field (rde_layer_name delete_entry) (rde_layer_name_len delete_entry)
        (bytes_of "overlay");
  len ← build enum_children_frame;
  _ ← parse len;
  enum_children ← decode rsi_enum_children rsi_request_enum_children;
  assert_eq (rec_parent_guid enum_children) (guid_of_byte Byte.x40).

Definition create_key_frame :=
  write_rsi_create_key_request_frame 256 14 4 (guid_of_byte Byte.x50) (bytes_of "Key")
    (guid_of_byte Byte.x51) [Byte.xaa; Byte.xbb] true false.
Definition create_link_frame :=
  write_rsi_create_key_request_frame 256 24 4 (guid_of_byte Byte.x52) (bytes_of "Link")
    (guid_of_byte Byte.x53) [Byte.xcc] false true.
Definition read_key_frame := write_rsi_read_key_request_frame 256 15 4 (guid_of_byte Byte.x60).
Definition drop_key_frame := write_rsi_drop_key_request_frame 256 16 4 (guid_of_byte Byte.x61).

Definition key_request_decoders_roundtrip : M unit :=
  _ ← locals [zeros 256];
  len ← build create_key_frame;
  _ ← parse len;
  create_key ← decode rsi_create_key rsi_request_create_key;
  _ ← assert_eq (rck_guid create_key) (guid_of_byte Byte.x50);
  _ ← assert_eq (rck_parent_guid create_key) (guid_of_byte Byte.x51);
  _ ← assert_field (rck_name create_key) (rck_name_len create_key) (bytes_of "Key");
  _ ← assert_field (rck_sd create_key) (rck_sd_len create_key) [Byte.xaa; Byte.xbb];
  _ ← assert_eq (rck_volatile_key create_key) 1;
  _ ← assert_eq (rck_symlink create_key) 0;
  len ← build create_link_frame;
  _ ← parse len;
  create_key ← decode rsi_create_key rsi_request_create_key;
  _ ← assert_field (rck_name create_key) (rck_name_len create_key) (bytes_of "Link");
  _ ← assert_field (rck_sd create_key) (rck_sd_len create_key) [Byte.xcc];
  _ ← assert_eq (rck_volatile_key create_key) 0;
  _ ← assert_eq (rck_symlink create_key) 1;
  len ← build read_key_frame;
  _ ← parse len;
  key_guid ← decode rsi_key_guid rsi_request_read_key;
  _ ← assert_eq (rkg_guid key_guid) (guid_of_byte Byte.x60);
  len ← build drop_key_frame;
  _ ← parse len;
  key_guid ← decode rsi_key_guid rsi_request_drop_key;
  assert_eq (rkg_guid key_guid) (guid_of_byte Byte.x61).

Definition query_value_frame :=
  write_rsi_query_values_request_frame 256 17 4 (guid_of_byte Byte.x70) (bytes_of "Value") false.
Definition query_all_frame :=
  write_rsi_query_values_request_frame 256 25 4 (guid_of_byte Byte.x71) [] true.
Definition delete_value_entry_frame :=
  write_rsi_delete_value_entry_request_frame 256 18 4 (guid_of_byte Byte.x80) (bytes_of "Value")
    (bytes_of "base").
Definition set_blanket_frame :=
  write_rsi_set_blanket_tombstone_request_frame 256 19 4 (guid_of_byte Byte.x90)
    (bytes_of "mask") true 57.
Definition clear_blanket_frame :=
  write_rsi_set_blanket_tombstone_request_frame 256 26 4 (guid_of_byte Byte.x91)
    (bytes_of "mask") false 58.

Definition value_request_decoders_roundtrip : M unit :=
  _ ← locals [zeros 256];
  len ← build query_value_frame;
  _ ← parse len;
  query_values ← decode rsi_query_values rsi_request_query_values;
  _ ← assert_eq (rqv_guid query_values) (guid_of_byte Byte.x70);
  _ ← assert_field (rqv_value_name query_values) (rqv_value_name_len query_values)
        (bytes_of "Value");
  _ ← assert_eq (rqv_query_all query_values) 0;
  len ← build query_all_frame;
  _ ← parse len;
  query_values ← decode rsi_query_values rsi_request_query_values;
  _ ← assert_eq (rqv_guid query_values) (guid_of_byte Byte.x71);
  _ ← assert_eq (rqv_value_name_len query_values) 0;
  _ ← assert_eq (rqv_query_all query_values) 1;
  len ← build delete_value_entry_frame;
  _ ← parse len;
  delete_value ← decode rsi_delete_value_entry rsi_request_delete_value_entry;
  _ ← assert_eq (rdv_guid delete_value) (guid_of_byte Byte.x80);
  _ ← assert_field (rdv_value_name delete_value) (rdv_value_name_len delete_value)
        (bytes_of "Value");
  _ ← assert_field (rdv_layer_name delete_value) (rdv_layer_name_len delete_value)
        (bytes_of "base");
  len ← build set_blanket_frame;
  _ ← parse len;
  blanket ← decode rsi_set_blanket_tombstone rsi_request_set_blanket_tombstone;
  _ ← assert_eq (rbt_guid blanket) (guid_of_byte Byte.x90);
  _ ← assert_field (rbt_layer_name blanket) (rbt_layer_name_len blanket) (bytes_of "mask");
  _ ← assert_eq (rbt_set blanket) 1;
  _ ← assert_eq (rbt_sequence blanket) 57;
  len ← build clear_blanket_frame;
  _ ← parse len;
  blanket ← decode rsi_set_blanket_tombstone rsi_request_set_blanket_tombstone;
  _ ← assert_eq (rbt_guid blanket) (guid_of_byte Byte.x91);
  _ ← assert_field (rbt_layer_name blanket) (rbt_layer_name_len blanket) (bytes_of "mask");
  _ ← assert_eq (rbt_set blanket) 0;
  assert_eq (rbt_sequence blanket) 58.

Definition commit_frame := write_rsi_commit_transaction_request_frame 256 20 4 0x1234.
Definition abort_frame := write_rsi_abort_transaction_request_frame 256 21 4 0x5678.
Definition delete_layer_frame := write_rsi_delete_layer_request_frame 256 22 4 (bytes_of "overlay").
Definition flush_frame := write_rsi_flush_request_frame 256 23 4 (bytes_of "Machine").

Definition transaction_and_name_request_decoders_roundtrip : M unit :=
  _ ← locals [zeros 256];
  len ← build commit_frame;
  _ ← parse len;
  transaction ← decode rsi_transaction rsi_request_commit_transaction;
  _ ← assert_eq (rtx_transaction_id transaction) 0x1234;
  len ← build abort_frame;
  _ ← parse len;
  transaction ← decode rsi_transaction rsi_request_abort_transaction;
  _ ← assert_eq (rtx_transaction_id transaction) 0x5678;
  len ← build delete_layer_frame;
  _ ← parse len;
  name ← decode rsi_name rsi_request_delete_layer;
  _ ← assert_field (rnm_name name) (rnm_name_len name) (bytes_of "overlay");
  len ← build flush_frame;
  _ ← parse len;
  name ← decode rsi_name rsi_request_flush;
  assert_field (rnm_name name) (rnm_name_len name) (bytes_of "Machine").

(** Shorter than the 22-byte header. *)
Definition short_frame_is_ebadmsg : M unit :=
  _ ← locals [zeros 4; zeroed rsi_request];
  fails_with (rsi_parse_request (slot 0) 4 (slot 1)) EBADMSG.

Definition mismatched_decoder_is_einval : M unit :=
  _ ← locals [zeros 128];
  len ← build lookup_frame;
  _ ← parse len;
  _ ← zero_local rsi_key_guid 2;
  fails_with (rsi_request_read_key (slot 1) (slot 2)) EINVAL.

Definition request_tests : list (M unit) :=
  [ lookup_roundtrips; set_value_roundtrips; write_key_options_roundtrip;
    begin_transaction_roundtrips; entry_request_decoders_roundtrip;
    key_request_decoders_roundtrip; value_request_decoders_roundtrip;
    transaction_and_name_request_decoders_roundtrip; short_frame_is_ebadmsg;
    mismatched_decoder_is_einval ].

(** Every frame the tests unwrap. *)
Definition test_frames : list (result LcsError (built RsiRetainedRequest)) :=
  [ lookup_frame; set_value_frame; write_key_sd_frame; write_key_time_frame;
    write_key_both_frame; begin_read_only_frame; begin_read_write_frame; create_entry_frame;
    hide_entry_frame; delete_entry_frame; enum_children_frame; create_key_frame;
    create_link_frame; read_key_frame; drop_key_frame; query_value_frame; query_all_frame;
    delete_value_entry_frame; set_blanket_frame; clear_blanket_frame; commit_frame;
    abort_frame; delete_layer_frame; flush_frame ].

(** ** They pass *)

Context `{!PlatformLaws P, WL : !RequestWritersLaws}.

Lemma length_zeroed A `{Repr A} : length (zeroed A) = Z.to_nat (size_of A).
Proof. apply length_replicate. Qed.

(** A zeroed local. *)
Lemma zeroed_points_to A `{Repr A} m i a :
  load m (slot i) (length (zeroed A)) = Some (zeroed A) ->
  repr_of (decode_struct (repr_layout A) (zeroed A)) = Some a ->
  struct_align (repr_layout A) ∈ [1; 2; 4; 8] -> points_to A m (slot i) a.
Proof.
  intros Hl Ha Hal. split_and!; [unfold slot; lia|by apply slot_aligned|].
  rewrite length_zeroed in Hl. unfold read, read_struct. unfold size_of in Hl. by rewrite Hl.
Qed.

Lemma zero_local_points_to A `{Repr A} m i a :
  repr_of (decode_struct (repr_layout A) (zeroed A)) = Some a ->
  struct_align (repr_layout A) ∈ [1; 2; 4; 8] ->
  points_to A (store m (slot i) (zeroed A)) (slot i) a.
Proof. apply zeroed_points_to, load_store. Qed.

(** Building a frame and parsing it: the rest of the test runs on the parsed request. *)
Lemma passes_build_parse {V} write op (parse_payload : slice -> result LcsError V) means
    cap id txn (k : rsi_request -> M unit) s :
  builds write op parse_payload means -> is_u64 id -> is_u64 txn -> (cap <= 4096)%nat ->
  is_ok (write cap id txn) = true ->
  (forall r sl v s1,
     points_to rsi_request (st_mem s1) (slot 1) r ->
     rq_request_id r = id -> rq_txn_id r = txn -> rq_op_code r = wrap 16 op ->
     request_payload (st_mem s1) r sl -> rq_payload r + rq_payload_len r <= slot 2 ->
     parse_payload sl = Ok v -> means v -> passes (k r) s1) ->
  passes (len ← build (write cap id txn); r ← parse len; k r) s.
Proof.
  intros Hb Hid Htxn Hcap Hok Hk. destruct (write cap id txn) as [b|e] eqn:Hw; [|done].
  destruct (Hb _ _ _ _ Hid Htxn Hw) as (Hlen & Hparse).
  destruct (Hparse (slot 0)) as (h & v & Hh & <- & <- & Hop & Hv & Hmeans). clear Hparse Hb.
  set (bs := built_bytes b) in *.
  eapply passes_step; [reflexivity|]. apply wp_bind. unfold parse, zero_local.
  apply wp_bind, wp_modify. cbv beta iota. apply wp_bind.
  set (m1 := store (st_mem s) (slot 0) bs).
  assert (load m1 (slot 0) (length bs) = Some bs) as Hl1 by apply load_store.
  set (m2 := store m1 (slot 1) (zeroed rsi_request)).
  assert (points_to rsi_request m2 (slot 1) (mk_rsi_request 0 0 0 0 0)) as Hz.
  { apply zero_local_points_to; [reflexivity|by apply (bool_decide_unpack _)]. }
  assert (frame_at m2 (slot 0) (Z.of_nat (length bs)) bs) as Hf.
  { unfold slot. split; [done|done|unfold isize_max; lia|lia|].
    rewrite <- Hl1. apply load_ext. intros q Hq. apply lookup_store_ne. unfold slot in *. lia. }
  pose proof (header_stored _ _ _ _ _ _ (with_mem m2 s) Hf Hz Hh) as (m3 & Hrun & Hst).
  eapply wp_run; [exact Hrun|]. apply wp_bind, wp_assert_eq; [done|].
  assert (points_to rsi_request m3 (slot 1) (header_view (slot 0) (Z.of_nat (length bs)) h)) as Hr.
  { destruct Hz as (? & ? & _). by split_and!; [| |apply Hst]. }
  eapply wp_deref; [exact Hr|].
  eapply Hk; [exact Hr|done|done|exact Hop| | |exact Hv|exact Hmeans].
  - eapply header_view_payload; [exact Hf|exact Hst| | |exact Hh].
    + left. unfold slot. lia.
    + rewrite request_header_size. lia.
  - destruct (parse_header_wf _ _ Hh) as (Hmin & _). simpl in Hmin |- *.
    rewrite request_header_size in *. rewrite wrap_small by lia. unfold slot. lia.
Qed.

Lemma request_payload_ext m m' r sl :
  (forall q, rq_payload r <= q < rq_payload r + rq_payload_len r -> m' !! q = m !! q) ->
  request_payload m r sl -> request_payload m' r sl.
Proof.
  intros Hm [Hp Hn|bs Hp Hp0 Hn Hw Hl]; [by apply payload_null|].
  apply payload_bytes; try done. rewrite <- Hl. apply load_ext. intros q Hq. apply Hm.
  unfold is_u32 in Hn. lia.
Qed.

(** A borrowed field, as the test reads it. *)
Lemma field_bytes_eq m r sl f s :
  request_payload m r sl -> borrowed sl f ->
  load (st_mem s) (lpf f).1 (Z.to_nat (lpf f).2) = Some (sl_bytes (lpf_data f)) ->
  field_bytes (lpf f).1 (lpf f).2 s = ORet (field f) s.
Proof.
  intros Hpay Hb Hl. pose proof (request_payload_in_range _ _ _ Hpay) as Hsl.
  destruct (borrowed_lpf _ _ Hsl Hb) as (Hp1 & Hp2 & Hlen). destruct Hsl as (H0 & H32 & H64).
  destruct Hb as (off & Hoff & Hp & _). assert (0 < sl_ptr sl) as Hpos.
  { destruct Hpay; simpl in *; [done|lia]. }
  unfold field_bytes, mbind, M_bind. rewrite (from_raw_parts_eq _ _ (sl_bytes (lpf_data f)));
    [done| | | |exact Hl]; rewrite ?Hlen; unfold lpf, isize_max in *; cbn [fst] in *; lia.
Qed.

(** Decoding the parsed request: the rest of the test runs on the decoder's view. *)
Lemma passes_decode {V A} `{Repr A} decoder op (parse_payload : slice -> result LcsError V) wf
    (view : V -> A) fields a0 r sl v (k : A -> M unit) s :
  decoder_correct decoder op parse_payload view -> returns parse_payload wf ->
  (wf sl v -> Forall (borrowed sl) (fields v)) ->
  repr_of (decode_struct (repr_layout A) (zeroed A)) = Some a0 ->
  struct_align (repr_layout A) ∈ [1; 2; 4; 8] ->
  points_to rsi_request (st_mem s) (slot 1) r -> rq_op_code r = wrap 16 op ->
  request_payload (st_mem s) r sl -> rq_payload r + rq_payload_len r <= slot 2 ->
  parse_payload sl = Ok v ->
  (forall s2, Forall (λ f, field_bytes (lpf f).1 (lpf f).2 s2 = ORet (field f) s2) (fields v) ->
     passes (k (view v)) s2) ->
  passes (a ← decode A decoder; k a) s.
Proof.
  intros Hdec Hwf Hfields Ha0 Hal Hr Hop Hpay Hend Hv Hk.
  apply wp_bind. unfold decode, zero_local. apply wp_bind, wp_modify. apply wp_bind.
  set (s1 := with_mem _ s).
  assert (forall q, q < slot 2 -> st_mem s1 !! q = st_mem s !! q) as Hsame.
  { intros q Hq. apply lookup_store_ne. lia. }
  assert (points_to rsi_request (st_mem s1) (slot 1) r) as Hr1.
  { eapply points_to_ext; [|exact Hr]. intros q Hq. apply Hsame.
    change (size_of rsi_request) with 32 in Hq. unfold slot in *. lia. }
  assert (request_payload (st_mem s1) r sl) as Hpay1.
  { eapply request_payload_ext; [|exact Hpay]. intros q Hq. apply Hsame. lia. }
  pose proof (zero_local_points_to A (st_mem s) 2 a0 Ha0 Hal) as Hz.
  destruct (decoder_decodes _ _ _ _ Hdec _ _ _ _ _ _ s1 Hr1 Hop Hpay1 Hz Hv) as (m' & Hrun & Hst).
  eapply wp_run; [exact Hrun|]. apply wp_bind, wp_assert_eq; [done|].
  eapply (wp_deref A _ (view v)).
  { destruct Hz as (? & ? & _). by split_and!; [| |apply Hst]. }
  apply Hk. apply Hwf in Hv. eapply Forall_impl; [by apply Hfields|]. intros f Hb.
  eapply field_bytes_eq; [exact Hpay1|exact Hb|].
  eapply borrowed_readable; [exact Hpay1|exact Hb|]. intros q Hq. apply Hst. lia.
Qed.

(** One frame of a test: it is built, parsed and decoded, and the rest of the test runs on
    the view of a payload that means what was written. *)
Lemma passes_round {V A} `{Repr A} write op (parse_payload : slice -> result LcsError V) means
    wf (view : V -> A) fields decoder a0 w cap id txn (k : A -> M unit) s :
  builds write op parse_payload means ->
  decoder_correct decoder op parse_payload view -> returns parse_payload wf ->
  (forall sl v, wf sl v -> Forall (borrowed sl) (fields v)) ->
  w = write cap id txn -> is_ok w = true -> is_u64 id -> is_u64 txn -> (cap <= 4096)%nat ->
  repr_of (decode_struct (repr_layout A) (zeroed A)) = Some a0 ->
  struct_align (repr_layout A) ∈ [1; 2; 4; 8] ->
  (forall v s2, means v ->
     Forall (λ f, field_bytes (lpf f).1 (lpf f).2 s2 = ORet (field f) s2) (fields v) ->
     passes (k (view v)) s2) ->
  passes (len ← build w; _ ← parse len; a ← decode A decoder; k a) s.
Proof.
  intros Hb Hdec Hwf Hfields -> Hok Hid Htxn Hcap Ha0 Hal Hk.
  eapply passes_build_parse; [exact Hb|done..|]. intros r sl v s1 Hr _ _ Hop Hpay Hend Hv Hmeans.
  eapply (passes_decode decoder op parse_payload wf view fields); try done; [apply Hfields|].
  intros s2 Hf. by apply Hk.
Qed.

(** *** Assertions on fields *)

Lemma test_frame_ok i w :
  Forall (λ w, is_ok w = true) test_frames -> test_frames !! i = Some w -> is_ok w = true.
Proof. rewrite Forall_lookup. intros H. apply H. Qed.

Lemma passes_then_field f s bs (k : M unit) :
  field_bytes (lpf f).1 (lpf f).2 s = ORet (field f) s -> field f = bs -> passes k s ->
  passes (_ ← assert_field (lpf f).1 (lpf f).2 bs; k) s.
Proof.
  intros Hf <- Hk. apply wp_bind, wp_bind. eapply wp_run; [exact Hf|]. by apply wp_assert_eq.
Qed.

Lemma passes_field f s bs :
  field_bytes (lpf f).1 (lpf f).2 s = ORet (field f) s -> field f = bs ->
  passes (assert_field (lpf f).1 (lpf f).2 bs) s.
Proof.
  intros Hf <-. apply wp_bind. eapply wp_run; [exact Hf|]. by apply wp_assert_eq.
Qed.

Lemma lpf_empty f : field f = [] -> (lpf f).2 = 0.
Proof. unfold field, lpf. simpl. by intros ->. Qed.

Ltac solve_assert :=
  first [ assumption | done | by apply lpf_empty
        | match goal with H : _ = _ |- _ => by (simpl; rewrite H) end ].

(** Splits what a round says of its payload, then goes through the assertions. *)
Ltac check_asserts :=
  intros; repeat match goal with
  | H : Forall _ (_ :: _) |- _ => rewrite Forall_cons in H
  | H : _ /\ _ |- _ => destruct H
  end;
  repeat first
    [ apply passes_then_assert; [solve_assert|]
    | apply passes_assert_eq; solve_assert
    | match goal with Hf : field_bytes _ _ _ = _ |- _ =>
        first [ apply (passes_field _ _ _ Hf); solve_assert
              | apply (passes_then_field _ _ _ _ Hf); [solve_assert|] ] end ].

Ltac instantiate_builds H :=
  repeat lazymatch type of H with
  | builds _ _ _ _ => fail
  | _ => specialize (H ltac:(done))
  end.

Lemma write_key_fields sl v : write_key_wf sl v -> Forall (borrowed sl) (option_list (wk_sd v)).
Proof.
  intros (_ & _ & Hsd & _). destruct (wk_sd v); [by apply Forall_singleton|apply Forall_nil_2].
Qed.

(** One frame, the [i]-th of [test_frames]; [round_trip] goes through its assertions. *)
Ltac start_round builds decoder wf fields ok i :=
  let Hb := fresh "Hb" in
  pose proof builds as Hb; instantiate_builds Hb;
  eapply (passes_round _ _ _ _ _ _ fields _ _ _ _ _ _ _ _ Hb decoder wf);
    [ let sl := fresh "sl" in let v := fresh "v" in let Hv := fresh "Hv" in
      intros sl v Hv; first [ apply Forall_nil_2 | by apply write_key_fields | solve_fields ]
    | reflexivity | by eapply (test_frame_ok i _ ok) | done | done | lia | reflexivity
    | by apply (bool_decide_unpack _) | ]; clear Hb.

Ltac round_trip builds decoder wf fields ok i :=
  start_round builds decoder wf fields ok i; check_asserts.

(** *** The tests *)

Section with_frames.
Context (Hok : Forall (λ w, is_ok w = true) test_frames).

Lemma lookup_roundtrips_passes s : passes lookup_roundtrips s.
Proof.
  apply passes_locals.
  pose proof (write_lookup_builds (guid_of_byte Byte.xab) (bytes_of "Software")) as Hb.
  instantiate_builds Hb.
  eapply (passes_build_parse _ _ _ _ 128 7 3 _ _ Hb);
    [done|done|lia|by eapply (test_frame_ok 0 _ Hok)|].
  intros r sl v s1 Hr Hid Htxn Hop Hpay Hend Hv Hmeans.
  do 2 (apply passes_then_assert; [done|]).
  eapply (passes_decode _ _ _ _ _ (λ v, [lk_child_name v]) _ _ _ _ _ _ lookup_decoder
    parse_lookup_wf); [intros ?; solve_fields|reflexivity|by apply (bool_decide_unpack _)|done..|].
  check_asserts.
Qed.

Lemma set_value_roundtrips_passes s : passes set_value_roundtrips s.
Proof.
  apply passes_locals.
  round_trip (write_set_value_builds (guid_of_byte Byte.x01) (bytes_of "Color")
    (bytes_of "base") 3 dead_beef 42 100) set_value_decoder parse_set_value_wf
    (λ v, [sv_value_name v; sv_layer_name v; sv_data v]) Hok 1%nat.
Qed.

Lemma begin_transaction_roundtrips_passes s : passes begin_transaction_roundtrips s.
Proof.
  pose proof read_only_code. pose proof read_write_code. apply passes_locals.
  round_trip (write_begin_transaction_builds 99 RsiTransactionMode_ReadOnly)
    begin_transaction_decoder parse_begin_transaction_wf
    (λ v : begin_transaction_payload RsiTransactionMode, @nil RsiLengthPrefixedField) Hok 5%nat.
  round_trip (write_begin_transaction_builds 100 RsiTransactionMode_ReadWrite)
    begin_transaction_decoder parse_begin_transaction_wf
    (λ v : begin_transaction_payload RsiTransactionMode, @nil RsiLengthPrefixedField) Hok 6%nat.
Qed.

Lemma write_key_options_roundtrip_passes s : passes write_key_options_roundtrip s.
Proof.
  pose proof field_bits_apart as Hbits. apply passes_locals.
  start_round (write_write_key_builds (guid_of_byte Byte.x02)
    (Some [Byte.x11; Byte.x22; Byte.x33]) None) write_key_decoder parse_write_key_wf
    (λ v, option_list (wk_sd v)) Hok 2%nat.
  intros v s2 (_ & (f & Hsd & Hf)%fmap_Some & Ht & Hm) Hfs.
  cbv beta in Hfs. rewrite Hsd in Hfs. apply Forall_inv in Hfs.
  unfold write_key_view. rewrite Hsd, Ht, Hm, Z.lor_0_r.
  symmetry in Hf. check_asserts.
  start_round (write_write_key_builds (guid_of_byte Byte.x03) None (Some 0x1122334455667788))
    write_key_decoder parse_write_key_wf (λ v, option_list (wk_sd v)) Hok 3%nat.
  intros v3 s3 (_ & Hsd3%fmap_None & Ht3 & Hm3) _. unfold write_key_view. rewrite Hsd3, Ht3, Hm3.
  check_asserts.
  start_round (write_write_key_builds (guid_of_byte Byte.x04) (Some [Byte.x44; Byte.x55])
    (Some 0x8877665544332211)) write_key_decoder parse_write_key_wf
    (λ v, option_list (wk_sd v)) Hok 4%nat.
  intros v4 s4 (_ & (f4 & Hsd4 & Hf4)%fmap_Some & Ht4 & Hm4) Hfs4.
  cbv beta in Hfs4. rewrite Hsd4 in Hfs4. apply Forall_inv in Hfs4.
  unfold write_key_view. rewrite Hsd4, Ht4, Hm4.
  symmetry in Hf4. check_asserts.
Qed.

Lemma entry_request_decoders_roundtrip_passes s : passes entry_request_decoders_roundtrip s.
Proof.
  apply passes_locals.
  round_trip (write_create_entry_builds (guid_of_byte Byte.x10) (bytes_of "Child")
    (bytes_of "base") (guid_of_byte Byte.x11) 55) create_entry_decoder parse_create_entry_wf
    (λ v, [ce_child_name v; ce_layer_name v]) Hok 7%nat.
  round_trip (write_hide_entry_builds (guid_of_byte Byte.x20) (bytes_of "Hidden")
    (bytes_of "mask") 56) hide_entry_decoder parse_hide_entry_wf
    (λ v, [hi_child_name v; hi_layer_name v]) Hok 8%nat.
  round_trip (write_delete_entry_builds (guid_of_byte Byte.x30) (bytes_of "Dead")
    (bytes_of "overlay")) delete_entry_decoder parse_delete_entry_wf
    (λ v, [de_child_name v; de_layer_name v]) Hok 9%nat.
  round_trip (write_enum_children_builds (guid_of_byte Byte.x40)) enum_children_decoder
    parse_enum_children_wf (λ v : enum_children_payload, @nil RsiLengthPrefixedField) Hok 10%nat.
Qed.

Lemma key_request_decoders_roundtrip_passes s : passes key_request_decoders_roundtrip s.
Proof.
  apply passes_locals.
  round_trip (write_create_key_builds (guid_of_byte Byte.x50) (bytes_of "Key")
    (guid_of_byte Byte.x51) [Byte.xaa; Byte.xbb] true false) create_key_decoder
    parse_create_key_wf (λ v, [ck_name v; ck_sd v]) Hok 11%nat.
  round_trip (write_create_key_builds (guid_of_byte Byte.x52) (bytes_of "Link")
    (guid_of_byte Byte.x53) [Byte.xcc] false true) create_key_decoder
    parse_create_key_wf (λ v, [ck_name v; ck_sd v]) Hok 12%nat.
  round_trip (write_read_key_builds (guid_of_byte Byte.x60)) read_key_decoder
    parse_read_key_wf (λ v : key_guid_payload, @nil RsiLengthPrefixedField) Hok 13%nat.
  round_trip (write_drop_key_builds (guid_of_byte Byte.x61)) drop_key_decoder
    parse_drop_key_wf (λ v : key_guid_payload, @nil RsiLengthPrefixedField) Hok 14%nat.
Qed.

Lemma value_request_decoders_roundtrip_passes s : passes value_request_decoders_roundtrip s.
Proof.
  apply passes_locals.
  round_trip (write_query_values_builds (guid_of_byte Byte.x70) (bytes_of "Value") false)
    query_values_decoder parse_query_values_wf (λ v, [qv_value_name v]) Hok 15%nat.
  round_trip (write_query_values_builds (guid_of_byte Byte.x71) [] true)
    query_values_decoder parse_query_values_wf (λ v, [qv_value_name v]) Hok 16%nat.
  round_trip (write_delete_value_entry_builds (guid_of_byte Byte.x80) (bytes_of "Value")
    (bytes_of "base")) delete_value_entry_decoder parse_delete_value_entry_wf
    (λ v, [dv_value_name v; dv_layer_name v]) Hok 17%nat.
  round_trip (write_set_blanket_tombstone_builds (guid_of_byte Byte.x90) (bytes_of "mask")
    true 57) set_blanket_tombstone_decoder parse_set_blanket_tombstone_wf
    (λ v, [bt_layer_name v]) Hok 18%nat.
  round_trip (write_set_blanket_tombstone_builds (guid_of_byte Byte.x91) (bytes_of "mask")
    false 58) set_blanket_tombstone_decoder parse_set_blanket_tombstone_wf
    (λ v, [bt_layer_name v]) Hok 19%nat.
Qed.

Lemma transaction_and_name_request_decoders_roundtrip_passes s :
  passes transaction_and_name_request_decoders_roundtrip s.
Proof.
  apply passes_locals.
  round_trip (write_commit_transaction_builds 0x1234) commit_transaction_decoder
    parse_commit_transaction_wf (λ v : transaction_payload, @nil RsiLengthPrefixedField)
    Hok 20%nat.
  round_trip (write_abort_transaction_builds 0x5678) abort_transaction_decoder
    parse_abort_transaction_wf (λ v : transaction_payload, @nil RsiLengthPrefixedField)
    Hok 21%nat.
  round_trip (write_delete_layer_builds (bytes_of "overlay")) delete_layer_decoder
    parse_delete_layer_wf (λ v, [dl_layer_name v]) Hok 22%nat.
  round_trip (write_flush_builds (bytes_of "Machine")) flush_decoder
    parse_flush_wf (λ v, [fl_hive_name v]) Hok 23%nat.
Qed.

Lemma short_frame_is_ebadmsg_passes s : passes short_frame_is_ebadmsg s.
Proof.
  apply passes_locals, passes_fails_with.
  pose proof (put_locals_has [zeros 4; zeroed rsi_request] (st_mem s)
    ltac:(repeat (apply Forall_cons_2; [simpl; lia|]); apply Forall_nil_2)) as Hm.
  assert (frame_at (put_locals 0 [zeros 4; zeroed rsi_request] (st_mem s)) (slot 0) 4 (zeros 4))
    as Hf by (split; try done; by apply (Hm 0%nat)).
  pose proof (zeroed_points_to rsi_request _ 1 (mk_rsi_request 0 0 0 0 0) (Hm 1%nat _ eq_refl)
    eq_refl ltac:(by apply (bool_decide_unpack _))) as Hout.
  pose proof (parse_request_outcome _ _ _ _ _ (with_mem _ s) Hf Hout) as Ho.
  destruct (parse_rsi_request_header _) as [h|e] eqn:Hh.
  - apply parse_header_wf in Hh as [Hmin _]. rewrite request_header_size in Hmin.
    simpl in Hmin. lia.
  - eapply wp_run; [exact Ho|]. done.
Qed.

Lemma mismatched_decoder_is_einval_passes s : passes mismatched_decoder_is_einval s.
Proof.
  apply passes_locals.
  pose proof (write_lookup_builds (guid_of_byte Byte.xab) (bytes_of "Software")) as Hb.
  instantiate_builds Hb.
  eapply (passes_build_parse _ _ _ _ 128 7 3 _ _ Hb);
    [done|done|lia|by eapply (test_frame_ok 0 _ Hok)|].
  intros r sl v s1 Hr _ _ Hop _ _ _ _. apply wp_bind, wp_modify, passes_fails_with.
  eapply wp_run; [eapply (decoder_wrong_op _ _ _ _ read_key_decoder)|done].
  - eapply points_to_ext; [|exact Hr]. intros q Hq. apply lookup_store_ne.
    change (size_of rsi_request) with 32 in Hq. unfold slot in *. lia.
  - rewrite Hop. by apply (request_ops_lookup 0 6).
Qed.

Lemma request_tests_run s : Forall (λ t, passes t s) request_tests.
Proof.
  repeat (apply Forall_cons_2); [..|apply Forall_nil_2].
  - apply lookup_roundtrips_passes.
  - apply set_value_roundtrips_passes.
  - apply write_key_options_roundtrip_passes.
  - apply begin_transaction_roundtrips_passes.
  - apply entry_request_decoders_roundtrip_passes.
  - apply key_request_decoders_roundtrip_passes.
  - apply value_request_decoders_roundtrip_passes.
  - apply transaction_and_name_request_decoders_roundtrip_passes.
  - apply short_frame_is_ebadmsg_passes.
  - apply mismatched_decoder_is_einval_passes.
Qed.
End with_frames.

(** C21: the tests of [request.rs] pass, from any state, on every platform that keeps its
    laws, with any lcs-core writers that build the frames the tests unwrap and whose frames
    parse back: what is written by the kernel's side is what the decoders hand out, byte for
    byte, for all eighteen kinds of request. *)
Theorem request_tests_pass s :
  Forall (λ w, is_ok w = true) test_frames -> Forall (λ t, passes t s) request_tests.
Proof. intros Hok. by apply request_tests_run. Qed.

End request_tests.
