(* ===== verification/UnitTests.v ===== *)
(** * The unit tests of [source.rs] and [response.rs]

    The tests of [src/src/source.rs] (lines 124-180) and [src/src/response.rs] (lines
    689-1514), translated one by one under their own names, and the theorem that they pass
    on every platform that keeps its laws and has memory to give. The tests that run a
    responder into a pipe and hand the bytes to lcs-core's response parsers are in
    [ResponseTests.v]. The constants the tests import from lcs-core and from the uapi crate
    are the same ones. *)

From Stdlib Require Import String.
From S2P Require Import Prelude Memory Platform Effects Source Testing Request RequestSpec.
From S2P Require Import Guids GuidsSpec Frame FrameSpec Response ResponseSpec.
#[local] Open Scope Z_scope.

(** The fields of a struct literal have their types. *)
Ltac solve_literal :=
  split; [|reflexivity]; cbn [repr_layout rsi_request_repr rsi_path_entry_repr
    rsi_key_metadata_repr rsi_child_entry_repr rsi_value_entry_repr rsi_blanket_entry_repr];
  repeat (apply Forall2_cons_2; [first [assumption | done | refine (wrap_range 16 _ _); done]|]);
  apply Forall2_nil_2.

Section unit_tests.
Context `{P : Platform}.

(** ** Tests of [source.rs] *)

(** [size_of], as the length of the bytes of any one value. *)
Definition struct_sizes_pinned : M unit :=
  _ ← assert_eq (length (register_args_bytes (mk_register_args 0 0 0))) 24%nat;
  assert_eq (length (hive_entry_bytes (mk_hive_entry 0 0 0 nil_guid 0 0 nil_guid))) 56%nat.

Definition marshal_hive_packs_fields : M unit :=
  _ ← locals [bytes_of "Machine"];
  let name := slot 0 in
  let root := guid_of_byte Byte.x11 in
  let scope := guid_of_byte Byte.x22 in
  let e := marshal_hive (mk_rsi_hive name 7 RSI_HIVE_PRIVATE root scope) in
  _ ← assert_eq (he_name_len e) 7;
  _ ← assert_eq (he_name_ptr e) name;
  _ ← assert_eq (he_flags e) RSI_HIVE_PRIVATE;
  _ ← assert_eq (he_root_guid e) root;
  _ ← assert_eq (he_scope_guid e) scope;
  _ ← assert_eq (he_pad0 e) 0;
  assert_eq (he_pad1 e) 0.

Definition marshal_hive_global_is_zero_scope : M unit :=
  _ ← locals [bytes_of "Users"];
  let name := slot 0 in
  let e := marshal_hive (mk_rsi_hive name 5 0 (guid_of_byte Byte.x01) nil_guid) in
  _ ← assert_eq (he_flags e) 0;
  assert_eq (he_scope_guid e) nil_guid.

Definition register_rejects_zero_hives : M unit := fails_with (rsi_register 0 0 0) EINVAL.

(** ** Tests of [response.rs]

    The request is in slot 0 of each test. *)

Definition fake_request (op_code request_id : Z) : list byte :=
  literal rsi_request [VInt request_id; VInt 0; VInt 0; VInt 0; VInt (wrap 16 op_code)].

Definition req : Z := slot 0.

(** [from_le_bytes(f[a..b])]. *)
Definition le_at (f : list byte) (a b : nat) : Z := of_le (take (b - a) (drop a f)).

Definition status_frame_layout : M unit :=
  let resp_op := wrap 16 (Z.lor RSI_LOOKUP RSI_RESPONSE_BIT) in
  f ← build_status_frame 0x1122334455667788 resp_op RSI_OK;
  _ ← assert_eq (le_at f 0 4) 18;
  _ ← assert_eq (le_at f 4 12) 0x1122334455667788;
  _ ← assert_eq (le_at f 12 14) resp_op;
  assert_eq (le_at f 14 18) RSI_OK.

Definition empty_lookup_response_frame_has_expected_len : M unit :=
  _ ← locals [fake_request RSI_LOOKUP 1];
  w ← new_writer;
  w ← unwrap_m (encode_path_entry_block w 0 0);
  w ← unwrap_m (encode_metadata_block w 0 0);
  r ← deref rsi_request req;
  frame ← unwrap_m (finish_response r w);
  assert_eq (length frame) 26%nat.

(** [assert_eq!(m, Err(errno))]. *)
Definition assert_err {A} (m : M A) (errno : Z) : M unit := λ s,
  match m s with
  | ORet _ _ => OAbort
  | OErr e s' => assert_eq e errno s'
  | OUndef => OUndef
  | OAbort => OAbort
  end.

Definition sticky_oom_returns_enomem : M unit :=
  _ ← locals [fake_request RSI_LOOKUP 1];
  w ← new_writer;
  let w := mk_frame_writer (fw_buf w) true in
  r ← deref rsi_request req;
  assert_err (finish_response r w) ENOMEM.

Definition payload_response_rejects_wrong_request_op : M unit :=
  _ ← locals [fake_request RSI_LOOKUP 1; guid_of_byte Byte.x33];
  let parent := slot 1 in
  fails_with (rsi_respond_read_key (-1) req 0 0 parent 0 0 0 0 0) EINVAL.

Definition payload_response_rejects_null_array_with_count : M unit :=
  _ ← locals [fake_request RSI_LOOKUP 1];
  fails_with (rsi_respond_lookup (-1) req 0 1 0 0) EINVAL.

(** *** Path entries and metadata

    The literals that differ from test to test in a GUID only. *)

(** An entry of the layer in slot 1. *)
Definition entry_literal (layer_len target_type : Z) (g : guid) : list byte :=
  literal rsi_path_entry [VInt (slot 1); VInt layer_len; VInt target_type; VGuid g; VInt 1].

Definition bare_metadata (g : guid) : list byte :=
  literal rsi_key_metadata [VGuid g; VInt 0; VInt 0; VInt 0; VInt 0; VInt 0].

Definition lookup_response_rejects_missing_metadata : M unit :=
  _ ← locals [fake_request RSI_LOOKUP 1; bytes_of "base";
              entry_literal 4 RSI_PATH_TARGET_GUID (guid_of_byte Byte.x10)];
  let entries := slot 2 in
  fails_with (rsi_respond_lookup (-1) req entries 1 0 0) EINVAL.

Definition lookup_response_rejects_duplicate_metadata : M unit :=
  _ ← locals [fake_request RSI_LOOKUP 1; bytes_of "base";
              entry_literal 4 RSI_PATH_TARGET_GUID (guid_of_byte Byte.x10);
              bare_metadata (guid_of_byte Byte.x10) ++ bare_metadata (guid_of_byte Byte.x10)];
  let entries := slot 2 in
  let metadata := slot 3 in
  fails_with (rsi_respond_lookup (-1) req entries 1 metadata 2) EINVAL.

Definition lookup_response_rejects_unreferenced_metadata : M unit :=
  _ ← locals [fake_request RSI_LOOKUP 1; bytes_of "base";
              entry_literal 4 RSI_PATH_TARGET_GUID (guid_of_byte Byte.x10);
              bare_metadata (guid_of_byte Byte.x10) ++ bare_metadata (guid_of_byte Byte.x20)];
  let entries := slot 2 in
  let metadata := slot 3 in
  fails_with (rsi_respond_lookup (-1) req entries 1 metadata 2) EINVAL.

(** The child in slot 4 is named by slot 3 and has the entry in slot 2. *)
Definition child_literal (entries entry_count : Z) : list byte :=
  literal rsi_child_entry [VInt (slot 3); VInt 5; VInt entries; VInt entry_count].

Definition enum_children_response_rejects_missing_metadata : M unit :=
  _ ← locals [fake_request RSI_ENUM_CHILDREN 1; bytes_of "base";
              entry_literal 4 RSI_PATH_TARGET_GUID (guid_of_byte Byte.x30);
              bytes_of "Child"; child_literal (slot 2) 1];
  let children := slot 4 in
  fails_with (rsi_respond_enum_children (-1) req children 1 0 0) EINVAL.

Definition enum_children_response_rejects_duplicate_metadata : M unit :=
  _ ← locals [fake_request RSI_ENUM_CHILDREN 1; bytes_of "base";
              entry_literal 4 RSI_PATH_TARGET_GUID (guid_of_byte Byte.x30);
              bytes_of "Child"; child_literal (slot 2) 1;
              bare_metadata (guid_of_byte Byte.x30) ++ bare_metadata (guid_of_byte Byte.x30)];
  let children := slot 4 in
  let metadata := slot 5 in
  fails_with (rsi_respond_enum_children (-1) req children 1 metadata 2) EINVAL.

Definition enum_children_response_rejects_unreferenced_metadata : M unit :=
  _ ← locals [fake_request RSI_ENUM_CHILDREN 1; bytes_of "base";
              entry_literal 4 RSI_PATH_TARGET_GUID (guid_of_byte Byte.x30);
              bytes_of "Child"; child_literal (slot 2) 1;
              bare_metadata (guid_of_byte Byte.x30) ++ bare_metadata (guid_of_byte Byte.x40)];
  let children := slot 4 in
  let metadata := slot 5 in
  fails_with (rsi_respond_enum_children (-1) req children 1 metadata 2) EINVAL.

Definition enum_children_response_rejects_null_child_entries_with_count : M unit :=
  _ ← locals [fake_request RSI_ENUM_CHILDREN 1; []; []; bytes_of "Child"; child_literal 0 1];
  let children := slot 4 in
  fails_with (rsi_respond_enum_children (-1) req children 1 0 0) EINVAL.

Definition read_key_response_rejects_null_parent_guid : M unit :=
  _ ← locals [fake_request RSI_READ_KEY 1];
  fails_with (rsi_respond_read_key (-1) req 0 0 0 0 0 0 0 0) EINVAL.

Definition delete_layer_response_rejects_nil_orphan_guid : M unit :=
  _ ← locals [fake_request RSI_DELETE_LAYER 1; nil_guid];
  let guids := slot 1 in
  fails_with (rsi_respond_delete_layer (-1) req guids 1) EINVAL.

(** The vector's buffer is in slot 1. *)
Definition delete_layer_response_rejects_duplicate_orphan_guid : M unit :=
  _ ← locals [fake_request RSI_DELETE_LAYER 1;
              guid_of_byte Byte.x10 ++ guid_of_byte Byte.x10];
  let guids := slot 1 in
  fails_with (rsi_respond_delete_layer (-1) req guids 2) EINVAL.

Definition status_response_rejects_ok_for_payload_op : M unit :=
  _ ← locals [fake_request RSI_LOOKUP 1];
  fails_with (rsi_respond_status (-1) req RSI_OK) EINVAL.

Definition u32_max : Z := 2 ^ 32 - 1.

Definition status_response_rejects_unknown_status : M unit :=
  _ ← locals [fake_request RSI_FLUSH 1];
  fails_with (rsi_respond_status (-1) req u32_max) EINVAL.

Definition read_key_response_rejects_invalid_booleans : M unit :=
  _ ← locals [fake_request RSI_READ_KEY 1; guid_of_byte Byte.x33];
  let parent := slot 1 in
  fails_with (rsi_respond_read_key (-1) req 0 0 parent 0 0 2 0 0) EINVAL.

Definition lookup_response_rejects_invalid_target_type : M unit :=
  _ ← locals [fake_request RSI_LOOKUP 1; bytes_of "base";
              entry_literal 4 0xff (guid_of_byte Byte.x10)];
  let entries := slot 2 in
  fails_with (rsi_respond_lookup (-1) req entries 1 0 0) EINVAL.

Definition lookup_response_rejects_hidden_with_nonzero_guid : M unit :=
  _ ← locals [fake_request RSI_LOOKUP 1; bytes_of "mask";
              entry_literal 4 RSI_PATH_TARGET_HIDDEN (guid_of_byte Byte.x10)];
  let entries := slot 2 in
  fails_with (rsi_respond_lookup (-1) req entries 1 0 0) EINVAL.

(** ** They pass *)

Definition source_tests : list (M unit) :=
  [ struct_sizes_pinned; marshal_hive_packs_fields; marshal_hive_global_is_zero_scope; register_rejects_zero_hives ].

(** The tests in which nothing is sent. *)
Definition response_tests : list (M unit) :=
  [ status_frame_layout; empty_lookup_response_frame_has_expected_len;
    sticky_oom_returns_enomem; payload_response_rejects_wrong_request_op;
    payload_response_rejects_null_array_with_count;
    lookup_response_rejects_missing_metadata; lookup_response_rejects_duplicate_metadata;
    lookup_response_rejects_unreferenced_metadata;
    enum_children_response_rejects_missing_metadata;
    enum_children_response_rejects_duplicate_metadata;
    enum_children_response_rejects_unreferenced_metadata;
    enum_children_response_rejects_null_child_entries_with_count;
    read_key_response_rejects_null_parent_guid;
    delete_layer_response_rejects_nil_orphan_guid;
    delete_layer_response_rejects_duplicate_orphan_guid;
    status_response_rejects_ok_for_payload_op; status_response_rejects_unknown_status;
    read_key_response_rejects_invalid_booleans; lookup_response_rejects_invalid_target_type;
    lookup_response_rejects_hidden_with_nonzero_guid ].

(** *** Locals as arguments *)

Context `{!PlatformLaws P}.

Lemma fake_request_at m bss op id :
  has_locals m bss -> bss !! 0%nat = Some (fake_request op id) -> is_u64 id ->
  points_to rsi_request m req (mk_rsi_request id 0 0 0 (wrap 16 op)).
Proof.
  intros Hm Hi Hid. eapply (local_points_to rsi_request); [done|exact Hi| |].
  - solve_literal.
  - by apply (bool_decide_unpack _).
Qed.

(** A safe array, as a responder takes it. *)
Lemma array_block A `{Repr A} (safe : A -> Prop) m p xs :
  array_at A m p xs -> Forall safe xs ->
  safe_block A safe m p (Z.of_nat (length xs)) /\
  array_of A m p (Z.of_nat (length xs)) = Some xs.
Proof.
  intros Ha Hs. assert (array_of A m p (Z.of_nat (length xs)) = Some xs) as Ho.
  { unfold array_of. destruct xs as [|x xs]; [done|].
    pose proof (array_ptr _ _ _ _ Ha ltac:(done)).
    rewrite !(proj2 (Z.eqb_neq _ _)) by (simpl; lia). rewrite Nat2Z.id. apply Ha. }
  split; [|done]. split; [intros _; by exists xs|]. by rewrite Ho.
Qed.

Lemma no_array A `{Repr A} m : array_at A m 0 [].
Proof. by split. Qed.

Lemma local_field m bss i bs :
  has_locals m bss -> bss !! i = Some bs -> (i < 64)%nat -> (length bs <= 4096)%nat ->
  safe_field m (slot i) (Z.of_nat (length bs)) /\
  field_of m (slot i) (Z.of_nat (length bs)) = Some bs.
Proof.
  intros Hm Hi Hi64 Hl. pose proof (Hm _ _ Hi) as Hload. split.
  - intros _ _. rewrite Nat2Z.id. unfold slot. split_and!; [lia|lia|by eexists].
  - unfold field_of. destruct bs as [|b bs]; [done|].
    rewrite !(proj2 (Z.eqb_neq _ _)), Nat2Z.id by (unfold slot; simpl; lia). exact Hload.
Qed.

(** *** Refusals *)

(** With memory to give, a call whose arguments describe no reply is [EINVAL]. *)
Lemma wp_rejects fd r d (m : M Z) s :
  ~ may_refuse -> desc_guids d < 2 ^ 32 -> (forall b, ~ desc_reply d b) ->
  wp m s (λ res s', exists rc, res = Ok rc /\ responded fd r d s rc s') ->
  wp m s (λ res s', res = Ok (-1) /\ st_errno s' = EINVAL).
Proof.
  intros Hmem Hg Hno Hm. eapply wp_mono; [exact Hm|]. intros res s' (rc & -> & Hres).
  destruct Hres as [b s1 rc s' Hb _ _ _|b s1 Hb _ _|s1 _ _|s1 _ [|[Hbig|(b & Hb & _)]]];
    try (by destruct (Hno b)); [done|done|lia].
Qed.

Lemma wp_lookup_rejects fd p mp es ms s :
  ~ may_refuse ->
  points_to rsi_request (st_mem s) req (mk_rsi_request 1 0 0 0 (wrap 16 RSI_LOOKUP)) ->
  array_at rsi_path_entry (st_mem s) p es -> Forall (safe_entry (st_mem s)) es ->
  array_at rsi_key_metadata (st_mem s) mp ms -> Forall (safe_metadata (st_mem s)) ms ->
  (length es <= 4096)%nat -> (length ms <= 4096)%nat ->
  ~ (Forall (λ e, valid_target e = true) es /\ valid_guid_set (km_guid <$> ms) /\
     forall g, g ∈ km_guid <$> ms <-> g ∈ targets es) ->
  wp (rsi_respond_lookup fd req p (Z.of_nat (length es)) mp (Z.of_nat (length ms))) s
    (λ res s', res = Ok (-1) /\ st_errno s' = EINVAL).
Proof.
  intros Hmem Hr He Hes Hm Hms Hle Hlm Hno.
  destruct (array_block _ _ _ _ _ He Hes) as [Hbe Hoe].
  destruct (array_block _ _ _ _ _ Hm Hms) as [Hbm Hom].
  eapply wp_rejects; [done| | |by apply lookup_responds].
  - simpl. unfold lookup_guids. rewrite Hoe. simpl. pose proof (length_targets es). lia.
  - intros b [Hok _]. apply Hno. unfold lookup_ok, metadata_of in Hok. rewrite Hoe, Hom in Hok.
    simpl in Hok. tauto.
Qed.

Lemma wp_enum_rejects fd p mp c es ms s :
  ~ may_refuse ->
  points_to rsi_request (st_mem s) req (mk_rsi_request 1 0 0 0 (wrap 16 RSI_ENUM_CHILDREN)) ->
  array_at rsi_child_entry (st_mem s) p [c] ->
  safe_field (st_mem s) (ch_child_name c) (ch_child_name_len c) ->
  ch_entry_count c = Z.of_nat (length es) ->
  array_at rsi_path_entry (st_mem s) (ch_entries c) es -> Forall (safe_entry (st_mem s)) es ->
  array_at rsi_key_metadata (st_mem s) mp ms -> Forall (safe_metadata (st_mem s)) ms ->
  (length es <= 4096)%nat -> (length ms <= 4096)%nat ->
  ~ (valid_guid_set (km_guid <$> ms) /\ forall g, g ∈ km_guid <$> ms <-> g ∈ targets es) ->
  wp (rsi_respond_enum_children fd req p 1 mp (Z.of_nat (length ms))) s
    (λ res s', res = Ok (-1) /\ st_errno s' = EINVAL).
Proof.
  intros Hmem Hr Hc Hname Hcount He Hes Hm Hms Hle Hlm Hno.
  destruct (array_block _ _ _ _ _ He Hes) as [Hbe Hoe]. rewrite <- Hcount in Hbe, Hoe.
  destruct (array_block _ _ _ _ _ Hm Hms) as [Hbm Hom].
  destruct (array_block _ (safe_child (st_mem s)) _ _ _ Hc) as [Hbc Hoc].
  { apply Forall_singleton. by split. }
  change (Z.of_nat (length [c])) with 1 in Hbc, Hoc.
  assert (all_entries (st_mem s) [c] = es) as Hall.
  { rewrite all_entries_cons. unfold child_entries. rewrite Hoe. simpl. by rewrite app_nil_r. }
  eapply wp_rejects; [done| | |by apply enum_children_responds].
  - simpl. unfold enum_guids. rewrite Hoc. simpl. rewrite Hall. pose proof (length_targets es). lia.
  - intros b [Hok _]. apply Hno. unfold enum_ok, metadata_of in Hok. rewrite Hoc, Hom in Hok.
    simpl in Hok. rewrite Hall in Hok. tauto.
Qed.

(** *** The tests *)

Ltac solve_length :=
  unfold fake_request, entry_literal, bare_metadata, child_literal;
  rewrite ?length_app, ?length_literal by done; by apply (bool_decide_unpack _).

Lemma entry_literal_of layer_len t g :
  is_u32 layer_len -> is_u8 t -> guid_wf g ->
  literal_of rsi_path_entry [VInt (slot 1); VInt layer_len; VInt t; VGuid g; VInt 1]
    (mk_rsi_path_entry (slot 1) layer_len t g 1).
Proof. intros. solve_literal. Qed.

Lemma bare_metadata_of g :
  guid_wf g ->
  literal_of rsi_key_metadata [VGuid g; VInt 0; VInt 0; VInt 0; VInt 0; VInt 0]
    (mk_rsi_key_metadata g 0 0 0 0 0).
Proof. intros. solve_literal. Qed.

Definition test_entry (t : Z) (g : guid) : rsi_path_entry := mk_rsi_path_entry (slot 1) 4 t g 1.
Definition test_metadata (g : guid) : rsi_key_metadata := mk_rsi_key_metadata g 0 0 0 0 0.

Lemma local_entry m bss layer t g :
  has_locals m bss -> bss !! 1%nat = Some layer -> length layer = 4%nat ->
  bss !! 2%nat = Some (entry_literal 4 t g) -> is_u8 t -> guid_wf g ->
  array_at rsi_path_entry m (slot 2) [test_entry t g] /\
  Forall (safe_entry m) [test_entry t g].
Proof.
  intros Hm Hl Hlen Hi Ht Hg. split.
  - eapply (local_array_at rsi_path_entry _ _ _ [_]);
      [done|rewrite Hi; cbn [fmap list_fmap concat]; rewrite app_nil_r; reflexivity
      | |by apply (bool_decide_unpack _)].
    apply Forall2_cons_2; [by apply entry_literal_of|apply Forall2_nil_2].
  - apply Forall_singleton. unfold safe_entry. simpl.
    change 4 with (Z.of_nat 4). rewrite <- Hlen. eapply local_field; [done|exact Hl|lia|lia].
Qed.

Lemma local_metadata m bss i g1 g2 :
  has_locals m bss -> bss !! i = Some (bare_metadata g1 ++ bare_metadata g2) ->
  guid_wf g1 -> guid_wf g2 ->
  array_at rsi_key_metadata m (slot i) [test_metadata g1; test_metadata g2] /\
  Forall (safe_metadata m) [test_metadata g1; test_metadata g2].
Proof.
  intros Hm Hi H1 H2. split.
  - eapply (local_array_at rsi_key_metadata _ _ _ [_; _]);
      [done|rewrite Hi; cbn [fmap list_fmap concat]; rewrite app_nil_r; reflexivity
      | |by apply (bool_decide_unpack _)].
    repeat (apply Forall2_cons_2; [by apply bare_metadata_of|]). apply Forall2_nil_2.
  - repeat (apply Forall_cons_2; [by intros []|]). apply Forall_nil_2.
Qed.

(** The sets of GUIDs of these literals, computed. *)
Lemma targets_test_entry g : targets [test_entry RSI_PATH_TARGET_GUID g] = [g].
Proof. unfold targets, is_guid_target. rewrite filter_cons_True; [done|apply Z.eqb_refl]. Qed.

Lemma mismatched_sets g1 g2 t :
  g1 = g2 \/ g2 <> t ->
  ~ (valid_guid_set (km_guid <$> [test_metadata g1; test_metadata g2]) /\
     forall g, g ∈ km_guid <$> [test_metadata g1; test_metadata g2] <->
               g ∈ targets [test_entry RSI_PATH_TARGET_GUID t]).
Proof.
  rewrite targets_test_entry. csimpl. intros [->|Hne] [[Hnd _] Hiff].
  - apply NoDup_cons in Hnd as [Hnd _]. apply Hnd. left.
  - apply Hne, list_elem_of_singleton, Hiff. right. left.
Qed.

Lemma missing_metadata t :
  ~ (valid_guid_set (km_guid <$> []) /\
     forall g, g ∈ km_guid <$> [] <-> g ∈ targets [test_entry RSI_PATH_TARGET_GUID t]).
Proof.
  rewrite targets_test_entry. intros [_ Hiff]. apply (not_elem_of_nil t), Hiff. left.
Qed.

Lemma is_u8_target : is_u8 RSI_PATH_TARGET_GUID /\ is_u8 RSI_PATH_TARGET_HIDDEN.
Proof. rewrite path_target_guid, path_target_hidden. unfold is_u8. lia. Qed.

(** What a test passes as metadata. *)
Definition metadata_local (bss : list (list byte)) (mp : Z) (ms : list rsi_key_metadata) : Prop :=
  forall m, has_locals m bss ->
    array_at rsi_key_metadata m mp ms /\ Forall (safe_metadata m) ms.

Lemma no_metadata bss : metadata_local bss 0 [].
Proof. intros m _. split; [apply no_array|apply Forall_nil_2]. Qed.

Lemma two_metadata bss i g1 g2 :
  bss !! i = Some (bare_metadata g1 ++ bare_metadata g2) -> guid_wf g1 -> guid_wf g2 ->
  metadata_local bss (slot i) [test_metadata g1; test_metadata g2].
Proof. intros Hi H1 H2 m Hm. by apply (local_metadata _ bss). Qed.

(** A LOOKUP reply of one entry and up to two metadata structs that is to be refused. *)
Lemma lookup_test layer t g rest mp ms s :
  let bss := fake_request RSI_LOOKUP 1 :: layer :: entry_literal 4 t g :: rest in
  ~ may_refuse -> Forall (λ bs, (length bs <= 4096)%nat) bss -> (length ms <= 2)%nat ->
  length layer = 4%nat -> is_u8 t -> guid_wf g -> metadata_local bss mp ms ->
  ~ (Forall (λ e, valid_target e = true) [test_entry t g] /\ valid_guid_set (km_guid <$> ms) /\
     forall g', g' ∈ km_guid <$> ms <-> g' ∈ targets [test_entry t g]) ->
  passes (_ ← locals bss;
          fails_with (rsi_respond_lookup (-1) req (slot 2) 1 mp (Z.of_nat (length ms))) EINVAL) s.
Proof.
  intros bss Hmem Hlens Hlm Hlen Ht Hg Hmd Hno. apply passes_locals, passes_fails_with.
  pose proof (put_locals_has bss (st_mem s) Hlens) as Hm.
  destruct (Hmd _ Hm) as [Hma Hms].
  destruct (local_entry _ _ layer t g Hm) as [He Hes]; [done..|].
  refine (wp_lookup_rejects (-1) _ _ _ _ (with_mem (put_locals 0 bss (st_mem s)) s)
    Hmem _ He Hes Hma Hms _ _ Hno); [by apply (fake_request_at _ _ _ _ Hm)|simpl; lia|lia].
Qed.

(** The same for ENUM_CHILDREN, with one child of one entry. *)
Lemma enum_test layer t g rest mp ms s :
  let bss := fake_request RSI_ENUM_CHILDREN 1 :: layer :: entry_literal 4 t g ::
             bytes_of "Child" :: child_literal (slot 2) 1 :: rest in
  ~ may_refuse -> Forall (λ bs, (length bs <= 4096)%nat) bss -> (length ms <= 2)%nat ->
  length layer = 4%nat -> is_u8 t -> guid_wf g -> metadata_local bss mp ms ->
  ~ (valid_guid_set (km_guid <$> ms) /\
     forall g', g' ∈ km_guid <$> ms <-> g' ∈ targets [test_entry t g]) ->
  passes (_ ← locals bss;
          fails_with (rsi_respond_enum_children (-1) req (slot 4) 1 mp
                        (Z.of_nat (length ms))) EINVAL) s.
Proof.
  intros bss Hmem Hlens Hlm Hlen Ht Hg Hmd Hno. apply passes_locals, passes_fails_with.
  pose proof (put_locals_has bss (st_mem s) Hlens) as Hm.
  destruct (Hmd _ Hm) as [Hma Hms].
  destruct (local_entry _ _ layer t g Hm) as [He Hes]; [done..|].
  assert (array_at rsi_child_entry (put_locals 0 bss (st_mem s)) (slot 4)
    [mk_rsi_child_entry (slot 3) 5 (slot 2) 1]) as Hc.
  { eapply (local_array_at rsi_child_entry _ bss _ 
      [[VInt (slot 3); VInt 5; VInt (slot 2); VInt 1]]);
      [exact Hm|cbn [fmap list_fmap concat]; by rewrite app_nil_r|
      |by apply (bool_decide_unpack _)].
    apply Forall2_cons_2; [solve_literal|apply Forall2_nil_2]. }
  refine (wp_enum_rejects (-1) _ _ _ _ _ (with_mem (put_locals 0 bss (st_mem s)) s)
    Hmem _ Hc _ _ He Hes Hma Hms _ _ Hno);
    [by apply (fake_request_at _ _ _ _ Hm)
    |apply (local_field _ bss 3 (bytes_of "Child")); [done|done|lia|simpl; lia]
    |done|simpl; lia|lia].
Qed.

Ltac solve_lengths :=
  repeat (apply Forall_cons_2; [solve_length|]); apply Forall_nil_2.

(** The six refusals of a reply whose metadata is not that of its one entry. *)
Lemma metadata_tests_pass s :
  ~ may_refuse -> Forall (λ t, passes t s)
    [ lookup_response_rejects_missing_metadata; lookup_response_rejects_duplicate_metadata;
      lookup_response_rejects_unreferenced_metadata;
      enum_children_response_rejects_missing_metadata;
      enum_children_response_rejects_duplicate_metadata;
      enum_children_response_rejects_unreferenced_metadata ].
Proof.
  intros Hmem. destruct is_u8_target as [Ht _].
  repeat (apply Forall_cons_2); [..|apply Forall_nil_2].
  - eapply (lookup_test _ _ _ _ 0 []); 
      [done|solve_lengths|simpl; lia|done|done|done|apply no_metadata|].
    intros [_ H]. by apply missing_metadata in H.
  - eapply (lookup_test _ _ _ _ (slot 3) [_; _]); 
      [done|solve_lengths|simpl; lia|done|done|done|by apply two_metadata|].
    intros [_ H]. apply mismatched_sets in H; [done|by left].
  - eapply (lookup_test _ _ _ _ (slot 3) [_; _]); 
      [done|solve_lengths|simpl; lia|done|done|done|by apply two_metadata|].
    intros [_ H]. apply mismatched_sets in H; [done|by right].
  - eapply (enum_test _ _ _ _ 0 []); 
      [done|solve_lengths|simpl; lia|done|done|done|apply no_metadata|].
    apply missing_metadata.
  - eapply (enum_test _ _ _ _ (slot 5) [_; _]); 
      [done|solve_lengths|simpl; lia|done|done|done|by apply two_metadata|].
    apply mismatched_sets. by left.
  - eapply (enum_test _ _ _ _ (slot 5) [_; _]); 
      [done|solve_lengths|simpl; lia|done|done|done|by apply two_metadata|].
    apply mismatched_sets. by right.
Qed.

(** Entries that are no entries, and arrays that are not there. *)
Lemma bad_entry_tests_pass s :
  ~ may_refuse -> Forall (λ t, passes t s)
    [ lookup_response_rejects_invalid_target_type;
      lookup_response_rejects_hidden_with_nonzero_guid ].
Proof.
  intros Hmem. destruct is_u8_target as [_ Ht].
  repeat (apply Forall_cons_2); [..|apply Forall_nil_2].
  - eapply (lookup_test _ _ _ _ 0 []);
      [done|solve_lengths|simpl; lia|done|done|done|apply no_metadata|].
    intros [Hv _]. rewrite Forall_singleton in Hv. revert Hv. unfold valid_target.
    rewrite path_target_guid, path_target_hidden. discriminate.
  - eapply (lookup_test _ _ _ _ 0 []);
      [done|solve_lengths|simpl; lia|done|done|done|apply no_metadata|].
    intros [Hv _]. rewrite Forall_singleton in Hv. revert Hv. unfold valid_target.
    rewrite path_target_guid, path_target_hidden. discriminate.
Qed.

Lemma null_block A `{Repr A} (safe : A -> Prop) m n : safe_block A safe m 0 n.
Proof.
  split; [by intros []|]. unfold array_of. destruct (n =? 0); apply Forall_nil_2.
Qed.

(** A test of a call on the request in slot 0, with the locals [rest] besides. *)
Lemma request_test op id rest (call : M Z) s :
  let bss := fake_request op id :: rest in
  Forall (λ bs, (length bs <= 4096)%nat) bss -> is_u64 id ->
  (forall s', has_locals (st_mem s') bss ->
     points_to rsi_request (st_mem s') req (mk_rsi_request id 0 0 0 (wrap 16 op)) ->
     wp call s' (λ res s'', res = Ok (-1) /\ st_errno s'' = EINVAL)) ->
  passes (_ ← locals bss; fails_with call EINVAL) s.
Proof.
  intros bss Hlens Hid Hcall. apply passes_locals, passes_fails_with.
  pose proof (put_locals_has bss (st_mem s) Hlens) as Hm.
  apply Hcall; [done|]. by apply (fake_request_at _ _ _ _ Hm).
Qed.

Lemma null_array_tests_pass s :
  ~ may_refuse -> Forall (λ t, passes t s)
    [ payload_response_rejects_null_array_with_count;
      enum_children_response_rejects_null_child_entries_with_count ].
Proof.
  intros Hmem. repeat (apply Forall_cons_2); [..|apply Forall_nil_2].
  - apply request_test; [solve_lengths|done|]. intros s' Hm Hr.
    eapply wp_rejects; [done| | |apply lookup_responds; [exact Hr|done|apply null_block..]];
      [done|]. by intros b [[] _].
  - apply request_test; [solve_lengths|done|]. intros s' Hm Hr.
    assert (array_at rsi_child_entry (st_mem s') (slot 4)
      [mk_rsi_child_entry (slot 3) 5 0 1]) as Hc.
    { eapply (local_array_at rsi_child_entry _ _ 4 [[VInt (slot 3); VInt 5; VInt 0; VInt 1]]);
        [exact Hm|cbn [fmap list_fmap concat]; by rewrite app_nil_r| |
         by apply (bool_decide_unpack _)].
      apply Forall2_cons_2; [solve_literal|apply Forall2_nil_2]. }
    destruct (array_block _ (safe_child (st_mem s')) _ _ _ Hc) as [Hbc Hoc].
    { apply Forall_singleton. split; [|apply null_block].
      apply (local_field _ _ 3 (bytes_of "Child") Hm); [done|lia|simpl; lia]. }
    change (Z.of_nat (length [_])) with 1 in Hbc, Hoc.
    eapply wp_rejects; [done| | |apply enum_children_responds; [exact Hr|done|exact Hbc|
      apply null_block]].
    + cbn [desc_guids enum_children_desc]. unfold enum_guids. by rewrite Hoc.
    + intros b [Hok _]. unfold enum_ok in Hok. rewrite Hoc in Hok. destruct Hok as [Hv _].
      by rewrite Forall_singleton in Hv.
Qed.

(** *** READ_KEY and DELETE_LAYER *)

Lemma null_field m p : safe_field m p 0.
Proof. by intros _ []. Qed.

Lemma read_key_tests_pass s :
  ~ may_refuse -> Forall (λ t, passes t s)
    [ read_key_response_rejects_null_parent_guid; read_key_response_rejects_invalid_booleans ].
Proof.
  intros Hmem. repeat (apply Forall_cons_2); [..|apply Forall_nil_2].
  - apply request_test; [solve_lengths|done|]. intros s' Hm Hr.
    eapply wp_rejects; [done| | |apply read_key_responds; [exact Hr|done|apply null_field|done|
      by intros []|apply null_field|done]]; [done|]. by intros b.
  - apply request_test; [solve_lengths|done|]. intros s' Hm Hr.
    destruct (local_field _ _ 1 _ Hm eq_refl ltac:(lia) ltac:(simpl; lia)) as [Hs Hf].
    eapply wp_rejects; [done| | |apply read_key_responds; [exact Hr|done|apply null_field|done|
      exact Hs|apply null_field|done]]; [done|].
    intros b Hb. cbn [desc_reply read_key_desc] in Hb. unfold read_key_reply in Hb.
    by destruct (field_of (st_mem s') (slot 1) 16).
Qed.

Lemma wp_delete_layer_rejects bs n s :
  ~ may_refuse ->
  points_to rsi_request (st_mem s) req (mk_rsi_request 1 0 0 0 (wrap 16 RSI_DELETE_LAYER)) ->
  is_u32 n -> safe_field (st_mem s) (slot 1) (n * 16) ->
  field_of (st_mem s) (slot 1) (n * 16) = Some bs -> ~ valid_guid_set (chunks_exact 16 bs) ->
  wp (rsi_respond_delete_layer (-1) req (slot 1) n) s
    (λ res s', res = Ok (-1) /\ st_errno s' = EINVAL).
Proof.
  intros Hmem Hr Hn Hs Hf Hno.
  eapply wp_rejects; [done| | |by apply delete_layer_responds]; [apply Hn|].
  intros b [Hok _]. apply Hno. unfold orphans_of in Hok. by rewrite Hf in Hok.
Qed.

Lemma delete_layer_tests_pass s :
  ~ may_refuse -> Forall (λ t, passes t s)
    [ delete_layer_response_rejects_nil_orphan_guid;
      delete_layer_response_rejects_duplicate_orphan_guid ].
Proof.
  intros Hmem. repeat (apply Forall_cons_2); [..|apply Forall_nil_2].
  - apply request_test; [solve_lengths|done|]. intros s' Hm Hr.
    destruct (local_field _ _ 1 _ Hm eq_refl ltac:(lia) ltac:(simpl; lia)) as [Hs Hf].
    eapply wp_delete_layer_rejects; [done|done|done|exact Hs|exact Hf|].
    by apply (bool_decide_unpack (~ _)).
  - apply request_test; [solve_lengths|done|]. intros s' Hm Hr.
    destruct (local_field _ _ 1 _ Hm eq_refl ltac:(lia) ltac:(simpl; lia)) as [Hs Hf].
    eapply wp_delete_layer_rejects; [done|done|done|exact Hs|exact Hf|].
    by apply (bool_decide_unpack (~ _)).
Qed.

(** *** Requests of another kind, and statuses *)

Lemma lookup_known : wrap 16 RSI_LOOKUP ∈ request_ops /\ wrap 16 RSI_LOOKUP ∈ payload_ops.
Proof. split; left. Qed.

Lemma refusal_tests_pass s :
  (exists e, parse_rsi_status u32_max = Err e) -> Forall (λ t, passes t s)
    [ payload_response_rejects_wrong_request_op; status_response_rejects_ok_for_payload_op;
      status_response_rejects_unknown_status ].
Proof.
  intros [e He]. repeat (apply Forall_cons_2); [..|apply Forall_nil_2].
  - apply request_test; [solve_lengths|done|]. intros s' Hm Hr.
    unfold wp, rsi_respond_read_key. rewrite require_response_req_wrong; [done|].
    right. eexists. split; [exact Hr|]. simpl.
    by apply (request_ops_lookup 0 6).
  - apply request_test; [solve_lengths|done|]. intros s' Hm Hr.
    unfold wp. rewrite (proj2 (rsi_respond_status_eq _ _ _ _) _ Hr). simpl.
    unfold status_allowed. rewrite Z.eqb_refl, (bool_decide_false (_ ∉ _));
      [|by intros []; apply lookup_known].
    by rewrite andb_false_r.
  - apply request_test; [solve_lengths|done|]. intros s' Hm Hr.
    unfold wp. rewrite (proj2 (rsi_respond_status_eq _ _ _ _) _ Hr). simpl.
    unfold status_allowed. rewrite He. simpl. by rewrite andb_false_r.
Qed.

(** *** Frames *)

Lemma build_status_frame_bytes id op status s :
  build_status_frame id op status s =
  ORet (to_le 4 18 ++ to_le 8 id ++ to_le 2 op ++ to_le 4 status ++ []) s.
Proof.
  unfold build_status_frame. rewrite <- (app_nil_r (replicate _ _)). by rewrite fill_header.
Qed.

Lemma status_frame_layout_passes s : passes status_frame_layout s.
Proof.
  eapply passes_step; [apply build_status_frame_bytes|].
  set (resp_op := wrap 16 (Z.lor RSI_LOOKUP RSI_RESPONSE_BIT)).
  apply passes_then_assert; [done|].
  apply passes_then_assert; [exact (of_le_to_le 8 0x1122334455667788)|].
  apply passes_then_assert; [|apply passes_assert_eq].
  - etrans; [exact (of_le_to_le 2 resp_op)|]. apply wrap_small, wrap_range. done.
  - etrans; [exact (of_le_to_le 4 RSI_OK)|]. apply wrap_small, ok_u32.
Qed.

Lemma wp_unwrap_m {A} (m : M A) s (Q : result Z A -> state -> Prop) :
  wp m s (λ r s', exists a, r = Ok a /\ Q (Ok a) s') -> wp (unwrap_m m) s Q.
Proof.
  unfold wp, unwrap_m. destruct (m s); [by intros (? & [= ->] & ?)|by intros (? & ? & _)|done..].
Qed.

(** An encoder with bytes to append, unwrapped. *)
Lemma wp_unwrap_encodes s0 enc b w bs s (Q : result Z FrameWriter -> state -> Prop) :
  encodes s0 enc (Some b) -> writer s0 w bs s ->
  (forall w' s', writer s0 w' (bs ++ b) s' -> Q (Ok w') s') ->
  wp (unwrap_m (enc w)) s Q.
Proof.
  intros He Hw HQ. apply wp_unwrap_m. eapply wp_mono; [by apply He|].
  intros [w'|e] s'; [intros (b' & [= <-] & Hw'); eauto|by intros (_ & ? & _)].
Qed.

Lemma empty_lookup_passes s :
  ~ may_refuse -> passes empty_lookup_response_frame_has_expected_len s.
Proof.
  intros Hmem. apply passes_locals.
  set (s0 := with_mem _ s). assert (has_locals (st_mem s0) [fake_request RSI_LOOKUP 1]) as Hm.
  { apply put_locals_has. solve_lengths. }
  pose proof (fake_request_at _ _ _ _ Hm eq_refl ltac:(done)) as Hr. clearbody s0.
  apply wp_bind. eapply wp_mono; [apply wp_new_writer|]. intros r s1 (w & -> & Hw).
  apply wp_bind. eapply (wp_unwrap_encodes s0 (λ w, encode_path_entry_block w 0 0) (to_le 4 0));
    [exact (encodes_path_entry_block s0 0 0 (null_block _ _ _ _))|done|].
  intros w2 s2 Hw2.
  apply wp_bind. eapply (wp_unwrap_encodes s0 (λ w, encode_metadata_block w 0 0) (to_le 4 0));
    [exact (encodes_metadata_block s0 0 0 (null_block _ _ _ _))|done|].
  intros w3 s3 Hw3. apply wp_bind. eapply wp_deref; [by rewrite (writer_mem _ _ _ _ Hw3)|].
  apply wp_bind, wp_unwrap_m. unfold wp at 1.
  rewrite (finish_response_eq _ w3 (replicate 18 Byte.x00) (to_le 4 0 ++ to_le 4 0)),
    bool_decide_true;
    [|apply lookup_known|done|by intros Ho; destruct Hw3 as [(_ & -> & _)|(? & _)];
      [rewrite <- app_assoc|congruence]].
  destruct Hw3 as [(Ho & _)|(_ & _ & [|Hbig])]; [|done|].
  - rewrite Ho. eexists. split; [done|]. apply wp_assert_eq; [|done].
    by rewrite length_response_frame.
  - unfold alloc_limit in Hbig. simpl in Hbig. lia.
Qed.

Lemma sticky_oom_passes s : passes sticky_oom_returns_enomem s.
Proof.
  apply passes_locals.
  set (s0 := with_mem _ s). assert (has_locals (st_mem s0) [fake_request RSI_LOOKUP 1]) as Hm.
  { apply put_locals_has. solve_lengths. }
  pose proof (fake_request_at _ _ _ _ Hm eq_refl ltac:(done)) as Hr. clearbody s0.
  apply wp_bind. eapply wp_mono; [apply wp_new_writer|]. intros r s1 (w & -> & Hw).
  apply wp_bind. eapply wp_deref; [by rewrite (writer_mem _ _ _ _ Hw)|].
  unfold wp, assert_err, finish_response. simpl rq_op_code.
  rewrite response_op_known by apply lookup_known. exact (passes_assert_eq _ _ _ eq_refl).
Qed.

Lemma source_tests_run s : Forall (λ t, passes t s) source_tests.
Proof.
  repeat (apply Forall_cons_2); [..|apply Forall_nil_2].
  - apply passes_then_assert; [apply register_args_size|].
    apply passes_assert_eq, hive_entry_size.
  - by repeat (apply passes_then_assert; [done|]).
  - by repeat (apply passes_then_assert; [done|]).
  - by apply passes_fails_with.
Qed.

Lemma response_tests_run s :
  ~ may_refuse -> (exists e, parse_rsi_status u32_max = Err e) ->
  Forall (λ t, passes t s) response_tests.
Proof.
  intros Hmem He. pose proof (metadata_tests_pass s Hmem) as H1.
  pose proof (bad_entry_tests_pass s Hmem) as H2. pose proof (null_array_tests_pass s Hmem) as H3.
  pose proof (read_key_tests_pass s Hmem) as H4. pose proof (delete_layer_tests_pass s Hmem) as H5.
  pose proof (refusal_tests_pass s He) as H6. rewrite !Forall_cons in *.
  pose proof (status_frame_layout_passes s). pose proof (empty_lookup_passes s Hmem).
  pose proof (sticky_oom_passes s). unfold response_tests. rewrite !Forall_cons. tauto.
Qed.

(** C23: the tests of [source.rs], and those of [response.rs] that send nothing, pass, from
    any state, on every platform that keeps its laws and never refuses a reasonable
    allocation, [u32::MAX] being no RSI status: each refusal the repository tests for is one of the code's. *)
Theorem unit_tests_pass s :
  ~ may_refuse -> (exists e, parse_rsi_status u32_max = Err e) ->
  Forall (λ t, passes t s) (source_tests ++ response_tests).
Proof. intros. apply Forall_app_2; [apply source_tests_run|by apply response_tests_run]. Qed.

End unit_tests.
