(* ===== verification/Wire.v ===== *)
(** * The response formats, read back

    Readers for the format that docs/design-notes.md documents: "response header 14 bytes +
    4-byte status", "Length-prefixed fields (u32 LE len + bytes). GUID 16 bytes. All
    little-endian", "[count][entries] blocks; per-path-entry target_type tag", the fields of
    an entry in the order of its struct in include/rsi/response.h. They recover whatever the
    specifications of the responders encode; [RoundTrip.v] is about the responders. *)

From S2P Require Import Prelude Memory Platform Effects Request Guids GuidsSpec Frame FrameSpec.
From S2P Require Import Response ResponseSpec.

(** ** Readers *)

(** A reader consumes a prefix of the bytes. *)
Definition reader (A : Type) : Type := list byte -> option (A * list byte).

#[export] Instance reader_ret : MRet reader := λ A a bs, Some (a, bs).
#[export] Instance reader_bind : MBind reader := λ A B k rd bs,
  match rd bs with Some (a, rest) => k a rest | None => None end.

Definition rd_bytes (n : nat) : reader (list byte) := λ bs,
  if (n <=? length bs)%nat then Some (take n bs, drop n bs) else None.

Definition rd_int (n : nat) : reader Z := bs ← rd_bytes n; mret (of_le bs).
Definition rd_guid : reader guid := rd_bytes 16.
Definition rd_lpf : reader (list byte) := n ← rd_int 4; rd_bytes (Z.to_nat n).

Fixpoint rd_many {A} (rd : reader A) (n : nat) : reader (list A) :=
  match n with
  | O => mret []
  | S n' => x ← rd; xs ← rd_many rd n'; mret (x :: xs)
  end.

(** A count and that many elements. *)
Definition rd_block {A} (rd : reader A) : reader (list A) :=
  n ← rd_int 4; rd_many rd (Z.to_nat n).

(** The whole input, with nothing left over. *)
Definition read_all {A} (rd : reader A) (bs : list byte) : option A :=
  match rd bs with Some (a, []) => Some a | _ => None end.

(** [rd] reads [v] from the front of whatever starts with [bs]. *)
Definition reads {A} (rd : reader A) (v : A) (bs : list byte) : Prop :=
  forall rest, rd (bs ++ rest) = Some (v, rest).

Lemma reads_ret {A} (v : A) : reads (mret v) v [].
Proof. done. Qed.

Lemma reads_bind {A B} (rd : reader A) (k : A -> reader B) a b bs1 bs2 :
  reads rd a bs1 -> reads (k a) b bs2 -> reads (x ← rd; k x) b (bs1 ++ bs2).
Proof.
  intros H1 H2 rest. unfold mbind, reader_bind. rewrite <- app_assoc, H1. apply H2.
Qed.

(** The last reader of a sequence returns and consumes nothing more. *)
Lemma reads_last {A B} (rd : reader A) (k : A -> reader B) a b bs :
  reads rd a bs -> reads (k a) b [] -> reads (x ← rd; k x) b bs.
Proof. intros H1 H2. rewrite <- (app_nil_r bs). by eapply reads_bind. Qed.

Lemma reads_bytes n bs : length bs = n -> reads (rd_bytes n) bs bs.
Proof.
  intros <- rest. unfold rd_bytes. rewrite length_app, (proj2 (Nat.leb_le _ _)) by lia.
  by rewrite take_app_length, drop_app_length.
Qed.

Lemma reads_int n z : 0 <= z < 2 ^ (8 * Z.of_nat n) -> reads (rd_int n) z (to_le n z).
Proof.
  intros Hz. eapply reads_last; [apply reads_bytes, length_le_split|].
  rewrite of_le_to_le, wrap_small by done. apply reads_ret.
Qed.

Lemma reads_lpf bs : is_u32 (Z.of_nat (length bs)) -> reads rd_lpf bs (lpf_bytes bs).
Proof.
  intros Hn. eapply reads_bind; [by apply reads_int|]. apply reads_bytes. by rewrite Nat2Z.id.
Qed.

Lemma reads_many {A B} (rd : reader B) (f : A -> option (list byte)) (view : A -> B) xs b :
  Forall (λ x, forall bs, f x = Some bs -> reads rd (view x) bs) xs ->
  encode_all f xs = Some b -> reads (rd_many rd (length xs)) (view <$> xs) b.
Proof.
  intros Hxs. revert b. induction Hxs as [|x xs Hx Hxs IH]; intros b; simpl.
  - intros [= <-]. apply reads_ret.
  - intros (b1 & Hb1 & (b2 & Hb2 & [= <-])%bind_Some)%bind_Some.
    eapply reads_bind; [by apply Hx|]. eapply reads_last; [by apply IH|]. apply reads_ret.
Qed.

Lemma read_all_reads {A} (rd : reader A) v bs : reads rd v bs -> read_all rd bs = Some v.
Proof. intros H. unfold read_all. specialize (H []). by rewrite app_nil_r in H; rewrite H. Qed.

(** ** Values on the wire *)

Record wire_entry := mk_wire_entry {
  we_layer : list byte; we_target_type : Z; we_target_guid : guid; we_sequence : Z }.
Record wire_metadata := mk_wire_metadata {
  wm_guid : guid; wm_sd : list byte; wm_volatile_key : Z; wm_symlink : Z;
  wm_last_write_time : Z }.
Record wire_child := mk_wire_child { wc_name : list byte; wc_entries : list wire_entry }.
Record wire_value := mk_wire_value {
  wv_name : list byte; wv_layer : list byte; wv_type : Z; wv_data : list byte;
  wv_sequence : Z }.
Record wire_blanket := mk_wire_blanket { wb_layer : list byte; wb_sequence : Z }.
Record wire_key := mk_wire_key {
  wy_name : list byte; wy_parent_guid : guid; wy_sd : list byte; wy_volatile_key : Z;
  wy_symlink : Z; wy_last_write_time : Z }.
Record wire_frame := mk_wire_frame {
  wf_request_id : Z; wf_op : Z; wf_status : Z; wf_payload : list byte }.

Definition rd_entry : reader wire_entry :=
  l ← rd_lpf; t ← rd_int 1; g ← rd_guid; q ← rd_int 8; mret (mk_wire_entry l t g q).
Definition rd_metadata : reader wire_metadata :=
  g ← rd_guid; sd ← rd_lpf; v ← rd_int 1; l ← rd_int 1; t ← rd_int 8;
  mret (mk_wire_metadata g sd v l t).
Definition rd_child : reader wire_child :=
  n ← rd_lpf; es ← rd_block rd_entry; mret (mk_wire_child n es).
Definition rd_value : reader wire_value :=
  n ← rd_lpf; l ← rd_lpf; t ← rd_int 4; d ← rd_lpf; q ← rd_int 8;
  mret (mk_wire_value n l t d q).
Definition rd_blanket : reader wire_blanket :=
  l ← rd_lpf; q ← rd_int 8; mret (mk_wire_blanket l q).

Definition rd_lookup_payload : reader (list wire_entry * list wire_metadata) :=
  es ← rd_block rd_entry; ms ← rd_block rd_metadata; mret (es, ms).
Definition rd_enum_children_payload : reader (list wire_child * list wire_metadata) :=
  cs ← rd_block rd_child; ms ← rd_block rd_metadata; mret (cs, ms).
Definition rd_delete_layer_payload : reader (list guid) := rd_block rd_guid.
Definition rd_read_key_payload : reader wire_key :=
  n ← rd_lpf; p ← rd_guid; sd ← rd_lpf; v ← rd_int 1; l ← rd_int 1; t ← rd_int 8;
  mret (mk_wire_key n p sd v l t).
Definition rd_query_values_payload : reader (list wire_value * list wire_blanket) :=
  vs ← rd_block rd_value; bs ← rd_block rd_blanket; mret (vs, bs).

Definition rd_header : reader (Z * Z * Z * Z) :=
  total ← rd_int 4; id ← rd_int 8; op ← rd_int 2; status ← rd_int 4;
  mret (total, id, op, status).

(** A frame, as the kernel takes it from one [write]: at least the fixed 18 bytes, with the
    announced length. *)
Definition read_frame (bs : list byte) : option wire_frame :=
  match rd_header bs with
  | Some (total, id, op, status, payload) =>
      if total =? Z.of_nat (length bs) then Some (mk_wire_frame id op status payload) else None
  | None => None
  end.

Section wire.
Context `{P : Platform}.

(** ** What a caller's description looks like on the wire *)

Definition bytes_at (m : memory) (p n : Z) : list byte := default [] (field_of m p n).

Definition entry_view (m : memory) (e : rsi_path_entry) : wire_entry :=
  mk_wire_entry (bytes_at m (pe_layer e) (pe_layer_len e)) (pe_target_type e)
    (pe_target_guid e) (pe_sequence e).
Definition metadata_view (m : memory) (k : rsi_key_metadata) : wire_metadata :=
  mk_wire_metadata (km_guid k) (bytes_at m (km_sd k) (km_sd_len k)) (km_volatile_key k)
    (km_symlink k) (km_last_write_time k).
Definition array_view {A B} `{Repr A} (view : A -> B) (m : memory) (p n : Z) : list B :=
  view <$> default [] (array_of A m p n).
Definition child_view (m : memory) (c : rsi_child_entry) : wire_child :=
  mk_wire_child (bytes_at m (ch_child_name c) (ch_child_name_len c))
    (array_view (entry_view m) m (ch_entries c) (ch_entry_count c)).
Definition value_view (m : memory) (v : rsi_value_entry) : wire_value :=
  mk_wire_value (bytes_at m (ve_value_name v) (ve_value_name_len v))
    (bytes_at m (ve_layer_name v) (ve_layer_name_len v)) (ve_value_type v)
    (bytes_at m (ve_data v) (ve_data_len v)) (ve_sequence v).
Definition blanket_view (m : memory) (b : rsi_blanket_entry) : wire_blanket :=
  mk_wire_blanket (bytes_at m (be_layer_name b) (be_layer_name_len b)) (be_sequence b).

Lemma array_of_typed A `{Repr A} m p n xs :
  array_of A m p n = Some xs -> 0 <= n ->
  Forall (typed A) xs /\ n = Z.of_nat (length xs).
Proof.
  unfold array_of. destruct (Z.eqb_spec n 0) as [->|]; [by intros [= <-]|].
  destruct (p =? 0); [done|]. intros Hr Hn. split; [by eapply read_array_typed|].
  apply read_array_length in Hr. lia.
Qed.

Lemma cat_Some o1 o2 b :
  cat o1 o2 = Some b -> exists b1 b2, o1 = Some b1 /\ o2 = Some b2 /\ b = b1 ++ b2.
Proof. destruct o1, o2; [|done..]. intros [= <-]. eauto. Qed.

Lemma reads_field m p n b :
  is_u32 n -> lpf_of m p n = Some b -> reads rd_lpf (bytes_at m p n) b.
Proof.
  unfold lpf_of, bytes_at. intros Hn (bs & Hbs & ->)%fmap_Some. rewrite Hbs.
  apply field_of_length in Hbs as Hl; [|apply Hn]. apply reads_lpf. by rewrite Hl.
Qed.

Lemma reads_block {A B} `{Repr A} (rd : reader B) (f : A -> option (list byte)) view m p n b :
  is_u32 n -> block f m p n = Some b ->
  (forall x bs, typed A x -> f x = Some bs -> reads rd (view x) bs) ->
  reads (rd_block rd) (array_view view m p n) b.
Proof.
  unfold block, array_view. intros Hn (xs & Hxs & Hb)%bind_Some Hf. rewrite Hxs. simpl.
  destruct (array_of_typed _ _ _ _ _ Hxs (proj1 Hn)) as [Hty Hlen].
  apply cat_Some in Hb as (b1 & b2 & [= <-] & Hb2 & ->).
  unfold rd_block. eapply reads_bind; [by apply reads_int|]. rewrite Hlen, Nat2Z.id.
  apply (reads_many _ f); [|done]. eapply Forall_impl; [exact Hty|]. eauto.
Qed.

(** Takes a successful encoding apart, and reads its pieces one after another. *)
Ltac split_cat :=
  repeat match goal with
  | H : cat _ _ = Some _ |- _ => apply cat_Some in H as (? & ? & ? & ? & ->)
  | H : Some _ = Some _ |- _ => apply (inj Some) in H as <-
  | H : (if ?c then _ else None) = Some _ |- _ => destruct c; [|discriminate H]
  end.

Ltac read_piece :=
  first [ apply reads_int; assumption | apply reads_bytes; assumption
        | eapply reads_field; [|eassumption]; assumption ].
Ltac read_pieces :=
  repeat first [ eapply reads_bind; [read_piece|] | eapply reads_last; [read_piece|] ];
  try apply reads_ret.

Ltac read_block ty lem :=
  eapply (reads_block (A := ty)); [|eassumption|intros ? ?; apply lem]; assumption.

Lemma reads_entry m e b :
  typed rsi_path_entry e -> entry_bytes m e = Some b -> reads rd_entry (entry_view m e) b.
Proof.
  intros Ht Hb. destruct_typed Ht. unfold entry_bytes in Hb. split_cat.
  unfold rd_entry, entry_view. cbn -[rd_int to_le block rd_block array_view] in *. read_pieces.
Qed.

Lemma reads_metadata m k b :
  typed rsi_key_metadata k -> metadata_bytes m k = Some b ->
  reads rd_metadata (metadata_view m k) b.
Proof.
  intros Ht Hb. destruct_typed Ht. unfold metadata_bytes in Hb. split_cat.
  unfold rd_metadata, metadata_view. cbn -[rd_int to_le block rd_block array_view] in *. read_pieces.
Qed.

Lemma reads_value m v b :
  typed rsi_value_entry v -> value_bytes m v = Some b -> reads rd_value (value_view m v) b.
Proof.
  intros Ht Hb. destruct_typed Ht. unfold value_bytes in Hb. split_cat.
  unfold rd_value, value_view. cbn -[rd_int to_le block rd_block array_view] in *. read_pieces.
Qed.

Lemma reads_blanket m v b :
  typed rsi_blanket_entry v -> blanket_bytes m v = Some b ->
  reads rd_blanket (blanket_view m v) b.
Proof.
  intros Ht Hb. destruct_typed Ht. unfold blanket_bytes in Hb. split_cat.
  unfold rd_blanket, blanket_view. cbn -[rd_int to_le block rd_block array_view] in *. read_pieces.
Qed.

Lemma reads_child m c b :
  typed rsi_child_entry c -> child_bytes m c = Some b -> reads rd_child (child_view m c) b.
Proof.
  intros Ht Hb. destruct_typed Ht. unfold child_bytes in Hb. split_cat.
  unfold rd_child, child_view. cbn -[rd_int to_le block rd_block array_view] in *.
  eapply reads_bind; [read_piece|]. eapply reads_last; [read_block rsi_path_entry reads_entry|apply reads_ret].
Qed.

(** ** Payloads *)

Lemma lookup_reply_reads m p n mp mn b :
  is_u32 n -> is_u32 mn -> lookup_reply m p n mp mn b ->
  read_all rd_lookup_payload b =
    Some (array_view (entry_view m) m p n, array_view (metadata_view m) m mp mn).
Proof.
  intros Hn Hmn [_ Hb]. apply read_all_reads. split_cat.
  eapply reads_bind; [read_block rsi_path_entry reads_entry|].
  eapply reads_last; [read_block rsi_key_metadata reads_metadata|apply reads_ret].
Qed.

Lemma enum_children_reply_reads m p n mp mn b :
  is_u32 n -> is_u32 mn -> enum_children_reply m p n mp mn b ->
  read_all rd_enum_children_payload b =
    Some (array_view (child_view m) m p n, array_view (metadata_view m) m mp mn).
Proof.
  intros Hn Hmn [_ Hb]. apply read_all_reads. split_cat.
  eapply reads_bind; [read_block rsi_child_entry reads_child|].
  eapply reads_last; [read_block rsi_key_metadata reads_metadata|apply reads_ret].
Qed.

Lemma query_values_reply_reads m p n bp bn b :
  is_u32 n -> is_u32 bn -> query_values_reply m p n bp bn b ->
  read_all rd_query_values_payload b =
    Some (array_view (value_view m) m p n, array_view (blanket_view m) m bp bn).
Proof.
  intros Hn Hbn Hb. apply read_all_reads. unfold query_values_reply in Hb. split_cat.
  eapply reads_bind; [read_block rsi_value_entry reads_value|].
  eapply reads_last; [read_block rsi_blanket_entry reads_blanket|apply reads_ret].
Qed.

Lemma read_key_reply_reads m name name_len parent sd sd_len v l t b :
  is_u32 name_len -> is_u32 sd_len -> is_u64 t ->
  read_key_reply m name name_len parent sd sd_len v l t b ->
  read_all rd_read_key_payload b =
    Some (mk_wire_key (bytes_at m name name_len) (bytes_at m parent 16) (bytes_at m sd sd_len)
            v l t) /\ (v = 0 \/ v = 1) /\ (l = 0 \/ l = 1).
Proof.
  intros Hnl Hdl Ht Hb. unfold read_key_reply in Hb.
  destruct (is_bool v) eqn:Hv; [|by destruct (lpf_of m name name_len), (field_of m parent 16), (lpf_of m sd sd_len)].
  destruct (is_bool l) eqn:Hl; [|by destruct (lpf_of m name name_len), (field_of m parent 16), (lpf_of m sd sd_len)].
  unfold is_bool in Hv, Hl. split; [|lia]. apply read_all_reads.
  assert (0 <= v < 2 ^ (8 * Z.of_nat 1)) by lia. assert (0 <= l < 2 ^ (8 * Z.of_nat 1)) by lia.
  split_cat.
  match goal with H : field_of m parent 16 = Some ?g |- _ =>
    assert (bytes_at m parent 16 = g) as -> by (unfold bytes_at; by rewrite H);
    apply field_of_length in H as Hg; [|done];
    assert (length g = 16%nat) by lia end.
  unfold rd_read_key_payload. read_pieces.
Qed.

Lemma chunks_exact_cons g bs :
  guid_wf g -> chunks_exact 16 (g ++ bs) = g :: chunks_exact 16 bs.
Proof.
  unfold guid_wf. intros Hg. unfold chunks_exact.
  replace (length (g ++ bs)) with (1 * 16 + length bs)%nat by (rewrite length_app; lia).
  rewrite Nat.div_add_l by done. cbn [Nat.add seq fmap list_fmap].
  rewrite drop_0, take_app_length' by done. f_equal.
  rewrite <- fmap_S_seq, <- list_fmap_compose. apply list_fmap_ext. intros i j _. unfold compose.
  rewrite drop_app_ge by lia. do 2 f_equal. lia.
Qed.

Lemma reads_chunks n bs :
  length bs = (n * 16)%nat -> reads (rd_many rd_guid n) (chunks_exact 16 bs) bs.
Proof.
  revert bs. induction n as [|n IH]; intros bs Hl.
  - apply nil_length_inv in Hl as ->. apply reads_ret.
  - assert (guid_wf (take 16 bs)) as Hg by (unfold guid_wf; rewrite length_take; lia).
    rewrite <- (take_drop 16 bs), chunks_exact_cons by done.
    eapply reads_bind; [by apply reads_bytes|].
    eapply reads_last; [apply IH; rewrite length_drop; lia|apply reads_ret].
Qed.

Lemma delete_layer_reply_reads m p n b :
  is_u32 n -> delete_layer_reply m p n b ->
  exists gs, orphans_of m p n = Some gs /\ read_all rd_delete_layer_payload b = Some gs /\
    Z.of_nat (length gs) = n /\ valid_guid_set gs.
Proof.
  intros Hn [Hv Hb]. unfold orphans_of in *. split_cat.
  match goal with H : field_of _ _ _ = Some ?bs |- _ => rename H into Ho; rename bs into gb end.
  rewrite Ho in Hv |- *. simpl in Hv. assert (0 <= n * 16) as Hn16 by (destruct Hn; lia).
  pose proof (field_of_length _ _ _ _ Ho Hn16).
  exists (chunks_exact 16 gb). split_and!; [done| | |done].
  - apply read_all_reads. eapply reads_bind; [by apply reads_int|].
    apply reads_chunks. lia.
  - rewrite length_chunks. replace (length gb) with (Z.to_nat n * 16)%nat by lia.
    rewrite Nat.div_mul by done. destruct Hn. lia.
Qed.

(** *** The frame *)

Lemma lor_u16 a b : is_u16 a -> is_u16 b -> is_u16 (Z.lor a b).
Proof.
  intros Ha Hb. destruct (Z.eq_dec a 0) as [->|Ha0]; [done|].
  destruct (Z.eq_dec b 0) as [->|Hb0]; [by rewrite Z.lor_0_r|]. unfold is_u16 in *.
  assert (0 <= Z.lor a b) by (apply Z.lor_nonneg; lia).
  assert (Z.lor a b <> 0) by (rewrite Z.lor_eq_0_iff; lia).
  split; [done|]. apply Z.log2_lt_pow2; [lia|]. rewrite Z.log2_lor by lia.
  apply Z.max_lub_lt; apply Z.log2_lt_pow2; lia.
Qed.

Context `{!UapiLaws platform_uapi}.

Lemma read_frame_response id op status payload :
  is_u64 id -> is_u16 op -> is_u32 status -> 18 + Z.of_nat (length payload) < 2 ^ 32 ->
  read_frame (response_frame id op status payload) =
    Some (mk_wire_frame id (Z.lor op RSI_RESPONSE_BIT) status payload).
Proof.
  intros Hid Hop Hst Hlen. unfold read_frame, response_frame.
  assert (reads rd_header (18 + Z.of_nat (length payload), id, Z.lor op RSI_RESPONSE_BIT, status)
    (to_le 4 (18 + Z.of_nat (length payload)) ++ to_le 8 id ++
     to_le 2 (Z.lor op RSI_RESPONSE_BIT) ++ to_le 4 status)) as Hh.
  { assert (0 <= Z.lor op RSI_RESPONSE_BIT < 2 ^ (8 * Z.of_nat 2)).
    { apply lor_u16; [done|]. by rewrite response_bit. }
    assert (0 <= 18 + Z.of_nat (length payload) < 2 ^ (8 * Z.of_nat 4)) by (simpl; lia).
    unfold rd_header. read_pieces. }
  specialize (Hh payload). rewrite <- !app_assoc in Hh. rewrite Hh.
  fold (response_frame id op status payload). rewrite length_response_frame.
  rewrite (proj2 (Z.eqb_eq _ _)) by lia. done.
Qed.

(** A status frame is 18 bytes, the minimum the kernel takes, and reads back as the
    request id, the response op code and the status, with no payload. *)
Theorem status_frame_roundtrip id op status s :
  is_u64 id -> is_u16 op -> is_u32 status ->
  exists frame, build_status_frame id (Z.lor op RSI_RESPONSE_BIT) status s = ORet frame s /\
    Z.of_nat (length frame) = RSI_MIN_RESPONSE_SIZE /\
    read_frame frame = Some (mk_wire_frame id (Z.lor op RSI_RESPONSE_BIT) status []).
Proof.
  intros Hid Hop Hst. exists (response_frame id op status []).
  rewrite build_status_frame_eq, length_response_frame, min_response_size.
  split_and!; [done|done|]. by apply read_frame_response.
Qed.

End wire.
