(* ===== verification/Server.v ===== *)
(** * The response API as a whole

    A source answers requests by calling the six responders. [call] is one such call;
    [respond] is the function it runs. What holds of every call is proved once: at most one
    frame leaves the process, it is a well-formed answer to the request it was called with,
    and the return value says whether the kernel took it. An allocator that is not short of
    memory cannot keep a valid answer from being sent. [session] is a sequence of calls. *)

From S2P Require Import Prelude Memory Platform Effects Request Guids GuidsSpec Frame FrameSpec.
From S2P Require Import Response ResponseSpec Wire RequestSpec.

Section server.
Context `{P : Platform}.

(** ** Calls *)

Inductive call : Type :=
  | CallStatus (status : Z)
  | CallLookup (entries entry_count metadata metadata_count : Z)
  | CallEnumChildren (children child_count metadata metadata_count : Z)
  | CallDeleteLayer (orphaned_guids orphaned_count : Z)
  | CallReadKey (name name_len parent_guid sd sd_len volatile_key symlink last_write_time : Z)
  | CallQueryValues (entries entry_count blankets blanket_count : Z).

Definition respond (fd req : Z) (c : call) : M Z :=
  match c with
  | CallStatus status => rsi_respond_status fd req status
  | CallLookup p n mp mn => rsi_respond_lookup fd req p n mp mn
  | CallEnumChildren p n mp mn => rsi_respond_enum_children fd req p n mp mn
  | CallDeleteLayer p n => rsi_respond_delete_layer fd req p n
  | CallReadKey name name_len parent sd sd_len v l t =>
      rsi_respond_read_key fd req name name_len parent sd sd_len v l t
  | CallQueryValues p n bp bn => rsi_respond_query_values fd req p n bp bn
  end.

(** The [# Safety] contract of the call, and the C types of its arguments. *)
Definition safe_call (m : memory) (c : call) : Prop :=
  match c with
  | CallStatus status => is_u32 status
  | CallLookup p n mp mn =>
      safe_block rsi_path_entry (safe_entry m) m p n /\
      safe_block rsi_key_metadata (safe_metadata m) m mp mn
  | CallEnumChildren p n mp mn =>
      safe_block rsi_child_entry (safe_child m) m p n /\
      safe_block rsi_key_metadata (safe_metadata m) m mp mn
  | CallDeleteLayer p n => safe_field m p (n * 16) /\ is_u32 n
  | CallReadKey name name_len parent sd sd_len v l t =>
      safe_field m name name_len /\ is_u32 name_len /\ safe_field m parent 16 /\
      safe_field m sd sd_len /\ is_u32 sd_len
  | CallQueryValues p n bp bn =>
      safe_block rsi_value_entry (safe_value m) m p n /\
      safe_block rsi_blanket_entry (safe_blanket m) m bp bn
  end.

(** The status and payload the call describes, if it is an answer to the request [r]. *)
Definition is_answer (m : memory) (r : rsi_request) (c : call) (status : Z)
    (payload : list byte) : Prop :=
  match c with
  | CallStatus st => status = st /\ payload = [] /\ status_allowed (rq_op_code r) st = true
  | CallLookup p n mp mn =>
      rq_op_code r = wrap 16 RSI_LOOKUP /\ status = RSI_OK /\ lookup_reply m p n mp mn payload
  | CallEnumChildren p n mp mn =>
      rq_op_code r = wrap 16 RSI_ENUM_CHILDREN /\ status = RSI_OK /\
      enum_children_reply m p n mp mn payload
  | CallDeleteLayer p n =>
      rq_op_code r = wrap 16 RSI_DELETE_LAYER /\ status = RSI_OK /\
      delete_layer_reply m p n payload
  | CallReadKey name name_len parent sd sd_len v l t =>
      rq_op_code r = wrap 16 RSI_READ_KEY /\ status = RSI_OK /\
      read_key_reply m name name_len parent sd sd_len v l t payload
  | CallQueryValues p n bp bn =>
      rq_op_code r = wrap 16 RSI_QUERY_VALUES /\ status = RSI_OK /\
      query_values_reply m p n bp bn payload
  end.

(** The frames a trace put on the wire. *)
Definition frames_written (evs : list event) : list (list byte) :=
  omap (λ ev, match ev with EvWrite _ frame => Some frame | _ => None end) evs.

(** A frame that answers [r] by the call [c], as its receiver reads it. *)
Definition answer_frame (m : memory) (r : rsi_request) (c : call) (frame : list byte) : Prop :=
  exists status payload, is_answer m r c status payload /\
    read_frame frame = Some (mk_wire_frame (rq_request_id r)
      (Z.lor (rq_op_code r) RSI_RESPONSE_BIT) status payload).

(** What a call does: it leaves the caller's memory alone and either puts one answer on the
    wire, returning 0 exactly when the kernel took the whole frame, or returns -1 with
    nothing written. *)
Definition call_outcome (fd : Z) (r : rsi_request) (c : call) (s : state) (rc : Z) (s' : state) :
    Prop :=
  st_mem s' = st_mem s /\ (rc = 0 \/ rc = -1) /\
  ((exists frame, answer_frame (st_mem s) r c frame /\
      st_trace s' = st_trace s ++ [EvWrite fd frame] /\
      st_kern s' = (k_write (st_kern s) fd frame).1 /\
      (rc = 0 <-> (k_write (st_kern s) fd frame).2 = Ok (Z.of_nat (length frame)))) \/
   (rc = -1 /\ st_kern s' = st_kern s /\
    exists evs, st_trace s' = st_trace s ++ evs /\ frames_written evs = [])).

(** A sequence of calls, each on its own request struct; the return values are collected. *)
Fixpoint session (fd : Z) (calls : list (Z * call)) : M (list Z) :=
  match calls with
  | [] => mret []
  | (req, c) :: calls' => rc ← respond fd req c; rcs ← session fd calls'; mret (rc :: rcs)
  end.

(** ** One call *)

Context `{!PlatformLaws P}.

Lemma send_outcome fd r c status payload s s1 rc s' :
  typed rsi_request r -> is_u32 status -> is_answer (st_mem s) r c status payload ->
  18 + Z.of_nat (length payload) < 2 ^ 32 -> quiet [] s s1 ->
  send fd (response_frame (rq_request_id r) (rq_op_code r) status payload) s1 = (rc, s') ->
  call_outcome fd r c s rc s'.
Proof.
  intros Ht Hst Ha Hlen [Hm _ Hk Htr] Hsend. rewrite app_nil_r in Htr.
  assert (is_u64 (rq_request_id r) /\ is_u16 (rq_op_code r)) as [Hid Hop]
    by (by destruct_typed Ht).
  pose proof (read_frame_response _ _ _ _ Hid Hop Hst Hlen) as Hread. revert Hsend Hread.
  generalize (response_frame (rq_request_id r) (rq_op_code r) status payload) as frame.
  intros frame Hsend Hread.
  assert (answer_frame (st_mem s) r c frame) as Hans by (by eexists _, _).
  revert Hsend. unfold send. rewrite Hk. unfold call_outcome.
  destruct (k_write (st_kern s) fd frame) as [k [n|e]] eqn:Hw;
    [destruct (Z.eqb_spec n (Z.of_nat (length frame))) as [Hn|Hn]|];
    intros [= <- <-]; (split_and!; [done|by auto|]); left; exists frame;
    (split_and!; [done|by simpl; rewrite Htr|by rewrite Hw|]); rewrite Hw; simpl.
  - by rewrite Hn.
  - split; [lia|]. intros [=]. done.
  - split; [lia|done].
Qed.

Lemma responded_outcome fd r c d s rc s' :
  typed rsi_request r ->
  (forall payload, desc_reply d payload -> is_answer (st_mem s) r c RSI_OK payload) ->
  responded fd r d s rc s' -> call_outcome fd r c s rc s'.
Proof.
  assert (forall s1 e, settled s s1 -> call_outcome fd r c s (-1) (with_errno e s1)) as Hquiet.
  { intros s1 e Hs. split_and!; [exact (settled_mem _ _ Hs)|by right|]. right. split; [done|].
    split; [by destruct Hs as [Hq|Hq]; apply Hq|].
    destruct Hs as [Hq|Hq]; eexists; (split; [apply Hq|done]). }
  intros Ht Hans [b s1 rc' s2 Hb Hlen Hq Hsend|b s1 Hb _ Hq|s1 _ Hs|s1 Hq _].
  - eapply send_outcome; [done|apply ok_u32|by apply Hans|done..].
  - apply Hquiet. by left.
  - by apply Hquiet.
  - apply Hquiet. by right.
Qed.

Lemma refused_outcome fd r c s : call_outcome fd r c s (-1) (with_errno EINVAL s).
Proof.
  split_and!; [done|by right|]. right. split_and!; [done..|]. exists []. simpl. by rewrite app_nil_r.
Qed.

(** A payload-bearing responder, on whatever request it is given. *)
Lemma call_outcome_wp fd req r c op d (m : M Z) s :
  points_to rsi_request (st_mem s) req r ->
  (wrong_request req op s -> m s = ORet (-1) (with_errno EINVAL s)) ->
  (rq_op_code r = wrap 16 op ->
    wp m s (λ res s', exists rc, res = Ok rc /\ responded fd r d s rc s')) ->
  (forall payload, rq_op_code r = wrap 16 op -> desc_reply d payload ->
     is_answer (st_mem s) r c RSI_OK payload) ->
  wp m s (λ res s', exists rc, res = Ok rc /\ call_outcome fd r c s rc s').
Proof.
  intros Hr Hno Hyes Hans. destruct (decide (rq_op_code r = wrap 16 op)) as [Hop|Hop].
  - eapply wp_mono; [by apply Hyes|]. intros res s' (rc & -> & Hres). eexists. split; [done|].
    eapply responded_outcome; [by eapply read_typed, Hr| |done]. auto.
  - unfold wp. rewrite Hno by (right; eauto). eexists. split; [done|]. apply refused_outcome.
Qed.

Lemma respond_outcome fd req r c s :
  points_to rsi_request (st_mem s) req r -> safe_call (st_mem s) c ->
  wp (respond fd req c) s (λ res s', exists rc, res = Ok rc /\ call_outcome fd r c s rc s').
Proof.
  intros Hr Hc. destruct c; simpl in Hc; unfold respond.
  - unfold wp. destruct (rsi_respond_status_eq fd req status s) as [_ Heq].
    rewrite (Heq _ Hr). destruct (status_allowed _ _) eqn:Hal.
    + destruct (send _ _ _) as [rc s'] eqn:Hs. eexists. split; [done|].
      eapply send_outcome; [by eapply read_typed, Hr|exact Hc|by split_and!|done| |exact Hs].
      auto with rsi.
    + eexists. split; [done|]. apply refused_outcome.
  - destruct Hc. eapply (call_outcome_wp _ _ _ _ RSI_LOOKUP); [done| | |];
      [apply require_response_req_wrong|intros; by apply lookup_responds|by simpl].
  - destruct Hc. eapply (call_outcome_wp _ _ _ _ RSI_ENUM_CHILDREN); [done| | |];
      [apply require_response_req_wrong|intros; by apply enum_children_responds|by simpl].
  - destruct Hc. eapply (call_outcome_wp _ _ _ _ RSI_DELETE_LAYER); [done| | |];
      [apply require_response_req_wrong|intros; by apply delete_layer_responds|by simpl].
  - destruct Hc as (? & ? & ? & ? & ?).
    eapply (call_outcome_wp _ _ _ _ RSI_READ_KEY); [done| | |];
      [apply require_response_req_wrong|intros; by apply read_key_responds|by simpl].
  - destruct Hc. eapply (call_outcome_wp _ _ _ _ RSI_QUERY_VALUES); [done| | |];
      [apply require_response_req_wrong|intros; by apply query_values_responds|by simpl].
Qed.

(** C1: every responder call on a valid request and safe arguments runs to completion
    without abort or undefined behaviour, leaves the caller's memory alone, and returns 0 or
    -1. It puts at most one frame on the wire, and that frame reads back as an answer to this
    request: its id, its op with the response bit, and the status and payload the call
    describes. It returns 0 exactly when the kernel took the whole frame. *)
Theorem respond_delivers fd req r c s :
  points_to rsi_request (st_mem s) req r -> safe_call (st_mem s) c ->
  wp (respond fd req c) s (λ res s', exists rc, res = Ok rc /\ call_outcome fd r c s rc s').
Proof. apply respond_outcome. Qed.

(** ** Answers are sent

    What is left of [responded] when the allocator grants reasonable requests. *)

(** One [write] of the whole frame of an answer, and what becomes of it. *)
Definition sent_answer (fd : Z) (r : rsi_request) (status : Z) (payload : list byte)
    (s : state) (rc : Z) (s' : state) : Prop :=
  let frame := response_frame (rq_request_id r) (rq_op_code r) status payload in
  st_mem s' = st_mem s /\ st_trace s' = st_trace s ++ [EvWrite fd frame] /\
  st_kern s' = (k_write (st_kern s) fd frame).1 /\
  match (k_write (st_kern s) fd frame).2 with
  | Ok n =>
      if n =? Z.of_nat (length frame) then rc = 0 /\ st_errno s' = st_errno s
      else rc = -1 /\ st_errno s' = EIO
  | Err e => rc = -1 /\ st_errno s' = e
  end.

Lemma send_sent fd r status payload s s1 rc s' :
  quiet [] s s1 ->
  send fd (response_frame (rq_request_id r) (rq_op_code r) status payload) s1 = (rc, s') ->
  sent_answer fd r status payload s rc s'.
Proof.
  intros [Hm He Hk Ht]. rewrite app_nil_r in Ht. unfold send, sent_answer.
  generalize (response_frame (rq_request_id r) (rq_op_code r) status payload) as frame.
  intros frame. rewrite Hk. destruct (k_write _ _ _) as [k [n|e]]; simpl;
    [destruct (_ =? _)|];
    intros [= <- <-]; simpl; by rewrite ?Ht.
Qed.

Lemma responded_sends fd r d payload s rc s' :
  ~ may_refuse -> definite d -> desc_reply d payload ->
  18 + Z.of_nat (length payload) < 2 ^ 32 ->
  responded fd r d s rc s' -> sent_answer fd r RSI_OK payload s rc s'.
Proof.
  intros Hmem [Huniq Hguids] Hrep Hlen Hres.
  assert (forall b, desc_reply d b -> b = payload) as Heq by (intros b Hb; by apply (Huniq payload)).
  destruct Hres as [b s1 rc' s2 ->%Heq _ Hq Hsend|b s1 ->%Heq Hbig _|s1 Hno _|
                    s1 _ [|[Hbig|(b & ->%Heq & Hbig)]]].
  - by eapply send_sent.
  - lia.
  - by destruct (Hno payload).
  - done.
  - specialize (Hguids _ Hrep). lia.
  - lia.
Qed.

Lemma wp_sends fd r d payload (m : M Z) s :
  ~ may_refuse -> 18 + Z.of_nat (length payload) < 2 ^ 32 -> desc_reply d payload ->
  definite d -> wp m s (λ res s', exists rc, res = Ok rc /\ responded fd r d s rc s') ->
  wp m s (λ res s', exists rc, res = Ok rc /\ sent_answer fd r RSI_OK payload s rc s').
Proof.
  intros Hmem Hlen Hrep Hd Hm. eapply wp_mono; [exact Hm|]. intros res s' (rc & -> & Hres).
  exists rc. split; [done|]. by eapply responded_sends.
Qed.

Lemma respond_answers fd req r c status payload s :
  ~ may_refuse -> points_to rsi_request (st_mem s) req r -> safe_call (st_mem s) c ->
  is_answer (st_mem s) r c status payload -> 18 + Z.of_nat (length payload) < 2 ^ 32 ->
  wp (respond fd req c) s (λ res s', exists rc, res = Ok rc /\
    sent_answer fd r status payload s rc s').
Proof.
  intros Hmem Hr Hc Hans Hlen. destruct c; simpl in Hc, Hans; unfold respond.
  { destruct Hans as (-> & -> & Hal). unfold wp.
    rewrite (proj2 (rsi_respond_status_eq fd req status0 s) _ Hr), Hal.
    destruct (send _ _ _) as [rc s'] eqn:Hs. eexists. split; [done|].
    eapply send_sent; [apply quiet_refl|done]. }
  all: destruct Hans as (Hop & -> & Hrep).
  - destruct Hc as [Hb [Hm Hms]]. eapply wp_sends; [done|done| | |by apply lookup_responds];
      [exact Hrep|]. by apply lookup_definite.
  - destruct Hc as [Hb [Hm Hms]]. eapply wp_sends;
      [done|done| | |by apply enum_children_responds]; [exact Hrep|].
    by apply enum_children_definite.
  - destruct Hc as [? [? ?]]. eapply wp_sends; [done|done| | |by apply delete_layer_responds];
      [exact Hrep|]. by apply delete_layer_definite.
  - destruct Hc as (? & ? & ? & ? & ?).
    eapply wp_sends; [done|done| | |by apply read_key_responds]; [exact Hrep|].
    apply read_key_definite.
  - destruct Hc. eapply wp_sends; [done|done| | |by apply query_values_responds]; [exact Hrep|].
    apply query_values_definite.
Qed.

(** C3: nothing but the kernel can keep an answer from the wire. When the allocator grants
    reasonable requests, a call that describes an answer to its request of less than 4 GiB
    hands exactly that frame to one [write], and its return value and errno are the
    kernel's verdict: 0 for a whole write, [EIO] for a short one, the kernel's errno else. *)
Theorem respond_sends fd req r c status payload s :
  ~ may_refuse -> points_to rsi_request (st_mem s) req r -> safe_call (st_mem s) c ->
  is_answer (st_mem s) r c status payload -> 18 + Z.of_nat (length payload) < 2 ^ 32 ->
  wp (respond fd req c) s (λ res s', exists rc, res = Ok rc /\
    sent_answer fd r status payload s rc s').
Proof. apply respond_answers. Qed.

(** ** A sequence of calls *)

Lemma frames_written_app evs1 evs2 :
  frames_written (evs1 ++ evs2) = frames_written evs1 ++ frames_written evs2.
Proof. apply omap_app. Qed.

(** What one call adds to the wire. *)
Definition call_wrote (m : memory) (rc : Z) (f : option (list byte)) (rqc : rsi_request * call) :
    Prop :=
  match f with
  | Some frame => answer_frame m rqc.1 rqc.2 frame
  | None => rc = -1
  end.

(** C4: over a whole session the frames on the wire are answers to the calls, in the order
    of the calls: at most one per call, none for a call that failed before its [write], and
    one for each call that returned 0. Memory never changes, so later calls still see the
    arrays they were given. *)
Theorem session_in_order fd calls rs s :
  Forall2 (λ rc r, points_to rsi_request (st_mem s) rc.1 r) calls rs ->
  Forall (λ rc, safe_call (st_mem s) rc.2) calls ->
  wp (session fd calls) s (λ res s', exists rcs fs, res = Ok rcs /\
    st_mem s' = st_mem s /\
    length rcs = length calls /\ length fs = length calls /\
    (forall i req c r rc f, calls !! i = Some (req, c) -> rs !! i = Some r ->
       rcs !! i = Some rc -> fs !! i = Some f -> call_wrote (st_mem s) rc f (r, c)) /\
    frames_written (st_trace s') = frames_written (st_trace s) ++ omap id fs).
Proof.
  revert rs s. induction calls as [|[req c] calls IH]; intros rs s Hrs Hsafe; simpl.
  - apply wp_ret. exists [], []. split_and!; try done. by rewrite app_nil_r.
  - apply Forall2_cons_inv_l in Hrs as (r & rs' & Hr & Hrs & ->).
    apply Forall_cons in Hsafe as [Hc Hsafe]. simpl in Hr, Hc.
    apply wp_bind. eapply wp_mono; [by apply respond_outcome|].
    intros res s1 (rc & -> & Hm1 & _ & Hout). apply wp_bind. eapply wp_mono.
    { apply (IH rs'); rewrite Hm1; done. }
    intros res s2 (rcs & fs & -> & Hm2 & Hl1 & Hl2 & Hall & Htr). apply wp_ret.
    rewrite Hm1 in *. clear IH. destruct Hout as [(frame & Hf & Ht1 & _)|(-> & _ & evs & Ht1 & Hev)].
    + exists (rc :: rcs), (Some frame :: fs). split_and!; simpl; try congruence.
      * intros [|i]; simpl; [|by eauto]. intros. by simplify_eq/=.
      * rewrite Htr, Ht1, frames_written_app, <- app_assoc. done.
    + exists (-1 :: rcs), (None :: fs). split_and!; simpl; try congruence.
      * intros [|i]; simpl; [|by eauto]. intros. by simplify_eq/=.
      * by rewrite Htr, Ht1, frames_written_app, Hev, app_nil_r.
Qed.

End server.
