(* ===== verification/RoundTrip.v ===== *)
(** * From a responder's arguments to the receiver, and back

    The responders, seen from the other end of the descriptor: what each of them writes reads
    back, in the format of [Wire.v], as what its caller described; the frame alone
    determines what was described; and it passes the checks that the kernel makes of a
    response. *)

From S2P Require Import Prelude Memory Platform Effects Request RequestSpec Guids GuidsSpec.
From S2P Require Import Frame FrameSpec Response ResponseSpec Wire Server.
#[local] Open Scope Z_scope.

Section round_trip.
Context `{P : Platform}.

(** ** What arrives *)

(** One frame was written to [fd]; it is a success response to [r] whose payload reads as [v]. *)
Definition arrives {A} (fd : Z) (r : rsi_request) (rd : reader A) (v : A) (s s' : state) :
    Prop :=
  exists frame payload,
    st_trace s' = st_trace s ++ [EvWrite fd frame] /\
    read_frame frame = Some (mk_wire_frame (rq_request_id r)
      (Z.lor (rq_op_code r) RSI_RESPONSE_BIT) RSI_OK payload) /\
    read_all rd payload = Some v.

(** The caller's arguments describe a reply, and it fits the [u32] length of a frame. *)
Definition fits (reply : list byte -> Prop) : Prop :=
  exists payload, reply payload /\ 18 + Z.of_nat (length payload) < 2 ^ 32.

(** The C types of the arguments that [safe_call] leaves open. *)
Definition typed_call (c : call) : Prop :=
  match c with
  | CallStatus _ | CallDeleteLayer _ _ => True
  | CallLookup _ n _ mn | CallEnumChildren _ n _ mn | CallQueryValues _ n _ mn =>
      is_u32 n /\ is_u32 mn
  | CallReadKey _ _ _ _ _ v l t => is_u8 v /\ is_u8 l /\ is_u64 t
  end.

Context `{!PlatformLaws P}.

(** An answer that is sent arrives as whatever its payload reads as. *)
Lemma answer_arrives {A} fd req r c (reply : list byte -> Prop) (rd : reader A) v s :
  ~ may_refuse -> points_to rsi_request (st_mem s) req r -> safe_call (st_mem s) c ->
  fits reply -> (forall b, reply b -> is_answer (st_mem s) r c RSI_OK b) ->
  (forall b, reply b -> read_all rd b = Some v) ->
  wp (respond fd req c) s (λ res s', exists rc, res = Ok rc /\ arrives fd r rd v s s').
Proof.
  intros Hmem Hr Hc (payload & Hrep & Hlen) Hans Hrd.
  eapply wp_mono; [by eapply respond_answers; [| | |by apply Hans|]|].
  intros res s' (rc & -> & _ & Htr & _). exists rc. split; [done|].
  eexists _, payload. split_and!; [exact Htr| |by apply Hrd].
  assert (typed rsi_request r) as Ht by (by eapply read_typed, Hr).
  apply read_frame_response; [by destruct_typed Ht|by destruct_typed Ht|apply ok_u32|done].
Qed.

(** C14: a LOOKUP reply arrives. Called with a LOOKUP request and arguments that describe a
    reply of less than 4 GiB, when memory is granted, [rsi_respond_lookup] writes one frame,
    and its receiver reads the request's id, the response op, success, and then exactly the
    caller's entries and metadata, in order and with nothing left over. *)
Theorem rsi_respond_lookup_roundtrip fd req r p n mp mn s :
  ~ may_refuse -> points_to rsi_request (st_mem s) req r ->
  rq_op_code r = wrap 16 RSI_LOOKUP -> is_u32 n -> is_u32 mn ->
  safe_block rsi_path_entry (safe_entry (st_mem s)) (st_mem s) p n ->
  safe_block rsi_key_metadata (safe_metadata (st_mem s)) (st_mem s) mp mn ->
  fits (lookup_reply (st_mem s) p n mp mn) ->
  wp (rsi_respond_lookup fd req p n mp mn) s (λ res s', exists rc, res = Ok rc /\
    arrives fd r rd_lookup_payload
      (array_view (entry_view (st_mem s)) (st_mem s) p n,
       array_view (metadata_view (st_mem s)) (st_mem s) mp mn) s s').
Proof.
  intros Hmem Hr Hop Hn Hmn He Hm Hfits.
  apply (answer_arrives fd req r (CallLookup p n mp mn) _ _ _ _ Hmem Hr (conj He Hm) Hfits);
    [done|]. intros b. by apply lookup_reply_reads.
Qed.

(** C15: the same for [rsi_respond_enum_children]: the receiver reads the children, each with
    its name and entries, and the metadata. *)
Theorem rsi_respond_enum_children_roundtrip fd req r p n mp mn s :
  ~ may_refuse -> points_to rsi_request (st_mem s) req r ->
  rq_op_code r = wrap 16 RSI_ENUM_CHILDREN -> is_u32 n -> is_u32 mn ->
  safe_block rsi_child_entry (safe_child (st_mem s)) (st_mem s) p n ->
  safe_block rsi_key_metadata (safe_metadata (st_mem s)) (st_mem s) mp mn ->
  fits (enum_children_reply (st_mem s) p n mp mn) ->
  wp (rsi_respond_enum_children fd req p n mp mn) s (λ res s', exists rc, res = Ok rc /\
    arrives fd r rd_enum_children_payload
      (array_view (child_view (st_mem s)) (st_mem s) p n,
       array_view (metadata_view (st_mem s)) (st_mem s) mp mn) s s').
Proof.
  intros Hmem Hr Hop Hn Hmn He Hm Hfits.
  apply (answer_arrives fd req r (CallEnumChildren p n mp mn) _ _ _ _ Hmem Hr (conj He Hm) Hfits);
    [done|]. intros b. by apply enum_children_reply_reads.
Qed.

(** C16: the same for [rsi_respond_query_values]: the receiver reads the values, each with its
    name, layer, type, data and sequence, and the blanket tombstones. *)
Theorem rsi_respond_query_values_roundtrip fd req r p n bp bn s :
  ~ may_refuse -> points_to rsi_request (st_mem s) req r ->
  rq_op_code r = wrap 16 RSI_QUERY_VALUES -> is_u32 n -> is_u32 bn ->
  safe_block rsi_value_entry (safe_value (st_mem s)) (st_mem s) p n ->
  safe_block rsi_blanket_entry (safe_blanket (st_mem s)) (st_mem s) bp bn ->
  fits (query_values_reply (st_mem s) p n bp bn) ->
  wp (rsi_respond_query_values fd req p n bp bn) s (λ res s', exists rc, res = Ok rc /\
    arrives fd r rd_query_values_payload
      (array_view (value_view (st_mem s)) (st_mem s) p n,
       array_view (blanket_view (st_mem s)) (st_mem s) bp bn) s s').
Proof.
  intros Hmem Hr Hop Hn Hbn He Hb Hfits.
  apply (answer_arrives fd req r (CallQueryValues p n bp bn) _ _ _ _ Hmem Hr (conj He Hb) Hfits);
    [done|]. intros b. by apply query_values_reply_reads.
Qed.

(** C17: the same for [rsi_respond_read_key]: the receiver reads the name, the parent GUID,
    the descriptor, the flags and the time that were passed, and both flags are booleans. *)
Theorem rsi_respond_read_key_roundtrip fd req r name name_len parent sd sd_len v l t s :
  ~ may_refuse -> points_to rsi_request (st_mem s) req r ->
  rq_op_code r = wrap 16 RSI_READ_KEY -> is_u32 name_len -> is_u32 sd_len -> is_u64 t ->
  safe_field (st_mem s) name name_len -> safe_field (st_mem s) parent 16 ->
  safe_field (st_mem s) sd sd_len ->
  fits (read_key_reply (st_mem s) name name_len parent sd sd_len v l t) ->
  wp (rsi_respond_read_key fd req name name_len parent sd sd_len v l t) s
    (λ res s', exists rc, res = Ok rc /\ (v = 0 \/ v = 1) /\ (l = 0 \/ l = 1) /\
      arrives fd r rd_read_key_payload
        (mk_wire_key (bytes_at (st_mem s) name name_len) (bytes_at (st_mem s) parent 16)
           (bytes_at (st_mem s) sd sd_len) v l t) s s').
Proof.
  intros Hmem Hr Hop Hnl Hdl Ht Hn Hp Hd Hfits. pose proof Hfits as (payload & Hrep & _).
  apply read_key_reply_reads in Hrep as (_ & Hv & Hl); [|done..].
  eapply wp_mono; [apply (answer_arrives fd req r
    (CallReadKey name name_len parent sd sd_len v l t)
    (read_key_reply (st_mem s) name name_len parent sd sd_len v l t) rd_read_key_payload
    (mk_wire_key (bytes_at (st_mem s) name name_len) (bytes_at (st_mem s) parent 16)
       (bytes_at (st_mem s) sd sd_len) v l t) _ Hmem Hr)|];
    [by split_and!|exact Hfits|done|intros b; by apply read_key_reply_reads|].
  intros res s' (rc & -> & Harr). by exists rc.
Qed.

(** C18: the same for [rsi_respond_delete_layer]: the receiver reads the orphaned GUIDs the
    caller passed, as many as it announced, and they are distinct and not nil. *)
Theorem rsi_respond_delete_layer_roundtrip fd req r p n s :
  ~ may_refuse -> points_to rsi_request (st_mem s) req r ->
  rq_op_code r = wrap 16 RSI_DELETE_LAYER -> is_u32 n ->
  safe_field (st_mem s) p (n * 16) -> fits (delete_layer_reply (st_mem s) p n) ->
  wp (rsi_respond_delete_layer fd req p n) s (λ res s', exists rc gs, res = Ok rc /\
    orphans_of (st_mem s) p n = Some gs /\ Z.of_nat (length gs) = n /\ valid_guid_set gs /\
    arrives fd r rd_delete_layer_payload gs s s').
Proof.
  intros Hmem Hr Hop Hn Hs Hfits. pose proof Hfits as (payload & Hrep & _).
  apply delete_layer_reply_reads in Hrep as (gs & Hgs & _ & Hl & Hv); [|done].
  eapply wp_mono; [apply (answer_arrives fd req r (CallDeleteLayer p n)
    (delete_layer_reply (st_mem s) p n) rd_delete_layer_payload gs _ Hmem Hr (conj Hs Hn) Hfits)|]; [done| |].
  - intros b Hb. apply delete_layer_reply_reads in Hb as (gs' & Hgs' & Hrd & _); [|done].
    by rewrite Hgs in Hgs'; injection Hgs' as ->.
  - intros res s' (rc & -> & Harr). by exists rc, gs.
Qed.

(** ** The frame determines the answer *)

(** What the arguments of a call stand for, in the memory it is made in. *)
Inductive description_of : Type :=
  | Status (status : Z)
  | Lookup (entries : list wire_entry) (metadata : list wire_metadata)
  | EnumChildren (children : list wire_child) (metadata : list wire_metadata)
  | DeleteLayer (orphaned : option (list guid))
  | ReadKey (key : wire_key)
  | QueryValues (entries : list wire_value) (blankets : list wire_blanket).

Definition describes (m : memory) (c : call) : description_of :=
  match c with
  | CallStatus status => Status status
  | CallLookup p n mp mn =>
      Lookup (array_view (entry_view m) m p n) (array_view (metadata_view m) m mp mn)
  | CallEnumChildren p n mp mn =>
      EnumChildren (array_view (child_view m) m p n) (array_view (metadata_view m) m mp mn)
  | CallDeleteLayer p n => DeleteLayer (orphans_of m p n)
  | CallReadKey name name_len parent sd sd_len v l t =>
      ReadKey (mk_wire_key (bytes_at m name name_len) (bytes_at m parent 16)
                 (bytes_at m sd sd_len) v l t)
  | CallQueryValues p n bp bn =>
      QueryValues (array_view (value_view m) m p n) (array_view (blanket_view m) m bp bn)
  end.

(** The description is a function of the kind of request, the status and the payload. *)
Definition understood (op status : Z) (payload : list byte) : option description_of :=
  if decide (op = wrap 16 RSI_LOOKUP /\ status = RSI_OK) then
    (λ p, Lookup p.1 p.2) <$> read_all rd_lookup_payload payload
  else if decide (op = wrap 16 RSI_ENUM_CHILDREN /\ status = RSI_OK) then
    (λ p, EnumChildren p.1 p.2) <$> read_all rd_enum_children_payload payload
  else if decide (op = wrap 16 RSI_DELETE_LAYER /\ status = RSI_OK) then
    (λ gs, DeleteLayer (Some gs)) <$> read_all rd_delete_layer_payload payload
  else if decide (op = wrap 16 RSI_READ_KEY /\ status = RSI_OK) then
    ReadKey <$> read_all rd_read_key_payload payload
  else if decide (op = wrap 16 RSI_QUERY_VALUES /\ status = RSI_OK) then
    (λ p, QueryValues p.1 p.2) <$> read_all rd_query_values_payload payload
  else Some (Status status).

Lemma payload_ops_distinct : NoDup payload_ops.
Proof.
  assert (forall i j a b, request_ops !! i = Some a -> request_ops !! j = Some b ->
    i <> j -> a <> b) as Hne by apply request_ops_lookup.
  unfold payload_ops. cbn [fmap list_fmap].
  repeat (apply NoDup_cons_2; [rewrite ?not_elem_of_cons; split_and?|]);
    try apply not_elem_of_nil; try apply NoDup_nil_2;
    [by apply (Hne 0 4)%nat|by apply (Hne 0 6)%nat|by apply (Hne 0 16)%nat|by apply (Hne 0 9)%nat
    |by apply (Hne 4 6)%nat|by apply (Hne 4 16)%nat|by apply (Hne 4 9)%nat
    |by apply (Hne 6 16)%nat|by apply (Hne 6 9)%nat|by apply (Hne 16 9)%nat].
Qed.

Lemma answer_understood m r c status payload :
  typed_call c -> safe_call m c -> is_answer m r c status payload ->
  understood (rq_op_code r) status payload = Some (describes m c).
Proof.
  intros Ht Hc Hans. pose proof payload_ops_distinct as Hnd. unfold payload_ops in Hnd.
  cbn [fmap list_fmap] in Hnd. rewrite !NoDup_cons, !not_elem_of_cons in Hnd.
  unfold understood. destruct c; simpl in Hans.
  { destruct Hans as (-> & -> & Hal). unfold status_allowed in Hal.
    assert (status0 = RSI_OK -> rq_op_code r ∉ payload_ops) as Hno.
    { intros ->. rewrite Z.eqb_refl in Hal. apply andb_true_iff in Hal as [_ Hal].
      by apply bool_decide_eq_true in Hal. }
    unfold payload_ops in Hno. cbn [fmap list_fmap] in Hno. rewrite !not_elem_of_cons in Hno.
    rewrite !decide_False by (intros [? ?]; tauto). done. }
  all: destruct Hans as (-> & -> & Hrep); rewrite ?(decide_False (P := _ = _ /\ _)) by
    (intros [? _]; repeat match goal with H : _ /\ _ |- _ => destruct H end; congruence);
    rewrite decide_True by done.
  - by rewrite (lookup_reply_reads _ _ _ _ _ _ (proj1 Ht) (proj2 Ht) Hrep).
  - by rewrite (enum_children_reply_reads _ _ _ _ _ _ (proj1 Ht) (proj2 Ht) Hrep).
  - apply delete_layer_reply_reads in Hrep as (gs & Hgs & -> & _); [|apply Hc]. simpl.
    by rewrite Hgs.
  - apply read_key_reply_reads in Hrep as [-> _]; [done|apply Hc..|apply Ht].
  - by rewrite (query_values_reply_reads _ _ _ _ _ _ (proj1 Ht) (proj2 Ht) Hrep).
Qed.

(** A call that put [frame] on the wire. *)
Record wrote (fd req : Z) (r : rsi_request) (c : call) (s : state) (frame : list byte) :
    Prop := mk_wrote {
  wrote_request : points_to rsi_request (st_mem s) req r;
  wrote_typed : typed_call c;
  wrote_safe : safe_call (st_mem s) c;
  wrote_run : exists rc s',
    respond fd req c s = ORet rc s' /\ st_trace s' = st_trace s ++ [EvWrite fd frame]
}.

Lemma wrote_answer fd req r c s frame :
  wrote fd req r c s frame -> answer_frame (st_mem s) r c frame.
Proof.
  intros [Hr _ Hc (rc & s' & Hrun & Htr)].
  pose proof (respond_outcome fd req r c s Hr Hc) as Hout. unfold wp in Hout. rewrite Hrun in Hout.
  destruct Hout as (_ & _ & _ & _ & [(f & Hf & Htr' & _)|(_ & _ & evs & Htr' & Hno)]);
    rewrite Htr in Htr'; apply app_inv_head in Htr'.
  - by injection Htr' as ->.
  - by subst evs.
Qed.

(** C19: nothing is lost between a caller and the wire: the frame determines the answer. Two
    calls, of whatever responders and in whatever memory, that answer requests of one kind
    with the same frame answer the same request id, and what their arguments describe
    (status, entries, children, metadata, GUIDs, key, values, tombstones, byte for byte) is
    the same. *)
Theorem frame_determines_answer fd1 fd2 req1 req2 r1 r2 c1 c2 s1 s2 frame :
  wrote fd1 req1 r1 c1 s1 frame -> wrote fd2 req2 r2 c2 s2 frame ->
  rq_op_code r1 = rq_op_code r2 ->
  rq_request_id r1 = rq_request_id r2 /\ describes (st_mem s1) c1 = describes (st_mem s2) c2.
Proof.
  intros H1 H2 Hop. destruct (wrote_answer _ _ _ _ _ _ H1) as (st1 & b1 & Ha1 & Hf1).
  destruct (wrote_answer _ _ _ _ _ _ H2) as (st2 & b2 & Ha2 & Hf2).
  rewrite Hf1 in Hf2. injection Hf2 as Hid _ -> ->. split; [done|].
  apply answer_understood in Ha1; [|apply H1..]. apply answer_understood in Ha2; [|apply H2..].
  rewrite Hop, Ha2 in Ha1. by injection Ha1.
Qed.

(** ** The kernel's checks

    "kernel validates >=18 bytes, total_len == count, request_id match, op_code = req |
    0x8000, status" (docs/design-notes.md). *)

(** The [n]-byte integer at offset [a]. *)
Definition le_field (frame : list byte) (a n : nat) : Z := of_le (take n (drop a frame)).

Definition kernel_accepts (r : rsi_request) (frame : list byte) : bool :=
  (RSI_MIN_RESPONSE_SIZE <=? Z.of_nat (length frame)) &&
  (le_field frame 0 4 =? Z.of_nat (length frame)) &&
  (le_field frame 4 8 =? rq_request_id r) &&
  (le_field frame 12 2 =? Z.lor (rq_op_code r) RSI_RESPONSE_BIT) &&
  is_ok (parse_rsi_status (le_field frame 14 4)).

Lemma rd_int_inv n bs z rest :
  rd_int n bs = Some (z, rest) -> (n <= length bs)%nat /\ z = of_le (take n bs) /\ rest = drop n bs.
Proof.
  unfold rd_int, mbind, reader_bind, rd_bytes.
  destruct (Nat.leb_spec n (length bs)); [|done]. by intros [= <- <-].
Qed.

Lemma read_frame_inv frame id op status payload :
  read_frame frame = Some (mk_wire_frame id op status payload) ->
  18 <= Z.of_nat (length frame) /\ le_field frame 0 4 = Z.of_nat (length frame) /\
  le_field frame 4 8 = id /\ le_field frame 12 2 = op /\ le_field frame 14 4 = status.
Proof.
  unfold read_frame, rd_header, mret, reader_ret, mbind, reader_bind, le_field.
  destruct (rd_int 4 frame) as [[t f1]|] eqn:H1; [|done].
  destruct (rd_int 8 f1) as [[i f2]|] eqn:H2; [|done].
  destruct (rd_int 2 f2) as [[o f3]|] eqn:H3; [|done].
  destruct (rd_int 4 f3) as [[st f4]|] eqn:H4; [|done].
  apply rd_int_inv in H1 as (? & -> & ->), H2 as (? & -> & ->), H3 as (? & -> & ->),
    H4 as (? & -> & ->).
  rewrite !drop_drop in *. rewrite !length_drop in *. rewrite drop_0. cbn [Nat.add].
  destruct (Z.eqb_spec (of_le (take 4 frame)) (Z.of_nat (length frame))) as [->|]; [|done].
  intros [= <- <- <- _]. split_and!; [lia|done..].
Qed.

Lemma answer_status_known m r c status payload :
  is_answer m r c status payload -> is_ok (parse_rsi_status status) = true.
Proof.
  destruct c; simpl; [intros (-> & _ & Hal)|intros (_ & -> & _)..];
    [|by rewrite (proj2 (status_ok RSI_OK))..].
  unfold status_allowed in Hal. by apply andb_true_iff in Hal as [[_ ?]%andb_true_iff _].
Qed.

Lemma answer_frame_accepted m r c frame :
  answer_frame m r c frame -> kernel_accepts r frame = true.
Proof.
  intros (status & payload & Hans & Hf).
  apply read_frame_inv in Hf as (Hmin & Ht & Hid & Hop & Hst). unfold kernel_accepts.
  rewrite Ht, Hid, Hop, Hst, min_response_size, !Z.eqb_refl, (proj2 (Z.leb_le _ _) Hmin).
  by rewrite (answer_status_known _ _ _ _ _ Hans).
Qed.

(** C20: no responder sends the kernel a frame it would turn down: whatever a call on a valid
    request writes passes each of the checks the kernel is documented to make, and a call
    that returned 0 has written one such frame. *)
Theorem written_frames_accepted fd req r c s :
  points_to rsi_request (st_mem s) req r -> safe_call (st_mem s) c ->
  wp (respond fd req c) s (λ res s', exists rc evs, res = Ok rc /\
    st_trace s' = st_trace s ++ evs /\
    Forall (λ frame, kernel_accepts r frame = true) (frames_written evs) /\
    (rc = 0 -> exists frame, evs = [EvWrite fd frame])).
Proof.
  intros Hr Hc. eapply wp_mono; [by apply respond_outcome|].
  intros res s' (rc & -> & _ & _ & [(frame & Hf & Htr & _)|(-> & _ & evs & Htr & Hno)]).
  - exists rc, [EvWrite fd frame]. split_and!; [done|done| |by exists frame].
    apply Forall_singleton. by eapply answer_frame_accepted.
  - exists (-1), evs. rewrite Hno. by split_and!.
Qed.

End round_trip.
