(* ===== verification/Service.v ===== *)
(** * One request, end to end

    The exported functions composed as [include/rsi/request.h] says they are used ("A source's
    serve loop reads one framed request from its source fd, splits the header from the
    payload [...], dispatches on the op-code"): [rsi_read_request], [rsi_parse_request] and a
    responder, the answer being a parameter, any function of the parsed request; and
    [rsi_read_request], [rsi_parse_request] and each of the decoders. *)

From S2P Require Import Prelude Memory Platform Effects Request Guids GuidsSpec Frame.
From S2P Require Import FrameSpec Response ResponseSpec Wire RequestSpec Server.

Section service.
Context `{P : Platform}.

(** ** A turn *)

(** What a source does with a frame of [n] bytes in [buf]: parse it into the struct at [out]
    and make the call its policy chooses for the request. *)
Definition handle (fd buf n out : Z) (answer : rsi_request -> call) : M Z :=
  rc ← rsi_parse_request buf n out;
  if rc <? 0 then mret (-1) else r ← deref rsi_request out; respond fd out (answer r).

(** One turn: read a frame, handle it. *)
Definition serve (fd buf cap out : Z) (answer : rsi_request -> call) : M Z :=
  n ← rsi_read_request fd buf cap;
  if n <=? 0 then mret (-1) else handle fd buf n out answer.

(** ** What it does, as relations *)

(** [m'] is [m] outside the receive buffer and the request struct. *)
Definition same_elsewhere (buf cap out : Z) (m m' : memory) : Prop :=
  forall p, ~ (buf <= p < buf + cap) -> ~ (out <= p < out + size_of rsi_request) ->
    m' !! p = m !! p.

(** The caller's buffers: [cap] valid bytes at [buf], a request struct at [out], apart. *)
Record serve_buffers (m : memory) (buf cap out : Z) : Prop := mk_serve_buffers {
  serve_ptr : 0 < buf;
  serve_cap : 0 <= cap <= isize_max;
  serve_no_wrap : buf + cap < 2 ^ 64;
  serve_valid : is_Some (load m buf (Z.to_nat cap));
  serve_out : exists r0, points_to rsi_request m out r0;
  serve_apart : buf + cap <= out \/ out + size_of rsi_request <= buf
}.

(** A policy whose calls are safe wherever the turn leaves memory. *)
Definition safe_policy (buf cap out : Z) (m : memory) (answer : rsi_request -> call) : Prop :=
  forall m' r, same_elsewhere buf cap out m m' -> safe_call m' (answer r).

Section relations.
Context (fd buf cap out : Z) (answer : rsi_request -> call).

(** A read that ends the service: it delivered nothing, or failed. *)
Inductive read_ends (s : state) : Z -> state -> Prop :=
  | read_eof k s' :
      k_read (st_kern s) fd cap = (k, Ok []) -> st_kern s' = k -> st_errno s' = st_errno s ->
      st_mem s' = st_mem s -> st_trace s' = st_trace s ++ [EvRead fd cap] ->
      read_ends s 0 s'
  | read_fails k e s' :
      k_read (st_kern s) fd cap = (k, Err e) -> st_kern s' = k -> st_errno s' = e ->
      st_mem s' = st_mem s -> st_trace s' = st_trace s ++ [EvRead fd cap] ->
      read_ends s (-1) s'.

(** A read that delivered the bytes [bs] to the buffer. *)
Record read_frame_into (s : state) (bs : list byte) (s1 : state) : Prop := mk_read_frame_into {
  rfi_bytes : bs <> [];
  rfi_fits : Z.of_nat (length bs) <= cap;
  rfi_kern : k_read (st_kern s) fd cap = (st_kern s1, Ok bs);
  rfi_mem : received (st_mem s) (st_mem s1) buf bs;
  rfi_trace : st_trace s1 = st_trace s ++ [EvRead fd cap]
}.

(** Handling the frame [bs]: at most one frame leaves, and it is an answer, by the policy's
    call, to the very request in [bs]. *)
Inductive handled (bs : list byte) (s1 : state) : Z -> state -> Prop :=
  | handled_answered h m r frame rc s' :
      parse_rsi_request_header (mk_slice buf bs) = Ok h ->
      r = header_view buf (Z.of_nat (length bs)) h ->
      answer_frame m r (answer r) frame -> st_mem s' = m ->
      st_trace s' = st_trace s1 ++ [EvWrite fd frame] ->
      st_kern s' = (k_write (st_kern s1) fd frame).1 ->
      (rc = -1 \/ rc = 0) ->
      (rc = 0 <-> (k_write (st_kern s1) fd frame).2 = Ok (Z.of_nat (length frame))) ->
      handled bs s1 rc s'
  | handled_dropped evs s' :
      st_trace s' = st_trace s1 ++ evs -> frames_written evs = [] ->
      st_kern s' = st_kern s1 ->
      handled bs s1 (-1) s'.

Inductive turn (s : state) : Z -> state -> Prop :=
  | turn_ends n s' : read_ends s n s' -> turn s (-1) s'
  | turn_handles bs s1 rc s' :
      read_frame_into s bs s1 -> handled bs s1 rc s' ->
      same_elsewhere buf cap out (st_mem s) (st_mem s') ->
      turn s rc s'.

End relations.

(** ** One turn *)

Context `{!PlatformLaws P}.

Lemma same_elsewhere_refl buf cap out m : same_elsewhere buf cap out m m.
Proof. by intros p. Qed.

Lemma same_elsewhere_trans buf cap out m1 m2 m3 :
  same_elsewhere buf cap out m1 m2 -> same_elsewhere buf cap out m2 m3 ->
  same_elsewhere buf cap out m1 m3.
Proof. intros H1 H2 p Hp Hq. by rewrite H2, H1. Qed.

(** A delivered frame leaves the buffers as they should be. *)
Lemma received_buffers buf cap out m m1 bs :
  serve_buffers m buf cap out -> Z.of_nat (length bs) <= cap -> received m m1 buf bs ->
  serve_buffers m1 buf cap out /\ same_elsewhere buf cap out m m1 /\
  frame_at m1 buf (Z.of_nat (length bs)) bs.
Proof.
  intros [Hp Hcap Hw Hv (r0 & Hout) Hap] Hlen [Hl Hm]. split_and!.
  - split; [done..| |exists r0|done].
    + rewrite load_is_Some in *. intros a Ha.
      destruct (decide (buf <= a < buf + Z.of_nat (length bs))) as [Hin|Hin].
      * apply (proj1 (load_is_Some m1 buf (length bs))); [by eauto|lia].
      * rewrite Hm by done. apply Hv. lia.
    + eapply points_to_ext; [|exact Hout]. intros p Hpr. apply Hm. lia.
  - intros p Hp1 _. apply Hm. lia.
  - split; (done || lia).
Qed.

(** So does a parsed header. *)
Lemma stored_buffers buf cap out m m2 r :
  serve_buffers m buf cap out -> stored rsi_request m m2 out r ->
  serve_buffers m2 buf cap out /\ same_elsewhere buf cap out m m2 /\
  points_to rsi_request m2 out r.
Proof.
  intros [Hp Hcap Hw Hv (r0 & Hout) Hap] [Hrd Hm].
  assert (points_to rsi_request m2 out r) as Hr by (destruct Hout as (? & ? & _); by split_and!).
  split_and!; [|by intros p _ Hq; apply Hm|done].
  split; [done..| |by exists r|done].
  rewrite load_is_Some in *. intros a Ha. rewrite Hm by lia. apply Hv. lia.
Qed.

Lemma handle_outcome fd buf cap out answer bs s :
  serve_buffers (st_mem s) buf cap out -> Z.of_nat (length bs) <= cap ->
  frame_at (st_mem s) buf (Z.of_nat (length bs)) bs ->
  safe_policy buf cap out (st_mem s) answer ->
  wp (handle fd buf (Z.of_nat (length bs)) out answer) s (λ res s', exists rc, res = Ok rc /\
    handled fd buf answer bs s rc s' /\ serve_buffers (st_mem s') buf cap out /\
    same_elsewhere buf cap out (st_mem s) (st_mem s')).
Proof.
  intros Hb Hlen Hf Hsafe. pose proof Hb as [Hp Hcap Hw Hv (r0 & Hout) Hap].
  apply wp_bind. pose proof (parse_request_outcome _ _ _ _ _ _ Hf Hout) as Hparse.
  destruct (parse_rsi_request_header (mk_slice buf bs)) as [h|e] eqn:Hh; unfold wp at 1.
  2: { rewrite Hparse. exists (-1). split_and!; [done| |done|by apply same_elsewhere_refl].
       apply (handled_dropped _ _ _ _ _ []); [|done..]. simpl. by rewrite app_nil_r. }
  destruct Hparse as (m2 & -> & Hst).
  destruct (stored_buffers _ _ _ _ _ _ Hb Hst) as (Hb2 & Hse & Hr). simpl.
  apply wp_bind. eapply wp_deref; [exact Hr|].
  eapply wp_mono; [apply respond_outcome; [exact Hr|by apply Hsafe]|].
  intros res s' (rc & -> & Hm & Hrc & Hout'). simpl in Hm, Hout'. rewrite Hm.
  exists rc. split_and!; [done| |done|done].
  destruct Hout' as [(frame & Hfr & Ht & Hk & Hok)|(-> & Hk & evs & Ht & Hev)].
  - eapply handled_answered; [done|done|exact Hfr|done|exact Ht|exact Hk|tauto|exact Hok].
  - by apply (handled_dropped _ _ _ _ _ evs).
Qed.

(** Reading: the service ends, or a frame is there. *)
Lemma wp_read_request fd buf cap out s (Q : result Z Z -> state -> Prop) :
  serve_buffers (st_mem s) buf cap out ->
  (forall n s', n <= 0 -> read_ends fd cap s n s' -> Q (Ok n) s') ->
  (forall bs s1, read_frame_into fd buf cap s bs s1 ->
     serve_buffers (st_mem s1) buf cap out ->
     same_elsewhere buf cap out (st_mem s) (st_mem s1) ->
     frame_at (st_mem s1) buf (Z.of_nat (length bs)) bs -> Q (Ok (Z.of_nat (length bs))) s1) ->
  wp (rsi_read_request fd buf cap) s Q.
Proof.
  intros Hb Hend Hread. destruct (serve_valid _ _ _ _ Hb) as [bs0 Hv].
  destruct (read_request_outcome fd buf cap bs0 s Hv) as (k & res & Hk & Hres).
  unfold wp. destruct res as [bs|e].
  2: { rewrite Hres. apply Hend; [done|]. by eapply read_fails. }
  destruct Hres as (m1 & -> & Hlen & Hrecv).
  destruct (received_buffers _ _ _ _ _ _ Hb Hlen Hrecv) as (Hb1 & Hse & Hf).
  destruct (decide (bs = [])) as [->|Hne].
  - apply Hend; [done|]. eapply read_eof; [done..| |done].
    apply map_eq. intros p. apply Hrecv. simpl. lia.
  - apply Hread; [|done..]. split; [done..|by rewrite Hk|done|done].
Qed.

Lemma serve_turn fd buf cap out answer s :
  serve_buffers (st_mem s) buf cap out -> safe_policy buf cap out (st_mem s) answer ->
  wp (serve fd buf cap out answer) s
    (λ res s', exists rc, res = Ok rc /\ turn fd buf cap out answer s rc s').
Proof.
  intros Hb Hsafe. apply wp_bind. eapply wp_read_request; [done| |].
  - intros n s' Hn Hends. rewrite (proj2 (Z.leb_le _ _) Hn). exists (-1). split; [done|].
    by eapply turn_ends.
  - intros bs s1 Hr Hb1 Hse Hf. pose proof (rfi_bytes _ _ _ _ _ _ Hr).
    rewrite (proj2 (Z.leb_gt _ _)) by (destruct bs; simpl in *; (done || lia)).
    eapply wp_mono; [apply (handle_outcome _ _ cap); [done|apply Hr|done|]|].
    { intros m' r Hm'. apply Hsafe. by eapply same_elsewhere_trans. }
    intros res s' (rc & -> & Hh & _ & Hse'). exists rc. split; [done|].
    eapply turn_handles; [done..|]. by eapply same_elsewhere_trans.
Qed.

(** C5: a turn (read, parse, answer) never aborts or goes wrong, whatever bytes arrive. It reads once;
    then either nothing is written and the turn returns -1, or one frame is, which carries
    the id and the op of the very request that was read and reads back as what the policy's
    call for that request describes. Memory changes in the receive buffer and the request
    struct only. *)
Theorem serve_answers_what_it_read fd buf cap out answer s :
  serve_buffers (st_mem s) buf cap out -> safe_policy buf cap out (st_mem s) answer ->
  wp (serve fd buf cap out answer) s
    (λ res s', exists rc, res = Ok rc /\ turn fd buf cap out answer s rc s').
Proof. apply serve_turn. Qed.

(** ** Receiving a request

    The other half of a turn: a frame is read and parsed, and its payload decoded into the
    struct at [body]. *)

Definition receive (fd buf cap out : Z) (decoder : Z -> Z -> M Z) (body : Z) : M Z :=
  n ← rsi_read_request fd buf cap;
  if n <=? 0 then mret (-1) else
  rc ← rsi_parse_request buf n out;
  if rc <? 0 then mret (-1) else decoder out body.

(** The buffers of a turn and a struct for the body, apart from them; the payload length of a
    frame in the buffer is a [u32]. *)
Record receive_buffers (A : Type) `{Repr A} (m : memory) (buf cap out body : Z) : Prop :=
  mk_receive_buffers {
  rcv_serve : serve_buffers m buf cap out;
  rcv_cap : cap < 2 ^ 32;
  rcv_body : exists a, points_to A m body a;
  rcv_apart_buf : buf + cap <= body \/ body + size_of A <= buf;
  rcv_apart_out : out + size_of rsi_request <= body \/ body + size_of A <= out
}.

Section receiving.
Context {V A : Type} `{Repr A} (decoder : Z -> Z -> M Z) (op : Z).
Context (parse : slice -> result LcsError V) (view : V -> A).
Context (fields : V -> list RsiLengthPrefixedField).

(** The payload of the frame [bs] in [buf]. *)
Definition payload_in (buf : Z) (bs : list byte) : slice :=
  mk_slice (buf + RSI_REQUEST_HEADER_SIZE) (drop (Z.to_nat RSI_REQUEST_HEADER_SIZE) bs).

(** What comes of it: no frame; or a frame [bs], with a bad header, of another kind, with a
    bad payload, or decoded. Then the request struct holds the header, [body] what lcs-core
    makes of the payload, and each field the bytes it stands for. *)
Inductive received_as (fd buf cap out body : Z) (s : state) : Z -> state -> Prop :=
  | received_none n s' : read_ends fd cap s n s' -> received_as fd buf cap out body s (-1) s'
  | received_bad_header bs s1 e :
      read_frame_into fd buf cap s bs s1 ->
      parse_rsi_request_header (mk_slice buf bs) = Err e ->
      received_as fd buf cap out body s (-1) (with_errno EBADMSG s1)
  | received_other bs s1 h m2 :
      read_frame_into fd buf cap s bs s1 ->
      parse_rsi_request_header (mk_slice buf bs) = Ok h -> hd_op_code h <> wrap 16 op ->
      stored rsi_request (st_mem s1) m2 out (header_view buf (Z.of_nat (length bs)) h) ->
      received_as fd buf cap out body s (-1) (with_errno EINVAL (with_mem m2 s1))
  | received_bad_payload bs s1 h m2 e :
      read_frame_into fd buf cap s bs s1 ->
      parse_rsi_request_header (mk_slice buf bs) = Ok h -> hd_op_code h = wrap 16 op ->
      stored rsi_request (st_mem s1) m2 out (header_view buf (Z.of_nat (length bs)) h) ->
      parse (payload_in buf bs) = Err e ->
      received_as fd buf cap out body s (-1) (with_errno EBADMSG (with_mem m2 s1))
  | received_decoded bs s1 h m2 v m3 :
      read_frame_into fd buf cap s bs s1 ->
      parse_rsi_request_header (mk_slice buf bs) = Ok h -> hd_op_code h = wrap 16 op ->
      stored rsi_request (st_mem s1) m2 out (header_view buf (Z.of_nat (length bs)) h) ->
      parse (payload_in buf bs) = Ok v -> stored A m2 m3 body (view v) ->
      Forall (λ f, load m3 (lpf f).1 (Z.to_nat (lpf f).2) = Some (sl_bytes (lpf_data f)))
        (fields v) ->
      received_as fd buf cap out body s 0 (with_mem m3 s1).

(** Wherever the caller's buffers are and whatever is read, that is what comes of it. *)
Definition receives : Prop :=
  forall fd buf cap out body s, receive_buffers A (st_mem s) buf cap out body ->
    wp (receive fd buf cap out decoder body) s
      (λ res s', exists rc, res = Ok rc /\ received_as fd buf cap out body s rc s').

Lemma wp_receive (wf : slice -> V -> Prop) :
  decoder_correct decoder op parse view -> returns parse wf ->
  (forall sl v, wf sl v -> Forall (borrowed sl) (fields v)) -> receives.
Proof.
  intros Hdec Hwf Hfields fd buf cap out body s [Hb Hcap (a & Ha) Hapb Hapo].
  pose proof Hb as [Hp Hcap' Hw Hv (r0 & Hr0) Hap].
  apply wp_bind. eapply wp_read_request; [exact Hb| |].
  { intros n s' Hn Hends. rewrite (proj2 (Z.leb_le _ _) Hn). exists (-1). split; [done|].
    by eapply received_none. }
  intros bs s1 Hrd Hb1 Hse Hf. pose proof (rfi_fits _ _ _ _ _ _ Hrd) as Hfits.
  pose proof (rfi_bytes _ _ _ _ _ _ Hrd).
  rewrite (proj2 (Z.leb_gt _ _)) by (destruct bs; simpl in *; (done || lia)).
  destruct (serve_out _ _ _ _ Hb1) as (r1 & Hr1).
  apply wp_bind. pose proof (parse_request_outcome _ _ _ _ _ _ Hf Hr1) as Hparse.
  destruct (parse_rsi_request_header (mk_slice buf bs)) as [h|e] eqn:Hh; unfold wp at 1.
  2: { rewrite Hparse. exists (-1). split; [done|]. by eapply received_bad_header. }
  destruct Hparse as (m2 & -> & Hst). simpl.
  destruct (stored_buffers _ _ _ _ _ _ Hb1 Hst) as (_ & Hse2 & Hr).
  assert (request_payload m2 (header_view buf (Z.of_nat (length bs)) h) (payload_in buf bs))
    as Hpay by (eapply header_view_payload; [exact Hf|exact Hst|lia| |exact Hh];
      rewrite request_header_size; lia).
  assert (points_to A m2 body a) as Ha2.
  { eapply points_to_ext; [|exact Ha]. intros q Hq. rewrite Hse2, Hse by lia. done. }
  unfold wp. destruct (decide (hd_op_code h = wrap 16 op)) as [Hop|Hop].
  2: { rewrite (decoder_wrong_op _ _ _ _ Hdec _ _ _ (with_mem m2 s1) Hr Hop).
       exists (-1). split; [done|]. by eapply received_other. }
  destruct (parse (payload_in buf bs)) as [v|e] eqn:Hpl.
  2: { rewrite (decoder_malformed _ _ _ _ Hdec _ _ _ _ _ _ (with_mem m2 s1) Hr Hop Hpay Ha2 Hpl).
       exists (-1). split; [done|]. by eapply received_bad_payload. }
  destruct (decoder_decodes _ _ _ _ Hdec _ _ _ _ _ _ (with_mem m2 s1) Hr Hop Hpay Ha2 Hpl)
    as (m3 & -> & Hst3).
  exists 0. split; [done|].
  apply (received_decoded fd buf cap out body s bs s1 h m2 v m3); try done.
  eapply Forall_impl; [by eapply Hfields, Hwf|]. intros f Hfd.
  eapply borrowed_readable; [exact Hpay|exact Hfd|]. intros q Hq. apply Hst3.
  destruct (parse_header_wf _ _ Hh) as (Hmin & _). simpl in Hmin.
  unfold header_view in Hq. simpl in Hq. rewrite request_header_size in Hq, Hmin.
  rewrite wrap_small in Hq by lia. lia.
Qed.

End receiving.

(** By a decoder, whose payload parser returns the fields [wf] says. *)
Tactic Notation "received_by" constr(dec) constr(wf) :=
  apply (wp_receive _ _ _ _ _ _ dec wf); intros sl v Hv;
  first [apply Forall_nil_2|solve_fields].


End service.
