(* ===== verification/Pipe.v ===== *)
(** * Responses through a pipe

    The tests of [src/src/response.rs] that read a response back give the responder the
    write end of a pipe, which a second thread drains ([response_from_pipe], lines 709-738).
    Here are that helper, the pipe it relies on (a parameter, like the rest of the kernel),
    and the theorem that the scheduling of the two threads does not matter. *)

From stdpp Require Import relations.
From S2P Require Import Prelude Memory Platform Effects Testing Request RequestSpec.
From S2P Require Import FrameSpec Wire Server.
#[local] Open Scope Z_scope.

(** ** [pipe(7)]

    [pipe_at k r w bs open]: in the kernel state [k] there is a pipe with read end [r] and
    write end [w], which holds the bytes [bs]; [open] says whether the write end is. *)
Class Pipes `{P : Platform} : Type := {
  k_pipe : kstate -> kstate * result Z (Z * Z);
  pipe_at : kstate -> Z -> Z -> list byte -> bool -> Prop
}.

(** "PIPE_BUF [...] is 4096 bytes". *)
Definition PIPE_BUF : Z := 4096.

Class PipesLaws `{P : Platform} (PP : Pipes) : Prop := {
  (** a pipe is in one state at a time *)
  pipe_ends k r w bs bs' open open' :
    pipe_at k r w bs open -> pipe_at k r w bs' open' -> bs = bs' /\ open = open';
  pipe_opens k k' r w : k_pipe k = (k', Ok (r, w)) -> pipe_at k' r w [] true;
  (** "writes of less than PIPE_BUF bytes must be atomic", and an empty pipe has room for
      that many *)
  pipe_writes k r w frame :
    pipe_at k r w [] true -> frame <> [] -> Z.of_nat (length frame) < PIPE_BUF ->
    exists k', k_write k w frame = (k', Ok (Z.of_nat (length frame))) /\
               pipe_at k' r w frame true;
  (** bytes come out in the order they went in, at least one if there are any *)
  pipe_reads k r w bs open cap :
    pipe_at k r w bs open -> bs <> [] -> 0 < cap ->
    exists k' n, (0 < n)%nat /\ Z.of_nat n <= cap /\
      k_read k r cap = (k', Ok (take n bs)) /\ pipe_at k' r w (drop n bs) open;
  (** "If all file descriptors referring to the write end of a pipe have been closed, then
      an attempt to read(2) from the pipe will see end-of-file" *)
  pipe_eof k r w cap :
    pipe_at k r w [] false -> 0 < cap ->
    exists k', k_read k r cap = (k', Ok []) /\ pipe_at k' r w [] false;
  pipe_close_write k r w bs :
    pipe_at k r w bs true -> exists k', k_close k w = (k', Ok 0) /\ pipe_at k' r w bs false;
  pipe_close_read k r w bs open :
    pipe_at k r w bs open -> exists k', k_close k r = (k', Ok 0)
}.

Section pipe.
Context `{P : Platform, PP : !Pipes}.

(** ** The helper *)

Definition libc_pipe : M (option (Z * Z)) := λ s,
  match k_pipe (st_kern s) with
  | (k, Ok fds) => ORet (Some fds) (with_kern k s)
  | (k, Err e) => ORet None (with_errno e (with_kern k s))
  end.

(** The loop of the reader thread; [None] when [fuel] reads were not enough. *)
Fixpoint reader_loop (fuel : nat) (read_fd chunk : Z) (out : list byte) :
    M (option (list byte)) :=
  match fuel with
  | O => mret None
  | S fuel =>
      n ← libc_read read_fd chunk 256;
      _ ← assert_that (0 <=? n);
      if n =? 0 then mret (Some out)
      else sl ← from_raw_parts chunk n; reader_loop fuel read_fd chunk (out ++ sl_bytes sl)
  end.

(** The thread, its chunk being in a slot no test uses. Nothing larger than [PIPE_BUF] is
    sent, so that many reads and one more are enough. *)
Definition reader_thread (read_fd : Z) : M (list byte) :=
  _ ← modify (λ s, with_mem (store (st_mem s) (slot 15) (zeros 256)) s);
  o ← reader_loop (Z.to_nat PIPE_BUF) read_fd (slot 15) [];
  c ← libc_close read_fd;
  _ ← assert_eq c 0;
  match o with Some out => mret out | None => abort end.

(** The thread runs when it is joined: one schedule of many, see below. *)
Definition response_from_pipe (f : Z -> M Z) : M (list byte) :=
  fds ← libc_pipe;
  match fds with
  | None => abort
  | Some (read_fd, write_fd) =>
      rc ← f write_fd;
      c ← libc_close write_fd;
      _ ← assert_eq c 0;
      _ ← assert_eq rc 0;
      reader_thread read_fd
  end.

(** ** Two threads

    Where each of them is. The responder's call is one step: its only system call is the
    [write] of the whole frame. *)

Inductive main_thread : Type :=
  | Responding
  | Closing (rc : Z)
  | Joining (rc : Z).

Inductive reading_thread : Type :=
  | Reading (out : list byte)
  | Finished (out : list byte).

Record threads := mk_threads {
  th_state : state;
  th_main : main_thread;
  th_reader : reading_thread
}.

Section schedules.
Context (f : Z -> M Z) (read_fd write_fd : Z).

(** A read of an empty pipe waits while the write end is open. *)
Definition blocked (k : kstate) : Prop := pipe_at k read_fd write_fd [] true.

Inductive thread_step : threads -> threads -> Prop :=
  | step_respond s rc s' rd :
      f write_fd s = ORet rc s' ->
      thread_step (mk_threads s Responding rd) (mk_threads s' (Closing rc) rd)
  | step_close s rc s' rd :
      libc_close write_fd s = ORet 0 s' ->
      thread_step (mk_threads s (Closing rc) rd) (mk_threads s' (Joining rc) rd)
  | step_read s mt out k bs :
      ~ blocked (st_kern s) -> k_read (st_kern s) read_fd 256 = (k, Ok bs) -> bs <> [] ->
      thread_step (mk_threads s mt (Reading out))
                  (mk_threads (with_kern k s) mt (Reading (out ++ bs)))
  | step_eof s mt out k k' :
      ~ blocked (st_kern s) -> k_read (st_kern s) read_fd 256 = (k, Ok []) ->
      k_close k read_fd = (k', Ok 0) ->
      thread_step (mk_threads s mt (Reading out))
                  (mk_threads (with_kern k' s) mt (Finished out)).

(** The threads before the call, and once [frame] has been handed over and joined. *)
Definition started (s : state) : threads := mk_threads s Responding (Reading []).
Definition joined (frame : list byte) (c : threads) : Prop :=
  th_main c = Joining 0 /\ th_reader c = Finished frame.

End schedules.

(** *** The schedules of a call that sends one frame *)

Context `{!PlatformLaws P, PL : !PipesLaws PP}.

(** [m] returns 0 after one [write] of [frame]. *)
Definition sends_frame (m : M Z) (fd : Z) (frame : list byte) (s : state) : Prop :=
  exists s', m s = ORet 0 s' /\ st_mem s' = st_mem s /\
             st_kern s' = (k_write (st_kern s) fd frame).1.

Section invariant.
Context (f : Z -> M Z) (read_fd write_fd : Z) (frame : list byte) (s0 : state).
Context (Hpipe : pipe_at (st_kern s0) read_fd write_fd [] true).
Context (Hframe : frame <> []) (Hsize : Z.of_nat (length frame) < PIPE_BUF).
Context (Hsends : sends_frame (f write_fd) write_fd frame s0).

(** What the threads can be up to; [bs] is what is still in the pipe. *)
Inductive on_course : threads -> Prop :=
  | on_course_start : on_course (started s0)
  | on_course_sent s out bs :
      pipe_at (st_kern s) read_fd write_fd bs true -> out ++ bs = frame ->
      on_course (mk_threads s (Closing 0) (Reading out))
  | on_course_closed s out bs :
      pipe_at (st_kern s) read_fd write_fd bs false -> out ++ bs = frame ->
      on_course (mk_threads s (Joining 0) (Reading out))
  | on_course_joined s : on_course (mk_threads s (Joining 0) (Finished frame)).

(** The calls left to make, and the bytes left to read. *)
Definition to_do (c : threads) : nat :=
  match th_main c with Responding => 2 | Closing _ => 1 | Joining _ => 0 end +
  match th_reader c with
  | Reading out => 1 + (length frame - length out)
  | Finished _ => 0
  end.

Lemma pipe_read_inv k bs bs' open k' :
  pipe_at k read_fd write_fd bs open -> bs <> [] -> k_read k read_fd 256 = (k', Ok bs') ->
  bs' <> [] /\ exists rest, bs = bs' ++ rest /\ pipe_at k' read_fd write_fd rest open.
Proof.
  intros Hk Hne Hread. destruct (pipe_reads _ _ _ _ _ 256 Hk Hne) as (k2 & n & Hn & _ & Hr & Hk2);
    [lia|]. rewrite Hread in Hr. injection Hr as -> ->. split.
  - destruct bs, n; (done || lia).
  - exists (drop n bs). by rewrite take_drop.
Qed.

(** Reading goes on where it stopped. *)
Lemma reading_step (m : main_thread) s out bs open k bs' (Q : threads -> Prop) :
  pipe_at (st_kern s) read_fd write_fd bs open -> out ++ bs = frame -> bs <> [] ->
  k_read (st_kern s) read_fd 256 = (k, Ok bs') ->
  (forall rest, pipe_at k read_fd write_fd rest open -> (out ++ bs') ++ rest = frame ->
     Q (mk_threads (with_kern k s) m (Reading (out ++ bs')))) ->
  Q (mk_threads (with_kern k s) m (Reading (out ++ bs'))) /\
  (length out < length (out ++ bs') <= length frame)%nat.
Proof.
  intros Hk Hout Hne Hread HQ. destruct (pipe_read_inv _ _ _ _ _ Hk Hne Hread)
    as (Hne' & rest & -> & Hk').
  split; [apply (HQ rest); [done|by rewrite <- app_assoc]|].
  rewrite <- Hout, !length_app. destruct bs'; [done|]. simpl. lia.
Qed.

Lemma thread_step_on_course c c' :
  on_course c -> thread_step f read_fd write_fd c c' -> on_course c' /\ (to_do c' < to_do c)%nat.
Proof.
  intros Hc Hstep. destruct Hc as [|s out bs Hk Hout|s out bs Hk Hout|s].
  - inversion Hstep as [? ? ? ? Hf| |? ? ? ? ? Hb|? ? ? ? ? Hb]; subst; [|done..].
    destruct Hsends as (s1 & Hf1 & _ & Hk1). rewrite Hf in Hf1. injection Hf1 as -> ->.
    destruct (pipe_writes _ _ _ _ Hpipe Hframe Hsize) as (k & Hw & Hk). rewrite Hw in Hk1.
    split; [|unfold to_do; simpl; lia]. apply (on_course_sent _ _ frame); [by rewrite Hk1|done].
  - assert (bs <> [] \/ blocked read_fd write_fd (st_kern s)) as Hne by (destruct bs; auto).
    inversion Hstep as [|? ? ? ? Hcl|? ? ? ? ? Hb Hread|? ? ? ? ? Hb Hread]; subst.
    + destruct (pipe_close_write _ _ _ _ Hk) as (k & Hw & Hk'). revert Hcl.
      unfold libc_close, syscall. rewrite Hw. intros [= <-].
      split; [|unfold to_do; simpl; lia]. by apply (on_course_closed _ _ bs).
    + destruct Hne as [Hne|]; [|done].
      destruct (reading_step (Closing 0) s out bs true k bs0 on_course Hk Hout Hne Hread);
        [intros rest ? ?; by eapply on_course_sent|]. split; [done|]. unfold to_do. simpl. lia.
    + destruct Hne as [Hne|]; [|done].
      destruct (pipe_read_inv _ _ _ _ _ Hk Hne Hread). done.
  - inversion Hstep as [| |? ? ? ? ? Hb Hread|? ? ? ? ? Hb Hread]; subst.
    + destruct (decide (bs = [])) as [->|Hne].
      { destruct (pipe_eof _ _ _ 256 Hk) as (k2 & Hr & _); [lia|].
        rewrite Hread in Hr. by injection Hr as -> ->. }
      destruct (reading_step (Joining 0) s out bs false k bs0 on_course Hk Hout Hne Hread);
        [intros rest ? ?; by eapply on_course_closed|]. split; [done|]. unfold to_do. simpl. lia.
    + destruct (decide (bs = [])) as [->|Hne];
        [|by destruct (pipe_read_inv _ _ _ _ _ Hk Hne Hread)].
      rewrite app_nil_r in Hout. rewrite Hout. split; [apply on_course_joined|unfold to_do; simpl; lia].
  - inversion Hstep.
Qed.

(** Someone can go on unless both are done. *)
Lemma on_course_nf c :
  on_course c -> nf (thread_step f read_fd write_fd) c -> joined frame c.
Proof.
  intros Hc Hnf. destruct Hc as [|s out bs Hk Hout|s out bs Hk Hout|s]; [..|done]; destruct Hnf.
  - destruct Hsends as (s1 & Hf1 & _). eexists. by apply step_respond.
  - destruct (pipe_close_write _ _ _ _ Hk) as (k & Hw & _).
    eexists. apply step_close. unfold libc_close, syscall. by rewrite Hw.
  - destruct (decide (bs = [])) as [->|Hne].
    + destruct (pipe_eof _ _ _ 256 Hk) as (k & Hr & Hk'); [lia|].
      destruct (pipe_close_read _ _ _ _ _ Hk') as (k' & Hcl).
      eexists. eapply step_eof; [|exact Hr|exact Hcl].
      intros Hb. by destruct (pipe_ends _ _ _ _ _ _ _ Hk Hb).
    + destruct (pipe_reads _ _ _ _ _ 256 Hk Hne) as (k & n & Hn & _ & Hr & _); [lia|].
      eexists. eapply step_read; [|exact Hr|destruct bs, n; (done || lia)].
      intros Hb. by destruct (pipe_ends _ _ _ _ _ _ _ Hk Hb).
Qed.

Lemma on_course_rtc c c' :
  on_course c -> rtc (thread_step f read_fd write_fd) c c' -> on_course c'.
Proof.
  intros Hc. induction 1 as [|c c1 c2 Hs _ IH]; [done|]. apply IH.
  by apply (thread_step_on_course c).
Qed.

Lemma on_course_sn c : on_course c -> sn (thread_step f read_fd write_fd) c.
Proof.
  remember (to_do c) as n eqn:Hn. revert c Hn.
  induction (lt_wf n) as [n _ IH]. intros c -> Hc. constructor. intros c' Hstep.
  destruct (thread_step_on_course _ _ Hc Hstep) as [Hc' Hlt]. by apply (IH (to_do c')).
Qed.

End invariant.

(** Every call that describes an answer is such a call. *)
Lemma respond_sends_frame fd req r c status payload s k :
  let frame := response_frame (rq_request_id r) (rq_op_code r) status payload in
  ~ may_refuse -> points_to rsi_request (st_mem s) req r -> safe_call (st_mem s) c ->
  is_answer (st_mem s) r c status payload -> 18 + Z.of_nat (length payload) < PIPE_BUF ->
  k_write (st_kern s) fd frame = (k, Ok (Z.of_nat (length frame))) ->
  sends_frame (respond fd req c) fd frame s.
Proof.
  intros frame Hmem Hr Hc Hans Hlen Hk.
  pose proof (respond_answers fd req r c status payload s Hmem Hr Hc Hans
    ltac:(unfold PIPE_BUF in *; lia)) as Hrun.
  unfold wp in Hrun. destruct (respond fd req c s) as [rc s'|e s'| |] eqn:Hs;
    [|by destruct Hrun as (? & ? & _)|done..].
  destruct Hrun as (rc' & [= <-] & Hm & _ & Hk' & Hrc). fold frame in Hk', Hrc.
  rewrite Hk in Hrc. cbn [snd] in Hrc. rewrite Z.eqb_refl in Hrc. destruct Hrc as [-> _].
  by exists s'.
Qed.

(** C6: the scheduling of the two threads of the repository's round-trip tests does not
    matter. When a responder that is called with an answer is given the write end of a pipe
    and another thread drains the pipe in chunks, every schedule comes to an end, no thread
    is left waiting, the responder returns 0, and the thread that is joined returns exactly
    the frame of the answer, however the chunks were cut. *)
Theorem every_schedule_delivers read_fd write_fd req r c status payload s :
  let frame := response_frame (rq_request_id r) (rq_op_code r) status payload in
  ~ may_refuse -> points_to rsi_request (st_mem s) req r -> safe_call (st_mem s) c ->
  is_answer (st_mem s) r c status payload -> 18 + Z.of_nat (length payload) < PIPE_BUF ->
  pipe_at (st_kern s) read_fd write_fd [] true ->
  let step := thread_step (λ fd, respond fd req c) read_fd write_fd in
  sn step (started s) /\
  forall th, rtc step (started s) th -> nf step th -> joined frame th.
Proof.
  intros frame Hmem Hr Hc Hans Hlen Hpipe step.
  assert (length frame = (18 + length payload)%nat) as Hfl by apply length_response_frame.
  assert (frame <> []) as Hne by (destruct frame; done).
  assert (Z.of_nat (length frame) < PIPE_BUF) as Hsize by lia.
  destruct (pipe_writes _ _ _ _ Hpipe Hne Hsize) as (k & Hw & _).
  assert (sends_frame ((λ fd, respond fd req c) write_fd) write_fd frame s) as Hsends
    by exact (respond_sends_frame _ _ _ _ _ _ _ _ Hmem Hr Hc Hans Hlen Hw).
  pose proof (on_course_start read_fd write_fd frame s) as Hstart.
  split; [by apply (on_course_sn _ _ _ frame s)|]. intros th Hsteps Hnf.
  eapply (on_course_nf _ _ _ frame s); [exact Hsends| |exact Hnf].
  by eapply (on_course_rtc _ _ _ frame s Hpipe Hne Hsize Hsends); [exact Hstart|].
Qed.

(** ** The helper returns the frame *)

Lemma wp_reader_loop fuel read_fd write_fd chunk bs out s
    (Q : result Z (option (list byte)) -> state -> Prop) :
  (length bs < fuel)%nat -> 0 < chunk -> chunk + 256 < 2 ^ 64 ->
  is_Some (load (st_mem s) chunk 256) -> pipe_at (st_kern s) read_fd write_fd bs false ->
  (forall s', pipe_at (st_kern s') read_fd write_fd [] false -> Q (Ok (Some (out ++ bs))) s') ->
  wp (reader_loop fuel read_fd chunk out) s Q.
Proof.
  revert bs out s. induction fuel as [|fuel IH]; intros bs out s Hfuel Hc Hw Hl Hk HQ; [lia|].
  pose proof Hl as [bs0 Hbs0]. simpl. apply wp_bind. unfold wp at 1, libc_read.
  change (Z.to_nat 256) with 256%nat. rewrite Hbs0.
  destruct (decide (bs = [])) as [->|Hne].
  { destruct (pipe_eof _ _ _ 256 Hk) as (k & -> & Hk'); [lia|].
    apply wp_bind, wp_assert_that; [done|]. apply wp_ret. rewrite <- (app_nil_r out). by apply HQ. }
  destruct (pipe_reads _ _ _ _ _ 256 Hk Hne) as (k & n & Hn & Hn256 & -> & Hk'); [lia|].
  assert (0 < length (take n bs) <= 256)%nat as Hlen.
  { rewrite length_take. destruct bs; [done|]. simpl. lia. }
  apply wp_bind, wp_assert_that; [lia|]. rewrite (proj2 (Z.eqb_neq _ _)) by lia.
  apply wp_bind. eapply (wp_from_raw_parts _ _ (take n bs));
    [lia|unfold isize_max; lia|lia|rewrite Nat2Z.id; apply load_store|].
  apply (IH (drop n bs)); [rewrite length_take in Hlen; rewrite length_drop; lia|done|done| |exact Hk'|].
  - apply load_is_Some. intros a Ha. simpl. rewrite lookup_store.
    case_decide; [apply lookup_lt_is_Some; lia|].
    apply (proj1 (load_is_Some (st_mem s) chunk 256)); [done|lia].
  - intros s'. cbn [sl_bytes]. rewrite <- app_assoc, take_drop. apply HQ.
Qed.

Lemma wp_libc_close fd k s (Q : result Z Z -> state -> Prop) :
  k_close (st_kern s) fd = (k, Ok 0) ->
  (forall s', st_mem s' = st_mem s -> st_kern s' = k -> Q (Ok 0) s') -> wp (libc_close fd) s Q.
Proof. intros Hk HQ. unfold wp, libc_close, syscall. rewrite Hk. by apply HQ. Qed.

(** A pipe can be had. *)
Definition pipe_available (s : state) : Prop :=
  exists k fds, k_pipe (st_kern s) = (k, Ok fds).

Lemma wp_response_from_pipe f frame s (Q : result Z (list byte) -> state -> Prop) :
  pipe_available s -> frame <> [] -> Z.of_nat (length frame) < PIPE_BUF ->
  (forall kern write_fd kern',
     k_write kern write_fd frame = (kern', Ok (Z.of_nat (length frame))) ->
     sends_frame (f write_fd) write_fd frame (with_kern kern s)) ->
  (forall s', Q (Ok frame) s') ->
  wp (response_from_pipe f) s Q.
Proof.
  intros (k0 & [r w] & Hpipe) Hne Hsize Hsends HQ. unfold response_from_pipe.
  apply wp_bind. unfold wp at 1, libc_pipe. rewrite Hpipe. apply pipe_opens in Hpipe as Hp0.
  destruct (pipe_writes _ _ _ _ Hp0 Hne Hsize) as (k1 & Hw & Hp1).
  destruct (Hsends _ _ _ Hw) as (s1 & Hf & _ & Hk1). simpl in Hk1. rewrite Hw in Hk1.
  apply wp_bind. eapply wp_run; [exact Hf|].
  destruct (pipe_close_write _ _ _ _ Hp1) as (k2 & Hcl & Hp2). simpl in Hk1.
  apply wp_bind. eapply wp_libc_close; [by rewrite Hk1|]. intros s2 Hm2 <-.
  apply wp_bind, wp_assert_eq; [done|]. apply wp_bind, wp_assert_eq; [done|].
  unfold reader_thread. apply wp_bind, wp_modify. apply wp_bind.
  eapply (wp_reader_loop _ _ w _ frame); [lia|unfold slot; lia|unfold slot; lia| |exact Hp2|].
  { eexists. exact (load_store _ (slot 15) (zeros 256)). }
  intros s3 Hp3. destruct (pipe_close_read _ _ _ _ _ Hp3) as (k3 & Hcl3).
  apply wp_bind. eapply wp_libc_close; [exact Hcl3|]. intros s4 _ _.
  apply wp_bind, wp_assert_eq; [done|]. apply wp_ret, HQ.
Qed.

Lemma responded_through_pipe (f : Z -> M Z) req r c status payload s
    (Q : result Z (list byte) -> state -> Prop) :
  let frame := response_frame (rq_request_id r) (rq_op_code r) status payload in
  (forall fd, f fd = respond fd req c) ->
  ~ may_refuse -> pipe_available s -> points_to rsi_request (st_mem s) req r ->
  safe_call (st_mem s) c -> is_answer (st_mem s) r c status payload ->
  18 + Z.of_nat (length payload) < PIPE_BUF -> (forall s', Q (Ok frame) s') ->
  wp (response_from_pipe f) s Q.
Proof.
  intros frame Hf Hmem Hpipe Hr Hc Hans Hlen.
  assert (length frame = (18 + length payload)%nat) as Hfl by apply length_response_frame.
  apply wp_response_from_pipe; [done|by destruct frame|lia|].
  intros kern fd kern' Hwr. rewrite Hf.
  by apply (respond_sends_frame fd req r c status payload (with_kern kern s) kern').
Qed.

(** C2: [response_from_pipe] terminates: given a responder that is called with an answer and
    a system that has a pipe to give, the helper of the repository's round-trip tests runs
    to its end (no assertion fails, the reader's loop ends within its fuel however the pipe
    cuts the frame) and returns exactly the frame of the answer. *)
Theorem response_from_pipe_returns req r c status payload s :
  ~ may_refuse -> pipe_available s -> points_to rsi_request (st_mem s) req r ->
  safe_call (st_mem s) c -> is_answer (st_mem s) r c status payload ->
  18 + Z.of_nat (length payload) < PIPE_BUF ->
  exists s', response_from_pipe (λ fd, respond fd req c) s =
    ORet (response_frame (rq_request_id r) (rq_op_code r) status payload) s'.
Proof.
  intros Hmem Hpipe Hr Hc Hans Hlen.
  apply wp_returns. by eapply responded_through_pipe.
Qed.

End pipe.
