(* ===== verification/ResponseTests.v ===== *)
(** * The tests of [response.rs] that read a response back

    "The strongest local check: write via the public C ABI helper, parse with lcs-core's
    response parser, then run the semantic validators that apply to source-provided
    payloads" ([src/src/response.rs], lines 764-1031). lcs-core's parsers and validators are
    parameters here, like its request writers, and nothing at all is assumed of them: what
    is proved is which bytes each test hands to them. *)

From Stdlib Require Import String.
From S2P Require Import Prelude Memory Platform Effects Testing Request RequestSpec Guids.
From S2P Require Import GuidsSpec Frame FrameSpec Response ResponseSpec Wire Server Pipe.
From S2P Require Import RequestTests UnitTests.
#[local] Open Scope Z_scope.

(** ** [lcs_core::rsi]: response parsers

    With the fields and methods the tests use. *)

Record read_key_response := mk_read_key_response {
  rk_name : list byte; rk_parent_guid : guid; rk_sd : list byte; rk_volatile : bool;
  rk_symlink : bool; rk_last_write_time : Z }.
Record child_block := mk_child_block { cb_child_name : list byte; cb_path_entry_count : Z }.

Class ResponseParsers `{P : Platform, W : !RequestWriters} : Type := {
  parse_rsi_read_key_success_response_payload :
    list byte -> RsiRetainedRequest -> result LcsError read_key_response;
  LookupResponse : Type;
  lr_entry_count : LookupResponse -> Z;
  lr_metadata_count : LookupResponse -> Z;
  parse_rsi_lookup_success_response_payload :
    list byte -> RsiRetainedRequest -> result LcsError LookupResponse;
  validate_rsi_lookup_metadata_completeness : LookupResponse -> result LcsError unit;
  DeleteLayerResponse : Type;
  dl_count : DeleteLayerResponse -> Z;
  dl_guid_at : DeleteLayerResponse -> Z -> option guid;
  parse_rsi_delete_layer_success_response_payload :
    list byte -> RsiRetainedRequest -> result LcsError DeleteLayerResponse;
  validate_rsi_delete_layer_orphaned_guids : DeleteLayerResponse -> result LcsError unit;
  EnumChildrenResponse : Type;
  er_child_count : EnumChildrenResponse -> Z;
  er_metadata_count : EnumChildrenResponse -> Z;
  (** what [for_each_child] hands to its closure, in order *)
  er_children : EnumChildrenResponse -> result LcsError (list child_block);
  parse_rsi_enum_children_success_response_payload :
    list byte -> RsiRetainedRequest -> result LcsError EnumChildrenResponse;
  validate_rsi_enum_children_metadata_completeness :
    EnumChildrenResponse -> result LcsError unit;
  QueryValuesResponse : Type;
  qr_entry_count : QueryValuesResponse -> Z;
  qr_blanket_count : QueryValuesResponse -> Z;
  (** what [for_each_value_entry] hands to its closure; the fields are those on the wire *)
  qr_value_entries : QueryValuesResponse -> result LcsError (list wire_value);
  parse_rsi_query_values_success_response_payload :
    list byte -> RsiRetainedRequest -> result LcsError QueryValuesResponse;
  (** the [status] of the response *)
  validate_rsi_status_only_response_for_request :
    list byte -> RsiRetainedRequest -> result LcsError RsiStatus
}.

Section response_tests.
Context `{P : Platform, W : !RequestWriters, RP : !ResponseParsers, PP : !Pipes}.

(** ** The tests *)

(** Each is a request, locals, a response through the pipe, and the checks of the frame that
    came out. *)

Definition read_key_checks (built : built RsiRetainedRequest) (frame : list byte) : M unit :=
  parsed ← unwrap (parse_rsi_read_key_success_response_payload frame (built_retained built));
  _ ← assert_eq (rk_name parsed) (bytes_of "App");
  _ ← assert_eq (rk_parent_guid parsed) (guid_of_byte Byte.x33);
  _ ← assert_eq (rk_sd parsed) (replicate 8 Byte.xaa);
  _ ← assert_that (rk_volatile parsed);
  _ ← assert_that (negb (rk_symlink parsed));
  assert_eq (rk_last_write_time parsed) 0xdeadbeef.

Definition read_key_response_roundtrips : M unit :=
  built ← unwrap (write_rsi_read_key_request_frame 64 7 0 (guid_of_byte Byte.x55));
  _ ← locals [fake_request RSI_READ_KEY 7; bytes_of "App"; replicate 8 Byte.xaa;
              guid_of_byte Byte.x33];
  let name := slot 1 in
  let sd := slot 2 in
  let parent := slot 3 in
  frame ← response_from_pipe (λ fd,
    rsi_respond_read_key fd req name 3 parent sd 8 1 0 0xdeadbeef);
  read_key_checks built frame.

Definition lookup_locals : list (list byte) :=
  [ fake_request RSI_LOOKUP 11; bytes_of "base"; bytes_of "overlay";
    literal rsi_path_entry [VInt (slot 1); VInt 4; VInt RSI_PATH_TARGET_GUID;
                            VGuid (guid_of_byte Byte.x10); VInt 100] ++
    literal rsi_path_entry [VInt (slot 2); VInt 7; VInt RSI_PATH_TARGET_GUID;
                            VGuid (guid_of_byte Byte.x20); VInt 200];
    replicate 4 Byte.x77; replicate 4 Byte.x88;
    literal rsi_key_metadata [VGuid (guid_of_byte Byte.x10); VInt (slot 4); VInt 4; VInt 0;
                              VInt 0; VInt 41] ++
    literal rsi_key_metadata [VGuid (guid_of_byte Byte.x20); VInt (slot 5); VInt 4; VInt 0;
                              VInt 0; VInt 42] ].

Definition lookup_checks (built : built RsiRetainedRequest) (frame : list byte) : M unit :=
  parsed ← unwrap (parse_rsi_lookup_success_response_payload frame (built_retained built));
  _ ← assert_eq (lr_entry_count parsed) 2;
  _ ← assert_eq (lr_metadata_count parsed) 2;
  unwrap (validate_rsi_lookup_metadata_completeness parsed).

Definition lookup_response_roundtrips : M unit :=
  built ← unwrap (write_rsi_lookup_request_frame 128 11 0 (guid_of_byte Byte.x01)
                    (bytes_of "Software"));
  _ ← locals lookup_locals;
  let entries := slot 3 in
  let metadata := slot 6 in
  frame ← response_from_pipe (λ fd, rsi_respond_lookup fd req entries 2 metadata 2);
  lookup_checks built frame.

Definition delete_layer_checks (built : built RsiRetainedRequest) (frame : list byte) : M unit :=
  parsed ← unwrap (parse_rsi_delete_layer_success_response_payload frame
                     (built_retained built));
  _ ← assert_eq (dl_count parsed) 2;
  _ ← assert_eq (dl_guid_at parsed 0) (Some (guid_of_byte Byte.x10));
  _ ← assert_eq (dl_guid_at parsed 1) (Some (guid_of_byte Byte.x20));
  _ ← assert_eq (dl_guid_at parsed 2) None;
  unwrap (validate_rsi_delete_layer_orphaned_guids parsed).

Definition delete_layer_response_roundtrips : M unit :=
  built ← unwrap (write_rsi_delete_layer_request_frame 64 13 0 (bytes_of "overlay"));
  _ ← locals [fake_request RSI_DELETE_LAYER 13;
              guid_of_byte Byte.x10 ++ guid_of_byte Byte.x20];
  let guids := slot 1 in
  frame ← response_from_pipe (λ fd, rsi_respond_delete_layer fd req guids 2);
  delete_layer_checks built frame.

Definition enum_children_locals : list (list byte) :=
  [ fake_request RSI_ENUM_CHILDREN 17; bytes_of "base"; bytes_of "mask"; bytes_of "Child";
    literal rsi_path_entry [VInt (slot 1); VInt 4; VInt RSI_PATH_TARGET_GUID;
                            VGuid (guid_of_byte Byte.x30); VInt 300] ++
    literal rsi_path_entry [VInt (slot 2); VInt 4; VInt RSI_PATH_TARGET_HIDDEN;
                            VGuid nil_guid; VInt 301];
    literal rsi_child_entry [VInt (slot 3); VInt 5; VInt (slot 4); VInt 2];
    replicate 3 Byte.xab;
    literal rsi_key_metadata [VGuid (guid_of_byte Byte.x30); VInt (slot 6); VInt 3; VInt 1;
                              VInt 0; VInt 1234] ].

Definition enum_children_checks (built : built RsiRetainedRequest) (frame : list byte) : M unit :=
  parsed ← unwrap (parse_rsi_enum_children_success_response_payload frame
                     (built_retained built));
  _ ← assert_eq (er_child_count parsed) 1;
  _ ← assert_eq (er_metadata_count parsed) 1;
  _ ← unwrap (validate_rsi_enum_children_metadata_completeness parsed);
  children ← unwrap (er_children parsed);
  seen_child ← for_each children (λ child seen_child,
    _ ← assert_eq (cb_child_name child) (bytes_of "Child");
    _ ← assert_eq (cb_path_entry_count child) 2;
    mret true) false;
  assert_that seen_child.

Definition enum_children_response_roundtrips : M unit :=
  built ← unwrap (write_rsi_enum_children_request_frame 64 17 0 (guid_of_byte Byte.x44));
  _ ← locals enum_children_locals;
  let children := slot 5 in
  let metadata := slot 7 in
  frame ← response_from_pipe (λ fd, rsi_respond_enum_children fd req children 1 metadata 1);
  enum_children_checks built frame.

Definition query_values_locals : list (list byte) :=
  [ fake_request RSI_QUERY_VALUES 19; bytes_of "Answer"; bytes_of "base";
    [Byte.x2a; Byte.x00; Byte.x00; Byte.x00];
    literal rsi_value_entry [VInt (slot 1); VInt 6; VInt (slot 2); VInt 4; VInt 4;
                             VInt (slot 3); VInt 4; VInt 400];
    bytes_of "mask";
    literal rsi_blanket_entry [VInt (slot 5); VInt 4; VInt 401] ].

Definition query_values_checks (built : built RsiRetainedRequest) (frame : list byte) : M unit :=
  parsed ← unwrap (parse_rsi_query_values_success_response_payload frame
                     (built_retained built));
  _ ← assert_eq (qr_entry_count parsed) 1;
  _ ← assert_eq (qr_blanket_count parsed) 1;
  entries ← unwrap (qr_value_entries parsed);
  seen_value ← for_each entries (λ entry seen_value,
    _ ← assert_eq (wv_name entry) (bytes_of "Answer");
    _ ← assert_eq (wv_layer entry) (bytes_of "base");
    _ ← assert_eq (wv_type entry) 4;
    _ ← assert_eq (wv_data entry) [Byte.x2a; Byte.x00; Byte.x00; Byte.x00];
    _ ← assert_eq (wv_sequence entry) 400;
    mret true) false;
  assert_that seen_value.

Definition query_values_response_roundtrips : M unit :=
  built ← unwrap (write_rsi_query_values_request_frame 96 19 0 (guid_of_byte Byte.x66)
                    (bytes_of "Answer") false);
  _ ← locals query_values_locals;
  let entries := slot 4 in
  let blankets := slot 6 in
  frame ← response_from_pipe (λ fd, rsi_respond_query_values fd req entries 1 blankets 1);
  query_values_checks built frame.

Definition status_checks (built : built RsiRetainedRequest) (frame : list byte) : M unit :=
  status ← unwrap (validate_rsi_status_only_response_for_request frame
                     (built_retained built));
  assert_eq status RsiStatus_Ok.

Definition status_response_success_roundtrips : M unit :=
  built ← unwrap (write_rsi_flush_request_frame 64 23 0 (bytes_of "Machine"));
  _ ← locals [fake_request RSI_FLUSH 23];
  frame ← response_from_pipe (λ fd, rsi_respond_status fd req RSI_OK);
  status_checks built frame.

(** ** What they send

    The six frames, byte by byte: the total length, the id and op of the request, the status,
    and the payload. *)

Definition success_frame (total id op : Z) (payload : list byte) : list byte :=
  to_le 4 total ++ to_le 8 id ++ to_le 2 (Z.lor (wrap 16 op) RSI_RESPONSE_BIT) ++
  to_le 4 RSI_OK ++ payload.

Definition read_key_sent : list byte :=
  to_le 4 3 ++ bytes_of "App" ++ guid_of_byte Byte.x33 ++ to_le 4 8 ++ replicate 8 Byte.xaa ++
  [Byte.x01; Byte.x00] ++ to_le 8 0xdeadbeef.

Definition lookup_sent : list byte :=
  to_le 4 2 ++
    to_le 4 4 ++ bytes_of "base" ++ [Byte.x00] ++ guid_of_byte Byte.x10 ++ to_le 8 100 ++
    to_le 4 7 ++ bytes_of "overlay" ++ [Byte.x00] ++ guid_of_byte Byte.x20 ++ to_le 8 200 ++
  to_le 4 2 ++
    guid_of_byte Byte.x10 ++ to_le 4 4 ++ replicate 4 Byte.x77 ++ [Byte.x00; Byte.x00] ++
      to_le 8 41 ++
    guid_of_byte Byte.x20 ++ to_le 4 4 ++ replicate 4 Byte.x88 ++ [Byte.x00; Byte.x00] ++
      to_le 8 42.

Definition delete_layer_sent : list byte :=
  to_le 4 2 ++ guid_of_byte Byte.x10 ++ guid_of_byte Byte.x20.

Definition enum_children_sent : list byte :=
  to_le 4 1 ++
    to_le 4 5 ++ bytes_of "Child" ++ to_le 4 2 ++
      to_le 4 4 ++ bytes_of "base" ++ [Byte.x00] ++ guid_of_byte Byte.x30 ++ to_le 8 300 ++
      to_le 4 4 ++ bytes_of "mask" ++ [Byte.x01] ++ guid_of_byte Byte.x00 ++ to_le 8 301 ++
  to_le 4 1 ++
    guid_of_byte Byte.x30 ++ to_le 4 3 ++ replicate 3 Byte.xab ++ [Byte.x01; Byte.x00] ++
      to_le 8 1234.

Definition query_values_sent : list byte :=
  to_le 4 1 ++
    to_le 4 6 ++ bytes_of "Answer" ++ to_le 4 4 ++ bytes_of "base" ++ to_le 4 4 ++
      to_le 4 4 ++ [Byte.x2a; Byte.x00; Byte.x00; Byte.x00] ++ to_le 8 400 ++
  to_le 4 1 ++ to_le 4 4 ++ bytes_of "mask" ++ to_le 8 401.

(** A test, with the request it answers, its checks, and the frame it sends. *)
Record roundtrip := mk_roundtrip {
  rt_test : M unit;
  rt_request : result LcsError (built RsiRetainedRequest);
  rt_checks : built RsiRetainedRequest -> list byte -> M unit;
  rt_frame : list byte
}.

Definition roundtrip_tests : list roundtrip :=
  [ mk_roundtrip read_key_response_roundtrips
      (write_rsi_read_key_request_frame 64 7 0 (guid_of_byte Byte.x55)) read_key_checks
      (success_frame 63 7 RSI_READ_KEY read_key_sent);
    mk_roundtrip lookup_response_roundtrips
      (write_rsi_lookup_request_frame 128 11 0 (guid_of_byte Byte.x01) (bytes_of "Software"))
      lookup_checks (success_frame 163 11 RSI_LOOKUP lookup_sent);
    mk_roundtrip delete_layer_response_roundtrips
      (write_rsi_delete_layer_request_frame 64 13 0 (bytes_of "overlay")) delete_layer_checks
      (success_frame 54 13 RSI_DELETE_LAYER delete_layer_sent);
    mk_roundtrip enum_children_response_roundtrips
      (write_rsi_enum_children_request_frame 64 17 0 (guid_of_byte Byte.x44))
      enum_children_checks (success_frame 138 17 RSI_ENUM_CHILDREN enum_children_sent);
    mk_roundtrip query_values_response_roundtrips
      (write_rsi_query_values_request_frame 96 19 0 (guid_of_byte Byte.x66) (bytes_of "Answer")
         false) query_values_checks (success_frame 80 19 RSI_QUERY_VALUES query_values_sent);
    mk_roundtrip status_response_success_roundtrips
      (write_rsi_flush_request_frame 64 23 0 (bytes_of "Machine")) status_checks
      (success_frame 18 23 RSI_FLUSH []) ].

Context `{!PlatformLaws P, PL : !PipesLaws PP}.

(** The test comes to its checks of its frame. *)
Definition sends (s : state) (t : roundtrip) : Prop :=
  forall b, rt_request t = Ok b -> exists s', rt_test t s = rt_checks t b (rt_frame t) s'.

(** Request, locals, response: the locals describe an answer with the payload [payload]. *)
Lemma test_sends request op id rest c payload total (respond' : Z -> M Z) checks s :
  let bss := fake_request op id :: rest in
  let r := mk_rsi_request id 0 0 0 (wrap 16 op) in
  is_u64 id -> (forall fd, respond' fd = respond fd req c) ->
  ~ may_refuse -> pipe_available s -> Forall (λ bs, (length bs <= 4096)%nat) bss ->
  (forall m, has_locals m bss -> safe_call m c /\ is_answer m r c RSI_OK payload) ->
  total = 18 + Z.of_nat (length payload) -> total < PIPE_BUF ->
  sends s (mk_roundtrip
    (b ← unwrap request; _ ← locals bss; frame ← response_from_pipe respond'; checks b frame)
    request checks (success_frame total id op payload)).
Proof.
  intros bss r Hid Hres Hmem Hpipe Hlens Hdesc -> Hlen b Hb. simpl in Hb |- *. rewrite Hb.
  set (s1 := with_mem (put_locals 0 bss (st_mem s)) s).
  assert (has_locals (st_mem s1) bss) as Hm by by apply put_locals_has.
  destruct (Hdesc _ Hm) as [Hsafe Hans].
  destruct (wp_returns (response_from_pipe respond')
    (response_frame (rq_request_id r) (rq_op_code r) RSI_OK payload) s1) as [s' Hrun].
  { eapply (responded_through_pipe respond' req r c); try done.
    by apply (fake_request_at _ bss). }
  exists s'. change ((frame ← response_from_pipe respond'; checks b frame) s1 =
    checks b (success_frame (18 + Z.of_nat (length payload)) id op payload) s').
  unfold mbind, M_bind. by rewrite Hrun.
Qed.

(** *** The locals of the tests *)

Ltac solve_lengths :=
  repeat (apply Forall_cons_2;
    [unfold fake_request; rewrite ?length_app, ?length_literal by done;
     by apply (bool_decide_unpack _)|]);
  apply Forall_nil_2.

(** The bytes of local [i]. *)
Ltac local_bytes Hm i Hs Hf :=
  destruct (local_field _ _ i _ Hm eq_refl ltac:(lia) ltac:(simpl; lia)) as [Hs Hf];
  match type of Hf with field_of _ _ (Z.of_nat (length ?bs)) = _ =>
    let n := eval vm_compute in (Z.of_nat (length bs)) in
    change (Z.of_nat (length bs)) with n in Hs, Hf
  end.

(** Local [i] is the array [xs] of safe elements. *)
Definition array_local (A : Type) `{Repr A} (safe : A -> Prop) (m : memory) (i : nat) (n : Z)
    (xs : list A) : Prop :=
  safe_block A safe m (slot i) n /\ array_of A m (slot i) n = Some xs.

Lemma local_array A `{Repr A} (safe : A -> Prop) m bss i vss xs n :
  has_locals m bss -> bss !! i = Some (concat (literal A <$> vss)) ->
  Forall2 (literal_of A) vss xs -> struct_align (repr_layout A) ∈ [1; 2; 4; 8] ->
  Forall safe xs -> n = Z.of_nat (length xs) ->
  array_local A safe m i n xs.
Proof. intros Hm Hi Hall Hal Hs ->. apply array_block; [|done]. by eapply local_array_at. Qed.

(** From the struct literals that make up the local. *)
Tactic Notation "local_literals" hyp(Hm) open_constr(vss) :=
  apply (local_array _ _ _ _ _ vss _ _ Hm);
  [ cbn [fmap list_fmap concat]; rewrite app_nil_r; reflexivity
  | repeat (apply Forall2_cons_2; [solve_literal|]); apply Forall2_nil_2
  | by apply (bool_decide_unpack _)
  | repeat (apply Forall_cons_2; [first [done | by split | by split; [|split]]|]);
    apply Forall_nil_2
  | done ].

(** *** READ_KEY *)

Lemma read_key_described m :
  has_locals m [fake_request RSI_READ_KEY 7; bytes_of "App"; replicate 8 Byte.xaa;
                guid_of_byte Byte.x33] ->
  safe_call m (CallReadKey (slot 1) 3 (slot 3) (slot 2) 8 1 0 0xdeadbeef) /\
  read_key_reply m (slot 1) 3 (slot 3) (slot 2) 8 1 0 0xdeadbeef read_key_sent.
Proof.
  intros Hm. local_bytes Hm 1%nat Hs1 Hf1. local_bytes Hm 2%nat Hs2 Hf2.
  local_bytes Hm 3%nat Hs3 Hf3. split; [by split_and!|].
  unfold read_key_reply, lpf_of. by rewrite Hf1, Hf2, Hf3.
Qed.

(** *** LOOKUP *)

Definition lookup_entries : list rsi_path_entry :=
  [ mk_rsi_path_entry (slot 1) 4 RSI_PATH_TARGET_GUID (guid_of_byte Byte.x10) 100;
    mk_rsi_path_entry (slot 2) 7 RSI_PATH_TARGET_GUID (guid_of_byte Byte.x20) 200 ].
Definition lookup_metadata : list rsi_key_metadata :=
  [ mk_rsi_key_metadata (guid_of_byte Byte.x10) (slot 4) 4 0 0 41;
    mk_rsi_key_metadata (guid_of_byte Byte.x20) (slot 5) 4 0 0 42 ].

Lemma lookup_described m :
  has_locals m lookup_locals ->
  safe_call m (CallLookup (slot 3) 2 (slot 6) 2) /\
  lookup_reply m (slot 3) 2 (slot 6) 2 lookup_sent.
Proof.
  intros Hm. destruct is_u8_target as [Ht _].
  local_bytes Hm 1%nat Hs1 Hf1. local_bytes Hm 2%nat Hs2 Hf2.
  local_bytes Hm 4%nat Hs4 Hf4. local_bytes Hm 5%nat Hs5 Hf5.
  assert (array_local rsi_path_entry (safe_entry m) m 3 2 lookup_entries) as [Hbe Hoe]
    by local_literals Hm [_; _].
  assert (array_local rsi_key_metadata (safe_metadata m) m 6 2 lookup_metadata) as [Hbm Hom]
    by local_literals Hm [_; _].
  split; [done|]. split.
  - unfold lookup_ok, metadata_of. rewrite Hoe, Hom. unfold lookup_entries, targets, is_guid_target.
    unfold valid_target. rewrite path_target_guid. simpl. split; [by repeat constructor|].
    split; [by apply (bool_decide_unpack _)|done].
  - unfold block. rewrite Hoe, Hom. cbn [mbind option_bind].
    unfold lookup_entries, lookup_metadata. cbn [encode_all].
    unfold entry_bytes, metadata_bytes, valid_target, lpf_of.
    cbn [pe_layer pe_layer_len km_sd km_sd_len].
    rewrite Hf1, Hf2, Hf4, Hf5, path_target_guid. reflexivity.
Qed.

(** *** DELETE_LAYER *)

Lemma delete_layer_described m :
  has_locals m [fake_request RSI_DELETE_LAYER 13;
                guid_of_byte Byte.x10 ++ guid_of_byte Byte.x20] ->
  safe_call m (CallDeleteLayer (slot 1) 2) /\ delete_layer_reply m (slot 1) 2 delete_layer_sent.
Proof.
  intros Hm. local_bytes Hm 1%nat Hs1 Hf1. split; [done|].
  unfold delete_layer_reply, orphans_of. change (2 * 16) with 32. rewrite Hf1. split; [|done].
  by apply (bool_decide_unpack _).
Qed.

(** *** ENUM_CHILDREN *)

Definition enum_entries : list rsi_path_entry :=
  [ mk_rsi_path_entry (slot 1) 4 RSI_PATH_TARGET_GUID (guid_of_byte Byte.x30) 300;
    mk_rsi_path_entry (slot 2) 4 RSI_PATH_TARGET_HIDDEN nil_guid 301 ].
Definition enum_children : list rsi_child_entry := [ mk_rsi_child_entry (slot 3) 5 (slot 4) 2 ].
Definition enum_metadata : list rsi_key_metadata :=
  [ mk_rsi_key_metadata (guid_of_byte Byte.x30) (slot 6) 3 1 0 1234 ].

Lemma enum_children_described m :
  has_locals m enum_children_locals ->
  safe_call m (CallEnumChildren (slot 5) 1 (slot 7) 1) /\
  enum_children_reply m (slot 5) 1 (slot 7) 1 enum_children_sent.
Proof.
  intros Hm. destruct is_u8_target as [Ht Hth].
  local_bytes Hm 1%nat Hs1 Hf1. local_bytes Hm 2%nat Hs2 Hf2.
  local_bytes Hm 3%nat Hs3 Hf3. local_bytes Hm 6%nat Hs6 Hf6.
  assert (array_local rsi_path_entry (safe_entry m) m 4 2 enum_entries) as [Hbe Hoe]
    by local_literals Hm [_; _].
  assert (array_local rsi_child_entry (safe_child m) m 5 1 enum_children) as [Hbc Hoc]
    by local_literals Hm [_].
  assert (array_local rsi_key_metadata (safe_metadata m) m 7 1 enum_metadata) as [Hbm Hom]
    by local_literals Hm [_].
  split; [done|]. split.
  - unfold enum_ok, metadata_of. rewrite Hoc, Hom. cbn [opt_valid from_option].
    assert (child_entries m (mk_rsi_child_entry (slot 3) 5 (slot 4) 2) = Some enum_entries) as He
      by exact Hoe.
    unfold enum_children. rewrite Forall_singleton, all_entries_cons. unfold valid_child.
    rewrite He. unfold enum_entries, targets, is_guid_target, valid_target.
    rewrite path_target_guid, path_target_hidden. simpl.
    split; [by repeat constructor|]. split; [by apply (bool_decide_unpack _)|done].
  - unfold block. rewrite Hoc, Hom. cbn [mbind option_bind].
    unfold enum_children, enum_metadata. cbn [encode_all].
    unfold child_bytes, block, metadata_bytes, lpf_of.
    cbn [ch_entries ch_entry_count ch_child_name ch_child_name_len km_sd km_sd_len].
    rewrite Hoe. cbn [mbind option_bind]. unfold enum_entries. cbn [encode_all].
    unfold entry_bytes, valid_target, lpf_of. cbn [pe_layer pe_layer_len].
    rewrite Hf1, Hf2, Hf3, Hf6, path_target_guid, path_target_hidden. reflexivity.
Qed.

(** *** QUERY_VALUES *)

Definition query_entries : list rsi_value_entry :=
  [ mk_rsi_value_entry (slot 1) 6 (slot 2) 4 4 (slot 3) 4 400 ].
Definition query_blankets : list rsi_blanket_entry := [ mk_rsi_blanket_entry (slot 5) 4 401 ].

Lemma query_values_described m :
  has_locals m query_values_locals ->
  safe_call m (CallQueryValues (slot 4) 1 (slot 6) 1) /\
  query_values_reply m (slot 4) 1 (slot 6) 1 query_values_sent.
Proof.
  intros Hm. local_bytes Hm 1%nat Hs1 Hf1. local_bytes Hm 2%nat Hs2 Hf2.
  local_bytes Hm 3%nat Hs3 Hf3. local_bytes Hm 5%nat Hs5 Hf5.
  assert (array_local rsi_value_entry (safe_value m) m 4 1 query_entries) as [Hbv Hov]
    by local_literals Hm [_].
  assert (array_local rsi_blanket_entry (safe_blanket m) m 6 1 query_blankets) as [Hbb Hob]
    by local_literals Hm [_].
  split; [done|]. unfold query_values_reply, block. rewrite Hov, Hob. cbn [mbind option_bind].
  unfold query_entries, query_blankets. cbn [encode_all]. unfold value_bytes, blanket_bytes, lpf_of.
  cbn [ve_value_name ve_value_name_len ve_layer_name ve_layer_name_len ve_data ve_data_len
       be_layer_name be_layer_name_len].
  rewrite Hf1, Hf2, Hf3, Hf5. reflexivity.
Qed.

(** *** FLUSH *)

Lemma flush_known : wrap 16 RSI_FLUSH ∈ request_ops /\ wrap 16 RSI_FLUSH ∉ payload_ops.
Proof.
  split; [by apply (list_elem_of_lookup_2 _ 17)|]. unfold payload_ops. cbn [fmap list_fmap].
  assert (forall j op, request_ops !! j = Some op -> 17%nat <> j -> wrap 16 RSI_FLUSH <> op) as Hne
    by (intros j op; by apply request_ops_lookup).
  rewrite !not_elem_of_cons. split_and!;
    [by apply (Hne 0%nat)|by apply (Hne 4%nat)|by apply (Hne 6%nat)|by apply (Hne 16%nat)
    |by apply (Hne 9%nat)|apply not_elem_of_nil].
Qed.

Lemma flush_described m :
  safe_call m (CallStatus RSI_OK) /\
  is_answer m (mk_rsi_request 23 0 0 0 (wrap 16 RSI_FLUSH)) (CallStatus RSI_OK) RSI_OK [].
Proof.
  destruct flush_known as [H1 H2]. split; [apply ok_u32|]. split_and!; [done..|].
  unfold status_allowed. cbn [rq_op_code].
  rewrite !bool_decide_true, (proj2 (status_ok RSI_OK)) by done. by rewrite orb_true_r.
Qed.

(** C22: the six tests of [response.rs] that send a response through a pipe and parse it send
    these six frames. From any state, on every platform that keeps its laws, never refuses a
    reasonable allocation and has a pipe to give, each test whose request lcs-core builds
    comes to its checks, lcs-core's parser and the assertions, of one frame that is known
    byte for byte: no assertion before them fails, and whether the test passes is a question
    about lcs-core alone. *)
Theorem roundtrip_tests_send s :
  ~ may_refuse -> pipe_available s -> Forall (sends s) roundtrip_tests.
Proof.
  intros Hmem Hpipe. repeat (apply Forall_cons_2); [..|apply Forall_nil_2].
  - refine (test_sends _ _ _ _ (CallReadKey (slot 1) 3 (slot 3) (slot 2) 8 1 0 0xdeadbeef)
      _ _ _ _ s _ _ Hmem Hpipe _ _ _ _); try done; [solve_lengths|].
    intros m Hm. by destruct (read_key_described m Hm).
  - refine (test_sends _ _ _ _ (CallLookup (slot 3) 2 (slot 6) 2)
      _ _ _ _ s _ _ Hmem Hpipe _ _ _ _); try done; [solve_lengths|].
    intros m Hm. by destruct (lookup_described m Hm).
  - refine (test_sends _ _ _ _ (CallDeleteLayer (slot 1) 2)
      _ _ _ _ s _ _ Hmem Hpipe _ _ _ _); try done; [solve_lengths|].
    intros m Hm. by destruct (delete_layer_described m Hm).
  - refine (test_sends _ _ _ _ (CallEnumChildren (slot 5) 1 (slot 7) 1)
      _ _ _ _ s _ _ Hmem Hpipe _ _ _ _); try done; [solve_lengths|].
    intros m Hm. by destruct (enum_children_described m Hm).
  - refine (test_sends _ _ _ _ (CallQueryValues (slot 4) 1 (slot 6) 1)
      _ _ _ _ s _ _ Hmem Hpipe _ _ _ _); try done; [solve_lengths|].
    intros m Hm. by destruct (query_values_described m Hm).
  - refine (test_sends _ _ _ _ (CallStatus RSI_OK)
      _ _ _ _ s _ _ Hmem Hpipe _ _ _ _); try done; [solve_lengths|].
    intros m _. apply flush_described.
Qed.

End response_tests.
