(* ===== verification/Sample.v ===== *)
(** * A sample platform

    A concrete instance of the interfaces of [Platform.v] that satisfies all their laws, on
    which the definitions of the development can be evaluated. The op codes, errno values
    and request payload order are this file's own choice: no theorem about the library
    depends on them. The kernel keeps a queue of requests to deliver and the frames it was
    sent; the allocator is a bump allocator that refuses past a limit, or, on the generous
    variant of the platform, never. Other kernels can take their place ([platform_on]). *)

From Stdlib Require Import String.
From S2P Require Import Prelude Memory Platform Effects.
#[local] Open Scope Z_scope.

(** ** Constants *)

#[local] Instance sample_uapi : Uapi := {
  RSI_LOOKUP := 1;
  RSI_CREATE_ENTRY := 2;
  RSI_HIDE_ENTRY := 3;
  RSI_DELETE_ENTRY := 4;
  RSI_ENUM_CHILDREN := 5;
  RSI_CREATE_KEY := 6;
  RSI_READ_KEY := 7;
  RSI_WRITE_KEY := 8;
  RSI_DROP_KEY := 9;
  RSI_QUERY_VALUES := 10;
  RSI_SET_VALUE := 11;
  RSI_DELETE_VALUE_ENTRY := 12;
  RSI_SET_BLANKET_TOMBSTONE := 13;
  RSI_BEGIN_TRANSACTION := 14;
  RSI_COMMIT_TRANSACTION := 15;
  RSI_ABORT_TRANSACTION := 16;
  RSI_DELETE_LAYER := 17;
  RSI_FLUSH := 18;
  RSI_REQUEST_HEADER_SIZE := 22;
  RSI_MIN_RESPONSE_SIZE := 18;
  RSI_RESPONSE_BIT := 32768;
  RSI_OK := 0;
  RSI_PATH_TARGET_GUID := 0;
  RSI_PATH_TARGET_HIDDEN := 1;
  REG_SRC_REGISTER := 1075335680;
  RSI_HIVE_PRIVATE := 1;
  register_args_bytes a :=
    to_le 4 (ra_hive_count a) ++ to_le 4 0 ++ to_le 8 (ra_max_sequence a) ++
    to_le 8 (ra_hives_ptr a);
  hive_entry_bytes e :=
    to_le 4 (he_name_len e) ++ to_le 4 (he_pad0 e) ++ to_le 8 (he_name_ptr e) ++
    encode_val C_guid (VGuid (he_root_guid e)) ++ to_le 4 (he_flags e) ++
    to_le 4 (he_pad1 e) ++ encode_val C_guid (VGuid (he_scope_guid e))
}.

#[local] Instance sample_libc : Libc := {
  EINVAL := 22;
  ENOMEM := 12;
  EBADMSG := 74;
  EOVERFLOW := 75;
  EIO := 5;
  O_RDWR := 2;
  O_CLOEXEC := 524288
}.

#[local] Instance sample_uapi_laws : UapiLaws sample_uapi.
Proof.
  split; try done.
  - by apply (bool_decide_unpack _), I.
  - intros e. cbn [hive_entry_bytes sample_uapi].
    by rewrite !length_app, !length_le_split, !length_encode_val.
Qed.

(** ** Kernel *)

Record sample_kstate := mk_sample_kstate {
  sk_next_fd : Z;
  sk_inbox : list (list byte);
  sk_outbox : list (list byte)
}.

(** A pending frame is delivered whole, or not at all (EMSGSIZE, 90). *)
Definition sample_read (k : sample_kstate) (cap : Z) : sample_kstate * result Z (list byte) :=
  match sk_inbox k with
  | [] => (k, Ok [])
  | f :: fs =>
      if cap <? Z.of_nat (length f) then (k, Err 90)
      else (mk_sample_kstate (sk_next_fd k) fs (sk_outbox k), Ok f)
  end.

#[local] Instance sample_kernel : Kernel := {
  kstate := sample_kstate;
  k_open k _ _ :=
    (mk_sample_kstate (sk_next_fd k + 1) (sk_inbox k) (sk_outbox k),
     if sk_next_fd k <? 0 then Err 24 else Ok (sk_next_fd k));
  k_close k _ := (k, Ok 0);
  k_ioctl k _ _ args _ := (k, if ra_hive_count args <? 16 then Ok 0 else Err 28);
  k_read k _ cap := if cap <? 0 then (k, Err 22) else sample_read k cap;
  k_write k fd bs :=
    if fd <? 0 then (k, Err 9)
    else (mk_sample_kstate (sk_next_fd k) (sk_inbox k) (sk_outbox k ++ [bs]),
          Ok (Z.of_nat (length bs)))
}.

#[local] Instance sample_kernel_laws : KernelLaws sample_kernel.
Proof.
  split; simpl.
  - intros k _ cap k' bs. destruct (Z.ltb_spec cap 0); [done|].
    unfold sample_read. destruct (sk_inbox k) as [|f fs]; [intros [= <- <-]; simpl; lia|].
    destruct (Z.ltb_spec cap (Z.of_nat (length f))); [done|]. intros [= <- <-]. lia.
  - intros k _ _ k' fd. destruct (Z.ltb_spec (sk_next_fd k) 0); [done|]. intros [= <- <-]. lia.
  - intros k _ _ args _ k' r. destruct (_ <? _); [|done]. intros [= <- <-]. lia.
  - intros k fd bs k' n. destruct (fd <? 0); [done|]. intros [= <- <-]. lia.
Qed.

(** ** Allocator *)

(** The next free address, and the address past which requests are refused. *)
Record sample_astate := mk_sample_astate { sa_next : Z; sa_limit : Z }.

Definition sample_alloc (a : sample_astate) (n : Z) : sample_astate * option Z :=
  if sa_limit a <? sa_next a + n then (a, None)
  else (mk_sample_astate (sa_next a + n) (sa_limit a), Some (sa_next a)).

#[local] Instance sample_allocator : Allocator := {
  astate := sample_astate;
  a_alloc := sample_alloc;
  a_try_extend a v bs :=
    let n := Z.of_nat (length (rv_elems v ++ bs)) in
    match sample_alloc a n with
    | (a', Some p) => (a', Ok (mk_rvec p n (rv_elems v ++ bs)))
    | (a', None) => (a', Err tt)
    end
}.

#[local] Instance sample_allocator_laws : AllocatorLaws sample_allocator.
Proof.
  split. intros a v bs a' v'. simpl.
  destruct (sample_alloc a _) as [a2 [p|]]; [|done]. by intros [= <- <-].
Qed.

(** ** Request parsers

    A parser reads a slice from an offset and returns a value and the next offset. *)

Definition parser (A : Type) : Type := slice -> nat -> option (A * nat).

#[global] Instance parser_ret : MRet parser := λ A a _ off, Some (a, off).
#[global] Instance parser_bind : MBind parser := λ A B k p sl off,
  match p sl off with Some (a, off') => k a sl off' | None => None end.

Definition p_bytes (n : nat) : parser (list byte) := λ sl off,
  if (off + n <=? length (sl_bytes sl))%nat
  then Some (take n (drop off (sl_bytes sl)), (off + n)%nat) else None.

Definition p_int (n : nat) : parser Z := bs ← p_bytes n; mret (of_le bs).
Definition p_guid : parser guid := p_bytes 16.
Definition p_opt {A} (o : option A) : parser A := λ _ off, a ← o; Some (a, off).
Definition p_here : parser Z := λ sl off, Some (sl_ptr sl + Z.of_nat off, off).

Definition p_bool : parser bool :=
  x ← p_int 1; p_opt (if x =? 0 then Some false else if x =? 1 then Some true else None).

Definition p_lpf : parser RsiLengthPrefixedField :=
  n ← p_int 4; p ← p_here; bs ← p_bytes (Z.to_nat n); mret (mk_lpf (mk_slice p bs)).

(** A parse of the whole slice: no trailing bytes. *)
Definition run_parser {A} (p : parser A) (sl : slice) : result unit A :=
  match p sl 0%nat with
  | Some (a, off) => if (off =? length (sl_bytes sl))%nat then Ok a else Err tt
  | None => Err tt
  end.

Definition p_header : parser request_header :=
  total ← p_int 4; id ← p_int 8; op ← p_int 2; txn ← p_int 8;
  _ ← p_opt (if bool_decide (op ∈ request_ops) then Some tt else None);
  mret (mk_request_header id txn op).

(** The header parser leaves the payload unread. *)
Definition run_header (sl : slice) : result unit request_header :=
  match p_header sl 0%nat with
  | Some (h, _) =>
      if of_le (take 4 (sl_bytes sl)) =? Z.of_nat (length (sl_bytes sl)) then Ok h else Err tt
  | None => Err tt
  end.

Definition p_lookup : parser lookup_payload :=
  g ← p_guid; n ← p_lpf; mret {| lk_parent_guid := g; lk_child_name := n |}.
Definition p_create_entry : parser create_entry_payload :=
  g ← p_guid; c ← p_guid; n ← p_lpf; l ← p_lpf; q ← p_int 8;
  mret {| ce_parent_guid := g; ce_child_guid := c; ce_child_name := n; ce_layer_name := l;
          ce_sequence := q |}.
Definition p_hide_entry : parser hide_entry_payload :=
  g ← p_guid; n ← p_lpf; l ← p_lpf; q ← p_int 8;
  mret {| hi_parent_guid := g; hi_child_name := n; hi_layer_name := l; hi_sequence := q |}.
Definition p_delete_entry : parser delete_entry_payload :=
  g ← p_guid; n ← p_lpf; l ← p_lpf;
  mret {| de_parent_guid := g; de_child_name := n; de_layer_name := l |}.
Definition p_enum_children : parser enum_children_payload :=
  g ← p_guid; mret {| ec_parent_guid := g |}.
Definition p_create_key : parser create_key_payload :=
  g ← p_guid; pg ← p_guid; n ← p_lpf; sd ← p_lpf; v ← p_bool; l ← p_bool;
  mret {| ck_guid := g; ck_parent_guid := pg; ck_name := n; ck_sd := sd; ck_volatile := v;
          ck_symlink := l |}.
Definition p_key_guid : parser key_guid_payload := g ← p_guid; mret {| kg_guid := g |}.

(** Bit 0 of the mask announces the descriptor, bit 1 the time. *)
Definition p_write_key : parser write_key_payload :=
  g ← p_guid; m ← p_int 4;
  sd ← (if Z.testbit m 0 then f ← p_lpf; mret (Some f) else mret None) : parser _;
  t ← (if Z.testbit m 1 then q ← p_int 8; mret (Some q) else mret None) : parser _;
  mret {| wk_guid := g; wk_field_mask := m; wk_sd := sd; wk_last_write_time := t |}.

Definition p_query_values : parser query_values_payload :=
  g ← p_guid; n ← p_lpf; a ← p_bool;
  mret {| qv_guid := g; qv_value_name := n; qv_query_all := a |}.
Definition p_set_value : parser set_value_payload :=
  g ← p_guid; n ← p_lpf; l ← p_lpf; t ← p_int 4; d ← p_lpf; q ← p_int 8; e ← p_int 8;
  mret {| sv_guid := g; sv_value_name := n; sv_layer_name := l; sv_value_type := t;
          sv_data := d; sv_sequence := q; sv_expected_sequence := e |}.
Definition p_delete_value_entry : parser delete_value_entry_payload :=
  g ← p_guid; n ← p_lpf; l ← p_lpf;
  mret {| dv_guid := g; dv_value_name := n; dv_layer_name := l |}.
Definition p_set_blanket_tombstone : parser set_blanket_tombstone_payload :=
  g ← p_guid; l ← p_lpf; b ← p_bool; q ← p_int 8;
  mret {| bt_guid := g; bt_layer_name := l; bt_set := b; bt_sequence := q |}.

(** The transaction mode is [true] for read-only. *)
Definition p_begin_transaction : parser (begin_transaction_payload bool) :=
  t ← p_int 8; m ← p_bool; mret {| bg_transaction_id := t; bg_mode := m |}.
Definition p_transaction : parser transaction_payload :=
  t ← p_int 8; mret {| tx_transaction_id := t |}.
Definition p_layer_name : parser layer_name_payload :=
  n ← p_lpf; mret {| dl_layer_name := n |}.
Definition p_hive_name : parser hive_name_payload :=
  n ← p_lpf; mret {| fl_hive_name := n |}.

(** Status codes: 0 is success, 1 to 15 are errors. *)
#[local] Instance sample_lcs : LcsCore := {
  LcsError := unit;
  RsiStatus := Z;
  RsiStatus_Ok := 0;
  RsiTransactionMode := bool;
  RsiTransactionMode_code := Z.b2z;
  parse_rsi_request_header := run_header;
  parse_rsi_lookup_request_payload := run_parser p_lookup;
  parse_rsi_create_entry_request_payload := run_parser p_create_entry;
  parse_rsi_hide_entry_request_payload := run_parser p_hide_entry;
  parse_rsi_delete_entry_request_payload := run_parser p_delete_entry;
  parse_rsi_enum_children_request_payload := run_parser p_enum_children;
  parse_rsi_create_key_request_payload := run_parser p_create_key;
  parse_rsi_read_key_request_payload := run_parser p_key_guid;
  parse_rsi_drop_key_request_payload := run_parser p_key_guid;
  parse_rsi_write_key_request_payload := run_parser p_write_key;
  parse_rsi_query_values_request_payload := run_parser p_query_values;
  parse_rsi_set_value_request_payload := run_parser p_set_value;
  parse_rsi_delete_value_entry_request_payload := run_parser p_delete_value_entry;
  parse_rsi_set_blanket_tombstone_request_payload := run_parser p_set_blanket_tombstone;
  parse_rsi_begin_transaction_request_payload := run_parser p_begin_transaction;
  parse_rsi_commit_transaction_request_payload := run_parser p_transaction;
  parse_rsi_abort_transaction_request_payload := run_parser p_transaction;
  parse_rsi_delete_layer_request_payload := run_parser p_layer_name;
  parse_rsi_flush_request_payload := run_parser p_hive_name;
  parse_rsi_status s := if (0 <=? s) && (s <? 16) then Ok s else Err tt;
  rsi_request_has_status_only_response op :=
    if bool_decide (op ∈ request_ops) then Ok (bool_decide (op ∉ payload_ops)) else Err tt;
  rsi_response_op_code op :=
    if bool_decide (op ∈ request_ops) then Ok (Z.lor op RSI_RESPONSE_BIT) else Err tt
}.

(** *** The parsers keep the laws *)

(** Every result of [p] on [sl] satisfies [Q]. *)
Definition p_sat {A} (p : parser A) (sl : slice) (Q : A -> Prop) : Prop :=
  forall off a off', p sl off = Some (a, off') -> Q a.

Lemma p_sat_ret {A} (a : A) sl (Q : A -> Prop) : Q a -> p_sat (mret a) sl Q.
Proof. by intros HQ off a' off' [= <- <-]. Qed.

Lemma p_sat_bind {A B} (p : parser A) (k : A -> parser B) sl (R : A -> Prop) (Q : B -> Prop) :
  p_sat p sl R -> (forall a, R a -> p_sat (k a) sl Q) -> p_sat (x ← p; k x) sl Q.
Proof.
  intros Hp Hk off b off'. unfold mbind, parser_bind.
  destruct (p sl off) as [[a o]|] eqn:Ha; [|done]. intros Hb.
  exact (Hk _ (Hp _ _ _ Ha) _ _ _ Hb).
Qed.

Lemma p_bytes_sat n sl : p_sat (p_bytes n) sl (λ bs, length bs = n).
Proof.
  intros off bs off'. unfold p_bytes. destruct (Nat.leb_spec (off + n) (length (sl_bytes sl))); [|done].
  intros [= <- <-]. rewrite length_take, length_drop. lia.
Qed.

Lemma p_int_sat n sl : p_sat (p_int n) sl (λ z, 0 <= z < 2 ^ (8 * Z.of_nat n)).
Proof.
  eapply p_sat_bind; [apply p_bytes_sat|]. intros bs Hbs. apply p_sat_ret. by apply of_le_range.
Qed.

Lemma p_guid_sat sl : p_sat p_guid sl guid_wf.
Proof. apply p_bytes_sat. Qed.

Lemma p_any_sat {A} (p : parser A) sl : p_sat p sl (λ _, True).
Proof. by intros ???. Qed.

Lemma p_lpf_sat sl : p_sat p_lpf sl (borrowed sl).
Proof.
  eapply p_sat_bind; [apply p_any_sat|]. intros n _ off f off'.
  unfold mbind, parser_bind, p_here, p_bytes. 
  destruct (Nat.leb_spec (off + Z.to_nat n) (length (sl_bytes sl))); [|done].
  intros [= <- <-]. exists off. simpl. rewrite length_take, length_drop.
  split_and!; [lia|done|]. f_equal. lia.
Qed.

Lemma run_parser_sat {A} (p : parser A) (wf : slice -> A -> Prop) :
  (forall sl, p_sat p sl (wf sl)) -> returns (run_parser p) wf.
Proof.
  intros Hp sl v. unfold run_parser. destruct (p sl 0%nat) as [[a off]|] eqn:Ha; [|done].
  destruct (_ =? _)%nat; [|done]. intros [= <-]. by eapply Hp.
Qed.

Ltac solve_parser :=
  apply run_parser_sat; intros sl;
  repeat (first
    [ eapply p_sat_bind; [first [ apply p_guid_sat | apply p_lpf_sat | apply p_int_sat
                                | apply p_any_sat ] | intros ? ?]
    | apply p_sat_ret; repeat split; (assumption || (simpl in *; lia)) ]).

Lemma p_write_key_sat sl : p_sat p_write_key sl (write_key_wf sl).
Proof.
  eapply p_sat_bind; [apply p_guid_sat|]. intros g Hg.
  eapply p_sat_bind; [apply p_int_sat|]. intros m Hm.
  eapply (p_sat_bind _ _ _ (from_option (borrowed sl) True)).
  { destruct (Z.testbit m 0); [|by apply p_sat_ret].
    eapply p_sat_bind; [apply p_lpf_sat|]. intros f Hf. by apply p_sat_ret. }
  intros sd Hsd. eapply (p_sat_bind _ _ _ (from_option is_u64 True)).
  { destruct (Z.testbit m 1); [|by apply p_sat_ret].
    eapply p_sat_bind; [apply p_int_sat|]. intros q Hq. by apply p_sat_ret. }
  intros t Ht. by apply p_sat_ret.
Qed.

Lemma p_begin_transaction_sat sl :
  p_sat p_begin_transaction sl (begin_transaction_wf Z.b2z).
Proof.
  eapply p_sat_bind; [apply p_int_sat|]. intros t Ht.
  eapply p_sat_bind; [apply p_any_sat|]. intros [] _; by apply p_sat_ret.
Qed.

Lemma p_bytes_off n sl off bs off' :
  p_bytes n sl off = Some (bs, off') ->
  length bs = n /\ (off' = off + n)%nat /\ (off' <= length (sl_bytes sl))%nat.
Proof.
  unfold p_bytes. destruct (Nat.leb_spec (off + n) (length (sl_bytes sl))); [|done].
  intros [= <- <-]. rewrite length_take, length_drop. lia.
Qed.

Lemma p_int_off n sl off z off' :
  p_int n sl off = Some (z, off') ->
  0 <= z < 2 ^ (8 * Z.of_nat n) /\ (off' = off + n)%nat /\ (off' <= length (sl_bytes sl))%nat.
Proof.
  unfold p_int, mbind, parser_bind. destruct (p_bytes n sl off) as [[bs o]|] eqn:Hb; [|done].
  intros [= <- <-]. apply p_bytes_off in Hb as (Hl & ? & ?). split; [by apply of_le_range|done].
Qed.

Lemma run_header_wf sl h :
  run_header sl = Ok h ->
  RSI_REQUEST_HEADER_SIZE <= Z.of_nat (length (sl_bytes sl)) /\
  hd_op_code h ∈ request_ops /\ is_u64 (hd_request_id h) /\ is_u64 (hd_txn_id h).
Proof.
  unfold run_header. destruct (p_header sl 0%nat) as [[h' o]|] eqn:Hh; [|done].
  destruct (_ =? _); [|done]. intros [= <-]. revert Hh.
  unfold p_header, mbind, parser_bind, p_opt.
  destruct (p_int 4 sl 0%nat) as [[total o1]|] eqn:H1; [|done].
  destruct (p_int 8 sl o1) as [[id o2]|] eqn:H2; [|done].
  destruct (p_int 2 sl o2) as [[op o3]|] eqn:H3; [|done].
  destruct (p_int 8 sl o3) as [[txn o4]|] eqn:H4; [|done].
  apply p_int_off in H1 as (? & ? & ?), H2 as (? & ? & ?), H3 as (? & ? & ?), H4 as (? & ? & ?).
  case_bool_decide as Hop; [|done]. intros [= <- <-].
  split_and!; simpl; [lia|done|done|done].
Qed.

#[local] Instance sample_lcs_laws : LcsLaws sample_uapi sample_lcs.
Proof.
  split; try (solve [solve_parser]).
  - apply run_header_wf.
  - apply run_parser_sat, p_write_key_sat.
  - apply run_parser_sat. intros sl. apply p_begin_transaction_sat.
  - intros op Hop. simpl. by rewrite bool_decide_true.
  - intros op Hop. simpl. rewrite bool_decide_false by done. eauto.
  - intros s. simpl. destruct (Z.leb_spec 0 s), (Z.ltb_spec s 16); simpl; split;
      (by intros [= ->]) || (intros [=]; lia) || idtac.
  - intros op Hop. simpl. by rewrite bool_decide_true.
Qed.

(** Constants and parsers as above, on any kernel and allocator. *)
Definition platform_on (K : Kernel) (A : Allocator) : Platform := {|
  platform_uapi := sample_uapi;
  platform_libc := sample_libc;
  platform_kernel := K;
  platform_allocator := A;
  platform_lcs := sample_lcs
|}.

Lemma platform_on_laws K A : KernelLaws K -> AllocatorLaws A -> PlatformLaws (platform_on K A).
Proof. intros HK HA. split; [apply sample_uapi_laws|done|done|apply sample_lcs_laws]. Qed.

#[export] Instance sample_platform : Platform := platform_on sample_kernel sample_allocator.

#[export] Instance sample_platform_laws : PlatformLaws sample_platform.
Proof. apply platform_on_laws; apply _. Qed.

(** *** An allocator that never refuses

    An unbounded bump allocator, for the theorems about what happens when there is enough
    memory. *)

Definition generous_allocator : Allocator := {|
  astate := Z;
  a_alloc next n := (next + n, Some next);
  a_try_extend next v bs :=
    let n := Z.of_nat (length (rv_elems v ++ bs)) in
    (next + n, Ok (mk_rvec next n (rv_elems v ++ bs)))
|}.

Lemma generous_allocator_laws : AllocatorLaws generous_allocator.
Proof. split. intros a v bs a' v'. simpl. by intros [= <- <-]. Qed.

Lemma generous_never_refuses K : ~ may_refuse (P := platform_on K generous_allocator).
Proof. by intros (n & _ & [a a' [=]|a v bs a' e [=] _]). Qed.

Definition generous_platform : Platform := platform_on sample_kernel generous_allocator.

Lemma generous_platform_laws : PlatformLaws generous_platform.
Proof. apply platform_on_laws; [apply _|apply generous_allocator_laws]. Qed.

(** ** Sample states *)

(** A struct of type [A] with field values [vs], placed at [p]. *)
Definition place (A : Type) `{Repr A} (p : Z) (vs : list cval) (m : memory) : memory :=
  foldr (λ iv, write_field (repr_layout A) p iv.1 iv.2)
        (store m p (replicate (Z.to_nat (size_of A)) Byte.x00))
        (zip (seq 0 (length vs)) vs).

Definition sample_state (m : memory) : state :=
  mk_state m 0 (mk_sample_astate 65536 1048576) (mk_sample_kstate 3 [] []) [].

Definition generous_state (m : memory) : state (P := generous_platform) :=
  mk_state (P := generous_platform) m 0 65536 (mk_sample_kstate 3 [] []) [].

(** A state whose allocator refuses everything. *)
Definition starved_state (m : memory) : state :=
  mk_state m 0 (mk_sample_astate 65536 0) (mk_sample_kstate 3 [] []) [].

Definition bytes_of_string (s : string) : list byte := list_byte_of_string s.

Definition guid_of (b : byte) : guid := replicate 16 b.

(** Discharges [array_at] and [points_to] facts about concrete memories. *)
Ltac solve_sample :=
  first [ done | vm_compute; reflexivity | split; solve_sample
        | (intros _; vm_compute; reflexivity) | lia ].
