(* ===== verification/SourceExamples.v ===== *)
(** * Registration on the sample platform *)

From Stdlib Require Import String.
From S2P Require Import Prelude Memory Platform Effects Source Sample.
#[local] Open Scope Z_scope.

(** One private hive named Machine at address 4096, its name at 8192. *)
Definition sample_hives : memory :=
  place rsi_hive 4096
    [VInt 8192; VInt 7; VInt 1; VGuid (guid_of Byte.x11); VGuid (guid_of Byte.x22)]
    (store ∅ 8192 (bytes_of_string "Machine")).

Definition sample_hive : rsi_hive :=
  mk_rsi_hive 8192 7 1 (guid_of Byte.x11) (guid_of Byte.x22).

Lemma rsi_register_correct_witness :
  wp (rsi_register 4096 1 7) (sample_state sample_hives)
    (λ r s', st_mem s' = sample_hives /\
             exists rc, r = Ok rc /\
               register_step [sample_hive] 7 (sample_state sample_hives) rc s').
Proof.
  apply (rsi_register_correct 4096 1 7 [sample_hive] (sample_state sample_hives));
    [reflexivity|discriminate|split; solve_sample].
Defined.

Lemma rsi_register_rejects_witness :
  (0 = 0 \/ 4096 = 0) /\
  rsi_register 4096 0 7 (sample_state sample_hives) =
    ORet (-1) (with_errno EINVAL (sample_state sample_hives)).
Proof. split; [by left|]. apply rsi_register_rejects. by left. Defined.
