(* ===== verification/RequestExamples.v ===== *)
(** * The request side on the sample platform

    Concrete frames, received, parsed and decoded. *)

From Stdlib Require Import String.
From S2P Require Import Prelude Memory Platform Effects Request RequestSpec Sample.
#[local] Open Scope Z_scope.

(** ** Frames *)

Definition lpf_string (s : string) : list byte :=
  to_le 4 (Z.of_nat (String.length s)) ++ bytes_of_string s.

Definition request_frame (id op txn : Z) (payload : list byte) : list byte :=
  to_le 4 (22 + Z.of_nat (length payload)) ++ to_le 8 id ++ to_le 2 op ++ to_le 8 txn ++ payload.

Definition lookup_payload_bytes : list byte := guid_of Byte.x11 ++ lpf_string "Software".
Definition set_value_payload_bytes : list byte :=
  guid_of Byte.x22 ++ lpf_string "Path" ++ lpf_string "base" ++ to_le 4 1 ++
  lpf_string "/bin" ++ to_le 8 5 ++ to_le 8 4.

(** A request struct at 4096 whose payload is at 8192, and room for an output struct of
    type [A] at 16384. *)
Definition request_memory (A : Type) `{Repr A} (op : Z) (payload : list byte) : memory :=
  place A 16384 []
    (place rsi_request 4096
      [VInt 7; VInt 9; VInt 8192; VInt (Z.of_nat (length payload)); VInt op]
      (store ∅ 8192 payload)).

Definition sample_request (op : Z) (payload : list byte) : rsi_request :=
  mk_rsi_request 7 9 8192 (Z.of_nat (length payload)) op.

(** A whole frame at 8192, a zeroed request struct at 4096. *)
Definition frame_memory (frame : list byte) : memory :=
  place rsi_request 4096 [] (store ∅ 8192 frame).

Definition blank_request : rsi_request := mk_rsi_request 0 0 0 0 0.

Ltac solve_payload := apply payload_bytes; [done|done|done|done|vm_compute; reflexivity].

(** ** Receiving and parsing *)

Definition set_value_frame : list byte := request_frame 7 11 9 set_value_payload_bytes.

Lemma rsi_parse_request_correct_witness :
  let s := sample_state (frame_memory set_value_frame) in
  exists m', rsi_parse_request 8192 82 4096 s = ORet 0 (with_mem m' s) /\
    stored rsi_request (st_mem s) m' 4096 (mk_rsi_request 7 9 8214 60 11).
Proof.
  exact (rsi_parse_request_correct 8192 82 set_value_frame 4096 blank_request
    (sample_state (frame_memory set_value_frame)) ltac:(split; solve_sample)
    ltac:(solve_sample)).
Defined.

Lemma rsi_parse_request_null_witness :
  let s := sample_state ∅ in
  rsi_parse_request 8192 82 0 s = ORet (-1) (with_errno EINVAL s).
Proof. apply (rsi_parse_request_null 8192 82 0). by left. Defined.

Lemma rsi_parse_request_payload_witness :
  let s := sample_state (frame_memory set_value_frame) in
  exists m' r, rsi_parse_request 8192 82 4096 s = ORet 0 (with_mem m' s) /\
    points_to rsi_request m' 4096 r /\ rq_op_code r = 11 /\
    request_payload m' r (mk_slice 8214 set_value_payload_bytes).
Proof.
  exact (rsi_parse_request_payload 8192 82 set_value_frame 4096 blank_request
    (mk_request_header 7 9 11) (sample_state (frame_memory set_value_frame))
    ltac:(split; solve_sample) ltac:(solve_sample) ltac:(right; done) ltac:(done)
    ltac:(vm_compute; reflexivity)).
Defined.

(** ** Decoding *)

Lemma entry_decoders_correct_witness :
  let s := sample_state (request_memory rsi_lookup 1 lookup_payload_bytes) in
  exists m', rsi_request_lookup 4096 16384 s = ORet 0 (with_mem m' s) /\
    stored rsi_lookup (st_mem s) m' 16384 (mk_rsi_lookup (guid_of Byte.x11) 8212 8).
Proof.
  pose proof (entry_decoders_correct (P := sample_platform)) as (Hd & _).
  eapply (decoder_decodes _ _ _ _ Hd _ _ (sample_request 1 lookup_payload_bytes)
    (mk_slice 8192 lookup_payload_bytes) (mk_rsi_lookup (replicate 16 Byte.x00) 0 0)
    {| lk_parent_guid := guid_of Byte.x11;
       lk_child_name := mk_lpf (mk_slice 8212 (bytes_of_string "Software")) |});
    [solve_sample|done|solve_payload|solve_sample|vm_compute; reflexivity].
Defined.

(** READ_KEY with a payload of the wrong length. *)
Lemma key_decoders_correct_witness :
  let s := sample_state (request_memory rsi_key_guid 7 (guid_of Byte.x33 ++ [Byte.x00])) in
  rsi_request_read_key 4096 16384 s = ORet (-1) (with_errno EBADMSG s).
Proof.
  pose proof (key_decoders_correct (P := sample_platform)) as (_ & Hd & _).
  eapply (decoder_malformed _ _ _ _ Hd _ _ (sample_request 7 (guid_of Byte.x33 ++ [Byte.x00]))
    (mk_slice 8192 (guid_of Byte.x33 ++ [Byte.x00])) (mk_rsi_key_guid (replicate 16 Byte.x00))
    tt); [solve_sample|done|solve_payload|solve_sample|vm_compute; reflexivity].
Defined.

(** SET_VALUE without an output struct. *)
Lemma value_decoders_correct_witness :
  let s := sample_state (request_memory rsi_set_value 11 set_value_payload_bytes) in
  rsi_request_set_value 4096 0 s = ORet (-1) (with_errno EINVAL s).
Proof.
  pose proof (value_decoders_correct (P := sample_platform)) as (_ & Hd & _).
  eapply (decoder_null_out _ _ _ _ Hd _ (sample_request 11 set_value_payload_bytes)
    (mk_slice 8192 set_value_payload_bytes)); [solve_sample|solve_payload].
Defined.

Lemma transaction_decoders_correct_witness :
  let s := sample_state (request_memory rsi_transaction 15 (to_le 8 77)) in
  exists m', rsi_request_commit_transaction 4096 16384 s = ORet 0 (with_mem m' s) /\
    stored rsi_transaction (st_mem s) m' 16384 (mk_rsi_transaction 77).
Proof.
  pose proof (transaction_decoders_correct (P := sample_platform)) as (_ & Hd & _).
  eapply (decoder_decodes _ _ _ _ Hd _ _ (sample_request 15 (to_le 8 77))
    (mk_slice 8192 (to_le 8 77)) (mk_rsi_transaction 0) {| tx_transaction_id := 77 |});
    [solve_sample|done|solve_payload|solve_sample|vm_compute; reflexivity].
Defined.

Definition sample_set_value : set_value_payload :=
  {| sv_guid := guid_of Byte.x22;
     sv_value_name := mk_lpf (mk_slice 8212 (bytes_of_string "Path"));
     sv_layer_name := mk_lpf (mk_slice 8220 (bytes_of_string "base"));
     sv_value_type := 1;
     sv_data := mk_lpf (mk_slice 8232 (bytes_of_string "/bin"));
     sv_sequence := 5;
     sv_expected_sequence := 4 |}.

Lemma set_value_fields_readable_witness :
  let s := sample_state (request_memory rsi_set_value 11 set_value_payload_bytes) in
  exists m' o, rsi_request_set_value 4096 16384 s = ORet 0 (with_mem m' s) /\
    read rsi_set_value m' 16384 = Some o /\
    load m' (rsv_value_name o) (Z.to_nat (rsv_value_name_len o)) =
      Some (bytes_of_string "Path") /\
    load m' (rsv_layer_name o) (Z.to_nat (rsv_layer_name_len o)) =
      Some (bytes_of_string "base") /\
    load m' (rsv_data o) (Z.to_nat (rsv_data_len o)) = Some (bytes_of_string "/bin").
Proof.
  eapply (set_value_fields_readable 4096 16384 (sample_request 11 set_value_payload_bytes)
    (mk_slice 8192 set_value_payload_bytes)
    (mk_rsi_set_value (replicate 16 Byte.x00) 0 0 0 0 0 0 0 0 0) sample_set_value);
    [solve_sample|done|solve_payload|solve_sample|left; done|vm_compute; reflexivity].
Defined.

Lemma one_decoder_per_request_witness :
  let s := sample_state (request_memory rsi_set_value 11 set_value_payload_bytes) in
  rsi_request_lookup 4096 16384 s = ORet (-1) (with_errno EINVAL s).
Proof.
  eapply (one_decoder_per_request 10 0 11 1 rsi_request_set_value rsi_request_lookup 4096 16384
    (sample_request 11 set_value_payload_bytes));
    [done|reflexivity|reflexivity|solve_sample|done].
Defined.

Lemma name_fields_readable_witness :
  let s := sample_state (request_memory rsi_lookup 1 lookup_payload_bytes) in
  exists m', rsi_request_lookup 4096 16384 s = ORet 0 (with_mem m' s) /\
    read rsi_lookup m' 16384 = Some (mk_rsi_lookup (guid_of Byte.x11) 8212 8) /\
    Forall (λ f, load m' (lpf f).1 (Z.to_nat (lpf f).2) = Some (sl_bytes (lpf_data f)))
      [mk_lpf (mk_slice 8212 (bytes_of_string "Software"))].
Proof.
  pose proof (name_fields_readable (P := sample_platform)) as (Hk & _).
  eapply (Hk _ _ (sample_request 1 lookup_payload_bytes) (mk_slice 8192 lookup_payload_bytes)
    (mk_rsi_lookup (replicate 16 Byte.x00) 0 0)
    {| lk_parent_guid := guid_of Byte.x11;
       lk_child_name := mk_lpf (mk_slice 8212 (bytes_of_string "Software")) |});
    [solve_sample|done|solve_payload|solve_sample|left; done|vm_compute; reflexivity].
Defined.
