(* ===== verification/ResponseExamples.v ===== *)
(** * The response side on the sample platform

    Concrete requests and reply descriptions, validated, encoded, sent and read back. *)

From Stdlib Require Import String.
From S2P Require Import Prelude Memory Platform Effects Request Guids GuidsSpec Frame FrameSpec.
From S2P Require Import Response ResponseSpec Wire Server Sample RequestExamples.
#[local] Open Scope Z_scope.

(** ** A memory with every kind of description

    One key [k1], reachable through one layer and hidden in another. *)

Definition k1 : guid := guid_of Byte.x11.
Definition k2 : guid := guid_of Byte.x22.

Definition strings_memory : memory :=
  store (store (store (store ∅ 20480 (bytes_of_string "base")) 20736 (bytes_of_string "Software"))
    20992 (bytes_of_string "O:SY")) 21248 (k1 ++ k2).

Definition visible_entry : rsi_path_entry := mk_rsi_path_entry 20480 4 0 k1 5.
Definition hidden_entry : rsi_path_entry := mk_rsi_path_entry 0 0 1 nil_guid 6.
Definition key_metadata : rsi_key_metadata := mk_rsi_key_metadata k1 20992 4 0 1 99.
Definition child_entry : rsi_child_entry := mk_rsi_child_entry 20736 8 8192 2.
Definition value_entry : rsi_value_entry := mk_rsi_value_entry 20736 8 20480 4 1 20992 4 7.
Definition blanket_entry : rsi_blanket_entry := mk_rsi_blanket_entry 20480 4 8.

(** The structs at 8192 (two entries), 12288, 13312, 14336 and 15360; the request at 4096. *)
Definition reply_memory (op : Z) : memory :=
  place rsi_path_entry 8192 [VInt 20480; VInt 4; VInt 0; VGuid k1; VInt 5]
  (place rsi_path_entry 8232 [VInt 0; VInt 0; VInt 1; VGuid nil_guid; VInt 6]
  (place rsi_key_metadata 12288 [VGuid k1; VInt 20992; VInt 4; VInt 0; VInt 1; VInt 99]
  (place rsi_child_entry 13312 [VInt 20736; VInt 8; VInt 8192; VInt 2]
  (place rsi_value_entry 14336
    [VInt 20736; VInt 8; VInt 20480; VInt 4; VInt 1; VInt 20992; VInt 4; VInt 7]
  (place rsi_blanket_entry 15360 [VInt 20480; VInt 4; VInt 8]
  (place rsi_request 4096 [VInt 7; VInt 9; VInt 0; VInt 0; VInt op] strings_memory)))))).

Definition reply_request (op : Z) : rsi_request := mk_rsi_request 7 9 0 0 op.
Definition reply_state (op : Z) : state := sample_state (reply_memory op).

(** A safe array holding [xs], every element of it being safe. *)
Ltac solve_field := intros _ _; split_and!; [done|done|eexists; vm_compute; reflexivity].
Ltac solve_safe :=
  repeat match goal with
  | |- _ /\ _ => split
  | |- safe_entry _ _ => unfold safe_entry; simpl
  | |- safe_metadata _ _ => unfold safe_metadata; simpl
  | |- safe_value _ _ => unfold safe_value; simpl
  | |- safe_blanket _ _ => unfold safe_blanket; simpl
  | |- safe_field _ 0 _ => let H := fresh in intros H; exfalso; apply H; reflexivity
  | |- safe_field _ _ _ => solve_field
  end.
Ltac solve_array xs :=
  intros _; exists xs; split; [done|split; [done|done|vm_compute; reflexivity]].
Ltac solve_block xs :=
  split; [solve_array xs|];
  match goal with |- Forall _ (default [] ?o) =>
    let H := fresh in assert (o = Some xs) as H by (vm_compute; reflexivity); rewrite H
  end;
  repeat (apply Forall_cons_2; [solve_safe|]); try apply Forall_nil_2.

Lemma sample_entries op :
  safe_block rsi_path_entry (safe_entry (reply_memory op)) (reply_memory op) 8192 2.
Proof. solve_block [visible_entry; hidden_entry]. Qed.

Lemma sample_metadata op :
  safe_block rsi_key_metadata (safe_metadata (reply_memory op)) (reply_memory op) 12288 1.
Proof. solve_block [key_metadata]. Qed.

Lemma sample_children op :
  safe_block rsi_child_entry (safe_child (reply_memory op)) (reply_memory op) 13312 1.
Proof.
  split; [solve_array [child_entry]|].
  assert (array_of rsi_child_entry (reply_memory op) 13312 1 = Some [child_entry]) as ->
    by (vm_compute; reflexivity).
  apply Forall_cons_2; [|apply Forall_nil_2].
  split; [simpl; solve_safe|apply sample_entries].
Qed.

Lemma sample_values op :
  safe_block rsi_value_entry (safe_value (reply_memory op)) (reply_memory op) 14336 1.
Proof. solve_block [value_entry]. Qed.

Lemma sample_blankets op :
  safe_block rsi_blanket_entry (safe_blanket (reply_memory op)) (reply_memory op) 15360 1.
Proof. solve_block [blanket_entry]. Qed.

(** ** Sending *)

Lemma rsi_respond_lookup_correct_witness :
  wp (rsi_respond_lookup 3 4096 8192 2 12288 1) (reply_state 1) (λ res s', exists rc,
    res = Ok rc /\ responded 3 (reply_request 1)
      (lookup_desc (reply_memory 1) 8192 2 12288 1) (reply_state 1) rc s').
Proof.
  apply (rsi_respond_lookup_correct 3 4096 (reply_request 1) 8192 2 12288 1 (reply_state 1));
    [solve_sample|done|apply sample_entries|apply sample_metadata].
Defined.

Lemma rsi_respond_enum_children_correct_witness :
  wp (rsi_respond_enum_children 3 4096 13312 1 12288 1) (reply_state 5) (λ res s', exists rc,
    res = Ok rc /\ responded 3 (reply_request 5)
      (enum_children_desc (reply_memory 5) 13312 1 12288 1) (reply_state 5) rc s').
Proof.
  apply (rsi_respond_enum_children_correct 3 4096 (reply_request 5) 13312 1 12288 1
    (reply_state 5)); [solve_sample|done|apply sample_children|apply sample_metadata].
Defined.

Lemma rsi_respond_delete_layer_correct_witness :
  wp (rsi_respond_delete_layer 3 4096 21248 2) (reply_state 17) (λ res s', exists rc,
    res = Ok rc /\ responded 3 (reply_request 17)
      (delete_layer_desc (reply_memory 17) 21248 2) (reply_state 17) rc s').
Proof.
  apply (rsi_respond_delete_layer_correct 3 4096 (reply_request 17) 21248 2 (reply_state 17));
    [solve_sample|done|solve_safe|done].
Defined.

Lemma rsi_respond_read_key_correct_witness :
  wp (rsi_respond_read_key 3 4096 20736 8 21248 20992 4 0 1 99) (reply_state 7)
    (λ res s', exists rc, res = Ok rc /\ responded 3 (reply_request 7)
      (read_key_desc (reply_memory 7) 20736 8 21248 20992 4 0 1 99) (reply_state 7) rc s').
Proof.
  apply (rsi_respond_read_key_correct 3 4096 (reply_request 7) 20736 8 21248 20992 4 0 1 99
    (reply_state 7)); [solve_sample|done|solve_safe|done|solve_safe|solve_safe|done].
Defined.

Lemma rsi_respond_query_values_correct_witness :
  wp (rsi_respond_query_values 3 4096 14336 1 15360 1) (reply_state 10) (λ res s', exists rc,
    res = Ok rc /\ responded 3 (reply_request 10)
      (query_values_desc (reply_memory 10) 14336 1 15360 1) (reply_state 10) rc s').
Proof.
  apply (rsi_respond_query_values_correct 3 4096 (reply_request 10) 14336 1 15360 1
    (reply_state 10)); [solve_sample|done|apply sample_values|apply sample_blankets].
Defined.

(** LOOKUP must not be answered by a bare success. *)
Lemma rsi_respond_status_correct_witness :
  rsi_respond_status 3 4096 0 (reply_state 1) =
    ORet (-1) (with_errno EINVAL (reply_state 1)).
Proof.
  apply (proj2 (rsi_respond_status_correct 3 4096 0 (reply_state 1)) (reply_request 1)).
  solve_sample.
Defined.

Lemma responders_refuse_wrong_request_witness :
  rsi_respond_lookup 3 4096 1 2 3 4 (reply_state 18) =
    ORet (-1) (with_errno EINVAL (reply_state 18)).
Proof.
  apply (responders_refuse_wrong_request 3 4096 (reply_state 18) 1 2 3 4 0 0 0 0).
  right. exists (reply_request 18). split; [solve_sample|done].
Defined.

(** ** Whole runs

    What the return value, the errno and the frames on the wire are. *)

Definition run (m : M Z) (s : state) : option (Z * Z * list (list byte)) :=
  match m s with
  | ORet rc s' => Some (rc, st_errno s', sk_outbox (st_kern s'))
  | _ => None
  end.

Definition lookup_payload_sent : list byte :=
  to_le 4 2 ++
  (to_le 4 4 ++ bytes_of_string "base" ++ to_le 1 0 ++ k1 ++ to_le 8 5) ++
  (to_le 4 0 ++ to_le 1 1 ++ nil_guid ++ to_le 8 6) ++
  to_le 4 1 ++
  (k1 ++ to_le 4 4 ++ bytes_of_string "O:SY" ++ to_le 1 0 ++ to_le 1 1 ++ to_le 8 99).

Example lookup_sends_one_frame :
  run (rsi_respond_lookup 3 4096 8192 2 12288 1) (reply_state 1) =
  Some (0, 0, [response_frame 7 1 0 lookup_payload_sent]).
Proof. vm_compute. reflexivity. Qed.

(** Metadata that no entry points to. *)
Example lookup_rejects_missing_entries :
  run (rsi_respond_lookup 3 4096 0 0 12288 1) (reply_state 1) = Some (-1, 22, []).
Proof. vm_compute. reflexivity. Qed.

Example lookup_out_of_memory :
  run (rsi_respond_lookup 3 4096 8192 2 12288 1) (starved_state (reply_memory 1)) =
  Some (-1, 12, []).
Proof. vm_compute. reflexivity. Qed.

(** ** Reading back *)

Definition enum_payload_sent : list byte :=
  to_le 4 1 ++
  (to_le 4 8 ++ bytes_of_string "Software" ++ to_le 4 2 ++
    (to_le 4 4 ++ bytes_of_string "base" ++ to_le 1 0 ++ k1 ++ to_le 8 5) ++
    (to_le 4 0 ++ to_le 1 1 ++ nil_guid ++ to_le 8 6)) ++
  to_le 4 1 ++
  (k1 ++ to_le 4 4 ++ bytes_of_string "O:SY" ++ to_le 1 0 ++ to_le 1 1 ++ to_le 8 99).

Definition query_payload_sent : list byte :=
  to_le 4 1 ++
  (to_le 4 8 ++ bytes_of_string "Software" ++ to_le 4 4 ++ bytes_of_string "base" ++ to_le 4 1 ++
   to_le 4 4 ++ bytes_of_string "O:SY" ++ to_le 8 7) ++
  to_le 4 1 ++ (to_le 4 4 ++ bytes_of_string "base" ++ to_le 8 8).

Definition read_key_payload_sent : list byte :=
  to_le 4 8 ++ bytes_of_string "Software" ++ k1 ++ to_le 4 4 ++ bytes_of_string "O:SY" ++
  to_le 1 0 ++ to_le 1 1 ++ to_le 8 99.

Lemma sample_guid_set : valid_guid_set [k1].
Proof. by apply (bool_decide_unpack _). Qed.

Ltac rewrite_array ty m p n xs :=
  let H := fresh in
  assert (array_of ty m p n = Some xs) as H by (vm_compute; reflexivity); rewrite H; clear H.

Lemma sample_lookup_ok : lookup_ok (reply_memory 1) 8192 2 12288 1.
Proof.
  unfold lookup_ok, metadata_of.
  rewrite_array rsi_path_entry (reply_memory 1) 8192 2 [visible_entry; hidden_entry].
  rewrite_array rsi_key_metadata (reply_memory 1) 12288 1 [key_metadata].
  split; [by repeat constructor|]. split; [exact sample_guid_set|]. by intros g.
Qed.

Lemma sample_enum_ok : enum_ok (reply_memory 5) 13312 1 12288 1.
Proof.
  unfold enum_ok, metadata_of.
  rewrite_array rsi_child_entry (reply_memory 5) 13312 1 [child_entry].
  rewrite_array rsi_key_metadata (reply_memory 5) 12288 1 [key_metadata].
  assert (child_entries (reply_memory 5) child_entry = Some [visible_entry; hidden_entry]) as He
    by (vm_compute; reflexivity).
  assert (all_entries (reply_memory 5) [child_entry] = [visible_entry; hidden_entry]) as Ha
    by (unfold all_entries, compose; cbn [fmap list_fmap mjoin list_join]; by rewrite He).
  split.
  { apply Forall_cons_2; [|apply Forall_nil_2]. unfold valid_child. rewrite He.
    by repeat constructor. }
  rewrite Ha.
  split; [exact sample_guid_set|]. by intros g.
Qed.

Lemma sample_delete_layer_reply :
  delete_layer_reply (reply_memory 17) 21248 2 (to_le 4 2 ++ k1 ++ k2).
Proof.
  split; [|vm_compute; reflexivity].
  assert (orphans_of (reply_memory 17) 21248 2 = Some [k1; k2]) as ->
    by (vm_compute; reflexivity).
  by apply (bool_decide_unpack (valid_guid_set [k1; k2])).
Qed.

Lemma status_frame_roundtrip_witness :
  exists frame, build_status_frame 7 32786 0 (reply_state 18) = ORet frame (reply_state 18) /\
    Z.of_nat (length frame) = 18 /\ read_frame frame = Some (mk_wire_frame 7 32786 0 []).
Proof. by apply (status_frame_roundtrip (P := sample_platform) 7 18 0 (reply_state 18)). Defined.

(** ** Validation and finishing *)

Lemma validate_lookup_metadata_correct_witness :
  wp (validate_lookup_metadata 8192 2 12288 1) (reply_state 1)
    (checked (lookup_guids (reply_memory 1) 8192 2 1) (reply_state 1) (lookup_ok (reply_memory 1) 8192 2 12288 1) (λ _, True)).
Proof.
  apply (validate_lookup_metadata_correct 8192 2 12288 1 (reply_state 1));
    [apply sample_entries|apply sample_metadata].
Defined.

Lemma validate_enum_children_metadata_correct_witness :
  wp (validate_enum_children_metadata 13312 1 12288 1) (reply_state 5)
    (checked (enum_guids (reply_memory 5) 13312 1 1) (reply_state 5) (enum_ok (reply_memory 5) 13312 1 12288 1) (λ _, True)).
Proof.
  apply (validate_enum_children_metadata_correct 13312 1 12288 1 (reply_state 5));
    [apply safe_children_block, sample_children|apply sample_metadata].
Defined.

Lemma finish_response_correct_witness :
  finish_response (reply_request 17)
    (mk_frame_writer (mk_rvec 65536 64 (replicate 18 Byte.x00 ++ to_le 4 0)) false)
    (reply_state 17) = ORet (response_frame 7 17 0 (to_le 4 0)) (reply_state 17).
Proof.
  apply (finish_response_correct (P := sample_platform) (reply_request 17)
    (mk_frame_writer (mk_rvec 65536 64 (replicate 18 Byte.x00 ++ to_le 4 0)) false)
    (replicate 18 Byte.x00) (to_le 4 0) (reply_state 17)); done.
Defined.

Lemma validate_unique_nonzero_guids_correct_witness :
  (exists gs', valid_guid_set [k2; k1; k2] /\ arrangement_of [k2; k1; k2] gs' /\
     validate_unique_nonzero_guids [k2; k1; k2] (reply_state 1) = ORet gs' (reply_state 1)) \/
  (~ valid_guid_set [k2; k1; k2] /\
   validate_unique_nonzero_guids [k2; k1; k2] (reply_state 1) = OErr EINVAL (reply_state 1)).
Proof.
  apply (validate_unique_nonzero_guids_correct (P := sample_platform) [k2; k1; k2] (reply_state 1)).
  by repeat constructor.
Defined.
