(* ===== verification/ServiceExamples.v ===== *)
(** * Calls, sessions and a turn on the sample platform

    Concrete inputs for the theorems of [Server.v], [RoundTrip.v] and [Service.v]. *)

From Stdlib Require Import String.
From S2P Require Import Prelude Memory Platform Effects Request Guids GuidsSpec Frame.
From S2P Require Import FrameSpec Response ResponseSpec Wire RequestSpec Server RoundTrip Service.
From S2P Require Import Sample RequestExamples ResponseExamples.
#[local] Open Scope Z_scope.

(** ** Sessions *)

Lemma respond_delivers_witness :
  wp (respond 3 4096 (CallLookup 8192 2 12288 1)) (reply_state 1) (λ res s', exists rc,
    res = Ok rc /\ call_outcome 3 (reply_request 1) (CallLookup 8192 2 12288 1)
      (reply_state 1) rc s').
Proof.
  apply (respond_delivers 3 4096 (reply_request 1) (CallLookup 8192 2 12288 1) (reply_state 1));
    [solve_sample|split; [apply sample_entries|apply sample_metadata]].
Defined.

Lemma respond_sends_witness :
  let s := generous_state (reply_memory 1) in
  wp (respond (P := generous_platform) 3 4096 (CallLookup 8192 2 12288 1)) s
    (λ res s', exists rc, res = Ok rc /\
       sent_answer (P := generous_platform) 3 (reply_request 1) 0 lookup_payload_sent s rc s').
Proof.
  apply (respond_sends (P := generous_platform) 3 4096 (reply_request 1)
    (CallLookup 8192 2 12288 1) 0 lookup_payload_sent (generous_state (reply_memory 1))
    (PlatformLaws0 := generous_platform_laws)).
  - apply generous_never_refuses.
  - solve_sample.
  - split; [apply sample_entries|apply sample_metadata].
  - split; [done|]. split; [done|]. split; [exact sample_lookup_ok|vm_compute; reflexivity].
  - vm_compute. reflexivity.
Defined.

(** A success status that LOOKUP does not allow, a status that it does, a reply. *)
Definition sample_calls : list (Z * call) :=
  [(4096, CallStatus 0); (4096, CallStatus 2); (4096, CallLookup 8192 2 12288 1)].

Lemma session_in_order_witness :
  let s := reply_state 1 in let rs := [reply_request 1; reply_request 1; reply_request 1] in
  wp (session 3 sample_calls) s (λ res s', exists rcs fs, res = Ok rcs /\
    st_mem s' = st_mem s /\
    length rcs = length sample_calls /\ length fs = length sample_calls /\
    (forall i req c r rc f, sample_calls !! i = Some (req, c) -> rs !! i = Some r ->
       rcs !! i = Some rc -> fs !! i = Some f -> call_wrote (st_mem s) rc f (r, c)) /\
    frames_written (st_trace s') = frames_written (st_trace s) ++ omap id fs).
Proof.
  apply (session_in_order 3 sample_calls [reply_request 1; reply_request 1; reply_request 1]
    (reply_state 1)).
  - repeat (apply Forall2_cons_2; [solve_sample|]). apply Forall2_nil_2.
  - repeat (apply Forall_cons_2); [done|done| |apply Forall_nil_2].
    split; [apply sample_entries|apply sample_metadata].
Defined.

Example session_run :
  match session 3 sample_calls (reply_state 1) with
  | ORet rcs s => Some (rcs, sk_outbox (st_kern s))
  | _ => None
  end = Some ([-1; 0; 0], [response_frame 7 1 2 []; response_frame 7 1 0 lookup_payload_sent]).
Proof. vm_compute. reflexivity. Qed.

(** ** From the arguments to the receiver *)

Definition sample_wire_entries : list wire_entry :=
  [mk_wire_entry (bytes_of_string "base") 0 k1 5; mk_wire_entry [] 1 nil_guid 6].
Definition sample_wire_metadata : list wire_metadata :=
  [mk_wire_metadata k1 (bytes_of_string "O:SY") 0 1 99].

(** The reply of a sample memory, whose payload is [b]. *)
Ltac solve_fits b ok := exists b; split; [split; [exact ok|]|]; vm_compute; reflexivity.

Lemma rsi_respond_lookup_roundtrip_witness :
  wp (rsi_respond_lookup (P := generous_platform) 3 4096 8192 2 12288 1)
    (generous_state (reply_memory 1)) (λ res s', exists rc, res = Ok rc /\
    arrives (P := generous_platform) 3 (reply_request 1) rd_lookup_payload
      (sample_wire_entries, sample_wire_metadata) (generous_state (reply_memory 1)) s').
Proof.
  apply (rsi_respond_lookup_roundtrip (P := generous_platform) 3 4096 (reply_request 1)
    8192 2 12288 1 (generous_state (reply_memory 1)) (PlatformLaws0 := generous_platform_laws));
    [apply generous_never_refuses|solve_sample|done|done|done|apply sample_entries
    |apply sample_metadata|solve_fits lookup_payload_sent sample_lookup_ok].
Defined.

Lemma rsi_respond_enum_children_roundtrip_witness :
  wp (rsi_respond_enum_children (P := generous_platform) 3 4096 13312 1 12288 1)
    (generous_state (reply_memory 5)) (λ res s', exists rc, res = Ok rc /\
    arrives (P := generous_platform) 3 (reply_request 5) rd_enum_children_payload
      ([mk_wire_child (bytes_of_string "Software") sample_wire_entries], sample_wire_metadata)
      (generous_state (reply_memory 5)) s').
Proof.
  apply (rsi_respond_enum_children_roundtrip (P := generous_platform) 3 4096 (reply_request 5)
    13312 1 12288 1 (generous_state (reply_memory 5)) (PlatformLaws0 := generous_platform_laws));
    [apply generous_never_refuses|solve_sample|done|done|done
    |apply sample_children|apply sample_metadata
    |solve_fits enum_payload_sent sample_enum_ok].
Defined.

Lemma rsi_respond_query_values_roundtrip_witness :
  wp (rsi_respond_query_values (P := generous_platform) 3 4096 14336 1 15360 1)
    (generous_state (reply_memory 10)) (λ res s', exists rc, res = Ok rc /\
    arrives (P := generous_platform) 3 (reply_request 10) rd_query_values_payload
      ([mk_wire_value (bytes_of_string "Software") (bytes_of_string "base") 1
          (bytes_of_string "O:SY") 7], [mk_wire_blanket (bytes_of_string "base") 8])
      (generous_state (reply_memory 10)) s').
Proof.
  apply (rsi_respond_query_values_roundtrip (P := generous_platform) 3 4096 (reply_request 10)
    14336 1 15360 1 (generous_state (reply_memory 10)) (PlatformLaws0 := generous_platform_laws));
    [apply generous_never_refuses|solve_sample|done|done|done|apply sample_values
    |apply sample_blankets|exists query_payload_sent; split; vm_compute; reflexivity].
Defined.

Lemma rsi_respond_read_key_roundtrip_witness :
  wp (rsi_respond_read_key (P := generous_platform) 3 4096 20736 8 21248 20992 4 0 1 99)
    (generous_state (reply_memory 7)) (λ res s', exists rc, res = Ok rc /\
    (0 = 0 \/ 0 = 1) /\ (1 = 0 \/ 1 = 1) /\
    arrives (P := generous_platform) 3 (reply_request 7) rd_read_key_payload
      (mk_wire_key (bytes_of_string "Software") k1 (bytes_of_string "O:SY") 0 1 99)
      (generous_state (reply_memory 7)) s').
Proof.
  apply (rsi_respond_read_key_roundtrip (P := generous_platform) 3 4096 (reply_request 7)
    20736 8 21248 20992 4 0 1 99 (generous_state (reply_memory 7))
    (PlatformLaws0 := generous_platform_laws));
    [apply generous_never_refuses|solve_sample|done|done|done|done|solve_field..|].
  exists read_key_payload_sent. split; vm_compute; reflexivity.
Defined.

Lemma rsi_respond_delete_layer_roundtrip_witness :
  wp (rsi_respond_delete_layer (P := generous_platform) 3 4096 21248 2)
    (generous_state (reply_memory 17)) (λ res s', exists rc gs, res = Ok rc /\
    orphans_of (reply_memory 17) 21248 2 = Some gs /\ Z.of_nat (length gs) = 2 /\
    valid_guid_set gs /\
    arrives (P := generous_platform) 3 (reply_request 17) rd_delete_layer_payload gs
      (generous_state (reply_memory 17)) s').
Proof.
  apply (rsi_respond_delete_layer_roundtrip (P := generous_platform) 3 4096 (reply_request 17)
    21248 2 (generous_state (reply_memory 17)) (PlatformLaws0 := generous_platform_laws));
    [apply generous_never_refuses|solve_sample|done|done|solve_field|].
  exists (to_le 4 2 ++ k1 ++ k2). split; [exact sample_delete_layer_reply|vm_compute; reflexivity].
Defined.

Lemma sample_valid :
  points_to rsi_request (st_mem (reply_state 1)) 4096 (reply_request 1) /\
  typed_call (CallLookup 8192 2 12288 1) /\
  safe_call (st_mem (reply_state 1)) (CallLookup 8192 2 12288 1).
Proof.
  split; [solve_sample|]. split; [by split|]. split; [apply sample_entries|apply sample_metadata].
Qed.

(** The same answer given twice, through two descriptors. *)
Lemma sample_wrote fd rc :
  match respond fd 4096 (CallLookup 8192 2 12288 1) (reply_state 1) with
  | ORet rc' s' =>
      (rc', st_trace s') = (rc, [EvWrite fd (response_frame 7 1 0 lookup_payload_sent)])
  | _ => False
  end ->
  wrote fd 4096 (reply_request 1) (CallLookup 8192 2 12288 1) (reply_state 1)
    (response_frame 7 1 0 lookup_payload_sent).
Proof.
  intros Hrun. apply mk_wrote; [apply sample_valid..|].
  destruct (respond _ _ _ _) as [rc' s'| | |]; [|destruct Hrun..].
  injection Hrun as -> Htr. by exists rc, s'.
Qed.

Lemma frame_determines_answer_witness :
  let c := CallLookup 8192 2 12288 1 in
  rq_request_id (reply_request 1) = rq_request_id (reply_request 1) /\
  describes (st_mem (reply_state 1)) c = describes (st_mem (reply_state 1)) c.
Proof.
  apply (frame_determines_answer 3 4 4096 4096 (reply_request 1) (reply_request 1)
    (CallLookup 8192 2 12288 1) (CallLookup 8192 2 12288 1) (reply_state 1) (reply_state 1)
    (response_frame 7 1 0 lookup_payload_sent));
    [apply (sample_wrote 3 0)|apply (sample_wrote 4 0)|done]; vm_compute; reflexivity.
Defined.

Lemma written_frames_accepted_witness :
  wp (respond 3 4096 (CallLookup 8192 2 12288 1)) (reply_state 1) (λ res s', exists rc evs,
    res = Ok rc /\ st_trace s' = [] ++ evs /\
    Forall (λ frame, kernel_accepts (reply_request 1) frame = true) (frames_written evs) /\
    (rc = 0 -> exists frame, evs = [EvWrite 3 frame])).
Proof.
  apply (written_frames_accepted 3 4096 (reply_request 1) (CallLookup 8192 2 12288 1)
    (reply_state 1)); [solve_sample|split; [apply sample_entries|apply sample_metadata]].
Defined.

(** ** A turn

    A SET_VALUE request is pending; it is answered with a bare success. *)

Definition serving_state : state :=
  mk_state (place rsi_request 4096 [] (store ∅ 8192 (replicate 128 Byte.xff))) 0
    (mk_sample_astate 65536 1048576) (mk_sample_kstate 3 [set_value_frame] []) [].

Lemma sample_policy buf cap out m : safe_policy buf cap out m (λ _, CallStatus 0).
Proof. by intros m' r _. Qed.

Lemma serve_answers_what_it_read_witness :
  wp (serve 3 8192 128 4096 (λ _, CallStatus 0)) serving_state
    (λ res s', exists rc, res = Ok rc /\
       turn 3 8192 128 4096 (λ _, CallStatus 0) serving_state rc s').
Proof.
  apply (serve_answers_what_it_read 3 8192 128 4096 (λ _, CallStatus 0) serving_state);
    [|apply sample_policy].
  split; [done|done|done|eexists; vm_compute; reflexivity| |by right].
  exists blank_request. solve_sample.
Defined.

Example serve_run :
  run (serve 3 8192 128 4096 (λ _, CallStatus 0)) serving_state =
  Some (0, 0, [response_frame 7 11 0 []]).
Proof. vm_compute. reflexivity. Qed.

(** ** Receiving

    The same request, decoded into the struct at 16384. *)

Definition receiving_state : state :=
  mk_state (place rsi_set_value 16384 [] (st_mem serving_state)) 0
    (mk_sample_astate 65536 1048576) (mk_sample_kstate 3 [set_value_frame] []) [].


(** What the caller then finds: the three fields through their pointers, the rest by value. *)
Example receive_run :
  match receive 3 8192 128 4096 rsi_request_set_value 16384 receiving_state with
  | ORet 0 s' =>
      o ← read rsi_set_value (st_mem s') 16384;
      n ← load (st_mem s') (rsv_value_name o) (Z.to_nat (rsv_value_name_len o));
      l ← load (st_mem s') (rsv_layer_name o) (Z.to_nat (rsv_layer_name_len o));
      d ← load (st_mem s') (rsv_data o) (Z.to_nat (rsv_data_len o));
      Some (n, l, d, rsv_sequence o)
  | _ => None
  end = Some (bytes_of_string "Path", bytes_of_string "base", bytes_of_string "/bin", 5).
Proof. vm_compute. reflexivity. Qed.
