(* ===== verification/TestExamples.v ===== *)
(** * The unit tests on the sample platform

    Writers for the sample platform's request frames, which satisfy the laws that
    [RequestTests.v] assumes of lcs-core's, and the tests run there. *)

From Stdlib Require Import String.
From S2P Require Import Prelude Memory Platform Effects Testing Request RequestTests.
From S2P Require Import UnitTests Sample.
#[local] Open Scope Z_scope.

(** ** Writers *)

(** Exactly the next bytes of the slice are [bs], and [p] makes of them a value in [Q]. *)
Definition p_reads {A} (p : parser A) (bs : list byte) (Q : A -> Prop) : Prop :=
  forall sl pre post, sl_bytes sl = pre ++ bs ++ post ->
    exists a, p sl (length pre) = Some (a, (length pre + length bs)%nat) /\ Q a.

Lemma p_reads_bind {A B} (p : parser A) (k : A -> parser B) b1 b2 R Q :
  p_reads p b1 R -> (forall a, R a -> p_reads (k a) b2 Q) -> p_reads (x ← p; k x) (b1 ++ b2) Q.
Proof.
  intros Hp Hk sl pre post Hsl. rewrite <- app_assoc in Hsl.
  destruct (Hp sl pre (b2 ++ post) Hsl) as (a & Ha & HR). rewrite app_assoc in Hsl.
  destruct (Hk a HR sl (pre ++ b1) post Hsl) as (b & Hb & HQ). exists b. split; [|done].
  unfold mbind, parser_bind. rewrite Ha, <- length_app, Hb, !length_app. do 2 f_equal. lia.
Qed.

Lemma p_reads_bind_last {A B} (p : parser A) (k : A -> parser B) b R Q :
  p_reads p b R -> (forall a, R a -> p_reads (k a) [] Q) -> p_reads (x ← p; k x) b Q.
Proof. intros Hp Hk. rewrite <- (app_nil_r b). by eapply p_reads_bind. Qed.

(** The last field. *)
Lemma p_reads_last {A B} (p : parser A) (f : A -> B) b R (Q : B -> Prop) :
  p_reads p b R -> (forall a, R a -> Q (f a)) -> p_reads (x ← p; mret (f x)) b Q.
Proof.
  intros Hp Hf sl pre post Hsl. destruct (Hp sl pre post Hsl) as (a & Ha & HR).
  exists (f a). split; [|by apply Hf]. unfold mbind, parser_bind. by rewrite Ha.
Qed.

Lemma p_reads_ret {A} (a : A) (Q : A -> Prop) : Q a -> p_reads (mret a) [] Q.
Proof. intros HQ sl pre post _. exists a. by rewrite Nat.add_0_r. Qed.

Lemma p_reads_bytes bs : p_reads (p_bytes (length bs)) bs (λ b, b = bs).
Proof.
  intros sl pre post Hsl. exists bs. split; [|done]. unfold p_bytes. rewrite Hsl.
  rewrite (proj2 (Nat.leb_le _ _)) by (rewrite !length_app; lia).
  by rewrite drop_app_length, take_app_length.
Qed.

Lemma p_reads_int n z :
  0 <= z < 2 ^ (8 * Z.of_nat n) -> p_reads (p_int n) (to_le n z) (λ x, x = z).
Proof.
  intros Hz. eapply p_reads_last.
  - pose proof (p_reads_bytes (to_le n z)) as Hb. by rewrite length_le_split in Hb.
  - intros b ->. rewrite of_le_to_le. by apply wrap_small.
Qed.

Lemma p_reads_guid g : guid_wf g -> p_reads p_guid g (λ x, x = g).
Proof. intros Hg. pose proof (p_reads_bytes g) as Hb. by rewrite Hg in Hb. Qed.

Lemma p_reads_bool b : p_reads p_bool (to_le 1 (Z.b2z b)) (λ x, x = b).
Proof.
  intros sl pre post Hsl. unfold p_bool.
  destruct (p_reads_int 1 (Z.b2z b) ltac:(by destruct b) sl pre post Hsl) as (x & Hx & ->).
  exists b. split; [|done]. unfold mbind, parser_bind. rewrite Hx. by destruct b.
Qed.

(** A length-prefixed field. *)
Definition w_lpf (bs : list byte) : list byte := to_le 4 (Z.of_nat (length bs)) ++ bs.

Lemma p_reads_lpf bs : short bs -> p_reads p_lpf (w_lpf bs) (λ f, field f = bs).
Proof.
  intros Hbs. eapply p_reads_bind; [by apply p_reads_int|]. intros n ->. rewrite Nat2Z.id.
  intros sl pre post Hsl. destruct (p_reads_bytes bs sl pre post Hsl) as (b & Hb & ->).
  eexists. unfold mbind, parser_bind, p_here. by rewrite Hb.
Qed.

Definition w_header (total op id txn : Z) : list byte :=
  to_le 4 total ++ to_le 8 id ++ to_le 2 op ++ to_le 8 txn.

(** A frame that fits the buffer; the id and the op are kept. *)
Definition w_frame (op : Z) (payload : list byte) (cap : nat) (id txn : Z) :
    result unit (built (Z * Z)) :=
  let total := 22 + Z.of_nat (length payload) in
  if (total <=? Z.of_nat cap) && (total <? 2 ^ 32)
  then Ok (mk_built (w_header total op id txn ++ payload) (id, wrap 16 op)) else Err tt.

Lemma length_w_header total op id txn : length (w_header total op id txn) = 22%nat.
Proof. unfold w_header. by rewrite !length_app, !length_le_split. Qed.

Lemma p_reads_header total op id txn :
  is_u32 total -> op ∈ request_ops -> is_u16 op -> is_u64 id -> is_u64 txn ->
  p_reads p_header (w_header total op id txn) (λ h, h = mk_request_header id txn op).
Proof.
  intros Htot Hop Hop16 Hid Htxn. unfold w_header.
  eapply p_reads_bind; [by apply p_reads_int|]. intros ? _.
  eapply p_reads_bind; [by apply p_reads_int|]. intros ? ->.
  eapply p_reads_bind; [by apply p_reads_int|]. intros ? ->.
  eapply p_reads_bind_last; [by apply p_reads_int|]. intros ? ->.
  intros sl pre post _. eexists. unfold mbind, parser_bind, p_opt.
  rewrite bool_decide_true by done. by rewrite Nat.add_0_r.
Qed.

Definition w_write_key (g : guid) (sd : option (list byte)) (t : option Z) : list byte :=
  g ++ to_le 4 (Z.lor (if sd is Some _ then 1 else 0) (if t is Some _ then 2 else 0)) ++
  from_option w_lpf [] sd ++ from_option (to_le 8) [] t.

#[export] Instance sample_writers K A : RequestWriters (P := platform_on K A) := {
  RsiRetainedRequest := Z * Z;
  RSI_WRITE_KEY_FIELD_SD := 1;
  RSI_WRITE_KEY_FIELD_LAST_WRITE_TIME := 2;
  RsiTransactionMode_ReadOnly := (true : RsiTransactionMode (LcsCore := sample_lcs));
  RsiTransactionMode_ReadWrite := (false : RsiTransactionMode (LcsCore := sample_lcs));
  write_rsi_lookup_request_frame cap id txn g n :=
    w_frame RSI_LOOKUP (g ++ w_lpf n) cap id txn;
  write_rsi_create_entry_request_frame cap id txn g n l c q :=
    w_frame RSI_CREATE_ENTRY (g ++ c ++ w_lpf n ++ w_lpf l ++ to_le 8 q) cap id txn;
  write_rsi_hide_entry_request_frame cap id txn g n l q :=
    w_frame RSI_HIDE_ENTRY (g ++ w_lpf n ++ w_lpf l ++ to_le 8 q) cap id txn;
  write_rsi_delete_entry_request_frame cap id txn g n l :=
    w_frame RSI_DELETE_ENTRY (g ++ w_lpf n ++ w_lpf l) cap id txn;
  write_rsi_enum_children_request_frame cap id txn g := w_frame RSI_ENUM_CHILDREN g cap id txn;
  write_rsi_create_key_request_frame cap id txn g n pg sd v l :=
    w_frame RSI_CREATE_KEY (g ++ pg ++ w_lpf n ++ w_lpf sd ++ to_le 1 (Z.b2z v) ++
                            to_le 1 (Z.b2z l)) cap id txn;
  write_rsi_read_key_request_frame cap id txn g := w_frame RSI_READ_KEY g cap id txn;
  write_rsi_drop_key_request_frame cap id txn g := w_frame RSI_DROP_KEY g cap id txn;
  write_rsi_write_key_request_frame cap id txn g sd t :=
    w_frame RSI_WRITE_KEY (w_write_key g sd t) cap id txn;
  write_rsi_query_values_request_frame cap id txn g n a :=
    w_frame RSI_QUERY_VALUES (g ++ w_lpf n ++ to_le 1 (Z.b2z a)) cap id txn;
  write_rsi_set_value_request_frame cap id txn g n l ty d q e :=
    w_frame RSI_SET_VALUE (g ++ w_lpf n ++ w_lpf l ++ to_le 4 ty ++ w_lpf d ++ to_le 8 q ++
                           to_le 8 e) cap id txn;
  write_rsi_delete_value_entry_request_frame cap id txn g n l :=
    w_frame RSI_DELETE_VALUE_ENTRY (g ++ w_lpf n ++ w_lpf l) cap id txn;
  write_rsi_set_blanket_tombstone_request_frame cap id txn g l b q :=
    w_frame RSI_SET_BLANKET_TOMBSTONE (g ++ w_lpf l ++ to_le 1 (Z.b2z b) ++ to_le 8 q) cap id txn;
  write_rsi_begin_transaction_request_frame cap id txn t m :=
    w_frame RSI_BEGIN_TRANSACTION (to_le 8 t ++ to_le 1 (Z.b2z m)) cap id txn;
  write_rsi_commit_transaction_request_frame cap id txn t :=
    w_frame RSI_COMMIT_TRANSACTION (to_le 8 t) cap id txn;
  write_rsi_abort_transaction_request_frame cap id txn t :=
    w_frame RSI_ABORT_TRANSACTION (to_le 8 t) cap id txn;
  write_rsi_delete_layer_request_frame cap id txn n :=
    w_frame RSI_DELETE_LAYER (w_lpf n) cap id txn;
  write_rsi_flush_request_frame cap id txn n := w_frame RSI_FLUSH (w_lpf n) cap id txn
}.

Section writers.
Context (K : Kernel) (A : Allocator).
Abbreviation here := (platform_on K A).

Lemma w_frame_builds {V} op payload (p : parser V) Q :
  op ∈ request_ops -> is_u16 op -> p_reads p payload Q ->
  builds (P := here) (w_frame op payload) op (run_parser p) Q.
Proof.
  intros Hop Hop16 Hp cap id txn b Hid Htxn. unfold w_frame.
  set (total := 22 + Z.of_nat (length payload)).
  destruct (Z.leb_spec total (Z.of_nat cap)), (Z.ltb_spec total (2 ^ 32)); [|done..].
  set (hd := w_header total op id txn). pose proof (length_w_header total op id txn) as Hlh.
  fold hd in Hlh. intros Heq.
  assert (b = mk_built (hd ++ payload) (id, wrap 16 op)) as -> by (injection Heq; done).
  clear Heq. cbn [built_bytes]. split; [rewrite length_app; lia|]. intros ptr.
  destruct (p_reads_header total op id txn ltac:(unfold is_u32; lia) Hop Hop16 Hid Htxn
    (mk_slice ptr (hd ++ payload)) [] payload eq_refl) as (h & Hh & ->).
  destruct (Hp (mk_slice (ptr + 22) payload) [] [] ltac:(by rewrite app_nil_r)) as (v & Hv & HQ).
  exists (mk_request_header id txn op), v. split_and!; [ |done|done| | |done].
  - change (run_header (mk_slice ptr (hd ++ payload)) = Ok (mk_request_header id txn op)).
    unfold run_header. cbn [length] in Hh. rewrite Hh. cbn [sl_bytes].
    rewrite take_app_le by lia.
    assert (take 4 hd = to_le 4 total) as ->.
    { unfold hd, w_header. rewrite take_app_le by (by rewrite length_le_split).
      apply take_ge. by rewrite length_le_split. }
    rewrite of_le_to_le, wrap_small by (change (8 * Z.of_nat 4) with 32; lia).
    rewrite (proj2 (Z.eqb_eq _ _)); [done|]. rewrite length_app. lia.
  - by rewrite wrap_small.
  - change (Z.to_nat RSI_REQUEST_HEADER_SIZE) with 22%nat. rewrite drop_app_le by lia.
    rewrite (drop_ge hd) by lia. unfold run_parser.
    cbn [length] in Hv. rewrite app_nil_l.
    change RSI_REQUEST_HEADER_SIZE with 22. rewrite Hv. by rewrite Nat.eqb_refl.
Qed.

Ltac read_field :=
  first [ by apply p_reads_guid | by apply p_reads_lpf | by apply p_reads_bool
        | by apply p_reads_int ].

(** A writer and the parser of its op go through the same fields. *)
Ltac solve_writer :=
  intros; apply w_frame_builds; [by apply (bool_decide_unpack _)|done|];
  repeat first
    [ eapply p_reads_last; [read_field|intros ? ?; subst; simpl; tauto]
    | eapply p_reads_bind; [read_field|intros ? ?] ].

Lemma p_reads_write_key g sd t :
  guid_wf g -> from_option short True sd -> from_option is_u64 True t ->
  p_reads p_write_key (w_write_key g sd t)
    (λ v, wk_guid v = g /\ field <$> wk_sd v = sd /\ wk_last_write_time v = t /\
          wk_field_mask v = Z.lor (if sd is Some _ then 1 else 0) (if t is Some _ then 2 else 0)).
Proof.
  intros Hg Hsd Ht. eapply p_reads_bind; [by apply p_reads_guid|]. intros ? ->.
  eapply p_reads_bind; [apply p_reads_int; by destruct sd, t|]. intros ? ->.
  eapply (p_reads_bind _ _ _ _ (λ o, field <$> o = sd)).
  { destruct sd as [sd|]; [|by destruct t; apply p_reads_ret]. 
    replace (Z.testbit _ 0) with true by (by destruct t).
    eapply p_reads_last; [by apply p_reads_lpf|]. by intros ? <-. }
  intros o Ho. eapply p_reads_bind_last;
    [instantiate (1 := λ o, o = t)|intros ? ->; by apply p_reads_ret].
  destruct t as [t|]; [|by destruct sd; apply p_reads_ret].
  replace (Z.testbit _ 1) with true by (by destruct sd).
  eapply p_reads_last; [by apply p_reads_int|]. by intros ? ->.
Qed.

Lemma sample_writers_laws : RequestWritersLaws (P := here).
Proof.
  split; try done; try (solve [solve_writer]).
  intros. apply w_frame_builds; [by apply (bool_decide_unpack _)|done|by apply p_reads_write_key].
Qed.

End writers.

#[export] Existing Instance sample_writers_laws.

(** ** The tests, run and applied *)

Definition ran (t : M unit) : bool :=
  match t (sample_state ∅) with ORet _ _ => true | _ => false end.

(** Evaluated, every test runs to its end. *)
Example request_tests_run_here : forallb ran request_tests = true.
Proof. vm_compute. reflexivity. Qed.

Example source_tests_run_here : forallb ran source_tests = true.
Proof. vm_compute. reflexivity. Qed.

Example response_tests_run_here : forallb ran response_tests = true.
Proof. vm_compute. reflexivity. Qed.

Lemma request_tests_pass_witness :
  Forall (λ w, is_ok w = true) test_frames /\
  Forall (λ t, passes t (sample_state ∅)) request_tests.
Proof.
  assert (Forall (λ w, is_ok w = true) test_frames) as Hok.
  { repeat apply Forall_cons_2; try apply Forall_nil_2; vm_compute; reflexivity. }
  split; [exact Hok|]. exact (request_tests_pass (sample_state ∅) Hok).
Defined.

Lemma unit_tests_pass_witness :
  Forall (λ t, passes (P := generous_platform) t (generous_state ∅))
    (source_tests (P := generous_platform) ++ response_tests (P := generous_platform)).
Proof.
  pose proof generous_platform_laws as Hlaws.
  apply (unit_tests_pass (P := generous_platform) (generous_state ∅)).
  - apply generous_never_refuses.
  - exists tt. vm_compute. reflexivity.
Defined.
