(* ===== verification/PipeExamples.v ===== *)
(** * The round-trip tests on a sample platform

    A kernel with one pipe and the laws that [Pipe.v] assumes of it, response parsers made of
    the readers of [Wire.v] with which the tests can be run, and concrete inputs for the
    theorems of [Pipe.v] and [ResponseTests.v]. *)

From Stdlib Require Import String.
From stdpp Require Import relations.
From S2P Require Import Prelude Memory Platform Effects Testing Request Guids GuidsSpec FrameSpec.
From S2P Require Import Wire Server Pipe RequestTests UnitTests ResponseTests Sample TestExamples.
#[local] Open Scope Z_scope.

(** ** A pipe

    Its ends are 3 and 4; the state is what it holds and whether the write end is open. A
    read takes up to seven bytes; an empty pipe is EAGAIN (11) while the write end is open. *)

Definition pipe_state : Type := option (list byte * bool).

Definition pipe_read (k : pipe_state) (fd cap : Z) : pipe_state * result Z (list byte) :=
  match k with
  | Some ([], true) => (k, Err 11)
  | Some (bs, open) =>
      if (fd =? 3) && (0 <? cap)
      then let n := Nat.min 7 (Z.to_nat cap) in (Some (drop n bs, open), Ok (take n bs))
      else (k, Err 9)
  | None => (k, Err 9)
  end.

#[local] Instance pipe_kernel : Kernel := {
  kstate := pipe_state;
  k_open k _ _ := (k, Err 2);
  k_close k fd := (if fd =? 4 then (λ p, (p.1, false)) <$> k else k, Ok 0);
  k_ioctl k _ _ _ _ := (k, Err 25);
  k_read := pipe_read;
  k_write k fd bs :=
    match k with
    | Some (held, true) =>
        if fd =? 4 then (Some (held ++ bs, true), Ok (Z.of_nat (length bs))) else (k, Err 9)
    | _ => (k, Err 9)
    end
}.

Lemma pipe_kernel_laws : KernelLaws pipe_kernel.
Proof.
  split; simpl; try done.
  - intros k fd cap k' bs. unfold pipe_read.
    assert (forall l : list byte, 0 < cap -> Z.of_nat (length (take (Nat.min 7 (Z.to_nat cap)) l)) <= cap)
      as Hle by (intros l Hcap; rewrite length_take; lia).
    destruct k as [[[|b held] open]|]; [destruct open|..]; try done;
      (destruct (Z.eqb_spec fd 3), (Z.ltb_spec 0 cap); cbn [andb]; try done);
      intros [= <- <-]; by apply Hle.
  - intros k fd bs k' n. destruct k as [[held []]|]; try done.
    destruct (fd =? 4); [|done]. intros [= <- <-]. lia.
Qed.

Definition pipe_platform : Platform := platform_on pipe_kernel generous_allocator.

Lemma pipe_platform_laws : PlatformLaws pipe_platform.
Proof. apply platform_on_laws; [apply pipe_kernel_laws|apply generous_allocator_laws]. Qed.

Definition one_pipe : Pipes (P := pipe_platform) := Build_Pipes pipe_platform
  (λ k : pipe_state,
     match k with
     | None => (Some ([], true), Ok (3, 4))
     | Some _ => (k, Err 24)
     end)
  (λ (k : pipe_state) r w bs open, r = 3 /\ w = 4 /\ k = Some (bs, open)).

Lemma one_pipe_laws : PipesLaws one_pipe.
Proof.
  split; simpl.
  - intros k r w bs bs' o o' (_ & _ & ->) (_ & _ & [= -> ->]). done.
  - intros [[bs o]|] k' r w; [done|]. by intros [= <- <- <-].
  - intros k r w frame (-> & -> & ->) _ _. simpl. by eexists.
  - intros k r w bs o cap (-> & -> & ->) Hne Hcap. simpl.
    exists (Some (drop (Nat.min 7 (Z.to_nat cap)) bs, o)), (Nat.min 7 (Z.to_nat cap)).
    split_and!; [lia|lia| |done..]. unfold pipe_read. destruct bs as [|b bs]; [done|].
    by rewrite (proj2 (Z.ltb_lt 0 cap)).
  - intros k r w cap (-> & -> & ->) Hcap. eexists. unfold pipe_read.
    rewrite (proj2 (Z.ltb_lt 0 cap)) by done. simpl. by rewrite drop_nil, take_nil.
  - intros k r w bs (-> & -> & ->). by eexists.
  - intros k r w bs o _. by eexists.
Qed.

(** ** Response parsers

    The frame must answer the request that is kept of the writer. *)

Definition answered {A V} (rd : reader A) (f : A -> V) (frame : list byte) (kept : Z * Z) :
    result unit V :=
  match read_frame frame with
  | Some w =>
      if (wf_request_id w =? kept.1) && (wf_op w =? Z.lor kept.2 RSI_RESPONSE_BIT) &&
         (wf_status w =? RSI_OK)
      then match read_all rd (wf_payload w) with Some a => Ok (f a) | None => Err tt end
      else Err tt
  | None => Err tt
  end.

(** Each list holds the elements of the other, and the second is a set of GUIDs. *)
Definition check_metadata (es : list wire_entry) (ms : list wire_metadata) : result unit unit :=
  let gs := wm_guid <$> ms in
  let ts := omap (λ e, if we_target_type e =? RSI_PATH_TARGET_GUID
                       then Some (we_target_guid e) else None) es in
  if bool_decide (valid_guid_set gs) && forallb (λ g, bool_decide (g ∈ ts)) gs &&
     forallb (λ g, bool_decide (g ∈ gs)) ts
  then Ok tt else Err tt.

Definition key_response (k : wire_key) : read_key_response :=
  mk_read_key_response (wy_name k) (wy_parent_guid k) (wy_sd k) (wy_volatile_key k =? 1)
    (wy_symlink k =? 1) (wy_last_write_time k).

#[local] Instance sample_parsers : ResponseParsers (P := pipe_platform)
    (W := sample_writers pipe_kernel generous_allocator) := {
  parse_rsi_read_key_success_response_payload := answered rd_read_key_payload key_response;
  LookupResponse := list wire_entry * list wire_metadata;
  lr_entry_count v := Z.of_nat (length v.1);
  lr_metadata_count v := Z.of_nat (length v.2);
  parse_rsi_lookup_success_response_payload := answered rd_lookup_payload id;
  validate_rsi_lookup_metadata_completeness v := check_metadata v.1 v.2;
  DeleteLayerResponse := list guid;
  dl_count v := Z.of_nat (length v);
  dl_guid_at v i := v !! Z.to_nat i;
  parse_rsi_delete_layer_success_response_payload := answered rd_delete_layer_payload id;
  validate_rsi_delete_layer_orphaned_guids v :=
    if bool_decide (valid_guid_set v) then Ok tt else Err tt;
  EnumChildrenResponse := list wire_child * list wire_metadata;
  er_child_count v := Z.of_nat (length v.1);
  er_metadata_count v := Z.of_nat (length v.2);
  er_children v :=
    Ok ((λ c, mk_child_block (wc_name c) (Z.of_nat (length (wc_entries c)))) <$> v.1);
  parse_rsi_enum_children_success_response_payload := answered rd_enum_children_payload id;
  validate_rsi_enum_children_metadata_completeness v :=
    check_metadata (concat (wc_entries <$> v.1)) v.2;
  QueryValuesResponse := list wire_value * list wire_blanket;
  qr_entry_count v := Z.of_nat (length v.1);
  qr_blanket_count v := Z.of_nat (length v.2);
  qr_value_entries v := Ok v.1;
  parse_rsi_query_values_success_response_payload := answered rd_query_values_payload id;
  validate_rsi_status_only_response_for_request := answered (mret tt) (λ _, RsiStatus_Ok)
}.

(** ** The tests, run and applied *)

Definition pipe_start : state (P := pipe_platform) :=
  mk_state (P := pipe_platform) ∅ 0 65536 (None : pipe_state) [].

Example roundtrip_tests_run_here :
  forallb (λ t : roundtrip (P := pipe_platform),
    match rt_test t pipe_start with ORet _ _ => true | _ => false end)
    (roundtrip_tests (P := pipe_platform) (PP := one_pipe)) = true.
Proof. vm_compute. reflexivity. Qed.

Lemma pipe_start_available : pipe_available (P := pipe_platform) (PP := one_pipe) pipe_start.
Proof. by exists (Some ([], true)), (3, 4). Qed.

(** lcs-core's writers build all six requests here. *)
Lemma roundtrip_tests_send_witness :
  Forall (λ t : roundtrip (P := pipe_platform), is_ok (rt_request t) = true)
    (roundtrip_tests (P := pipe_platform) (PP := one_pipe)) /\
  Forall (sends (P := pipe_platform) pipe_start)
    (roundtrip_tests (P := pipe_platform) (PP := one_pipe)).
Proof.
  pose proof pipe_platform_laws as Hlaws. pose proof one_pipe_laws as Hpipe.
  split; [repeat (apply Forall_cons_2; [vm_compute; reflexivity|]); apply Forall_nil_2|].
  apply (roundtrip_tests_send (P := pipe_platform) (PP := one_pipe) pipe_start);
    [apply generous_never_refuses|exact pipe_start_available].
Defined.

(** The responder of [delete_layer_response_roundtrips] and a reader, on an open pipe. *)
Definition pipe_open : state (P := pipe_platform) :=
  mk_state (P := pipe_platform)
    (put_locals 0 [fake_request RSI_DELETE_LAYER 13;
                   guid_of_byte Byte.x10 ++ guid_of_byte Byte.x20] ∅)
    0 65536 (Some ([], true) : pipe_state) [].

Lemma delete_layer_locals_answer :
  safe_call (st_mem pipe_open) (CallDeleteLayer (slot 1) 2) /\
  is_answer (P := pipe_platform) (st_mem pipe_open) (mk_rsi_request 13 0 0 0 RSI_DELETE_LAYER)
    (CallDeleteLayer (slot 1) 2) RSI_OK
    (to_le 4 2 ++ guid_of_byte Byte.x10 ++ guid_of_byte Byte.x20).
Proof.
  split.
  - split; [|done]. intros _ _. split_and!; [done|done|]. eexists. vm_compute. reflexivity.
  - split; [done|]. split; [done|]. split; [|vm_compute; reflexivity].
    assert (orphans_of (st_mem pipe_open) (slot 1) 2 =
      Some [guid_of_byte Byte.x10; guid_of_byte Byte.x20]) as -> by (vm_compute; reflexivity).
    by apply (bool_decide_unpack _).
Qed.

(** The same locals, before there is a pipe. *)
Definition pipe_locals : state (P := pipe_platform) :=
  mk_state (P := pipe_platform) (st_mem pipe_open) 0 65536 (None : pipe_state) [].

Lemma response_from_pipe_returns_witness :
  exists s', response_from_pipe (P := pipe_platform) (PP := one_pipe)
    (λ fd, respond (P := pipe_platform) fd req (CallDeleteLayer (slot 1) 2)) pipe_locals =
    ORet (response_frame (P := pipe_platform) 13 RSI_DELETE_LAYER RSI_OK
      (to_le 4 2 ++ guid_of_byte Byte.x10 ++ guid_of_byte Byte.x20)) s'.
Proof.
  pose proof pipe_platform_laws as Hlaws. pose proof one_pipe_laws as Hpipe.
  apply (response_from_pipe_returns (P := pipe_platform) (PP := one_pipe) req
    (mk_rsi_request 13 0 0 0 RSI_DELETE_LAYER) (CallDeleteLayer (slot 1) 2) RSI_OK
    (to_le 4 2 ++ guid_of_byte Byte.x10 ++ guid_of_byte Byte.x20) pipe_locals);
    [apply generous_never_refuses|by exists (Some ([], true)), (3, 4)|solve_sample
    |exact (proj1 delete_layer_locals_answer)|exact (proj2 delete_layer_locals_answer)|done].
Defined.

Lemma every_schedule_delivers_witness :
  let step := thread_step (P := pipe_platform) (PP := one_pipe)
    (λ fd, respond (P := pipe_platform) fd req (CallDeleteLayer (slot 1) 2)) 3 4 in
  let payload := to_le 4 2 ++ guid_of_byte Byte.x10 ++ guid_of_byte Byte.x20 in
  let frame := response_frame (P := pipe_platform) 13 RSI_DELETE_LAYER RSI_OK payload in
  length frame = 54%nat /\
  sn step (started (P := pipe_platform) pipe_open) /\
  forall th, rtc step (started (P := pipe_platform) pipe_open) th -> nf step th ->
    joined (P := pipe_platform) frame th.
Proof.
  pose proof pipe_platform_laws as Hlaws. pose proof one_pipe_laws as Hpipe.
  split; [reflexivity|].
  apply (every_schedule_delivers (P := pipe_platform) (PP := one_pipe) 3 4 req
    (mk_rsi_request 13 0 0 0 RSI_DELETE_LAYER) (CallDeleteLayer (slot 1) 2) RSI_OK
    (to_le 4 2 ++ guid_of_byte Byte.x10 ++ guid_of_byte Byte.x20) pipe_open).
  - apply generous_never_refuses.
  - solve_sample.
  - exact (proj1 delete_layer_locals_answer).
  - exact (proj2 delete_layer_locals_answer).
  - done.
  - done.
Defined.
